(** * Worker-pool generation ([ciadmin/generate/worker_pools.py])

    A shallow embedding of the worker-pool generator of fxci-config and the
    properties its specification states about it.

    Layout:
    - [Py]: the fragment of Python's data model the module relies on
      (YAML-shaped values, insertion-ordered dictionaries, exceptions,
      truthiness, [==], [in], [dict.update], [str.format]);
    - [Util]: the two helpers of [ciadmin.util] the module imports, [merge]
      and [evaluate_keyed_by], which are not among the sources and are
      written after the specification;
    - [Tcadmin]: the interface of [tcadmin.resources] the module uses, a
      library that is not among the sources and about which nothing is
      assumed;
    - [WorkerPools]: the functions of [worker_pools.py], one definition per
      source function and per loop body, parameterised by the two helpers
      and the resource library;
    - [Examples]: sample environments and pools, and two stand-ins for the
      resource library;
    - [Props]: the vocabulary of the properties;
    - [PyFacts] to [AssemblerFacts]: lemmas;
    - the properties, C1 to C10;
    - further properties of the same functions, numbered from X1.

    Exceptions are results: a function that can raise returns [Ok] or
    [Raise], and [x <- c ;; k] runs [k] only when [c] returned.
    Dictionaries are association lists with string keys: Python dictionaries
    keep insertion order and the order is visible in the generated launch
    configurations.  Floating-point scalars and non-string dictionary keys
    are outside the model.  The module is [async] but awaits one thing at a
    time, so it is modelled sequentially. *)

From Stdlib Require Import List String Ascii ZArith Bool Lia DecimalString.
Import ListNotations.
Local Open Scope list_scope.
Local Open Scope string_scope.

Set Implicit Arguments.
Set Warnings "-register-all".


(* ================================================================== *)
(** * Python values and exceptions *)
(* ================================================================== *)

Module Py.

(** Exceptions.  [ResolutionError] is the failure of the keyed-by
    resolver; the others are Python built-ins. *)
Inductive exn : Type :=
| KeyError (key : string)
| ValueError (msg : string)
| TypeError
| AttributeError
| IndexError
| RuntimeError (msg : string)
| ResolutionError (field : string).

Inductive result (A : Type) : Type :=
| Ok (a : A)
| Raise (e : exn).
Arguments Ok {A} a.
Arguments Raise {A} e.

Definition bind {A B} (c : result A) (k : A -> result B) : result B :=
  match c with
  | Ok a => k a
  | Raise e => Raise e
  end.

Definition is_ok {A} (c : result A) : bool :=
  match c with Ok _ => true | Raise _ => false end.

Definition raises {A} (c : result A) : Prop := exists e, c = Raise e.

Declare Scope py_scope.
Delimit Scope py_scope with py.
Notation "x <- c ;; k" := (bind c (fun x => k))
  (at level 61, c at next level, right associativity) : py_scope.
Notation "' p <- c ;; k" := (bind c (fun x => let 'p := x in k))
  (at level 61, p pattern, c at next level, right associativity) : py_scope.
Notation "c ;;; k" := (bind c (fun _ => k))
  (at level 61, right associativity) : py_scope.
Local Open Scope py_scope.

(** ** Association lists (insertion-ordered dictionaries) *)

Section Assoc.
Context {A : Type}.

Fixpoint assoc_get (k : string) (d : list (string * A)) : option A :=
  match d with
  | [] => None
  | (k', v) :: d' => if String.eqb k k' then Some v else assoc_get k d'
  end.

Definition assoc_mem (k : string) (d : list (string * A)) : bool :=
  match assoc_get k d with Some _ => true | None => false end.

(** [d[k] = v]: an existing key keeps its position, a new one goes last. *)
Fixpoint assoc_set (k : string) (v : A) (d : list (string * A))
  : list (string * A) :=
  match d with
  | [] => [(k, v)]
  | (k', v') :: d' =>
      if String.eqb k k' then (k, v) :: d' else (k', v') :: assoc_set k v d'
  end.

(** [del d[k]] *)
Fixpoint assoc_del (k : string) (d : list (string * A))
  : list (string * A) :=
  match d with
  | [] => []
  | (k', v') :: d' =>
      if String.eqb k k' then assoc_del k d' else (k', v') :: assoc_del k d'
  end.

(** [d.update(e)] *)
Definition assoc_update (d e : list (string * A)) : list (string * A) :=
  fold_left (fun acc kv => assoc_set (fst kv) (snd kv) acc) e d.
End Assoc.

(** ** Values *)

Inductive value : Type :=
| VNone
| VBool (b : bool)
| VInt (n : Z)
| VStr (s : string)
| VList (xs : list value)
| VDict (d : list (string * value))
| VObject (attrs : list (string * value)).

Definition dict := list (string * value).

Definition dict_get : string -> dict -> option value := assoc_get.
Definition dict_mem : string -> dict -> bool := assoc_mem.
Definition dict_set : string -> value -> dict -> dict := assoc_set.
Definition dict_del : string -> dict -> dict := assoc_del.
Definition dict_update : dict -> dict -> dict := assoc_update.

(** [d.get(k, default)] on a dictionary. *)
Definition dict_get_default (k : string) (default : value) (d : dict) : value :=
  match dict_get k d with Some v => v | None => default end.

(** Truth value of an object ([if x:]). *)
Definition py_truthy (v : value) : bool :=
  match v with
  | VNone => false
  | VBool b => b
  | VInt n => negb (Z.eqb n 0)
  | VStr s => negb (String.eqb s "")
  | VList xs => match xs with [] => false | _ => true end
  | VDict d => match d with [] => false | _ => true end
  | VObject _ => true
  end.

(** [a == b].  Booleans compare as the integers 0 and 1; dictionaries
    compare regardless of order. *)
Fixpoint py_eq (a b : value) {struct a} : bool :=
  match a, b with
  | VNone, VNone => true
  | VBool x, VBool y => Bool.eqb x y
  | VBool x, VInt n => Z.eqb (Z.b2z x) n
  | VInt n, VBool x => Z.eqb n (Z.b2z x)
  | VInt m, VInt n => Z.eqb m n
  | VStr s, VStr t => String.eqb s t
  | VList xs, VList ys =>
      (fix go (xs ys : list value) : bool :=
         match xs, ys with
         | [], [] => true
         | x :: xs', y :: ys' => py_eq x y && go xs' ys'
         | _, _ => false
         end) xs ys
  | VDict d, VDict e =>
      Nat.eqb (List.length d) (List.length e) &&
      (fix go (d : dict) : bool :=
         match d with
         | [] => true
         | (k, v) :: d' =>
             match dict_get k e with
             | Some w => py_eq v w
             | None => false
             end && go d'
         end) d
  | VObject d, VObject e =>
      Nat.eqb (List.length d) (List.length e) &&
      (fix go (d : dict) : bool :=
         match d with
         | [] => true
         | (k, v) :: d' =>
             match dict_get k e with
             | Some w => py_eq v w
             | None => false
             end && go d'
         end) d
  | _, _ => false
  end.

(** [x is None] *)
Definition is_None (v : value) : bool :=
  match v with VNone => true | _ => false end.

(** Objects that cannot be dictionary keys. *)
Definition unhashable (v : value) : bool :=
  match v with VList _ | VDict _ => true | _ => false end.

(** ** Strings *)

Fixpoint is_substring (needle hay : string) : bool :=
  if prefix needle hay then true
  else match hay with
       | EmptyString => false
       | String _ hay' => is_substring needle hay'
       end.

(** [s.split(sep, 1)] for a one-character separator: the text before the
    first separator and the text after it, or nothing when [s] has none. *)
Fixpoint split_once (sep : ascii) (s : string) : option (string * string) :=
  match s with
  | EmptyString => None
  | String c s' =>
      if Ascii.eqb c sep then Some ("", s')
      else match split_once sep s' with
           | Some (a, b) => Some (String c a, b)
           | None => None
           end
  end.

Fixpoint contains_char (c : ascii) (s : string) : bool :=
  match s with
  | EmptyString => false
  | String c' s' => Ascii.eqb c' c || contains_char c s'
  end.

(** [s.replace(c, empty)] for a one-character [c]. *)
Fixpoint remove_char (c : ascii) (s : string) : string :=
  match s with
  | EmptyString => EmptyString
  | String c' s' =>
      if Ascii.eqb c' c then remove_char c s' else String c' (remove_char c s')
  end.

Definition chars (s : string) : list value :=
  map (fun c => VStr (String c EmptyString)) (list_ascii_of_string s).

Definition join (sep : string) (parts : list string) : string :=
  String.concat sep parts.

(** [str(v)] and [repr(v)].  Strings nested in containers are quoted
    without escaping; objects print as a fixed tag. *)
Fixpoint py_repr (v : value) : string :=
  match v with
  | VNone => "None"
  | VBool true => "True"
  | VBool false => "False"
  | VInt n => NilZero.string_of_int (Z.to_int n)
  | VStr s => "'" ++ s ++ "'"
  | VList xs => "[" ++ join ", " (map py_repr xs) ++ "]"
  | VDict d =>
      "{" ++ join ", "
        ((fix go (d : dict) : list string :=
            match d with
            | [] => []
            | (k, x) :: d' => ("'" ++ k ++ "': " ++ py_repr x) :: go d'
            end) d) ++ "}"
  | VObject _ => "<object>"
  end.

Definition py_str (v : value) : string :=
  match v with
  | VStr s => s
  | _ => py_repr v
  end.

(** ** Dynamic operations *)

(** [c[k]]: a key of a mapping, or an index into a list or a string. *)
Definition py_getitem (c k : value) : result value :=
  match c with
  | VDict d =>
      match k with
      | VStr s =>
          match dict_get s d with Some v => Ok v | None => Raise (KeyError s) end
      | _ => if unhashable k then Raise TypeError else Raise (KeyError (py_repr k))
      end
  | VList xs =>
      match k with
      | VInt i =>
          let n := Z.of_nat (List.length xs) in
          let j := if Z.ltb i 0 then Z.add i n else i in
          if Z.ltb j 0 then Raise IndexError
          else match nth_error xs (Z.to_nat j) with
               | Some v => Ok v
               | None => Raise IndexError
               end
      | _ => Raise TypeError
      end
  | VStr s =>
      match k with
      | VInt i =>
          let n := Z.of_nat (String.length s) in
          let j := if Z.ltb i 0 then Z.add i n else i in
          if Z.ltb j 0 then Raise IndexError
          else match nth_error (chars s) (Z.to_nat j) with
               | Some v => Ok v
               | None => Raise IndexError
               end
      | _ => Raise TypeError
      end
  | _ => Raise TypeError
  end.

(** [c.get(k, default)] *)
Definition py_get (c : value) (k : string) (default : value) : result value :=
  match c with
  | VDict d => Ok (dict_get_default k default d)
  | _ => Raise AttributeError
  end.

(** [c.pop(k)]: the value and the dictionary without the key. *)
Definition py_pop (c : value) (k : string) : result (value * value) :=
  match c with
  | VDict d =>
      match dict_get k d with
      | Some v => Ok (v, VDict (dict_del k d))
      | None => Raise (KeyError k)
      end
  | VList _ => Raise TypeError
  | _ => Raise AttributeError
  end.

(** [c.pop(k, default)] *)
Definition py_pop_default (c : value) (k : string) (default : value)
  : result (value * value) :=
  match c with
  | VDict d => Ok (dict_get_default k default d, VDict (dict_del k d))
  | VList _ => Raise TypeError
  | _ => Raise AttributeError
  end.

(** [c[k] = v] *)
Definition py_setitem (c : value) (k : string) (v : value) : result value :=
  match c with
  | VDict d => Ok (VDict (dict_set k v d))
  | _ => Raise TypeError
  end.

(** [del c[k]] *)
Definition py_delitem (c : value) (k : string) : result value :=
  match c with
  | VDict d =>
      if dict_mem k d then Ok (VDict (dict_del k d)) else Raise (KeyError k)
  | _ => Raise TypeError
  end.

(** [c.setdefault(k, v)] *)
Definition py_setdefault (c : value) (k : string) (v : value) : result value :=
  match c with
  | VDict d => Ok (if dict_mem k d then c else VDict (dict_set k v d))
  | _ => Raise AttributeError
  end.

(** [iter(c)], fully consumed. *)
Definition py_iter (c : value) : result (list value) :=
  match c with
  | VList xs => Ok xs
  | VDict d => Ok (map (fun kv => VStr (fst kv)) d)
  | VStr s => Ok (chars s)
  | _ => Raise TypeError
  end.

(** The key and the value [dict.update] takes from the element [x], at
    position [index], of an iterable: [x] is iterated and has to give
    exactly two objects.  A key that is not a string would make a
    dictionary the model has no value for; it is reported as [TypeError],
    like a key that cannot be hashed. *)
Definition update_pair (index : nat) (x : value) : result (string * value) :=
  items <- py_iter x ;;
  match items with
  | [VStr k; v] => Ok (k, v)
  | [_; _] => Raise TypeError
  | _ =>
      Raise (ValueError
               ("dictionary update sequence element #"
                ++ NilZero.string_of_uint (Nat.to_uint index)
                ++ " has length "
                ++ NilZero.string_of_uint (Nat.to_uint (List.length items))
                ++ "; 2 is required"))
  end.

Fixpoint update_pairs (index : nat) (xs : list value) : result dict :=
  match xs with
  | [] => Ok []
  | x :: xs' =>
      p <- update_pair index x ;;
      ps <- update_pairs (S index) xs' ;;
      Ok (p :: ps)
  end.

(** [c.update(other)]: [other] is a mapping, whose items are taken, or an
    iterable of pairs. *)
Definition py_update (c other : value) : result value :=
  match c with
  | VDict d =>
      match other with
      | VDict e => Ok (VDict (dict_update d e))
      | _ =>
          elements <- py_iter other ;;
          e <- update_pairs 0 elements ;;
          Ok (VDict (dict_update d e))
      end
  | _ => Raise AttributeError
  end.

(** [x in c] *)
Definition py_in (x c : value) : result bool :=
  match c with
  | VList xs => Ok (existsb (fun y => py_eq y x) xs)
  | VDict d =>
      match x with
      | VStr k => Ok (dict_mem k d)
      | _ => if unhashable x then Raise TypeError else Ok false
      end
  | VStr hay =>
      match x with
      | VStr needle => Ok (is_substring needle hay)
      | _ => Raise TypeError
      end
  | _ => Raise TypeError
  end.

(** [o.name] *)
Definition py_getattr (o : value) (name : string) : result value :=
  match o with
  | VObject attrs =>
      match dict_get name attrs with
      | Some v => Ok v
      | None => Raise AttributeError
      end
  | _ => Raise AttributeError
  end.

(** A [for] loop whose body appends to one list: the pieces are
    concatenated in iteration order and the first exception ends the loop. *)
Fixpoint for_each {A B} (xs : list A) (body : A -> result (list B))
  : result (list B) :=
  match xs with
  | [] => Ok []
  | x :: xs' =>
      ys <- body x ;;
      zs <- for_each xs' body ;;
      Ok (ys ++ zs)%list
  end.

(** A [for] loop that only checks: the first exception ends it. *)
Fixpoint for_check {A} (xs : list A) (body : A -> result unit) : result unit :=
  match xs with
  | [] => Ok tt
  | x :: xs' => body x ;;; for_check xs' body
  end.

(** ** [str.format] with keyword arguments

    Replacement fields are plain names; [{{] and [}}] are escapes.  A field
    that uses attribute access, indexing, a conversion, a format spec or a
    nested field is outside the model and reported as [ValueError]. *)

Definition plain_field (name : string) : bool :=
  negb (contains_char "." name || contains_char "[" name
        || contains_char "!" name || contains_char ":" name
        || contains_char "{" name).

Definition all_digits (s : string) : bool :=
  forallb (fun c => Nat.leb 48 (nat_of_ascii c) && Nat.leb (nat_of_ascii c) 57)
    (list_ascii_of_string s).

(** The value of the replacement field [name]; a field without a name or
    with a number asks for a positional argument, and there is none. *)
Definition format_field (name : string) (kwargs : dict) : result string :=
  if negb (plain_field name) then Raise (ValueError "unsupported field")
  else if all_digits name then Raise IndexError
  else match dict_get name kwargs with
       | Some v => Ok (py_str v)
       | None => Raise (KeyError name)
       end.

(** One pass over the template; [field] is the name read so far when the
    pass is inside a replacement field. *)
Fixpoint format_from (s : string) (field : option string) (kwargs : dict)
  : result string :=
  match field with
  | Some name =>
      match s with
      | EmptyString => Raise (ValueError "expected '}' before end of string")
      | String "}" rest =>
          text <- format_field name kwargs ;;
          out <- format_from rest None kwargs ;;
          Ok (text ++ out)
      | String c rest =>
          format_from rest (Some (name ++ String c EmptyString)) kwargs
      end
  | None =>
      match s with
      | EmptyString => Ok ""
      | String "{" (String "{" rest) =>
          out <- format_from rest None kwargs ;; Ok (String "{" out)
      | String "}" (String "}" rest) =>
          out <- format_from rest None kwargs ;; Ok (String "}" out)
      | String "}" _ =>
          Raise (ValueError "Single '}' encountered in format string")
      | String "{" EmptyString =>
          Raise (ValueError "Single '{' encountered in format string")
      | String "{" rest => format_from rest (Some "") kwargs
      | String c rest =>
          out <- format_from rest None kwargs ;; Ok (String c out)
      end
  end.

(** [template.format] applied to the unpacked mapping [kwargs]. *)
Definition py_format (template : string) (kwargs : value) : result string :=
  match kwargs with
  | VDict d => format_from template None d
  | _ => Raise TypeError
  end.

End Py.

(* ================================================================== *)
(** * The helpers of [ciadmin.util] *)
(* ================================================================== *)

Module Util.
Import Py.
Local Open Scope py_scope.

Definition is_dict (v : value) : bool :=
  match v with VDict _ => true | _ => false end.

(** Modelled from the spec: [ciadmin/util/templates.py] (the deep-merge
    engine) is not among the sources.  Section 4.1: later inputs override
    earlier ones; a key whose values are both mappings is merged
    recursively, any other value is replaced wholesale; keys keep their
    order of first appearance; no input is changed. *)
Fixpoint merge2 (a b : value) {struct a} : value :=
  match a, b with
  | VDict da, VDict db =>
      VDict
        ((fix over (da : dict) : dict :=
            match da with
            | [] => []
            | (k, va) :: da' =>
                (k, match dict_get k db with
                    | Some vb => merge2 va vb
                    | None => va
                    end) :: over da'
            end) da
         ++ filter (fun kv => negb (dict_mem (fst kv) da)) db)%list
  | _, _ => b
  end.

(** Modelled from the spec: [merge] of any number of mappings, folding
    [merge2] from the left; of no mapping it is the empty mapping and of one
    mapping that mapping.  The spec defines it on mappings only;
    here any other argument is a [TypeError]. *)
Definition merge (objects : list value) : result value :=
  if forallb is_dict objects
  then Ok (fold_left merge2 objects (VDict []))
  else Raise TypeError.

(** Modelled from the spec: [ciadmin/util/keyed_by.py] (the keyed-by
    resolver) is not among the sources.  Sections 3 and 4.2: a rule is a
    mapping with the single key [by-<attribute>] whose value maps attribute
    values (or [default]) to nested fields; every other value is a literal
    and resolves to itself.  An exact match wins over [default]; with
    neither the resolution fails. *)
Fixpoint evaluate_keyed_by (field : value) (field_name : string)
    (attributes : dict) {struct field} : result value :=
  match field with
  | VDict [(clause, VDict branches)] =>
      if prefix "by-" clause then
        let attribute := substring 3 (String.length clause - 3) clause in
        let wanted := dict_get attribute attributes in
        let exact :=
          (fix find (bs : dict) : option (result value) :=
             match bs with
             | [] => None
             | (k, v) :: bs' =>
                 match wanted with
                 | Some w =>
                     if py_eq w (VStr k)
                     then Some (evaluate_keyed_by v field_name attributes)
                     else find bs'
                 | None => find bs'
                 end
             end) branches in
        let default :=
          (fix find (bs : dict) : option (result value) :=
             match bs with
             | [] => None
             | (k, v) :: bs' =>
                 if String.eqb k "default"
                 then Some (evaluate_keyed_by v field_name attributes)
                 else find bs'
             end) branches in
        match exact, default with
        | Some r, _ => r
        | None, Some r => r
        | None, None => Raise (ResolutionError field_name)
        end
      else Ok field
  | _ => Ok field
  end.

End Util.

(* ================================================================== *)
(** * [tcadmin.resources]: the resource sink *)
(* ================================================================== *)

Module Tcadmin.
Import Py.

(** [tcadmin.resources] is a library the module imports; its code is not
    among the sources.  The module uses four things of it: the class
    [WorkerPool], which it calls with the keyword arguments [workerPoolId],
    [description], [owner], [providerId], [config] and [emailOnError], in
    this order here; the truth value of the object that call returns; and
    the methods [manage] and [add] of the collection [update_resources] is
    given.  Nothing is assumed about them: the constructor may return any
    object or raise, and each method may change the collection in any way
    and raise.  What is proved holds for every such library. *)
Record Library : Type := {
  Resource : Type;
  Resources : Type;
  WorkerPool :
    string -> value -> value -> value -> value -> value -> result Resource;
  truthy : Resource -> bool;
  manage : Resources -> string -> Resources * result unit;
  add : Resources -> Resource -> Resources * result unit
}.

(** Computations that update a collection and may raise.  The collection
    is a shared mutable object: what was done to it before an exception
    stays done. *)
Definition action (S A : Type) : Type := S -> S * result A.

Definition ret {S A} (a : A) : action S A := fun rs => (rs, Ok a).
Definition lift {S A} (c : result A) : action S A := fun rs => (rs, c).
Definition abind {S A B} (c : action S A) (k : A -> action S B)
  : action S B :=
  fun rs =>
    match c rs with
    | (rs', Ok a) => k a rs'
    | (rs', Raise e) => (rs', Raise e)
    end.

End Tcadmin.

(* ================================================================== *)
(** * [ciadmin.generate.worker_pools] *)
(* ================================================================== *)

Module WorkerPools.
Import Py.
Local Open Scope py_scope.

(** [ciconfig.worker_images.WorkerImage]: only [image_id] is used, with a
    provider and, for AWS and Azure, a region or location. *)
Record WorkerImage : Type := {
  image_id : value -> option value -> result value
}.

(** [worker_images[name]] *)
Definition WorkerImages : Type := value -> result WorkerImage.

(** [ciconfig.worker_pools.WorkerPool], imported as [ConfigWorkerPool]. *)
Record ConfigWorkerPool : Type := {
  pool_id : string;
  description : value;
  owner : value;
  provider_id : value;
  config : value;
  email_on_error : value;
  variants : list value
}.

(** A Python generator that has run to its end: what it yielded, and the
    exception that ended it, if any.  The generator here is pure, so what
    its consumer does between two items does not matter to it. *)
Definition generated (A : Type) : Type := (list A * option exn)%type.

(** [g] followed by [h], unless [g] ended with an exception. *)
Definition gen_then {A} (g h : generated A) : generated A :=
  match g with
  | (ys, None) => (ys ++ fst h, snd h)%list
  | (ys, Some e) => (ys, Some e)
  end.

(** [for x in xs: yield body(x)] *)
Fixpoint yield_each {A B} (xs : list A) (body : A -> result B) : generated B :=
  match xs with
  | [] => ([], None)
  | x :: xs' =>
      match body x with
      | Ok y => gen_then ([y], None) (yield_each xs' body)
      | Raise e => ([], Some e)
      end
  end.

(** [for x in xs: yield from inner(x)] *)
Fixpoint yield_from_each {A B} (xs : list A) (inner : A -> generated B)
  : generated B :=
  match xs with
  | [] => ([], None)
  | x :: xs' => gen_then (inner x) (yield_from_each xs' inner)
  end.

(** The one implementation with a capacity per instance. *)
Definition docker_worker : value := VStr "docker-worker".

Section Generators.

(** The helpers imported from [ciadmin.util]. *)
Variable evaluate_keyed_by : value -> string -> dict -> result value.
Variable merge : list value -> result value.

(** [(zone in entry[zones]) and (family in entry[families])] *)
Definition is_invalid_entry (zone family entry : value) : result bool :=
  zones <- py_getitem entry (VStr "zones") ;;
  in_zones <- py_in zone zones ;;
  if in_zones then
    families <- py_getitem entry (VStr "families") ;;
    py_in family families
  else Ok false.

(** [any(... for entry in entries)]: stops at the first hit. *)
Fixpoint any_invalid_entry (zone family : value) (entries : list value)
  : result bool :=
  match entries with
  | [] => Ok false
  | entry :: rest =>
      hit <- is_invalid_entry zone family entry ;;
      if hit then Ok true else any_invalid_entry zone family rest
  end.

(** The name is split at its first dot into exactly two parts, family and
    size; unpacking fails when there is no dot. *)
Definition is_invalid_aws_instance_type
    (invalid_instances zone instance_type : value) : result bool :=
  match instance_type with
  | VStr s =>
      match split_once "." s with
      | Some (family, size) =>
          entries <- py_iter invalid_instances ;;
          any_invalid_entry zone (VStr family) entries
      | None => Raise (ValueError "not enough values to unpack (expected 2, got 1)")
      end
  | _ => Raise AttributeError
  end.

(** The body of the loop of [_validate_instance_capacity]. *)
Definition validate_instance_type (pool_id : string)
    (implementation instance_type : value) : result unit :=
  top <- py_in (VStr "capacity") instance_type ;;
  if top then
    Raise (ValueError ("To set capacity per instance for an instance type, "
                       ++ "set `capacityPerInstance` "
                       ++ "in worker " ++ pool_id ++ "."))
  else
    wc <- py_get instance_type "worker-config" (VDict []) ;;
    nested <- py_in (VStr "capacity") wc ;;
    if nested then
      Raise (ValueError ("To set capacity per instance for an instance type, "
                         ++ "set `capacityPerInstance` on the instance type, "
                         ++ "rather than the worker config "
                         ++ "in worker " ++ pool_id ++ "."))
    else
      cpi <- py_get instance_type "capacityPerInstance" (VInt 1) ;;
      if negb (py_eq cpi (VInt 1)) && negb (py_eq implementation docker_worker)
      then
        Raise (ValueError (py_str implementation
                           ++ " does not support capacity-per-instance != 1 "
                           ++ "in worker " ++ pool_id ++ "."))
      else Ok tt.

Definition _validate_instance_capacity (pool_id : string)
    (implementation instance_types : value) : result unit :=
  its <- py_iter instance_types ;;
  for_check its (validate_instance_type pool_id implementation).

(** The [return] statement the three generators share. *)
Definition resolved_config (config lifecycle : value)
    (launch_configs : list value) : result value :=
  min_capacity <- py_get config "minCapacity" (VInt 0) ;;
  max_capacity <- py_getitem config (VStr "maxCapacity") ;;
  Ok (VDict [("minCapacity", min_capacity);
             ("maxCapacity", max_capacity);
             ("lifecycle", lifecycle);
             ("launchConfigs", VList launch_configs)]).

(** ** AWS *)

(** The body of the innermost AWS loop: no launch configuration when the
    instance type is invalid in the zone ([continue]), one otherwise. *)
Definition aws_launch_config (provider_id : value) (image : WorkerImage)
    (aws_config security_groups subnet_id worker_config implementation
       spot user_data region availability_zone instance_type : value)
  : result (list value) :=
  invalid_instances <- py_getitem aws_config (VStr "invalid-instances") ;;
  name <- py_getitem instance_type (VStr "instanceType") ;;
  invalid <- is_invalid_aws_instance_type invalid_instances availability_zone name ;;
  if invalid then Ok []
  else
    instance_worker_config <-
      (if py_eq implementation docker_worker then
         own <- py_get instance_type "worker-config" (VDict []) ;;
         cpi <- py_get instance_type "capacityPerInstance" (VInt 1) ;;
         merge [worker_config; own; VDict [("capacity", cpi)]]
       else
         own <- py_get instance_type "worker-config" (VDict []) ;;
         merge [worker_config; own]) ;;
    cpi <- py_get instance_type "capacityPerInstance" (VInt 1) ;;
    ami <- image_id image provider_id (Some region) ;;
    name <- py_getitem instance_type (VStr "instanceType") ;;
    let base :=
      VDict [("ImageId", ami);
             ("Placement", VDict [("AvailabilityZone", availability_zone)]);
             ("SubnetId", subnet_id);
             ("SecurityGroupIds", security_groups);
             ("InstanceType", name)] in
    (* additionalUserData: pool-level data, then the instance type's *)
    aud <- py_update (VDict []) user_data ;;
    own_aud <- py_get instance_type "additional-user-data" (VDict []) ;;
    aud <- py_update aud own_aud ;;
    (* launchConfig: the instance type's override merged over the base *)
    override <- py_get instance_type "launchConfig" (VDict []) ;;
    inner <- merge [base; override] ;;
    inner <-
      (if py_truthy spot then
         py_setitem inner "InstanceMarketOptions"
           (VDict [("MarketType", VStr "spot")])
       else Ok inner) ;;
    Ok [VDict [("capacityPerInstance", cpi);
               ("region", region);
               ("launchConfig", inner);
               ("workerConfig", instance_worker_config);
               ("additionalUserData", aud)]].

(** The body of the loop over availability zones. *)
Definition aws_zone_launch_configs (pool_id : string) (provider_id : value)
    (image : WorkerImage)
    (aws_config security_groups worker_config implementation spot user_data
       instance_types region availability_zone : value)
  : result (list value) :=
  subnet_rule <- py_getitem aws_config (VStr "subnet-id") ;;
  subnet_id <- evaluate_keyed_by subnet_rule pool_id
                 [("availability-zone", availability_zone)] ;;
  instance_types <- py_iter instance_types ;;
  for_each instance_types
    (aws_launch_config provider_id image aws_config security_groups
       subnet_id worker_config implementation spot user_data region
       availability_zone).

(** The body of the loop over regions. *)
Definition aws_region_launch_configs (pool_id : string) (provider_id : value)
    (image : WorkerImage)
    (aws_config security worker_config implementation spot user_data
       instance_types region : value)
  : result (list value) :=
  az_rule <- py_getitem aws_config (VStr "availability-zones") ;;
  availability_zones <- evaluate_keyed_by az_rule pool_id [("region", region)] ;;
  sg_rule <- py_getitem aws_config (VStr "security-groups") ;;
  security_groups <- evaluate_keyed_by sg_rule pool_id
                       [("region", region); ("security", security)] ;;
  availability_zones <- py_iter availability_zones ;;
  for_each availability_zones
    (aws_zone_launch_configs pool_id provider_id image aws_config
       security_groups worker_config implementation spot user_data
       instance_types region).

Definition get_aws_provider_config (environment provider_id : value)
    (pool_id : string) (config : value) (worker_images : WorkerImages)
    (defaults : value) : result value :=
  '(regions, config) <- py_pop config "regions" ;;
  image_name <- py_getitem config (VStr "image") ;;
  image <- worker_images image_name ;;
  instance_types <- py_getitem config (VStr "instance_types") ;;
  '(security, config) <- py_pop_default config "security" (VStr "untrusted") ;;
  '(spot, config) <- py_pop_default config "spot" (VBool true) ;;
  '(user_data, config) <- py_pop_default config "additional-user-data" (VDict []) ;;
  '(implementation, config) <- py_pop_default config "implementation" docker_worker ;;
  defaults <- evaluate_keyed_by defaults "defaults" [("provider", provider_id)] ;;
  aws_config <- py_getattr environment "aws_config" ;;
  default_lifecycle <- py_get defaults "lifecycle" (VDict []) ;;
  '(own_lifecycle, config) <- py_pop_default config "lifecycle" (VDict []) ;;
  lifecycle <- merge [default_lifecycle; own_lifecycle] ;;
  default_worker_config <- py_get defaults "worker-config" (VDict []) ;;
  worker_config <- evaluate_keyed_by default_worker_config pool_id
                     [("implementation", implementation)] ;;
  own_worker_config <- py_get config "worker-config" (VDict []) ;;
  worker_config <- merge [worker_config; own_worker_config] ;;
  _validate_instance_capacity pool_id implementation instance_types ;;;
  regions <- py_iter regions ;;
  launch_configs <-
    for_each regions
      (aws_region_launch_configs pool_id provider_id image aws_config security
         worker_config implementation spot user_data instance_types) ;;
  resolved_config config lifecycle launch_configs.

(** ** Azure *)

Definition azure_launch_config (provider_id : value) (image : WorkerImage)
    (azure_config image_rgroup purpose worker_config tags location vmSize : value)
  : result (list value) :=
  loc <- match location with
         | VStr s => Ok (VStr (remove_char "-" s))
         | _ => Raise AttributeError
         end ;;
  ImageId <- image_id image provider_id (Some location) ;;
  subscription_id <- py_getitem azure_config (VStr "subscription") ;;
  let subscription_id := "/subscriptions/" ++ py_str subscription_id in
  let resource_suffix := py_str location ++ "-" ++ py_str purpose in
  let rgroup := "rg-" ++ resource_suffix in
  let vnet := "vn-" ++ resource_suffix in
  let snet := "sn-" ++ resource_suffix in
  let subnetId :=
    subscription_id ++ "/resourceGroups/" ++ rgroup
    ++ "/providers/Microsoft.Network/virtualNetworks/" ++ vnet
    ++ "/subnets/" ++ snet in
  let imageReference_id :=
    subscription_id ++ "/resourceGroups/" ++ py_str image_rgroup
    ++ "/providers/Microsoft.Compute/images/" ++ py_str ImageId in
  tags <- merge [tags] ;;
  workerConfig <- merge [worker_config] ;;
  let launch_config :=
    VDict [("location", loc);
           ("subnetId", VStr subnetId);
           ("tags", tags);
           ("workerConfig", workerConfig);
           ("hardwareProfile", VDict [("vmSize", vmSize)]);
           ("priority", VStr "spot");
           ("billingProfile", VDict [("maxPrice", VInt (-1))]);
           ("evictionPolicy", VStr "Delete");
           ("capacityPerInstance", VInt 1);
           ("storageProfile",
             VDict [("imageReference", VDict [("id", VStr imageReference_id)])])] in
  override <- py_get vmSize "launchConfig" (VDict []) ;;
  launch_config <- merge [launch_config; override] ;;
  Ok [launch_config].

(** The body of the loop over locations. *)
Definition azure_location_launch_configs (provider_id : value)
    (image : WorkerImage)
    (azure_config image_rgroup purpose worker_config tags vmSizes location : value)
  : result (list value) :=
  vmSizes <- py_iter vmSizes ;;
  for_each vmSizes
    (azure_launch_config provider_id image azure_config image_rgroup
       purpose worker_config tags location).

Definition get_azure_provider_config (environment provider_id : value)
    (pool_id : string) (config : value) (worker_images : WorkerImages)
    (defaults : value) : result value :=
  '(locations, config) <- py_pop config "locations" ;;
  '(image_rgroup, config) <- py_pop config "image_resource_group" ;;
  vmSizes <- py_getitem config (VStr "vmSizes") ;;
  purpose <- py_getitem config (VStr "worker-purpose") ;;
  image_name <- py_getitem config (VStr "image") ;;
  image <- worker_images image_name ;;
  '(user_data, config) <- py_pop_default config "additional-user-data" (VDict []) ;;
  '(implementation, config) <-
     py_pop_default config "implementation"
       (VStr "generic-worker/worker-runner-windows") ;;
  '(spot, config) <- py_pop_default config "spot" (VBool true) ;;
  defaults <- evaluate_keyed_by defaults "defaults" [("provider", provider_id)] ;;
  azure_config <- py_getattr environment "azure_config" ;;
  default_lifecycle <- py_get defaults "lifecycle" (VDict []) ;;
  '(own_lifecycle, config) <- py_pop_default config "lifecycle" (VDict []) ;;
  lifecycle <- merge [default_lifecycle; own_lifecycle] ;;
  default_worker_config <- py_get defaults "worker-config" (VDict []) ;;
  worker_config <- evaluate_keyed_by default_worker_config pool_id
                     [("implementation", implementation)] ;;
  own_worker_config <- py_get config "worker-config" (VDict []) ;;
  worker_config <- merge [worker_config; own_worker_config] ;;
  tags <- py_get config "tags" (VDict []) ;;
  locations <- py_iter locations ;;
  launch_configs <-
    for_each locations
      (azure_location_launch_configs provider_id image azure_config
         image_rgroup purpose worker_config tags vmSizes) ;;
  resolved_config config lifecycle launch_configs.

(** ** Google *)

(** One pass of the loop over [launch_config["disks"]]. *)
Definition substitute_image (image_name disk : value) : result value :=
  params <- py_getitem disk (VStr "initializeParams") ;;
  source <- py_get params "sourceImage" VNone ;;
  if py_eq source (VStr "<image>") then
    params <- py_setitem params "sourceImage" image_name ;;
    py_setitem disk "initializeParams" params
  else Ok disk.

Definition substitute_images (image_name launch_config : value) : result value :=
  disks <- py_getitem launch_config (VStr "disks") ;;
  match disks with
  | VList ds =>
      ds <- for_each ds (fun disk =>
              disk <- substitute_image image_name disk ;; Ok [disk]) ;;
      py_setitem launch_config "disks" (VList ds)
  | _ =>
      (* any other iterable: its elements are strings, which have no
         string-keyed items *)
      elements <- py_iter disks ;;
      for_check elements (fun disk =>
        substitute_image image_name disk ;;; Ok tt) ;;;
      Ok launch_config
  end.

Definition google_launch_config (image_name worker_config implementation
    region zone instance_type : value) : result (list value) :=
  let launch_config := instance_type in
  launch_config <- py_setdefault launch_config "capacityPerInstance" (VInt 1) ;;
  launch_config <- py_update launch_config
                     (VDict [("region", region); ("zone", zone)]) ;;
  launch_config <- substitute_images image_name launch_config ;;
  '(own, launch_config) <- py_pop_default launch_config "worker-config" (VDict []) ;;
  workerConfig <- merge [worker_config; own] ;;
  launch_config <- py_setitem launch_config "workerConfig" workerConfig ;;
  launch_config <-
    (if py_eq implementation docker_worker then
       current <- py_getitem launch_config (VStr "workerConfig") ;;
       cpi <- py_get instance_type "capacityPerInstance" (VInt 1) ;;
       workerConfig <- merge [current; VDict [("capacity", cpi)]] ;;
       py_setitem launch_config "workerConfig" workerConfig
     else Ok launch_config) ;;
  '(machine_type, launch_config) <- py_pop launch_config "machine_type" ;;
  launch_config <- py_setitem launch_config "machineType"
                     (VStr ("zones/" ++ py_str zone ++ "/machineTypes/"
                            ++ py_str machine_type)) ;;
  launch_config <- py_setitem launch_config "scheduling"
                     (VDict [("onHostMaintenance", VStr "terminate");
                             ("automaticRestart", VBool false);
                             ("preemptible", VBool true)]) ;;
  Ok [launch_config].

(** The body of the loop over zones. *)
Definition google_zone_launch_configs
    (image_name worker_config implementation instance_types region zone : value)
  : result (list value) :=
  instance_types <- py_iter instance_types ;;
  for_each instance_types
    (google_launch_config image_name worker_config implementation region zone).

(** The body of the loop over regions. *)
Definition google_region_launch_configs (pool_id : string)
    (google_config image_name worker_config implementation instance_types
       region : value)
  : result (list value) :=
  zone_rule <- py_getitem google_config (VStr "zones") ;;
  zones <- evaluate_keyed_by zone_rule pool_id [("region", region)] ;;
  zones <- py_iter zones ;;
  for_each zones
    (google_zone_launch_configs image_name worker_config implementation
       instance_types region).

Definition get_google_provider_config (environment provider_id : value)
    (pool_id : string) (config : value) (worker_images : WorkerImages)
    (defaults : value) : result value :=
  '(regions, config) <- py_pop config "regions" ;;
  image_name <- py_getitem config (VStr "image") ;;
  image <- worker_images image_name ;;
  instance_types <- py_getitem config (VStr "instance_types") ;;
  '(implementation, config) <- py_pop_default config "implementation" docker_worker ;;
  defaults <- evaluate_keyed_by defaults "defaults" [("provider", provider_id)] ;;
  google_config <- py_getattr environment "google_config" ;;
  default_lifecycle <- py_get defaults "lifecycle" (VDict []) ;;
  '(own_lifecycle, config) <- py_pop_default config "lifecycle" (VDict []) ;;
  lifecycle <- merge [default_lifecycle; own_lifecycle] ;;
  default_worker_config <- py_get defaults "worker-config" (VDict []) ;;
  worker_config <- evaluate_keyed_by default_worker_config pool_id
                     [("implementation", implementation)] ;;
  own_worker_config <- py_get config "worker-config" (VDict []) ;;
  worker_config <- merge [worker_config; own_worker_config] ;;
  image_name <- image_id image provider_id None ;;
  _validate_instance_capacity pool_id implementation instance_types ;;;
  regions <- py_iter regions ;;
  launch_configs <-
    for_each regions
      (google_region_launch_configs pool_id google_config image_name
         worker_config implementation instance_types) ;;
  resolved_config config lifecycle launch_configs.

(** ** Dispatch and assembly *)

(** The signature the three generators share. *)
Definition provider_generator : Type :=
  value -> value -> string -> value -> WorkerImages -> value -> result value.

(** [PROVIDER_IMPLEMENTATIONS[name]] *)
Definition PROVIDER_IMPLEMENTATIONS (name : value) : result provider_generator :=
  match name with
  | VStr "aws" => Ok get_aws_provider_config
  | VStr "google" => Ok get_google_provider_config
  | VStr "azure" => Ok get_azure_provider_config
  | VStr s => Raise (KeyError s)
  | _ => if unhashable name then Raise TypeError else Raise (KeyError (py_repr name))
  end.

(** The library the resources are made with and handed to. *)
Variable tcadmin : Tcadmin.Library.

(** The generator works on a deep copy of [wp.config]; values here are
    immutable, so the copy is the value itself.  [resources] is not used. *)
Definition make_worker_pool (environment : value)
    (resources : Tcadmin.Resources tcadmin)
    (wp : ConfigWorkerPool) (worker_images : WorkerImages)
    (worker_defaults : value) : result (Tcadmin.Resource tcadmin) :=
  worker_manager <- py_getattr environment "worker_manager" ;;
  providers <- py_getitem worker_manager (VStr "providers") ;;
  known <- py_in (provider_id wp) providers ;;
  config <-
    (if known then
       worker_manager <- py_getattr environment "worker_manager" ;;
       providers <- py_getitem worker_manager (VStr "providers") ;;
       provider <- py_getitem providers (provider_id wp) ;;
       provider_implementation <- py_getitem provider (VStr "implementation") ;;
       generator <- PROVIDER_IMPLEMENTATIONS provider_implementation ;;
       generator environment (provider_id wp) (pool_id wp) (config wp)
         worker_images worker_defaults
     else Ok (config wp)) ;;
  Tcadmin.WorkerPool tcadmin (pool_id wp) (description wp) (owner wp)
    (provider_id wp) config (email_on_error wp).

(** ** Variants *)

(** The fields [update_config] resolves. *)
Definition variant_keys : list string :=
  ["image"; "maxCapacity"; "minCapacity"; "security"].

(** One pass of the loop of [update_config]. *)
Definition update_key (name : string) (attributes : dict)
    (config : value) (key : string) : result value :=
  present <- py_in (VStr key) config ;;
  if present then
    field <- py_getitem config (VStr key) ;;
    resolved <- evaluate_keyed_by field name attributes ;;
    if negb (is_None resolved) then py_setitem config key resolved
    else py_delitem config key
  else Ok config.

(** [for key in keys: ...] on the working copy [config]. *)
Fixpoint update_keys (keys : list string) (name : string) (attributes : dict)
    (config : value) : result value :=
  match keys with
  | [] => Ok config
  | key :: keys' =>
      config <- update_key name attributes config key ;;
      update_keys keys' name attributes config
  end.

Definition update_config (config : value) (name : string) (attributes : dict)
  : result value :=
  update_keys variant_keys name attributes config.

(** The attribute context of a variant. *)
Definition variant_attributes (environment variant : value) : result dict :=
  match variant with
  | VDict v => Ok (dict_update [("environment", environment)] v)
  | _ => Raise TypeError
  end.

(** The body of the loops of [generate_pool_variants]. *)
Definition expand_variant (environment : value) (wp : ConfigWorkerPool)
    (variant : value) : result ConfigWorkerPool :=
  name <- py_format (pool_id wp) variant ;;
  attributes <- variant_attributes environment variant ;;
  provider <- evaluate_keyed_by (provider_id wp) name attributes ;;
  config <- update_config (config wp) name attributes ;;
  Ok {| pool_id := name;
        description := description wp;
        owner := owner wp;
        provider_id := provider;
        config := config;
        email_on_error := email_on_error wp;
        variants := [VDict []] |}.

(** [for wp in worker_pools: for variant in wp.variants: yield ...] *)
Definition generate_pool_variants (worker_pools : list ConfigWorkerPool)
    (environment : value) : generated ConfigWorkerPool :=
  yield_from_each worker_pools (fun wp =>
    yield_each (variants wp) (expand_variant environment wp)).

(** ** The entry point *)

(** The loop of [update_resources] over the pools the generator yielded. *)
Fixpoint add_worker_pools (environment : value) (worker_images : WorkerImages)
    (worker_defaults : value) (pools : list ConfigWorkerPool)
  : Tcadmin.action (Tcadmin.Resources tcadmin) unit :=
  match pools with
  | [] => Tcadmin.ret tt
  | wp :: rest =>
      fun resources =>
        Tcadmin.abind
          (Tcadmin.lift (make_worker_pool environment resources wp
                           worker_images worker_defaults))
          (fun apwt =>
             Tcadmin.abind
               (if Tcadmin.truthy tcadmin apwt
                then fun resources => Tcadmin.add tcadmin resources apwt
                else Tcadmin.ret tt)
               (fun _ =>
                  add_worker_pools environment worker_images worker_defaults
                    rest))
          resources
  end.

(** [update_resources].  The four things it awaits are not among the
    sources; each is given as what it returned or raised: the pool
    definitions, the image table, the contents of [worker-pools.yml] and
    the current environment. *)
Definition update_resources (fetched_pools : result (list ConfigWorkerPool))
    (fetched_images : result WorkerImages)
    (fetched_file fetched_environment : result value)
  : Tcadmin.action (Tcadmin.Resources tcadmin) unit :=
  Tcadmin.abind (Tcadmin.lift fetched_pools) (fun worker_pools =>
  Tcadmin.abind (Tcadmin.lift fetched_images) (fun worker_images =>
  Tcadmin.abind
    (fun resources => Tcadmin.manage tcadmin resources "WorkerPool=.*")
    (fun _ =>
  Tcadmin.abind
    (Tcadmin.lift (ciconfig_file <- fetched_file ;;
                   py_get ciconfig_file "worker-defaults" VNone))
    (fun worker_defaults =>
  Tcadmin.abind (Tcadmin.lift fetched_environment) (fun environment =>
  let '(pools, stop) := generate_pool_variants worker_pools environment in
  Tcadmin.abind
    (add_worker_pools environment worker_images worker_defaults pools)
    (fun _ =>
  match stop with
  | Some e => Tcadmin.lift (Raise e)
  | None => Tcadmin.ret tt
  end)))))).

End Generators.
End WorkerPools.

(* ================================================================== *)
(** * Sample inputs *)
(* ================================================================== *)

Module Examples.
Import Py WorkerPools.

(** An environment with one AWS zone and one provider per implementation,
    given its table of invalid instances. *)
Definition aws_config (invalid_instances : list value) : dict :=
  [("availability-zones",
     VDict [("by-region", VDict [("us-east-1", VList [VStr "us-east-1a"])])]);
   ("security-groups", VList [VStr "sg-0a1b"]);
   ("subnet-id", VStr "subnet-17");
   ("invalid-instances", VList invalid_instances)].

Definition environment_with (invalid_instances : list value) : value :=
  VObject
    [("aws_config", VDict (aws_config invalid_instances));
     ("azure_config", VDict [("subscription", VStr "sub-0")]);
     ("google_config", VDict [("zones", VList [VStr "us-central1-a"])]);
     ("worker_manager",
       VDict [("providers",
                VDict [("aws", VDict [("implementation", VStr "aws")]);
                       ("azure", VDict [("implementation", VStr "azure")]);
                       ("google", VDict [("implementation", VStr "google")])])])].

(** The [m5] family cannot be launched in the zone. *)
Definition no_m5 : value :=
  VDict [("zones", VList [VStr "us-east-1a"]);
         ("families", VList [VStr "m5"])].

Definition environment : value := environment_with [no_m5].

(** The only restriction is in another zone. *)
Definition elsewhere : value :=
  VDict [("zones", VList [VStr "us-east-1e"]);
         ("families", VList [VStr "c5"])].

Definition quiet_environment : value := environment_with [elsewhere].

Definition ubuntu : WorkerImage :=
  {| image_id := fun provider region => Ok (VStr "img-ubuntu") |}.

Definition worker_images : WorkerImages :=
  fun name =>
    match name with
    | VStr "ubuntu" => Ok ubuntu
    | _ => Raise (KeyError (py_str name))
    end.

Definition worker_defaults : value :=
  VDict [("lifecycle", VDict [("registrationTimeout", VInt 1800)]);
         ("worker-config", VDict [("shutdown", VDict [("enabled", VBool true)])])].

Definition instance (name : string) (extra : dict) : value :=
  VDict (("instanceType", VStr name) :: extra).

(** An AWS pool over one region and the given instance types. *)
Definition aws_pool_config (implementation : option string)
    (instance_types : list value) : dict :=
  ([("regions", VList [VStr "us-east-1"]);
   ("image", VStr "ubuntu");
   ("instance_types", VList instance_types);
   ("maxCapacity", VInt 10)]
  ++ match implementation with
     | Some i => [("implementation", VStr i)]
     | None => []
     end)%list.

Definition aws_pool (id : string) (implementation : option string)
    (instance_types : list value) : ConfigWorkerPool :=
  {| pool_id := id;
     description := VStr "";
     owner := VStr "nobody@example.com";
     provider_id := VStr "aws";
     config := VDict (aws_pool_config implementation instance_types);
     email_on_error := VBool false;
     variants := [VDict []] |}.

(** A Google pool over one region and the given instance types. *)
Definition google_instance (extra : dict) : value :=
  VDict ([("machine_type", VStr "n2-standard-4");
          ("disks",
            VList [VDict [("initializeParams",
                            VDict [("sourceImage", VStr "<image>")])]])]
         ++ extra)%list.

Definition google_pool_config (implementation : option string)
    (instance_types : list value) : dict :=
  ([("regions", VList [VStr "us-central1"]);
   ("image", VStr "ubuntu");
   ("instance_types", VList instance_types);
   ("maxCapacity", VInt 5)]
  ++ match implementation with
     | Some i => [("implementation", VStr i)]
     | None => []
     end)%list.

(** An Azure pool over one location and the given sizes. *)
Definition azure_pool_config (vmSizes : list value) (extra : dict) : dict :=
  ([("locations", VList [VStr "east-us"]);
   ("image_resource_group", VStr "rg-images");
   ("vmSizes", VList vmSizes);
   ("worker-purpose", VStr "gecko-t");
   ("image", VStr "ubuntu");
   ("maxCapacity", VInt 3)]
  ++ extra)%list.

(** A size whose [launchConfig] override sets [capacityPerInstance], and
    which also carries the keys the capacity validation looks for. *)
Definition overriding_vm_size : value :=
  VDict [("vmSize", VStr "Standard_F8s_v2");
         ("capacity", VInt 2);
         ("capacityPerInstance", VInt 2);
         ("launchConfig", VDict [("capacityPerInstance", VInt 2)])].

(** The AWS generator run on two instance types of a family that is
    valid in the zone. *)
Definition run_aws (implementation : option string)
    (instance_types : list value) : result value :=
  get_aws_provider_config Util.evaluate_keyed_by Util.merge environment
    (VStr "aws") "pool" (VDict (aws_pool_config implementation instance_types))
    worker_images worker_defaults.

Definition run_google (implementation : option string)
    (instance_types : list value) : result value :=
  get_google_provider_config Util.evaluate_keyed_by Util.merge environment
    (VStr "google") "pool"
    (VDict (google_pool_config implementation instance_types))
    worker_images worker_defaults.

Definition run_azure (vmSizes : list value) (extra : dict) : result value :=
  get_azure_provider_config Util.evaluate_keyed_by Util.merge environment
    (VStr "azure") "pool" (VDict (azure_pool_config vmSizes extra))
    worker_images worker_defaults.

(** An Azure pool whose one size carries the keys the capacity validation
    of the other providers rejects, as does its unused [instance_types]. *)
Definition azure_capacity_run : result value :=
  run_azure [overriding_vm_size]
    [("instance_types",
       VList [VDict [("capacity", VInt 2); ("capacityPerInstance", VInt 2)]])].

(** Two unrelated AWS pools: the first has an instance type with a
    top-level [capacity] key, the second is in order. *)
Definition bad_pool : ConfigWorkerPool :=
  aws_pool "bad" None [instance "c5.large" [("capacity", VInt 2)]].

Definition good_pool : ConfigWorkerPool :=
  aws_pool "good" None [instance "c5.large" []].

Definition worker_pools_yml : value :=
  VDict [("worker-defaults", worker_defaults)].

(** What a run returned, or [None] if it raised. *)
Definition returned (run : result value) : value :=
  match run with Ok res => res | Raise _ => VNone end.

(** The pool of the variant example: two variants naming a letter. *)
Definition letter_pool : ConfigWorkerPool :=
  {| pool_id := "pool-{letter}";
     description := VStr "";
     owner := VStr "nobody@example.com";
     provider_id := VStr "static";
     config :=
       VDict [("image", VDict [("by-letter",
                                 VDict [("a", VStr "image-a");
                                        ("default", VStr "image-other")])]);
              ("security", VNone);
              ("maxCapacity", VInt 2);
              ("note", VStr "kept")];
     email_on_error := VBool false;
     variants := [VDict [("letter", VStr "a")]; VDict [("letter", VStr "b")]] |}.

(** A configuration whose fields [image], [maxCapacity], [minCapacity] and
    [security] are all keyed by the letter of the variant; for the letter
    [a] the security level resolves to [None]. *)
Definition keyed_config : dict :=
  [("image",
     VDict [("by-letter", VDict [("a", VStr "image-a");
                                 ("default", VStr "image-other")])]);
   ("maxCapacity",
     VDict [("by-letter", VDict [("a", VInt 10); ("default", VInt 1)])]);
   ("minCapacity",
     VDict [("by-letter", VDict [("a", VInt 2); ("default", VInt 0)])]);
   ("security",
     VDict [("by-letter", VDict [("a", VNone);
                                 ("default", VStr "untrusted")])]);
   ("note", VStr "kept")].

(** The same definition with no variant at all. *)
Definition no_variant_pool : ConfigWorkerPool :=
  {| pool_id := "pool";
     description := VStr "";
     owner := VStr "nobody@example.com";
     provider_id := VStr "static";
     config := VDict [("maxCapacity", VInt 2)];
     email_on_error := VBool false;
     variants := [] |}.

(** An environment whose worker manager has a provider of an
    implementation without a generator. *)
Definition static_environment : value :=
  VObject
    [("worker_manager",
       VDict [("providers",
                VDict [("static", VDict [("implementation", VStr "static")])])])].

(** An AWS pool with pool-level user data and an instance type with its
    own. *)
Definition user_data_pool_config : dict :=
  (aws_pool_config None
     [instance "c5.large"
        [("additional-user-data", VDict [("role", VStr "builder")])]]
   ++ [("additional-user-data",
         VDict [("role", VStr "tester"); ("team", VStr "ci")])])%list.

(** A definition whose pool id names no attribute, with two variants. *)
Definition twin_pool : ConfigWorkerPool :=
  {| pool_id := "pool";
     description := VStr "";
     owner := VStr "nobody@example.com";
     provider_id := VStr "static";
     config := VDict [("maxCapacity", VInt 2)];
     email_on_error := VBool false;
     variants := [VDict [("letter", VStr "a")]; VDict [("letter", VStr "b")]] |}.

(** A definition whose second variant lacks the attribute the pool id
    names. *)
Definition half_named_pool : ConfigWorkerPool :=
  {| pool_id := "pool-{letter}";
     description := VStr "";
     owner := VStr "nobody@example.com";
     provider_id := VStr "static";
     config := VDict [("maxCapacity", VInt 2)];
     email_on_error := VBool false;
     variants := [VDict [("letter", VStr "a")]; VDict []] |}.

(** A definition whose image is keyed by an attribute, with no default
    branch, and a variant no branch matches. *)
Definition strict_pool : ConfigWorkerPool :=
  {| pool_id := "pool-{letter}";
     description := VStr "";
     owner := VStr "nobody@example.com";
     provider_id := VStr "static";
     config :=
       VDict [("maxCapacity", VInt 2);
              ("image", VDict [("by-letter", VDict [("a", VStr "image-a")])])];
     email_on_error := VBool false;
     variants := [VDict [("letter", VStr "b")]] |}.

(** An expanded definition: literal fields and the single empty variant. *)
Definition expanded_pool : ConfigWorkerPool :=
  {| pool_id := "pool-a";
     description := VStr "";
     owner := VStr "nobody@example.com";
     provider_id := VStr "static";
     config := VDict [("image", VStr "image-a"); ("maxCapacity", VInt 2);
                      ("note", VStr "kept")];
     email_on_error := VBool false;
     variants := [VDict []] |}.

(** A stand-in for [tcadmin.resources] that only records: a resource is
    the six arguments of the constructor, and the collection is the list of
    the calls it got, oldest first.  It shows which calls a run makes, not
    what the library does with them. *)
Record recorded_pool : Type := {
  workerPoolId : string;
  recorded_description : value;
  recorded_owner : value;
  providerId : value;
  recorded_config : value;
  emailOnError : value
}.

Inductive recorded_call : Type :=
| Managed (pattern : string)
| Added (resource : recorded_pool).

Definition recorder : Tcadmin.Library :=
  {| Tcadmin.Resource := recorded_pool;
     Tcadmin.Resources := list recorded_call;
     Tcadmin.WorkerPool := fun id description owner provider config email =>
       Ok {| workerPoolId := id;
             recorded_description := description;
             recorded_owner := owner;
             providerId := provider;
             recorded_config := config;
             emailOnError := email |};
     Tcadmin.truthy := fun _ => true;
     Tcadmin.manage := fun calls pattern =>
       ((calls ++ [Managed pattern])%list, Ok tt);
     Tcadmin.add := fun calls resource =>
       ((calls ++ [Added resource])%list, Ok tt) |}.

(** A stand-in that refuses a resource whose pool id it has already: the
    collection is the list of the pool ids added so far. *)
Definition refusing_duplicates : Tcadmin.Library :=
  {| Tcadmin.Resource := recorded_pool;
     Tcadmin.Resources := list string;
     Tcadmin.WorkerPool := Tcadmin.WorkerPool recorder;
     Tcadmin.truthy := fun _ => true;
     Tcadmin.manage := fun ids pattern => (ids, Ok tt);
     Tcadmin.add := fun ids resource =>
       if existsb (String.eqb (workerPoolId resource)) ids
       then (ids, Raise (RuntimeError
                           ("duplicate resource " ++ workerPoolId resource)))
       else ((ids ++ [workerPoolId resource])%list, Ok tt) |}.

(** An AWS definition in order, with two variants its pool id does not
    tell apart. *)
Definition twin_aws_pool : ConfigWorkerPool :=
  {| pool_id := "twin";
     description := VStr "";
     owner := VStr "nobody@example.com";
     provider_id := VStr "aws";
     config := VDict (aws_pool_config None [instance "c5.large" []]);
     email_on_error := VBool false;
     variants := [VDict [("letter", VStr "a")]; VDict [("letter", VStr "b")]] |}.

End Examples.

(* ================================================================== *)
(** * Vocabulary of the properties *)
(* ================================================================== *)

Module Props.
Import Py WorkerPools.

(** A dictionary as Python builds it: no key twice. *)
Fixpoint unique_keys (d : dict) : bool :=
  match d with
  | [] => true
  | (k, _) :: d' => negb (dict_mem k d') && unique_keys d'
  end.

(** The (definition, variant) pairs of a sequence of pool definitions, in
    the order the expander visits them. *)
Definition pairs (worker_pools : list ConfigWorkerPool)
  : list (ConfigWorkerPool * value) :=
  flat_map (fun wp => map (pair wp) (variants wp)) worker_pools.

(** The attribute context of a variant: its attributes, and the
    environment under [environment] unless the variant sets that itself. *)
Definition context_lookup (environment : value) (variant : dict) (k : string)
  : option value :=
  match dict_get k variant with
  | Some x => Some x
  | None => if String.eqb k "environment" then Some environment else None
  end.

(** What [update_config] leaves under a key, given what resolution of the
    field returned. *)
Definition resolved_field (r : value) : option value :=
  if is_None r then None else Some r.

(** The field [k] of the configuration [c'] is that of [c], resolved: it
    holds what resolution returned, is absent when that is [None], and is
    absent when [c] has no such field. *)
Definition field_resolved
    (evaluate_keyed_by : value -> string -> dict -> result value)
    (name : string) (attributes : dict) (c c' : dict) (k : string) : Prop :=
  match dict_get k c with
  | Some field =>
      exists r,
        evaluate_keyed_by field name attributes = Ok r /\
        dict_get k c' = resolved_field r
  | None => dict_get k c' = None
  end.

(** The configuration [config'] is [config] with its fields [image],
    [maxCapacity], [minCapacity] and [security] resolved under the pool id
    [name] and the attributes, and nothing else changed. *)
Definition config_resolved
    (evaluate_keyed_by : value -> string -> dict -> result value)
    (name : string) (attributes : dict) (config config' : value) : Prop :=
  match config with
  | VDict c =>
      exists c',
        config' = VDict c' /\
        field_resolved evaluate_keyed_by name attributes c c' "image" /\
        field_resolved evaluate_keyed_by name attributes c c' "maxCapacity" /\
        field_resolved evaluate_keyed_by name attributes c c' "minCapacity" /\
        field_resolved evaluate_keyed_by name attributes c c' "security" /\
        (forall k,
            ~ In k ["image"; "maxCapacity"; "minCapacity"; "security"] ->
            dict_get k c' = dict_get k c)
  | _ => config' = config
  end.

(** [wp'] is the expansion of the definition [fst p] at the variant
    [snd p]. *)
Definition expanded_by
    (evaluate_keyed_by : value -> string -> dict -> result value)
    (environment : value) (p : ConfigWorkerPool * value)
    (wp' : ConfigWorkerPool) : Prop :=
  exists (variant attributes : dict),
    snd p = VDict variant /\
    attributes = dict_update [("environment", environment)] variant /\
    (unique_keys variant = true ->
     forall k, dict_get k attributes = context_lookup environment variant k) /\
    py_format (pool_id (fst p)) (VDict variant) = Ok (pool_id wp') /\
    evaluate_keyed_by (provider_id (fst p)) (pool_id wp') attributes
      = Ok (provider_id wp') /\
    config_resolved evaluate_keyed_by (pool_id wp') attributes
      (config (fst p)) (config wp') /\
    variants wp' = [VDict []] /\
    description wp' = description (fst p) /\
    owner wp' = owner (fst p) /\
    email_on_error wp' = email_on_error (fst p).

(** An AWS launch configuration. *)
Definition aws_launch (capacity_per_instance region launch_config
    worker_config additional_user_data : value) : value :=
  VDict [("capacityPerInstance", capacity_per_instance);
         ("region", region);
         ("launchConfig", launch_config);
         ("workerConfig", worker_config);
         ("additionalUserData", additional_user_data)].

(** [it.get(capacityPerInstance, 1)] *)
Definition capacity_per_instance (d : dict) : value :=
  dict_get_default "capacityPerInstance" (VInt 1) d.

(** The worker configuration the AWS generator gives an instance type
    [d]: the pool's, the instance type's own and, for docker-worker, its
    capacity. *)
Definition aws_instance_worker_config (merge : list value -> result value)
    (worker_config implementation : value) (d : dict) : result value :=
  if py_eq implementation docker_worker then
    merge [worker_config;
           dict_get_default "worker-config" (VDict []) d;
           VDict [("capacity", capacity_per_instance d)]]
  else
    merge [worker_config; dict_get_default "worker-config" (VDict []) d].

(** The mapping [x] holds [v] under key [k]. *)
Definition holds (k : string) (v x : value) : Prop :=
  exists d, x = VDict d /\ dict_get k d = Some v.

(** The launch configurations of a generator's result. *)
Definition launch_configs_of (res : value) : list value :=
  match res with
  | VDict r =>
      match dict_get "launchConfigs" r with
      | Some (VList launch_configs) => launch_configs
      | _ => []
      end
  | _ => []
  end.

(** A pool the AWS generator can expand over one region with one
    availability zone: every key it reads is there, every keyed-by field
    resolves, and what it merges are mappings.  [invalid] is the
    environment's table of invalid instances and [its] are the pool's
    instance types. *)
Record aws_single_zone_pool
    (evaluate_keyed_by : value -> string -> dict -> result value)
    (environment provider_id : value) (pool_id : string) (c : dict)
    (worker_images : WorkerImages) (defaults region zone invalid : value)
    (its : list dict) : Prop := {
  sz_regions : dict_get "regions" c = Some (VList [region]);
  sz_instance_types :
    dict_get "instance_types" c = Some (VList (map VDict its));
  sz_max_capacity : dict_mem "maxCapacity" c = true;
  sz_image :
    exists image_name image,
      dict_get "image" c = Some image_name /\
      worker_images image_name = Ok image /\
      is_ok (image_id image provider_id (Some region)) = true;
  sz_lifecycle :
    Util.is_dict (dict_get_default "lifecycle" (VDict []) c) = true;
  sz_worker_config :
    Util.is_dict (dict_get_default "worker-config" (VDict []) c) = true;
  sz_user_data :
    Util.is_dict (dict_get_default "additional-user-data" (VDict []) c) = true;
  sz_defaults :
    exists resolved wc,
      evaluate_keyed_by defaults "defaults" [("provider", provider_id)]
        = Ok (VDict resolved) /\
      Util.is_dict (dict_get_default "lifecycle" (VDict []) resolved) = true /\
      evaluate_keyed_by (dict_get_default "worker-config" (VDict []) resolved)
        pool_id
        [("implementation", dict_get_default "implementation" docker_worker c)]
        = Ok (VDict wc);
  sz_environment :
    exists aws az_rule sg_rule subnet_rule,
      py_getattr environment "aws_config" = Ok (VDict aws) /\
      dict_get "availability-zones" aws = Some az_rule /\
      evaluate_keyed_by az_rule pool_id [("region", region)]
        = Ok (VList [zone]) /\
      dict_get "security-groups" aws = Some sg_rule /\
      is_ok (evaluate_keyed_by sg_rule pool_id
               [("region", region);
                ("security",
                  dict_get_default "security" (VStr "untrusted") c)]) = true /\
      dict_get "subnet-id" aws = Some subnet_rule /\
      is_ok (evaluate_keyed_by subnet_rule pool_id
               [("availability-zone", zone)]) = true /\
      dict_get "invalid-instances" aws = Some invalid;
  sz_valid :
    _validate_instance_capacity pool_id
      (dict_get_default "implementation" docker_worker c)
      (VList (map VDict its)) = Ok tt;
  sz_instances :
    Forall (fun d =>
      exists name,
        dict_get "instanceType" d = Some name /\
        is_ok (is_invalid_aws_instance_type invalid zone name) = true /\
        Util.is_dict (dict_get_default "worker-config" (VDict []) d) = true /\
        Util.is_dict (dict_get_default "additional-user-data" (VDict []) d)
          = true /\
        Util.is_dict (dict_get_default "launchConfig" (VDict []) d) = true)
      its
}.

(** A disk of a Google instance type as the generator reads it: a mapping
    with a mapping of [initializeParams]. *)
Definition well_formed_disk (disk : value) : bool :=
  match disk with
  | VDict dd =>
      match dict_get "initializeParams" dd with
      | Some (VDict _) => true
      | _ => false
      end
  | _ => false
  end.

(** A Google instance type the generator can turn into a launch
    configuration: a list of well-formed disks, a machine type, and a
    mapping, if anything, as its worker configuration. *)
Definition well_formed_google_instance (d : dict) : bool :=
  match dict_get "disks" d with
  | Some (VList disks) => forallb well_formed_disk disks
  | _ => false
  end
  && dict_mem "machine_type" d
  && Util.is_dict (dict_get_default "worker-config" (VDict []) d).

(** A pool the Google generator can expand over one region with one zone;
    [its] are the pool's instance types. *)
Record google_single_zone_pool
    (evaluate_keyed_by : value -> string -> dict -> result value)
    (environment provider_id : value) (pool_id : string) (c : dict)
    (worker_images : WorkerImages) (defaults region zone : value)
    (its : list dict) : Prop := {
  gz_regions : dict_get "regions" c = Some (VList [region]);
  gz_instance_types :
    dict_get "instance_types" c = Some (VList (map VDict its));
  gz_max_capacity : dict_mem "maxCapacity" c = true;
  gz_image :
    exists image_name image,
      dict_get "image" c = Some image_name /\
      worker_images image_name = Ok image /\
      is_ok (image_id image provider_id None) = true;
  gz_lifecycle :
    Util.is_dict (dict_get_default "lifecycle" (VDict []) c) = true;
  gz_worker_config :
    Util.is_dict (dict_get_default "worker-config" (VDict []) c) = true;
  gz_defaults :
    exists resolved wc,
      evaluate_keyed_by defaults "defaults" [("provider", provider_id)]
        = Ok (VDict resolved) /\
      Util.is_dict (dict_get_default "lifecycle" (VDict []) resolved) = true /\
      evaluate_keyed_by (dict_get_default "worker-config" (VDict []) resolved)
        pool_id
        [("implementation", dict_get_default "implementation" docker_worker c)]
        = Ok (VDict wc);
  gz_environment :
    exists google zone_rule,
      py_getattr environment "google_config" = Ok (VDict google) /\
      dict_get "zones" google = Some zone_rule /\
      evaluate_keyed_by zone_rule pool_id [("region", region)]
        = Ok (VList [zone]);
  gz_valid :
    _validate_instance_capacity pool_id
      (dict_get_default "implementation" docker_worker c)
      (VList (map VDict its)) = Ok tt;
  gz_instances : forallb well_formed_google_instance its = true
}.

(** A pool the Azure generator can expand over the locations [locations]
    and the sizes [sizes]: every key it reads is there, every keyed-by
    field resolves, the image has an id for every location, and what it
    merges are mappings. *)
Record azure_pool
    (evaluate_keyed_by : value -> string -> dict -> result value)
    (environment provider_id : value) (pool_id : string) (c : dict)
    (worker_images : WorkerImages) (defaults : value)
    (locations : list string) (sizes : list dict) : Prop := {
  az_locations : dict_get "locations" c = Some (VList (map VStr locations));
  az_image_resource_group : dict_mem "image_resource_group" c = true;
  az_sizes : dict_get "vmSizes" c = Some (VList (map VDict sizes));
  az_purpose : dict_mem "worker-purpose" c = true;
  az_max_capacity : dict_mem "maxCapacity" c = true;
  az_image :
    exists image_name image,
      dict_get "image" c = Some image_name /\
      worker_images image_name = Ok image /\
      forallb (fun location =>
                 is_ok (image_id image provider_id (Some (VStr location))))
        locations = true;
  az_lifecycle :
    Util.is_dict (dict_get_default "lifecycle" (VDict []) c) = true;
  az_worker_config :
    Util.is_dict (dict_get_default "worker-config" (VDict []) c) = true;
  az_tags : Util.is_dict (dict_get_default "tags" (VDict []) c) = true;
  az_defaults :
    exists resolved wc,
      evaluate_keyed_by defaults "defaults" [("provider", provider_id)]
        = Ok (VDict resolved) /\
      Util.is_dict (dict_get_default "lifecycle" (VDict []) resolved) = true /\
      evaluate_keyed_by (dict_get_default "worker-config" (VDict []) resolved)
        pool_id
        [("implementation",
           dict_get_default "implementation"
             (VStr "generic-worker/worker-runner-windows") c)]
        = Ok (VDict wc);
  az_environment :
    exists azure,
      py_getattr environment "azure_config" = Ok (VDict azure) /\
      dict_mem "subscription" azure = true;
  az_overrides :
    forallb (fun size =>
               Util.is_dict (dict_get_default "launchConfig" (VDict []) size))
      sizes = true
}.

(** An entry of the table of invalid instances as the check reads it: a
    mapping with a list of zones and a list of families. *)
Definition well_formed_entry (entry : value) : bool :=
  match entry with
  | VDict e =>
      match dict_get "zones" e, dict_get "families" e with
      | Some (VList _), Some (VList _) => true
      | _, _ => false
      end
  | _ => false
  end.

(** The entry has the zone among its zones and the family among its
    families. *)
Definition covers (zone : value) (family : string) (entry : value) : bool :=
  match entry with
  | VDict e =>
      match dict_get "zones" e, dict_get "families" e with
      | Some (VList zones), Some (VList families) =>
          existsb (fun z => py_eq z zone) zones
          && existsb (fun f => py_eq f (VStr family)) families
      | _, _ => false
      end
  | _ => false
  end.

(** The entry lists zones, and the zone is not one of them. *)
Definition zone_free (zone entry : value) : bool :=
  match entry with
  | VDict e =>
      match dict_get "zones" e with
      | Some (VList zones) => negb (existsb (fun z => py_eq z zone) zones)
      | _ => false
      end
  | _ => false
  end.

(** [is_invalid_aws_instance_type] on the instance type [d]. *)
Definition invalid_in (invalid zone : value) (d : dict) : result bool :=
  is_invalid_aws_instance_type invalid zone
    (dict_get_default "instanceType" VNone d).

(** What the innermost loop makes of the instance type [d]: nothing when
    the check finds it invalid in the zone, one launch configuration with
    its capacity otherwise. *)
Definition aws_outcome (invalid zone region worker_config implementation : value)
    (d : dict) (l : list value) : Prop :=
  (invalid_in invalid zone d = Ok true /\ l = []) \/
  (invalid_in invalid zone d = Ok false /\
   exists inner instance_worker_config aud,
     l = [aws_launch (capacity_per_instance d) region inner
            instance_worker_config aud] /\
     aws_instance_worker_config Util.merge worker_config implementation d
       = Ok instance_worker_config).

(** The launch configuration [lc] carries the capacity of the instance
    type [d]: under [capacityPerInstance], where it is 1 when [d] sets
    none, and, for docker-worker, as [capacity] in its [workerConfig]. *)
Definition carries_capacity (implementation : value) (d : dict) (lc : value)
  : Prop :=
  holds "capacityPerInstance" (capacity_per_instance d) lc /\
  (dict_mem "capacityPerInstance" d = false ->
   holds "capacityPerInstance" (VInt 1) lc) /\
  (py_eq implementation docker_worker = true ->
   dict_mem "capacityPerInstance" d = false ->
   exists worker_config,
     holds "workerConfig" worker_config lc /\
     holds "capacity" (VInt 1) worker_config).

(** [d] is one of the instance types of the configuration [c]. *)
Definition from_instance_types (c d : dict) : Prop :=
  exists its_v its,
    dict_get "instance_types" c = Some its_v /\
    py_iter its_v = Ok its /\
    In (VDict d) its.

(** The pool assembler hands the definition [wp] to [generator]: its
    provider is one of the worker manager's and names the generator's
    implementation. *)
Definition dispatches
    (evaluate_keyed_by : value -> string -> dict -> result value)
    (merge : list value -> result value)
    (environment : value) (wp : ConfigWorkerPool)
    (generator : provider_generator) : Prop :=
  exists worker_manager providers provider implementation,
    py_getattr environment "worker_manager" = Ok worker_manager /\
    py_getitem worker_manager (VStr "providers") = Ok providers /\
    py_in (provider_id wp) providers = Ok true /\
    py_getitem providers (provider_id wp) = Ok provider /\
    py_getitem provider (VStr "implementation") = Ok implementation /\
    PROVIDER_IMPLEMENTATIONS evaluate_keyed_by merge implementation
      = Ok generator.

(** The mapping every provider generator returns. *)
Definition resolved_pool (min_capacity max_capacity lifecycle : value)
    (launch_configs : list value) : value :=
  VDict [("minCapacity", min_capacity);
         ("maxCapacity", max_capacity);
         ("lifecycle", lifecycle);
         ("launchConfigs", VList launch_configs)].

(** What is common to the results of the three generators, for the
    configuration mapping [c]: the capacities come from [c], the lifecycle
    is the merge of the resolved default with the pool's own. *)
Definition resolved_from
    (evaluate_keyed_by : value -> string -> dict -> result value)
    (merge : list value -> result value)
    (provider_id : value) (c : dict) (defaults res : value) : Prop :=
  exists max_capacity lifecycle launch_configs resolved default_lifecycle,
    res = resolved_pool (dict_get_default "minCapacity" (VInt 0) c)
            max_capacity lifecycle launch_configs /\
    dict_get "maxCapacity" c = Some max_capacity /\
    evaluate_keyed_by defaults "defaults" [("provider", provider_id)]
      = Ok resolved /\
    py_get resolved "lifecycle" (VDict []) = Ok default_lifecycle /\
    merge [default_lifecycle; dict_get_default "lifecycle" (VDict []) c]
      = Ok lifecycle.

(** The capacity validation accepts the instance type [it]: a mapping
    without a [capacity] key, at top level or in its worker configuration,
    whose capacity per instance is 1 unless the implementation is
    docker-worker. *)
Definition accepts_capacity (implementation it : value) : bool :=
  match it with
  | VDict d =>
      negb (dict_mem "capacity" d)
      && match py_in (VStr "capacity")
                 (dict_get_default "worker-config" (VDict []) d) with
         | Ok false => true
         | _ => false
         end
      && (py_eq (capacity_per_instance d) (VInt 1)
          || py_eq implementation docker_worker)
  | _ => false
  end.

(** The mapping [x] has no key [k]. *)
Definition lacks (k : string) (x : value) : Prop :=
  exists d, x = VDict d /\ dict_get k d = None.

(** The launch configuration the AWS generator starts from, before the
    instance type's [launchConfig] override is merged over it. *)
Definition aws_base_launch_config
    (ami availability_zone subnet_id security_groups name : value) : value :=
  VDict [("ImageId", ami);
         ("Placement", VDict [("AvailabilityZone", availability_zone)]);
         ("SubnetId", subnet_id);
         ("SecurityGroupIds", security_groups);
         ("InstanceType", name)].

(** The marker of a spot instance. *)
Definition spot_market : value := VDict [("MarketType", VStr "spot")].

(** The scheduling every Google launch configuration gets. *)
Definition preemptible_scheduling : value :=
  VDict [("onHostMaintenance", VStr "terminate");
         ("automaticRestart", VBool false);
         ("preemptible", VBool true)].

(** The subnet the Azure generator gives a launch configuration: named
    after the location as the pool spells it and the pool's worker
    purpose. *)
Definition azure_subnet_id (subscription location purpose : value) : string :=
  let subscription_id := "/subscriptions/" ++ py_str subscription in
  let resource_suffix := py_str location ++ "-" ++ py_str purpose in
  let rgroup := "rg-" ++ resource_suffix in
  let vnet := "vn-" ++ resource_suffix in
  let snet := "sn-" ++ resource_suffix in
  subscription_id ++ "/resourceGroups/" ++ rgroup
  ++ "/providers/Microsoft.Network/virtualNetworks/" ++ vnet
  ++ "/subnets/" ++ snet.

(** [d.update(e)] seen through lookups, for a mapping [e] without a
    repeated key. *)
Definition updated_lookup (d e : dict) (k : string) : option value :=
  match dict_get k e with
  | Some x => Some x
  | None => dict_get k d
  end.

(** The instance type [it] is a mapping whose [additional-user-data], if
    any, is a mapping. *)
Definition mapping_user_data (it : value) : bool :=
  match it with
  | VDict d =>
      Util.is_dict (dict_get_default "additional-user-data" (VDict []) d)
  | _ => false
  end.

(** The keys of the pool configuration each generator reads. *)
Definition aws_keys : list string :=
  ["regions"; "image"; "instance_types"; "security"; "spot";
   "additional-user-data"; "implementation"; "lifecycle"; "worker-config";
   "minCapacity"; "maxCapacity"].

Definition azure_keys : list string :=
  ["locations"; "image_resource_group"; "vmSizes"; "worker-purpose"; "image";
   "implementation"; "lifecycle"; "worker-config"; "tags";
   "minCapacity"; "maxCapacity"].

Definition google_keys : list string :=
  ["regions"; "image"; "instance_types"; "implementation"; "lifecycle";
   "worker-config"; "minCapacity"; "maxCapacity"].

(** Two configurations hold the same under every key of [keys]. *)
Definition agree_on (keys : list string) (c c' : dict) : Prop :=
  forall k, In k keys -> dict_get k c = dict_get k c'.

(** The first launch configuration of a generator's result. *)
Definition first_launch_config (res : value) : value :=
  nth 0 (launch_configs_of res) VNone.

(** The disk asks for the pool's image: its [initializeParams] name the
    placeholder as [sourceImage]. *)
Definition names_placeholder (disk : value) : bool :=
  match disk with
  | VDict dd =>
      match dict_get "initializeParams" dd with
      | Some (VDict params) =>
          py_eq (dict_get_default "sourceImage" VNone params) (VStr "<image>")
      | _ => false
      end
  | _ => false
  end.

(** The keys of an instance type the Google generator sets, replaces or
    removes on the way to a launch configuration. *)
Definition google_edited_keys : list string :=
  ["capacityPerInstance"; "region"; "zone"; "disks"; "worker-config";
   "workerConfig"; "machine_type"; "machineType"; "scheduling"].

(** The innermost AWS loop skips the instance type [d] in the zone. *)
Definition skipped (invalid zone : value) (d : dict) : bool :=
  match invalid_in invalid zone d with
  | Ok true => true
  | _ => false
  end.

(** A call to the collection. *)
Inductive call (tcadmin : Tcadmin.Library) : Type :=
| Manage (pattern : string)
| Add (resource : Tcadmin.Resource tcadmin).
Arguments Manage {tcadmin} pattern.
Arguments Add {tcadmin} resource.

(** The calls made one after the other on the collection [rs], up to the
    first that raises: the collection they leave and the outcome. *)
Fixpoint run_calls (tcadmin : Tcadmin.Library) (calls : list (call tcadmin))
    (rs : Tcadmin.Resources tcadmin)
  : Tcadmin.Resources tcadmin * result unit :=
  match calls with
  | [] => (rs, Ok tt)
  | c :: rest =>
      match match c with
            | Manage pattern => Tcadmin.manage tcadmin rs pattern
            | Add resource => Tcadmin.add tcadmin rs resource
            end with
      | (rs', Ok _) => run_calls rest rs'
      | (rs', Raise e) => (rs', Raise e)
      end
  end.

(** The calls that add the resources [made], in order; a resource that is
    not true is not added. *)
Definition adds (tcadmin : Tcadmin.Library)
    (made : list (Tcadmin.Resource tcadmin)) : list (call tcadmin) :=
  map Add (filter (Tcadmin.truthy tcadmin) made).

(** A run on the collection followed, if it returned, by [outcome]. *)
Definition and_then {S : Type} (run : S * result unit) (outcome : result unit)
  : S * result unit :=
  match run with
  | (rs, Ok _) => (rs, outcome)
  | (rs, Raise e) => (rs, Raise e)
  end.

(** The resource [r] is what the library's constructor made of the
    definition [wp] with the configuration [cfg]. *)
Definition made_of (tcadmin : Tcadmin.Library) (wp : ConfigWorkerPool)
    (cfg : value) (r : Tcadmin.Resource tcadmin) : Prop :=
  Tcadmin.WorkerPool tcadmin (pool_id wp) (description wp) (owner wp)
    (provider_id wp) cfg (email_on_error wp) = Ok r.

(** The resource [r] is the definition [wp] assembled: the constructor's
    result on the definition's fields and a configuration, which is what
    the generator of the provider's implementation returned for the
    definition's configuration or, for a provider the worker manager does
    not have, the definition's configuration itself. *)
Definition assembled
    (evaluate_keyed_by : value -> string -> dict -> result value)
    (merge : list value -> result value)
    (tcadmin : Tcadmin.Library) (environment : value)
    (worker_images : WorkerImages) (worker_defaults : value)
    (wp : ConfigWorkerPool) (r : Tcadmin.Resource tcadmin) : Prop :=
  exists worker_manager providers known cfg,
    py_getattr environment "worker_manager" = Ok worker_manager /\
    py_getitem worker_manager (VStr "providers") = Ok providers /\
    py_in (provider_id wp) providers = Ok known /\
    (if known then
       exists generator,
         dispatches evaluate_keyed_by merge environment wp generator /\
         generator environment (provider_id wp) (pool_id wp) (config wp)
           worker_images worker_defaults = Ok cfg
     else cfg = config wp) /\
    made_of tcadmin wp cfg r.

(** The first of [keys] the configuration [c] does not have. *)
Definition first_missing (keys : list string) (c : dict) : option string :=
  find (fun k => negb (dict_mem k c)) keys.

End Props.

(* ================================================================== *)
(** * Basic facts *)
(* ================================================================== *)

Module PyFacts.
Import Py.
Local Open Scope py_scope.

Section AssocFacts.
Context {A : Type}.
Implicit Types (d : list (string * A)) (k : string).

Lemma assoc_get_set_same k (v : A) d :
  assoc_get k (assoc_set k v d) = Some v.
Proof.
  induction d as [|[k' v'] d IH]; simpl.
  - now rewrite String.eqb_refl.
  - destruct (String.eqb k k') eqn:E; simpl.
    + now rewrite String.eqb_refl.
    + now rewrite E.
Qed.

Lemma assoc_get_set_other k k' (v : A) d :
  k <> k' -> assoc_get k (assoc_set k' v d) = assoc_get k d.
Proof.
  intros Hne. induction d as [|[k0 v0] d IH]; simpl.
  - destruct (String.eqb k k') eqn:E; [apply String.eqb_eq in E; tauto | easy].
  - destruct (String.eqb k' k0) eqn:E; simpl.
    + apply String.eqb_eq in E; subst k0.
      destruct (String.eqb k k') eqn:E'; [apply String.eqb_eq in E'; tauto | easy].
    + now rewrite IH.
Qed.

Lemma assoc_get_del_same k d : assoc_get k (assoc_del k d) = None.
Proof.
  induction d as [|[k' v'] d IH]; simpl; [easy|].
  destruct (String.eqb k k') eqn:E; simpl; [easy | now rewrite E].
Qed.

Lemma assoc_get_del_other k k' d :
  k <> k' -> assoc_get k (assoc_del k' d) = assoc_get k d.
Proof.
  intros Hne. induction d as [|[k0 v0] d IH]; simpl; [easy|].
  destruct (String.eqb k' k0) eqn:E; simpl.
  - apply String.eqb_eq in E; subst k0.
    destruct (String.eqb k k') eqn:E'; [apply String.eqb_eq in E'; tauto | easy].
  - now rewrite IH.
Qed.
End AssocFacts.

Lemma bind_ok {A B} (c : result A) (k : A -> result B) (r : B) :
  bind c k = Ok r -> exists a, c = Ok a /\ k a = Ok r.
Proof. destruct c; simpl; [eauto | discriminate]. Qed.

Lemma Ok_inj {A} (a b : A) : Ok a = Ok b -> a = b.
Proof. congruence. Qed.

Lemma VDict_inj (d e : dict) : VDict d = VDict e -> d = e.
Proof. congruence. Qed.

Lemma raises_Raise {A} (e : exn) : raises (@Raise A e).
Proof. now exists e. Qed.

Lemma raises_bind_l {A B} (c : result A) (k : A -> result B) :
  raises c -> raises (bind c k).
Proof. intros [e ->]. now exists e. Qed.

Lemma raises_bind_r {A B} (c : result A) (k : A -> result B) :
  (forall a, c = Ok a -> raises (k a)) -> raises (bind c k).
Proof.
  destruct c as [a|e]; simpl; intros H; [now apply H | apply raises_Raise].
Qed.

Lemma raises_not_ok {A} (c : result A) (a : A) : raises c -> c <> Ok a.
Proof. intros [e ->]. discriminate. Qed.

Lemma for_each_ok_inv {A B} (body : A -> result (list B)) xs ys :
  for_each xs body = Ok ys ->
  forall y, In y ys -> exists x l, In x xs /\ body x = Ok l /\ In y l.
Proof.
  revert ys. induction xs as [|x xs IH]; simpl; intros ys H y Hy.
  - inversion H; subst. destruct Hy.
  - apply bind_ok in H as (l & Hl & H).
    apply bind_ok in H as (zs & Hzs & H).
    inversion H; subst. apply in_app_or in Hy as [Hy|Hy].
    + exists x, l. auto.
    + destruct (IH _ Hzs _ Hy) as (x' & l' & ? & ? & ?).
      exists x', l'. auto.
Qed.

Lemma for_each_raises {A B} (body : A -> result (list B)) xs x :
  In x xs -> raises (body x) -> raises (for_each xs body).
Proof.
  induction xs as [|x' xs IH]; simpl; intros Hin Hr; [destruct Hin|].
  destruct Hin as [->|Hin].
  - now apply raises_bind_l.
  - apply raises_bind_r. intros l _.
    apply raises_bind_l. now apply IH.
Qed.

Lemma for_each_runs {A B} (body : A -> result (list B)) xs n :
  (forall x, In x xs -> exists l, body x = Ok l /\ List.length l = n) ->
  exists ys, for_each xs body = Ok ys /\ List.length ys = List.length xs * n.
Proof.
  induction xs as [|x xs IH]; intros H.
  - exists []. now split.
  - destruct (H x (or_introl eq_refl)) as (l & Hl & Hn).
    destruct IH as (ys & Hys & Hlen); [intros x' Hx'; apply H; now right|].
    exists (l ++ ys)%list. cbn [for_each]. rewrite Hl, Hys. cbn [bind].
    split; [reflexivity|]. rewrite length_app, Hn, Hlen. cbn. lia.
Qed.

Lemma for_check_ok_inv {A} (body : A -> result unit) xs :
  for_check xs body = Ok tt -> forall x, In x xs -> body x = Ok tt.
Proof.
  induction xs as [|x' xs IH]; simpl; intros H x Hin; [destruct Hin|].
  apply bind_ok in H as ([] & Hx & H).
  destruct Hin as [<-|Hin]; auto.
Qed.

Lemma for_check_ok {A} (body : A -> result unit) xs :
  (forall x, In x xs -> body x = Ok tt) -> for_check xs body = Ok tt.
Proof.
  induction xs as [|x' xs IH]; simpl; intros H; [easy|].
  rewrite (H x') by auto. simpl. apply IH. auto.
Qed.

Lemma for_check_raises {A} (body : A -> result unit) xs x :
  In x xs -> raises (body x) -> raises (for_check xs body).
Proof.
  induction xs as [|x' xs IH]; simpl; intros Hin Hr; [destruct Hin|].
  destruct Hin as [->|Hin].
  - now apply raises_bind_l.
  - apply raises_bind_r. intros _ _. now apply IH.
Qed.

End PyFacts.

(* ================================================================== *)
(** * The variant expander *)
(* ================================================================== *)

Module VariantFacts.
Import Py WorkerPools Props PyFacts.
Local Open Scope py_scope.

Lemma dict_mem_unfold k d :
  dict_mem k d = match dict_get k d with Some _ => true | None => false end.
Proof. reflexivity. Qed.

Lemma dict_mem_false k d : dict_mem k d = false -> dict_get k d = None.
Proof.
  unfold dict_mem, assoc_mem, dict_get.
  now destruct (assoc_get k d).
Qed.

Lemma dict_mem_get k d : dict_mem k d = true <-> exists v, dict_get k d = Some v.
Proof.
  unfold dict_mem, assoc_mem, dict_get.
  destruct (assoc_get k d); split; intros H; eauto; try discriminate.
  now destruct H.
Qed.

Lemma dict_get_update d e k :
  unique_keys e = true ->
  dict_get k (dict_update d e)
  = match dict_get k e with Some x => Some x | None => dict_get k d end.
Proof.
  unfold dict_update, assoc_update, dict_get.
  revert d. induction e as [|[k0 v0] e IH]; intros d Hu; simpl; [easy|].
  simpl in Hu. apply andb_true_iff in Hu as [Hk0 Hu].
  apply negb_true_iff, dict_mem_false in Hk0. unfold dict_get in Hk0.
  rewrite (IH _ Hu).
  destruct (String.eqb k k0) eqn:E.
  - apply String.eqb_eq in E; subst k0.
    now rewrite Hk0, assoc_get_set_same.
  - rewrite assoc_get_set_other; [easy|].
    intros ->. now rewrite String.eqb_refl in E.
Qed.

Lemma context_lookup_correct environment variant k :
  unique_keys variant = true ->
  dict_get k (dict_update [("environment", environment)] variant)
  = context_lookup environment variant k.
Proof.
  intros Hu. rewrite dict_get_update by easy.
  unfold context_lookup. destruct (dict_get k variant); [easy|].
  unfold dict_get. simpl. now destruct (String.eqb k "environment").
Qed.

Section Expander.
Variable evaluate_keyed_by : value -> string -> dict -> result value.

Local Abbreviation update_key := (update_key evaluate_keyed_by).
Local Abbreviation update_keys := (update_keys evaluate_keyed_by).
Local Abbreviation update_config := (update_config evaluate_keyed_by).
Local Abbreviation expand_variant := (expand_variant evaluate_keyed_by).
Local Abbreviation generate_pool_variants := (generate_pool_variants evaluate_keyed_by).

(** One pass of the loop of [update_config] on a dictionary. *)
Lemma update_key_dict name attributes c key :
  update_key name attributes (VDict c) key
  = match dict_get key c with
    | None => Ok (VDict c)
    | Some field =>
        r <- evaluate_keyed_by field name attributes ;;
        Ok (VDict (if is_None r then dict_del key c else dict_set key r c))
    end.
Proof.
  unfold WorkerPools.update_key. cbn [py_in py_getitem].
  rewrite dict_mem_unfold.
  destruct (dict_get key c) as [field|] eqn:E; cbn [bind]; [|easy].
  destruct (evaluate_keyed_by field name attributes) as [r|e]; cbn [bind]; [|easy].
  destruct (is_None r); cbn [negb py_setitem py_delitem]; [|easy].
  now rewrite dict_mem_unfold, E.
Qed.

Lemma update_keys_spec name attributes keys :
  NoDup keys ->
  forall c,
    (forall k field, In k keys -> dict_get k c = Some field ->
       is_ok (evaluate_keyed_by field name attributes) = true) ->
    exists c',
      update_keys keys name attributes (VDict c) = Ok (VDict c') /\
      (forall k field, In k keys -> dict_get k c = Some field ->
         exists r, evaluate_keyed_by field name attributes = Ok r /\
                   dict_get k c' = resolved_field r) /\
      (forall k, In k keys -> dict_get k c = None -> dict_get k c' = None) /\
      (forall k, ~ In k keys -> dict_get k c' = dict_get k c).
Proof.
  induction 1 as [|key keys Hnotin Hnd IH]; intros c Hok; simpl.
  - exists c. repeat split; auto; intros k ? [].
  - rewrite update_key_dict.
    destruct (dict_get key c) as [field|] eqn:Hkey.
    + pose proof (Hok key field (or_introl eq_refl) Hkey) as Hr.
      destruct (evaluate_keyed_by field name attributes) as [r|e] eqn:Er;
        [clear Hr | discriminate]; simpl.
      set (c1 := if is_None r then dict_del key c else dict_set key r c).
      assert (Hother : forall k, k <> key -> dict_get k c1 = dict_get k c).
      { intros k Hne. unfold c1, dict_get, dict_del, dict_set.
        destruct (is_None r);
          [apply assoc_get_del_other | apply assoc_get_set_other]; easy. }
      assert (Hsame : dict_get key c1 = resolved_field r).
      { unfold c1, resolved_field, dict_get, dict_del, dict_set.
        destruct (is_None r);
          [apply assoc_get_del_same | apply assoc_get_set_same]. }
      destruct (IH c1) as (c' & Hrun & Hres & Habs & Hrest).
      { intros k f Hin Hget. apply (Hok k f); [now right|].
        rewrite <- Hother; [easy|]. intros ->. contradiction. }
      exists c'. split; [easy|]. split; [|split].
      * intros k f [<-|Hin] Hget.
        -- rewrite Hkey in Hget. inversion Hget; subst f.
           exists r. split; [easy|]. now rewrite Hrest.
        -- apply Hres; [easy|]. rewrite Hother; [easy|].
           intros ->. contradiction.
      * intros k [<-|Hin] Hget; [congruence|].
        apply Habs; [easy|]. rewrite Hother; [easy|].
        intros ->. contradiction.
      * intros k Hk. rewrite Hrest by tauto. apply Hother.
        intros ->. apply Hk. now left.
    + destruct (IH c) as (c' & Hrun & Hres & Habs & Hrest).
      { intros k f Hin. apply Hok. now right. }
      exists c'. split; [easy|]. split; [|split].
      * intros k f [<-|Hin] Hget; [congruence | now apply Hres].
      * intros k [<-|Hin] Hget; [now rewrite Hrest | now apply Habs].
      * intros k Hk. apply Hrest. tauto.
Qed.

Lemma variant_keys_NoDup : NoDup variant_keys.
Proof.
  unfold variant_keys.
  repeat constructor; simpl; intuition discriminate.
Qed.

(** A run of the loop that returns resolved every field it found. *)
Lemma update_keys_resolved name attributes keys :
  NoDup keys ->
  forall c y,
    update_keys keys name attributes (VDict c) = Ok y ->
    forall k field, In k keys -> dict_get k c = Some field ->
      is_ok (evaluate_keyed_by field name attributes) = true.
Proof.
  induction 1 as [|key keys Hnotin Hnd IH]; intros c y Hrun k field Hin Hget.
  - destruct Hin.
  - cbn [WorkerPools.update_keys] in Hrun.
    apply bind_ok in Hrun as (c1 & Hkey & Hrun).
    rewrite update_key_dict in Hkey.
    destruct Hin as [<-|Hin].
    + rewrite Hget in Hkey.
      now destruct (evaluate_keyed_by field name attributes).
    + assert (Hne : k <> key) by (intros ->; contradiction).
      destruct (dict_get key c) as [f0|] eqn:Hk0.
      * apply bind_ok in Hkey as (r & Hr & Hkey).
        apply Ok_inj in Hkey. subst c1.
        eapply IH; [exact Hrun|exact Hin|].
        rewrite <- Hget. unfold dict_get, dict_del, dict_set.
        destruct (is_None r);
          [now apply assoc_get_del_other|now apply assoc_get_set_other].
      * apply Ok_inj in Hkey. subst c1.
        eapply IH; [exact Hrun|exact Hin|exact Hget].
Qed.

(** On anything but a mapping the loop changes nothing, if it returns. *)
Lemma update_keys_not_dict name attributes keys config y :
  Util.is_dict config = false ->
  update_keys keys name attributes config = Ok y -> y = config.
Proof.
  intros Hnd. revert y. induction keys as [|key keys IH]; intros y H.
  - now apply Ok_inj in H.
  - cbn [WorkerPools.update_keys] in H.
    apply bind_ok in H as (c1 & Hkey & H).
    assert (Hc1 : c1 = config).
    { unfold WorkerPools.update_key in Hkey.
      apply bind_ok in Hkey as (present & Hin & Hkey).
      destruct present; [|now apply Ok_inj in Hkey].
      apply bind_ok in Hkey as (field & Hfield & _).
      destruct config; discriminate. }
    subst c1. now apply IH.
Qed.

(** What [update_config] returned. *)
Lemma update_config_ok name attributes config config' :
  update_config config name attributes = Ok config' ->
  config_resolved evaluate_keyed_by name attributes config config'.
Proof.
  unfold WorkerPools.update_config. intros H.
  destruct config as [| | | | |c|];
    try (apply update_keys_not_dict in H; [exact H|reflexivity]).
  pose proof (@update_keys_resolved name attributes _ variant_keys_NoDup _ _ H)
    as Hok.
  destruct (update_keys_spec name attributes variant_keys_NoDup c Hok)
    as (c' & Hrun & Hres & Habs & Hrest).
  rewrite Hrun in H. apply Ok_inj in H. subst config'.
  assert (Hfield : forall k, In k variant_keys ->
            field_resolved evaluate_keyed_by name attributes c c' k).
  { intros k Hk. unfold field_resolved.
    destruct (dict_get k c) as [field|] eqn:Hget.
    - exact (Hres k field Hk Hget).
    - exact (Habs k Hk Hget). }
  exists c'. split; [reflexivity|].
  split; [apply Hfield; cbn; tauto|].
  split; [apply Hfield; cbn; tauto|].
  split; [apply Hfield; cbn; tauto|].
  split; [apply Hfield; cbn; tauto|].
  exact Hrest.
Qed.

(** What a successful expansion computed. *)
Lemma expand_variant_inv environment wp variant wp' :
  expand_variant environment wp variant = Ok wp' ->
  exists v,
    variant = VDict v /\
    py_format (pool_id wp) (VDict v) = Ok (pool_id wp') /\
    evaluate_keyed_by (provider_id wp) (pool_id wp')
      (dict_update [("environment", environment)] v) = Ok (provider_id wp') /\
    update_config (config wp) (pool_id wp')
      (dict_update [("environment", environment)] v) = Ok (config wp') /\
    variants wp' = [VDict []] /\
    description wp' = description wp /\
    owner wp' = owner wp /\
    email_on_error wp' = email_on_error wp.
Proof.
  unfold WorkerPools.expand_variant. intros H.
  apply bind_ok in H as (name & Hname & H).
  apply bind_ok in H as (attributes & Hattrs & H).
  apply bind_ok in H as (provider & Hprovider & H).
  apply bind_ok in H as (cfg & Hcfg & H).
  inversion H; subst wp'; clear H; simpl.
  destruct variant as [| | | | |v|]; try discriminate.
  simpl in Hattrs. inversion Hattrs; subst attributes; clear Hattrs.
  exists v. repeat split; auto.
Qed.

(** What a successful expansion returned. *)
Lemma expand_variant_ok environment wp variant wp' :
  expand_variant environment wp variant = Ok wp' ->
  expanded_by evaluate_keyed_by environment (wp, variant) wp'.
Proof.
  intros H. apply expand_variant_inv in H
    as (v & -> & Hname & Hprovider & Hcfg & Hvariants & Hdescription & Howner
          & Hemail).
  exists v, (dict_update [("environment", environment)] v).
  cbn [fst snd]. split; [reflexivity|]. split; [reflexivity|].
  split; [intros Hu k; now apply context_lookup_correct|].
  split; [exact Hname|]. split; [exact Hprovider|].
  split; [now apply update_config_ok|].
  now repeat split.
Qed.

Lemma yield_each_ok {A B} (body : A -> result B) xs :
  (forall x, In x xs -> is_ok (body x) = true) ->
  exists ys, yield_each xs body = (ys, None) /\
             Forall2 (fun x y => body x = Ok y) xs ys.
Proof.
  induction xs as [|x xs IH]; intros H; simpl.
  - exists []. now split.
  - pose proof (H x (or_introl eq_refl)) as Hx.
    destruct (body x) as [y|e] eqn:E; [|discriminate].
    destruct IH as (ys & -> & HF); [intros; apply H; now right|].
    exists (y :: ys). simpl. split; [easy|]. now constructor.
Qed.

Lemma generate_pool_variants_ok worker_pools environment :
  (forall wp variant, In (wp, variant) (pairs worker_pools) ->
     is_ok (expand_variant environment wp variant) = true) ->
  exists outs,
    generate_pool_variants worker_pools environment = (outs, None) /\
    Forall2 (fun p wp' => expand_variant environment (fst p) (snd p) = Ok wp')
      (pairs worker_pools) outs.
Proof.
  unfold WorkerPools.generate_pool_variants, pairs.
  induction worker_pools as [|wp wps IH]; intros H; simpl.
  - exists []. now split.
  - destruct (yield_each_ok (expand_variant environment wp) (variants wp))
      as (ys & Hys & HF).
    { intros v Hv. apply H. simpl. apply in_or_app. left.
      now apply in_map. }
    destruct IH as (zs & Hzs & HG).
    { intros wp0 v Hv. apply H. simpl. apply in_or_app. now right. }
    exists (ys ++ zs)%list. rewrite Hys, Hzs. simpl. split; [easy|].
    apply Forall2_app; [|easy].
    clear -HF. induction HF; simpl; constructor; auto.
Qed.

End Expander.
End VariantFacts.

(* ================================================================== *)
(** * The provider generators *)
(* ================================================================== *)

Module GeneratorFacts.
Import Py WorkerPools Props PyFacts VariantFacts.
Local Open Scope py_scope.

Lemma split_once_none sep s :
  contains_char sep s = false -> split_once sep s = None.
Proof.
  induction s as [|c s IH]; simpl; [easy|].
  intros H. apply orb_false_iff in H as [Hc Hs].
  rewrite Hc. now rewrite IH.
Qed.

Lemma split_once_some sep s a b :
  split_once sep s = Some (a, b) ->
  s = a ++ String sep b /\ contains_char sep a = false.
Proof.
  revert a. induction s as [|c s IH]; simpl; intros a H; [discriminate|].
  destruct (Ascii.eqb c sep) eqn:E.
  - apply Ascii.eqb_eq in E; subst c. inversion H; subst. now split.
  - destruct (split_once sep s) as [[a' b']|]; [|discriminate].
    inversion H; subst. destruct (IH a' eq_refl) as [-> Ha].
    simpl. now rewrite E.
Qed.

Lemma dict_get_del_other k k' d :
  k <> k' -> dict_get k (dict_del k' d) = dict_get k d.
Proof. apply assoc_get_del_other. Qed.

Lemma dict_get_default_del_other k k' v d :
  k <> k' -> dict_get_default k v (dict_del k' d) = dict_get_default k v d.
Proof. intros H. unfold dict_get_default. now rewrite dict_get_del_other. Qed.

(** Reads of keys that were not popped see the original configuration. *)
Ltac forget_pops :=
  repeat (rewrite dict_get_del_other by discriminate);
  repeat (rewrite dict_get_default_del_other by discriminate).

(** Both sides run the same computation next: follow its outcome. *)
Ltac in_step :=
  repeat (cbn [py_pop py_pop_default py_getitem py_get bind]; forget_pops;
          match goal with
          | |- bind ?c _ = _ => destruct c; [|reflexivity]
          end);
  cbn [py_pop py_pop_default py_getitem py_get bind].

(** The goal is that a chain of computations raises and only its last
    step is known to: let every earlier step return. *)
Ltac raises_through :=
  cbv zeta;
  repeat match goal with
         | |- raises (bind _ _) => apply raises_bind_r; intros ? _
         end.

(** ** Capacity validation *)

Lemma getitem_str_ok c k v :
  py_getitem c (VStr k) = Ok v -> exists d, c = VDict d /\ dict_get k d = Some v.
Proof.
  destruct c as [| | | |xs|d|]; try discriminate.
  cbn [py_getitem]. intros H. exists d. split; [easy|].
  destruct (dict_get k d); now inversion H.
Qed.

Lemma py_get_ok c k dflt v :
  py_get c k dflt = Ok v -> exists d, c = VDict d /\ v = dict_get_default k dflt d.
Proof.
  destruct c as [| | | |xs|d|]; try discriminate.
  cbn [py_get]. intros H. inversion H. now exists d.
Qed.

(** An instance type that passes validation. *)
Lemma validate_instance_type_ok pool_id implementation it :
  validate_instance_type pool_id implementation it = Ok tt ->
  exists d,
    it = VDict d /\
    dict_mem "capacity" d = false /\
    py_in (VStr "capacity") (dict_get_default "worker-config" (VDict []) d)
      = Ok false /\
    (py_eq (dict_get_default "capacityPerInstance" (VInt 1) d) (VInt 1) = true
     \/ py_eq implementation docker_worker = true).
Proof.
  unfold validate_instance_type. intros H.
  apply bind_ok in H as (top & Htop & H).
  destruct top; [discriminate|].
  apply bind_ok in H as (wc & Hwc & H).
  apply py_get_ok in Hwc as (d & -> & ->).
  apply bind_ok in H as (nested & Hnested & H).
  destruct nested; [discriminate|].
  cbn [py_get bind] in H.
  exists d. cbn [py_in] in Htop. injection Htop as Hmem.
  split; [easy|]. split; [easy|]. split; [easy|].
  destruct (py_eq (dict_get_default "capacityPerInstance" (VInt 1) d) (VInt 1));
    [now left|].
  destruct (py_eq implementation docker_worker); [now right|].
  discriminate.
Qed.

(** The converse: what makes an instance type pass. *)
Lemma validate_instance_type_passes pool_id implementation d :
  dict_mem "capacity" d = false ->
  py_in (VStr "capacity") (dict_get_default "worker-config" (VDict []) d)
    = Ok false ->
  py_eq (dict_get_default "capacityPerInstance" (VInt 1) d) (VInt 1) = true
  \/ py_eq implementation docker_worker = true ->
  validate_instance_type pool_id implementation (VDict d) = Ok tt.
Proof.
  intros Htop Hnested Hcpi. unfold validate_instance_type.
  cbn [py_in py_get bind]. rewrite Htop, Hnested. cbn [bind].
  destruct Hcpi as [-> | ->]; [easy|].
  now rewrite andb_false_r.
Qed.

Lemma validate_instance_type_capacity_key pool_id implementation d :
  dict_mem "capacity" d = true ->
  raises (validate_instance_type pool_id implementation (VDict d)).
Proof.
  intros H. unfold validate_instance_type. cbn [py_in bind]. rewrite H.
  apply raises_Raise.
Qed.

Lemma validate_instance_type_capacity_per_instance pool_id implementation d :
  py_eq (dict_get_default "capacityPerInstance" (VInt 1) d) (VInt 1) = false ->
  py_eq implementation docker_worker = false ->
  raises (validate_instance_type pool_id implementation (VDict d)).
Proof.
  intros Hcpi Himpl. unfold validate_instance_type. cbn [py_in py_get bind].
  destruct (dict_mem "capacity" d); [apply raises_Raise|].
  apply raises_bind_r. intros nested _.
  destruct nested; [apply raises_Raise|].
  rewrite Hcpi, Himpl. apply raises_Raise.
Qed.

Lemma validation_raises pool_id implementation its it :
  In it its ->
  raises (validate_instance_type pool_id implementation it) ->
  raises (_validate_instance_capacity pool_id implementation (VList its)).
Proof.
  intros Hin Hr. unfold _validate_instance_capacity. cbn [py_iter bind].
  eapply for_check_raises; eassumption.
Qed.

Lemma validation_ok pool_id implementation its_v :
  _validate_instance_capacity pool_id implementation its_v = Ok tt ->
  exists its,
    py_iter its_v = Ok its /\
    forall it, In it its ->
      validate_instance_type pool_id implementation it = Ok tt.
Proof.
  unfold _validate_instance_capacity. intros H.
  apply bind_ok in H as (its & Hits & H).
  exists its. split; [easy|]. now apply for_check_ok_inv.
Qed.

(** ** The AWS check of instance types against zones *)

Lemma is_invalid_without_dot invalid_instances zone s :
  contains_char "." s = false ->
  is_invalid_aws_instance_type invalid_instances zone (VStr s)
  = Raise (ValueError "not enough values to unpack (expected 2, got 1)").
Proof.
  intros H. unfold is_invalid_aws_instance_type.
  now rewrite (split_once_none _ _ H).
Qed.

(** ** Keys that survive the edits of a launch configuration *)

Lemma dict_get_update_other k d e :
  dict_mem k e = false -> dict_get k (dict_update d e) = dict_get k d.
Proof.
  unfold dict_update, assoc_update, dict_mem, assoc_mem, dict_get.
  revert d. induction e as [|[k0 v0] e IH]; intros d H; simpl in *; [easy|].
  destruct (String.eqb k k0) eqn:E; [discriminate|].
  rewrite IH by easy. apply assoc_get_set_other.
  intros ->. now rewrite String.eqb_refl in E.
Qed.

Lemma holds_setitem k v x k' w y :
  k <> k' -> holds k v x -> py_setitem x k' w = Ok y -> holds k v y.
Proof.
  intros Hne (d & -> & Hd) H. cbn [py_setitem] in H. inversion H.
  exists (dict_set k' w d). split; [easy|].
  unfold dict_get, dict_set. now rewrite assoc_get_set_other.
Qed.

Lemma holds_pop_default k v x k' dflt p y :
  k <> k' -> holds k v x -> py_pop_default x k' dflt = Ok (p, y) -> holds k v y.
Proof.
  intros Hne (d & -> & Hd) H. cbn [py_pop_default] in H. inversion H.
  exists (dict_del k' d). split; [easy|]. now rewrite dict_get_del_other.
Qed.

Lemma holds_pop k v x k' p y :
  k <> k' -> holds k v x -> py_pop x k' = Ok (p, y) -> holds k v y.
Proof.
  intros Hne (d & -> & Hd) H. cbn [py_pop] in H.
  destruct (dict_get k' d); inversion H.
  exists (dict_del k' d). split; [easy|]. now rewrite dict_get_del_other.
Qed.

Lemma holds_update k v x e y :
  dict_mem k e = false -> holds k v x -> py_update x (VDict e) = Ok y ->
  holds k v y.
Proof.
  intros Hk (d & -> & Hd) H. cbn [py_update] in H. inversion H.
  exists (dict_update d e). split; [easy|]. now rewrite dict_get_update_other.
Qed.

Lemma holds_setdefault k w x y :
  py_setdefault x k w = Ok y ->
  exists d, x = VDict d /\ holds k (dict_get_default k w d) y.
Proof.
  destruct x as [| | | |xs|d|]; try discriminate.
  cbn [py_setdefault]. intros H. inversion H. exists d. split; [easy|].
  unfold dict_get_default. rewrite dict_mem_unfold.
  destruct (dict_get k d) as [v|] eqn:E.
  - now exists d.
  - exists (dict_set k w d). split; [easy|].
    unfold dict_get, dict_set. apply assoc_get_set_same.
Qed.

Lemma holds_substitute_images k v image_name x y :
  k <> "disks" -> holds k v x -> substitute_images image_name x = Ok y ->
  holds k v y.
Proof.
  intros Hne Hx H. unfold substitute_images in H.
  apply bind_ok in H as (disks & _ & H).
  destruct disks;
    try (apply bind_ok in H as (? & _ & H);
         apply bind_ok in H as (? & _ & H);
         now inversion H; subst).
  apply bind_ok in H as (ds & _ & H).
  eapply holds_setitem; eassumption.
Qed.

Section Generic.
Variable evaluate_keyed_by : value -> string -> dict -> result value.
Variable merge : list value -> result value.

Lemma resolved_config_dict c lifecycle launch_configs :
  resolved_config (VDict c) lifecycle launch_configs
  = match dict_get "maxCapacity" c with
    | Some max_capacity =>
        Ok (VDict [("minCapacity", dict_get_default "minCapacity" (VInt 0) c);
                   ("maxCapacity", max_capacity);
                   ("lifecycle", lifecycle);
                   ("launchConfigs", VList launch_configs)])
    | None => Raise (KeyError "maxCapacity")
    end.
Proof.
  unfold resolved_config. cbn [py_get py_getitem bind].
  now destruct (dict_get "maxCapacity" c).
Qed.

(** The AWS generator with every read made against the configuration as
    it was passed in: the keys it pops are never read again. *)
Lemma get_aws_provider_config_dict environment provider_id pool_id c
    worker_images defaults :
  get_aws_provider_config evaluate_keyed_by merge environment provider_id
    pool_id (VDict c) worker_images defaults
  = (regions <- py_getitem (VDict c) (VStr "regions") ;;
     image_name <- py_getitem (VDict c) (VStr "image") ;;
     image <- worker_images image_name ;;
     instance_types <- py_getitem (VDict c) (VStr "instance_types") ;;
     let security := dict_get_default "security" (VStr "untrusted") c in
     let spot := dict_get_default "spot" (VBool true) c in
     let user_data := dict_get_default "additional-user-data" (VDict []) c in
     let implementation := dict_get_default "implementation" docker_worker c in
     defaults <- evaluate_keyed_by defaults "defaults"
                   [("provider", provider_id)] ;;
     aws_config <- py_getattr environment "aws_config" ;;
     default_lifecycle <- py_get defaults "lifecycle" (VDict []) ;;
     lifecycle <- merge [default_lifecycle;
                         dict_get_default "lifecycle" (VDict []) c] ;;
     default_worker_config <- py_get defaults "worker-config" (VDict []) ;;
     worker_config <- evaluate_keyed_by default_worker_config pool_id
                        [("implementation", implementation)] ;;
     worker_config <- merge [worker_config;
                             dict_get_default "worker-config" (VDict []) c] ;;
     _validate_instance_capacity pool_id implementation instance_types ;;;
     regions <- py_iter regions ;;
     launch_configs <-
       for_each regions
         (aws_region_launch_configs evaluate_keyed_by merge pool_id
            provider_id image aws_config security worker_config
            implementation spot user_data instance_types) ;;
     resolved_config (VDict c) lifecycle launch_configs).
Proof.
  unfold get_aws_provider_config.
  cbn [py_pop py_pop_default py_getitem py_get bind].
  destruct (dict_get "regions" c) as [regions|]; [|easy].
  in_step.
  rewrite !resolved_config_dict. forget_pops. reflexivity.
Qed.

(** The same for Azure, which never reads the popped [spot] and
    [additional-user-data]. *)
Lemma get_azure_provider_config_dict environment provider_id pool_id c
    worker_images defaults :
  get_azure_provider_config evaluate_keyed_by merge environment provider_id
    pool_id (VDict c) worker_images defaults
  = (locations <- py_getitem (VDict c) (VStr "locations") ;;
     image_rgroup <- py_getitem (VDict c) (VStr "image_resource_group") ;;
     vmSizes <- py_getitem (VDict c) (VStr "vmSizes") ;;
     purpose <- py_getitem (VDict c) (VStr "worker-purpose") ;;
     image_name <- py_getitem (VDict c) (VStr "image") ;;
     image <- worker_images image_name ;;
     let implementation :=
       dict_get_default "implementation"
         (VStr "generic-worker/worker-runner-windows") c in
     defaults <- evaluate_keyed_by defaults "defaults"
                   [("provider", provider_id)] ;;
     azure_config <- py_getattr environment "azure_config" ;;
     default_lifecycle <- py_get defaults "lifecycle" (VDict []) ;;
     lifecycle <- merge [default_lifecycle;
                         dict_get_default "lifecycle" (VDict []) c] ;;
     default_worker_config <- py_get defaults "worker-config" (VDict []) ;;
     worker_config <- evaluate_keyed_by default_worker_config pool_id
                        [("implementation", implementation)] ;;
     worker_config <- merge [worker_config;
                             dict_get_default "worker-config" (VDict []) c] ;;
     let tags := dict_get_default "tags" (VDict []) c in
     locations <- py_iter locations ;;
     launch_configs <-
       for_each locations
         (azure_location_launch_configs merge provider_id image azure_config
            image_rgroup purpose worker_config tags vmSizes) ;;
     resolved_config (VDict c) lifecycle launch_configs).
Proof.
  unfold get_azure_provider_config.
  cbn [py_pop py_pop_default py_getitem py_get bind].
  destruct (dict_get "locations" c) as [locations|]; [|easy].
  cbn [py_pop py_pop_default py_getitem py_get bind]. forget_pops.
  destruct (dict_get "image_resource_group" c) as [image_rgroup|]; [|easy].
  in_step.
  rewrite !resolved_config_dict. forget_pops. reflexivity.
Qed.

(** The same for Google. *)
Lemma get_google_provider_config_dict environment provider_id pool_id c
    worker_images defaults :
  get_google_provider_config evaluate_keyed_by merge environment provider_id
    pool_id (VDict c) worker_images defaults
  = (regions <- py_getitem (VDict c) (VStr "regions") ;;
     image_name <- py_getitem (VDict c) (VStr "image") ;;
     image <- worker_images image_name ;;
     instance_types <- py_getitem (VDict c) (VStr "instance_types") ;;
     let implementation := dict_get_default "implementation" docker_worker c in
     defaults <- evaluate_keyed_by defaults "defaults"
                   [("provider", provider_id)] ;;
     google_config <- py_getattr environment "google_config" ;;
     default_lifecycle <- py_get defaults "lifecycle" (VDict []) ;;
     lifecycle <- merge [default_lifecycle;
                         dict_get_default "lifecycle" (VDict []) c] ;;
     default_worker_config <- py_get defaults "worker-config" (VDict []) ;;
     worker_config <- evaluate_keyed_by default_worker_config pool_id
                        [("implementation", implementation)] ;;
     worker_config <- merge [worker_config;
                             dict_get_default "worker-config" (VDict []) c] ;;
     image_name <- image_id image provider_id None ;;
     _validate_instance_capacity pool_id implementation instance_types ;;;
     regions <- py_iter regions ;;
     launch_configs <-
       for_each regions
         (google_region_launch_configs evaluate_keyed_by merge pool_id
            google_config image_name worker_config implementation
            instance_types) ;;
     resolved_config (VDict c) lifecycle launch_configs).
Proof.
  unfold get_google_provider_config.
  cbn [py_pop py_pop_default py_getitem py_get bind].
  destruct (dict_get "regions" c) as [regions|]; [|easy].
  in_step.
  rewrite !resolved_config_dict. forget_pops. reflexivity.
Qed.

(** A generator handed anything but a dictionary raises at its first
    [pop]. *)
Lemma generators_need_a_dict environment provider_id pool_id config
    worker_images defaults res :
  get_aws_provider_config evaluate_keyed_by merge environment provider_id
    pool_id config worker_images defaults = Ok res \/
  get_azure_provider_config evaluate_keyed_by merge environment provider_id
    pool_id config worker_images defaults = Ok res \/
  get_google_provider_config evaluate_keyed_by merge environment provider_id
    pool_id config worker_images defaults = Ok res ->
  exists c, config = VDict c.
Proof.
  destruct config; try (now intros [H|[H|H]]; discriminate H).
  eauto.
Qed.

Lemma resolved_config_ok c lifecycle launch_configs res :
  resolved_config (VDict c) lifecycle launch_configs = Ok res ->
  exists max_capacity,
    dict_get "maxCapacity" c = Some max_capacity /\
    res = resolved_pool (dict_get_default "minCapacity" (VInt 0) c)
            max_capacity lifecycle launch_configs.
Proof.
  rewrite resolved_config_dict.
  destruct (dict_get "maxCapacity" c) as [m|]; [|discriminate].
  intros H. inversion H. now exists m.
Qed.

Lemma aws_resolved_from environment provider_id pool_id c worker_images
    defaults res :
  get_aws_provider_config evaluate_keyed_by merge environment provider_id
    pool_id (VDict c) worker_images defaults = Ok res ->
  resolved_from evaluate_keyed_by merge provider_id c defaults res.
Proof.
  rewrite get_aws_provider_config_dict. cbv zeta. intros H.
  apply bind_ok in H as (regions & _ & H).
  apply bind_ok in H as (image_name & _ & H).
  apply bind_ok in H as (image & _ & H).
  apply bind_ok in H as (its & _ & H).
  apply bind_ok in H as (resolved & Hresolved & H).
  apply bind_ok in H as (aws_config & _ & H).
  apply bind_ok in H as (default_lifecycle & Hdl & H).
  apply bind_ok in H as (lifecycle & Hlifecycle & H).
  apply bind_ok in H as (dwc & _ & H).
  apply bind_ok in H as (wc0 & _ & H).
  apply bind_ok in H as (wc & _ & H).
  apply bind_ok in H as (u & _ & H).
  apply bind_ok in H as (rs & _ & H).
  apply bind_ok in H as (lcs & _ & H).
  apply resolved_config_ok in H as (m & Hm & ->).
  now exists m, lifecycle, lcs, resolved, default_lifecycle.
Qed.

Lemma azure_resolved_from environment provider_id pool_id c worker_images
    defaults res :
  get_azure_provider_config evaluate_keyed_by merge environment provider_id
    pool_id (VDict c) worker_images defaults = Ok res ->
  resolved_from evaluate_keyed_by merge provider_id c defaults res.
Proof.
  rewrite get_azure_provider_config_dict. cbv zeta. intros H.
  apply bind_ok in H as (locations & _ & H).
  apply bind_ok in H as (image_rgroup & _ & H).
  apply bind_ok in H as (vmSizes & _ & H).
  apply bind_ok in H as (purpose & _ & H).
  apply bind_ok in H as (image_name & _ & H).
  apply bind_ok in H as (image & _ & H).
  apply bind_ok in H as (resolved & Hresolved & H).
  apply bind_ok in H as (azure_config & _ & H).
  apply bind_ok in H as (default_lifecycle & Hdl & H).
  apply bind_ok in H as (lifecycle & Hlifecycle & H).
  apply bind_ok in H as (dwc & _ & H).
  apply bind_ok in H as (wc0 & _ & H).
  apply bind_ok in H as (wc & _ & H).
  apply bind_ok in H as (ls & _ & H).
  apply bind_ok in H as (lcs & _ & H).
  apply resolved_config_ok in H as (m & Hm & ->).
  now exists m, lifecycle, lcs, resolved, default_lifecycle.
Qed.

Lemma google_resolved_from environment provider_id pool_id c worker_images
    defaults res :
  get_google_provider_config evaluate_keyed_by merge environment provider_id
    pool_id (VDict c) worker_images defaults = Ok res ->
  resolved_from evaluate_keyed_by merge provider_id c defaults res.
Proof.
  rewrite get_google_provider_config_dict. cbv zeta. intros H.
  apply bind_ok in H as (regions & _ & H).
  apply bind_ok in H as (image_name & _ & H).
  apply bind_ok in H as (image & _ & H).
  apply bind_ok in H as (its & _ & H).
  apply bind_ok in H as (resolved & Hresolved & H).
  apply bind_ok in H as (google_config & _ & H).
  apply bind_ok in H as (default_lifecycle & Hdl & H).
  apply bind_ok in H as (lifecycle & Hlifecycle & H).
  apply bind_ok in H as (dwc & _ & H).
  apply bind_ok in H as (wc0 & _ & H).
  apply bind_ok in H as (wc & _ & H).
  apply bind_ok in H as (image_id & _ & H).
  apply bind_ok in H as (u & _ & H).
  apply bind_ok in H as (rs & _ & H).
  apply bind_ok in H as (lcs & _ & H).
  apply resolved_config_ok in H as (m & Hm & ->).
  now exists m, lifecycle, lcs, resolved, default_lifecycle.
Qed.

Lemma no_max_capacity_raises c lifecycle launch_configs :
  dict_get "maxCapacity" c = None ->
  raises (resolved_config (VDict c) lifecycle launch_configs).
Proof.
  intros H. rewrite resolved_config_dict, H. apply raises_Raise.
Qed.

Lemma generator_of name g :
  PROVIDER_IMPLEMENTATIONS evaluate_keyed_by merge name = Ok g ->
  g = get_aws_provider_config evaluate_keyed_by merge \/
  g = get_azure_provider_config evaluate_keyed_by merge \/
  g = get_google_provider_config evaluate_keyed_by merge.
Proof.
  unfold PROVIDER_IMPLEMENTATIONS. intros H.
  repeat match type of H with
         | match ?x with _ => _ end = _ => destruct x; try discriminate H
         end;
    inversion H; auto.
Qed.

(** ** What the AWS generator emits *)

(** One pass of the innermost loop either skips the instance type,
    because the check says it is invalid in the zone, or builds one launch
    configuration. *)
Lemma aws_launch_config_ok provider_id image aws_config security_groups
    subnet_id worker_config implementation spot user_data region
    availability_zone it l :
  aws_launch_config merge provider_id image aws_config security_groups
    subnet_id worker_config implementation spot user_data region
    availability_zone it = Ok l ->
  exists d invalid name,
    it = VDict d /\
    dict_get "instanceType" d = Some name /\
    py_getitem aws_config (VStr "invalid-instances") = Ok invalid /\
    ((is_invalid_aws_instance_type invalid availability_zone name = Ok true /\
      l = []) \/
     (is_invalid_aws_instance_type invalid availability_zone name = Ok false /\
      exists inner instance_worker_config aud,
        l = [aws_launch (capacity_per_instance d) region inner
               instance_worker_config aud] /\
        aws_instance_worker_config merge worker_config implementation d
          = Ok instance_worker_config)).
Proof.
  unfold aws_launch_config. intros H.
  apply bind_ok in H as (invalid & Hinvalid & H).
  apply bind_ok in H as (name & Hname & H).
  apply getitem_str_ok in Hname as (d & -> & Hname).
  apply bind_ok in H as (skip & Hskip & H).
  exists d, invalid, name. repeat split; try easy.
  destruct skip.
  - left. inversion H. now split.
  - right. split; [easy|].
    apply bind_ok in H as (iwc & Hiwc & H).
    apply bind_ok in H as (cpi & Hcpi & H).
    apply bind_ok in H as (ami & _ & H).
    apply bind_ok in H as (name' & _ & H).
    apply bind_ok in H as (aud0 & _ & H).
    apply bind_ok in H as (own_aud & _ & H).
    apply bind_ok in H as (aud & _ & H).
    apply bind_ok in H as (override & _ & H).
    apply bind_ok in H as (inner0 & _ & H).
    apply bind_ok in H as (inner & _ & H).
    cbn [py_get] in Hcpi. inversion Hcpi; subst cpi.
    inversion H; subst l.
    exists inner, iwc, aud. split; [reflexivity|].
    unfold aws_instance_worker_config.
    destruct (py_eq implementation docker_worker);
      cbn [py_get bind] in Hiwc; exact Hiwc.
Qed.

Lemma aws_launch_config_emits provider_id image aws_config security_groups
    subnet_id worker_config implementation spot user_data region
    availability_zone it l lc :
  aws_launch_config merge provider_id image aws_config security_groups
    subnet_id worker_config implementation spot user_data region
    availability_zone it = Ok l ->
  In lc l ->
  exists d inner instance_worker_config aud,
    it = VDict d /\
    lc = aws_launch (capacity_per_instance d) region inner
           instance_worker_config aud /\
    aws_instance_worker_config merge worker_config implementation d
      = Ok instance_worker_config.
Proof.
  intros H Hin.
  apply aws_launch_config_ok in H
    as (d & invalid & name & -> & _ & _ & [[_ ->]|[_ H]]); [destruct Hin|].
  destruct H as (inner & iwc & aud & -> & Hiwc).
  destruct Hin as [<-|[]]. now exists d, inner, iwc, aud.
Qed.

(** Every launch configuration in the result of the AWS generator was
    built from an instance type that passed validation. *)
Lemma aws_emitted environment provider_id pool_id c worker_images defaults
    res :
  get_aws_provider_config evaluate_keyed_by merge environment provider_id
    pool_id (VDict c) worker_images defaults = Ok res ->
  forall lc, In lc (launch_configs_of res) ->
      exists d region inner worker_config instance_worker_config aud,
        from_instance_types c d /\
        validate_instance_type pool_id
          (dict_get_default "implementation" docker_worker c) (VDict d)
          = Ok tt /\
        lc = aws_launch (capacity_per_instance d) region inner
               instance_worker_config aud /\
        aws_instance_worker_config merge worker_config
          (dict_get_default "implementation" docker_worker c) d
          = Ok instance_worker_config.
Proof.
  rewrite get_aws_provider_config_dict. cbv zeta. intros H.
  apply bind_ok in H as (regions_v & _ & H).
  apply bind_ok in H as (image_name & _ & H).
  apply bind_ok in H as (image & _ & H).
  apply bind_ok in H as (its_v & Hits_v & H).
  apply getitem_str_ok in Hits_v as (c0 & Hc0 & Hits_v).
  apply VDict_inj in Hc0. subst c0.
  apply bind_ok in H as (resolved & _ & H).
  apply bind_ok in H as (aws_config & _ & H).
  apply bind_ok in H as (default_lifecycle & _ & H).
  apply bind_ok in H as (lifecycle & _ & H).
  apply bind_ok in H as (dwc & _ & H).
  apply bind_ok in H as (wc0 & _ & H).
  apply bind_ok in H as (wc & _ & H).
  apply bind_ok in H as ([] & Hvalid & H).
  apply bind_ok in H as (regions & _ & H).
  apply bind_ok in H as (lcs & Hlcs & H).
  apply resolved_config_ok in H as (m & _ & ->).
  apply validation_ok in Hvalid as (its & Hits & Hvalid).
  intros lc Hlc. change (In lc lcs) in Hlc.
  destruct (@for_each_ok_inv _ _ _ _ _ Hlcs _ Hlc) as (region & l1 & _ & Hregion & Hl1).
  unfold aws_region_launch_configs in Hregion.
  apply bind_ok in Hregion as (az_rule & _ & Hregion).
  apply bind_ok in Hregion as (azs_v & _ & Hregion).
  apply bind_ok in Hregion as (sg_rule & _ & Hregion).
  apply bind_ok in Hregion as (sgs & _ & Hregion).
  apply bind_ok in Hregion as (azs & _ & Hregion).
  destruct (@for_each_ok_inv _ _ _ _ _ Hregion _ Hl1) as (az & l2 & _ & Hzone & Hl2).
  unfold aws_zone_launch_configs in Hzone.
  apply bind_ok in Hzone as (subnet_rule & _ & Hzone).
  apply bind_ok in Hzone as (subnet_id & _ & Hzone).
  apply bind_ok in Hzone as (its' & Hits' & Hzone).
  rewrite Hits in Hits'. inversion Hits'; subst its'.
  destruct (@for_each_ok_inv _ _ _ _ _ Hzone _ Hl2) as (it & l3 & Hit & Hbody & Hl3).
  destruct (aws_launch_config_emits _ _ _ _ _ _ _ _ _ _ _ _ _ Hbody Hl3)
    as (d & inner & iwc & aud & -> & -> & Hiwc).
  exists d, region, inner, wc, iwc, aud.
  split; [now exists its_v, its|].
  split; [now apply Hvalid|]. now split.
Qed.

(** ** What the Google generator emits *)

Lemma google_launch_config_emits image_name worker_config implementation
    region zone it l lc :
  google_launch_config merge image_name worker_config implementation region
    zone it = Ok l ->
  In lc l ->
  exists d, it = VDict d /\
            holds "capacityPerInstance" (capacity_per_instance d) lc.
Proof.
  unfold google_launch_config. intros H Hin.
  set (k := "capacityPerInstance").
  apply bind_ok in H as (lc1 & H1 & H).
  apply holds_setdefault in H1 as (d & -> & K1).
  exists d. split; [easy|]. fold (capacity_per_instance d) in K1.
  set (v := capacity_per_instance d) in *.
  apply bind_ok in H as (lc2 & H2 & H).
  assert (K2 : holds k v lc2)
    by (eapply holds_update; [|exact K1|exact H2]; reflexivity).
  apply bind_ok in H as (lc3 & H3 & H).
  assert (K3 : holds k v lc3)
    by (eapply holds_substitute_images; [|exact K2|exact H3]; discriminate).
  apply bind_ok in H as ([own lc4] & H4 & H).
  assert (K4 : holds k v lc4)
    by (eapply holds_pop_default; [|exact K3|exact H4]; discriminate).
  apply bind_ok in H as (workerConfig & _ & H).
  apply bind_ok in H as (lc5 & H5 & H).
  assert (K5 : holds k v lc5)
    by (eapply holds_setitem; [|exact K4|exact H5]; discriminate).
  apply bind_ok in H as (lc6 & H6 & H).
  assert (K6 : holds k v lc6).
  { destruct (py_eq implementation docker_worker).
    - apply bind_ok in H6 as (current & _ & H6).
      apply bind_ok in H6 as (cpi & _ & H6).
      apply bind_ok in H6 as (wc' & _ & H6).
      eapply holds_setitem; [|exact K5|exact H6]. discriminate.
    - now inversion H6; subst. }
  apply bind_ok in H as ([machine_type lc7] & H7 & H).
  assert (K7 : holds k v lc7)
    by (eapply holds_pop; [|exact K6|exact H7]; discriminate).
  apply bind_ok in H as (lc8 & H8 & H).
  assert (K8 : holds k v lc8)
    by (eapply holds_setitem; [|exact K7|exact H8]; discriminate).
  apply bind_ok in H as (lc9 & H9 & H).
  assert (K9 : holds k v lc9)
    by (eapply holds_setitem; [|exact K8|exact H9]; discriminate).
  inversion H; subst l. now destruct Hin as [<-|[]].
Qed.

Lemma google_emitted environment provider_id pool_id c worker_images defaults
    res :
  get_google_provider_config evaluate_keyed_by merge environment provider_id
    pool_id (VDict c) worker_images defaults = Ok res ->
  forall lc, In lc (launch_configs_of res) ->
    exists d,
      from_instance_types c d /\
      validate_instance_type pool_id
        (dict_get_default "implementation" docker_worker c) (VDict d)
        = Ok tt /\
      holds "capacityPerInstance" (capacity_per_instance d) lc.
Proof.
  rewrite get_google_provider_config_dict. cbv zeta. intros H.
  apply bind_ok in H as (regions_v & _ & H).
  apply bind_ok in H as (image_name & _ & H).
  apply bind_ok in H as (image & _ & H).
  apply bind_ok in H as (its_v & Hits_v & H).
  apply getitem_str_ok in Hits_v as (c0 & Hc0 & Hits_v).
  apply VDict_inj in Hc0. subst c0.
  apply bind_ok in H as (resolved & _ & H).
  apply bind_ok in H as (google_config & _ & H).
  apply bind_ok in H as (default_lifecycle & _ & H).
  apply bind_ok in H as (lifecycle & _ & H).
  apply bind_ok in H as (dwc & _ & H).
  apply bind_ok in H as (wc0 & _ & H).
  apply bind_ok in H as (wc & _ & H).
  apply bind_ok in H as (img & _ & H).
  apply bind_ok in H as ([] & Hvalid & H).
  apply bind_ok in H as (regions & _ & H).
  apply bind_ok in H as (lcs & Hlcs & H).
  apply resolved_config_ok in H as (m & _ & ->).
  apply validation_ok in Hvalid as (its & Hits & Hvalid).
  intros lc Hlc. change (In lc lcs) in Hlc.
  destruct (@for_each_ok_inv _ _ _ _ _ Hlcs _ Hlc)
    as (region & l1 & _ & Hregion & Hl1).
  unfold google_region_launch_configs in Hregion.
  apply bind_ok in Hregion as (zone_rule & _ & Hregion).
  apply bind_ok in Hregion as (zones_v & _ & Hregion).
  apply bind_ok in Hregion as (zones & _ & Hregion).
  destruct (@for_each_ok_inv _ _ _ _ _ Hregion _ Hl1)
    as (zone & l2 & _ & Hzone & Hl2).
  unfold google_zone_launch_configs in Hzone.
  apply bind_ok in Hzone as (its' & Hits' & Hzone).
  rewrite Hits in Hits'. inversion Hits'; subst its'.
  destruct (@for_each_ok_inv _ _ _ _ _ Hzone _ Hl2)
    as (it & l3 & Hit & Hbody & Hl3).
  destruct (google_launch_config_emits _ _ _ _ _ _ _ Hbody Hl3)
    as (d & -> & K).
  exists d. split; [now exists its_v, its|].
  split; [now apply Hvalid | exact K].
Qed.

(** ** Raising in the AWS and Google generators *)

Lemma aws_launch_config_without_dot provider_id image aws_config
    security_groups subnet_id worker_config implementation spot user_data
    region zone d s :
  dict_get "instanceType" d = Some (VStr s) ->
  contains_char "." s = false ->
  raises (aws_launch_config merge provider_id image aws_config
            security_groups subnet_id worker_config implementation spot
            user_data region zone (VDict d)).
Proof.
  intros Hname Hdot. unfold aws_launch_config.
  apply raises_bind_r. intros invalid _.
  cbn [py_getitem bind]. rewrite Hname. cbn [bind].
  rewrite is_invalid_without_dot by exact Hdot. apply raises_Raise.
Qed.

(** The AWS generator raises when its innermost loop does, once a region
    with a zone leads there. *)
Lemma aws_raises_in_the_loop environment provider_id pool_id c worker_images
    defaults region regions zone zones its it aws az_rule :
  dict_get "regions" c = Some (VList (region :: regions)) ->
  dict_get "instance_types" c = Some (VList its) ->
  In it its ->
  py_getattr environment "aws_config" = Ok aws ->
  py_getitem aws (VStr "availability-zones") = Ok az_rule ->
  evaluate_keyed_by az_rule pool_id [("region", region)]
    = Ok (VList (zone :: zones)) ->
  (forall image security_groups subnet_id worker_config,
      raises (aws_launch_config merge provider_id image aws security_groups
                subnet_id worker_config
                (dict_get_default "implementation" docker_worker c)
                (dict_get_default "spot" (VBool true) c)
                (dict_get_default "additional-user-data" (VDict []) c)
                region zone it)) ->
  raises (get_aws_provider_config evaluate_keyed_by merge environment
            provider_id pool_id (VDict c) worker_images defaults).
Proof.
  intros Hregions Hits Hit Haws Haz_rule Haz Hbody.
  rewrite get_aws_provider_config_dict. cbv zeta.
  cbn [py_getitem]. rewrite Hregions, Hits. cbn [bind].
  apply raises_bind_r. intros image_name _.
  apply raises_bind_r. intros image _.
  apply raises_bind_r. intros resolved _.
  rewrite Haws. cbn [bind].
  apply raises_bind_r. intros default_lifecycle _.
  apply raises_bind_r. intros lifecycle _.
  apply raises_bind_r. intros dwc _.
  apply raises_bind_r. intros wc0 _.
  apply raises_bind_r. intros wc _.
  apply raises_bind_r. intros u _.
  cbn [py_iter bind]. apply raises_bind_l.
  apply for_each_raises with (x := region); [now left|].
  unfold aws_region_launch_configs.
  rewrite Haz_rule. cbn [bind]. rewrite Haz. cbn [bind].
  apply raises_bind_r. intros sg_rule _.
  apply raises_bind_r. intros sgs _.
  cbn [py_iter bind].
  apply for_each_raises with (x := zone); [now left|].
  unfold aws_zone_launch_configs.
  apply raises_bind_r. intros subnet_rule _.
  apply raises_bind_r. intros subnet _.
  cbn [py_iter bind].
  apply for_each_raises with (x := it); [exact Hit|].
  apply Hbody.
Qed.

(** Both generators raise when the capacity validation does. *)
Lemma aws_raises_in_validation environment provider_id pool_id c
    worker_images defaults its_v :
  dict_get "instance_types" c = Some its_v ->
  raises (_validate_instance_capacity pool_id
            (dict_get_default "implementation" docker_worker c) its_v) ->
  raises (get_aws_provider_config evaluate_keyed_by merge environment
            provider_id pool_id (VDict c) worker_images defaults).
Proof.
  intros Hits Hvalid.
  rewrite get_aws_provider_config_dict. cbv zeta.
  apply raises_bind_r. intros regions _.
  apply raises_bind_r. intros image_name _.
  apply raises_bind_r. intros image _.
  cbn [py_getitem]. rewrite Hits. cbn [bind].
  apply raises_bind_r. intros resolved _.
  apply raises_bind_r. intros aws _.
  apply raises_bind_r. intros default_lifecycle _.
  apply raises_bind_r. intros lifecycle _.
  apply raises_bind_r. intros dwc _.
  apply raises_bind_r. intros wc0 _.
  apply raises_bind_r. intros wc _.
  now apply raises_bind_l.
Qed.

Lemma google_raises_in_validation environment provider_id pool_id c
    worker_images defaults its_v :
  dict_get "instance_types" c = Some its_v ->
  raises (_validate_instance_capacity pool_id
            (dict_get_default "implementation" docker_worker c) its_v) ->
  raises (get_google_provider_config evaluate_keyed_by merge environment
            provider_id pool_id (VDict c) worker_images defaults).
Proof.
  intros Hits Hvalid.
  rewrite get_google_provider_config_dict. cbv zeta.
  apply raises_bind_r. intros regions _.
  apply raises_bind_r. intros image_name _.
  apply raises_bind_r. intros image _.
  cbn [py_getitem]. rewrite Hits. cbn [bind].
  apply raises_bind_r. intros resolved _.
  apply raises_bind_r. intros google _.
  apply raises_bind_r. intros default_lifecycle _.
  apply raises_bind_r. intros lifecycle _.
  apply raises_bind_r. intros dwc _.
  apply raises_bind_r. intros wc0 _.
  apply raises_bind_r. intros wc _.
  apply raises_bind_r. intros img _.
  now apply raises_bind_l.
Qed.

End Generic.
End GeneratorFacts.

(* ================================================================== *)
(** * The deep merge *)
(* ================================================================== *)

Module MergeFacts.
Import Py WorkerPools Props PyFacts VariantFacts.
Local Open Scope py_scope.

Lemma dict_get_app k (d e : dict) :
  dict_get k (d ++ e)%list
  = match dict_get k d with Some v => Some v | None => dict_get k e end.
Proof.
  unfold dict_get. induction d as [|[k0 v0] d IH]; simpl; [easy|].
  now destruct (String.eqb k k0).
Qed.

Lemma dict_get_filter_keys k (keep : string -> bool) (d : dict) :
  keep k = true ->
  dict_get k (filter (fun kv => keep (fst kv)) d) = dict_get k d.
Proof.
  intros Hk. unfold dict_get.
  induction d as [|[k0 v0] d IH]; simpl; [easy|].
  destruct (String.eqb k k0) eqn:E.
  - apply String.eqb_eq in E; subst k0. rewrite Hk. simpl.
    now rewrite String.eqb_refl.
  - destruct (keep k0); simpl; [now rewrite E | easy].
Qed.

Lemma filter_all {A} (f : A -> bool) (l : list A) :
  (forall x, f x = true) -> filter f l = l.
Proof.
  intros H. induction l as [|x l IH]; simpl; [easy|].
  now rewrite H, IH.
Qed.

(** A value that is not a mapping replaces whatever was there. *)
Lemma merge2_scalar a b : Util.is_dict b = false -> Util.merge2 a b = b.
Proof. destruct a, b; simpl; intros H; (reflexivity || discriminate). Qed.

Lemma merge2_onto_scalar a b : Util.is_dict a = false -> Util.merge2 a b = b.
Proof. destruct a, b; simpl; intros H; (reflexivity || discriminate). Qed.

Lemma merge2_empty b : Util.merge2 (VDict []) (VDict b) = VDict b.
Proof. simpl. now rewrite filter_all. Qed.

(** The merge of two mappings, key by key. *)
Lemma merge2_lookup a b :
  exists m,
    Util.merge2 (VDict a) (VDict b) = VDict m /\
    forall k,
      dict_get k m
      = match dict_get k a with
        | Some va =>
            Some (match dict_get k b with
                  | Some vb => Util.merge2 va vb
                  | None => va
                  end)
        | None => dict_get k b
        end.
Proof.
  simpl. eexists. split; [reflexivity|]. intros k.
  rewrite dict_get_app.
  match goal with
  | |- match dict_get k (?f a) with _ => _ end = _ => set (over := f)
  end.
  assert (Hover : forall a0,
    dict_get k (over a0)
    = match dict_get k a0 with
      | Some va =>
          Some (match dict_get k b with
                | Some vb => Util.merge2 va vb
                | None => va
                end)
      | None => None
      end).
  { unfold dict_get at 1 2. induction a0 as [|[k0 v0] a0 IH]; simpl; [easy|].
    destruct (String.eqb k k0) eqn:E; [|exact IH].
    apply String.eqb_eq in E. now subst k0. }
  rewrite Hover.
  destruct (dict_get k a) as [va|] eqn:Ea; [easy|].
  apply (dict_get_filter_keys k (fun k0 => negb (dict_mem k0 a))).
  now rewrite dict_mem_unfold, Ea.
Qed.

Lemma merge_two a b :
  Util.merge [VDict a; VDict b] = Ok (Util.merge2 (VDict a) (VDict b)).
Proof. unfold Util.merge. simpl. now rewrite filter_all. Qed.

Lemma merge_three a b c :
  Util.merge [VDict a; VDict b; VDict c]
  = Ok (Util.merge2 (Util.merge2 (VDict a) (VDict b)) (VDict c)).
Proof. unfold Util.merge. cbn [forallb Util.is_dict andb fold_left].
  now rewrite merge2_empty. Qed.

(** [merge] returns only mappings, and only of mappings. *)
Lemma merge_ok objects m :
  Util.merge objects = Ok m -> forallb Util.is_dict objects = true.
Proof.
  unfold Util.merge. now destruct (forallb Util.is_dict objects).
Qed.

(** A key that the last mapping binds to a non-mapping has that value in
    the merge. *)
Lemma merge_last_wins a b k v m :
  Util.is_dict v = false ->
  Util.merge [a; b; VDict [(k, v)]] = Ok m ->
  holds k v m.
Proof.
  intros Hv H. pose proof (merge_ok _ H) as Hd.
  destruct a as [| | | | |da|]; try discriminate.
  destruct b as [| | | | |db|]; try discriminate.
  rewrite merge_three in H. apply Ok_inj in H. subst m.
  destruct (merge2_lookup da db) as (m1 & -> & _).
  destruct (merge2_lookup m1 [(k, v)]) as (m2 & -> & Hm2).
  exists m2. split; [easy|]. rewrite Hm2.
  unfold dict_get at 2 3. simpl. rewrite String.eqb_refl.
  destruct (dict_get k m1); [|easy]. now rewrite merge2_scalar.
Qed.

Lemma merge_two_last_wins a k v m :
  Util.is_dict v = false ->
  Util.merge [a; VDict [(k, v)]] = Ok m ->
  holds k v m.
Proof.
  intros Hv H. pose proof (merge_ok _ H) as Hd.
  destruct a as [| | | | |da|]; try discriminate.
  rewrite merge_two in H. apply Ok_inj in H. subst m.
  destruct (merge2_lookup da [(k, v)]) as (m2 & -> & Hm2).
  exists m2. split; [easy|]. rewrite Hm2.
  unfold dict_get at 2 3. simpl. rewrite String.eqb_refl.
  destruct (dict_get k da); [|easy]. now rewrite merge2_scalar.
Qed.

(** A key the first mapping binds to a non-mapping: the second mapping
    decides, when it has the key. *)
Lemma merge_override a b k v m :
  dict_get k a = Some v -> Util.is_dict v = false ->
  Util.merge [VDict a; b] = Ok m ->
  exists o, b = VDict o /\ holds k (dict_get_default k v o) m.
Proof.
  intros Ha Hv H. pose proof (merge_ok _ H) as Hd.
  destruct b as [| | | | |o|]; try discriminate.
  exists o. split; [easy|].
  rewrite merge_two in H. apply Ok_inj in H. subst m.
  destruct (merge2_lookup a o) as (m2 & -> & Hm2).
  exists m2. split; [easy|]. rewrite Hm2, Ha. unfold dict_get_default.
  destruct (dict_get k o); [|easy]. now rewrite merge2_onto_scalar.
Qed.

End MergeFacts.

(* ================================================================== *)
(** * The Azure generator under the deep merge *)
(* ================================================================== *)

Module AzureFacts.
Import Py WorkerPools Props PyFacts VariantFacts GeneratorFacts MergeFacts.
Local Open Scope py_scope.

Section Azure.
Variable evaluate_keyed_by : value -> string -> dict -> result value.



End Azure.
End AzureFacts.

(* ================================================================== *)
(** * The AWS generator on a well-formed pool *)
(* ================================================================== *)

Module AwsFacts.
Import Py WorkerPools Props PyFacts VariantFacts GeneratorFacts MergeFacts.
Local Open Scope py_scope.

Lemma is_dict_inv v : Util.is_dict v = true -> exists d, v = VDict d.
Proof. destruct v; try discriminate. eauto. Qed.

Lemma is_ok_inv {A} (c : result A) : is_ok c = true -> exists a, c = Ok a.
Proof. destruct c; [eauto | discriminate]. Qed.

Lemma fold_merge2_dict objects :
  forallb Util.is_dict objects = true ->
  forall acc, exists m, fold_left Util.merge2 objects (VDict acc) = VDict m.
Proof.
  induction objects as [|x xs IH]; intros H acc; cbn [fold_left]; [eauto|].
  cbn [forallb] in H. apply andb_true_iff in H as [Hx Hxs].
  apply is_dict_inv in Hx as [d ->].
  destruct (merge2_lookup acc d) as (m & -> & _). now apply IH.
Qed.

(** [merge] of mappings returns a mapping. *)
Lemma merge_dicts_ok objects :
  forallb Util.is_dict objects = true ->
  exists m, Util.merge objects = Ok (VDict m).
Proof.
  intros H. unfold Util.merge. rewrite H.
  destruct (fold_merge2_dict objects H []) as (m & ->). eauto.
Qed.

Lemma for_each_total {A B} (body : A -> result (list B)) xs :
  (forall x, In x xs -> is_ok (body x) = true) ->
  exists chunks,
    Forall2 (fun x l => body x = Ok l) xs chunks /\
    for_each xs body = Ok (List.concat chunks).
Proof.
  induction xs as [|x xs IH]; intros H.
  - exists []. split; [constructor | reflexivity].
  - destruct (is_ok_inv _ (H x (or_introl eq_refl))) as (l & Hl).
    destruct IH as (chunks & HF & Hrun); [intros; apply H; now right|].
    exists (l :: chunks). split; [now constructor|].
    cbn [for_each]. rewrite Hl, Hrun. reflexivity.
Qed.

Lemma aws_launch_config_runs provider_id image aws invalid security_groups
    subnet_id wc implementation spot ud region zone d name :
  dict_get "invalid-instances" aws = Some invalid ->
  dict_get "instanceType" d = Some name ->
  is_ok (is_invalid_aws_instance_type invalid zone name) = true ->
  is_ok (image_id image provider_id (Some region)) = true ->
  Util.is_dict (dict_get_default "worker-config" (VDict []) d) = true ->
  Util.is_dict (dict_get_default "additional-user-data" (VDict []) d) = true ->
  Util.is_dict (dict_get_default "launchConfig" (VDict []) d) = true ->
  exists l,
    aws_launch_config Util.merge provider_id image (VDict aws) security_groups
      subnet_id (VDict wc) implementation spot (VDict ud) region zone
      (VDict d) = Ok l /\
    aws_outcome invalid zone region (VDict wc) implementation d l.
Proof.
  intros Hinvalid Hname Hcheck Hami Hown Haud Hoverride.
  unfold aws_outcome, invalid_in, dict_get_default. rewrite Hname.
  fold (dict_get_default "worker-config" (VDict []) d).
  unfold aws_launch_config. cbn [py_getitem bind].
  rewrite Hinvalid, Hname. cbn [bind].
  apply is_ok_inv in Hcheck as ([|] & ->); cbn [bind].
  { exists []. split; [reflexivity|]. now left. }
  destruct (merge_dicts_ok
              (if py_eq implementation docker_worker
               then [VDict wc; dict_get_default "worker-config" (VDict []) d;
                     VDict [("capacity", capacity_per_instance d)]]
               else [VDict wc; dict_get_default "worker-config" (VDict []) d]))
    as (iwc & Hiwc).
  { destruct (py_eq implementation docker_worker);
      cbn [forallb Util.is_dict]; now rewrite Hown. }
  assert (Hiwc' : aws_instance_worker_config Util.merge (VDict wc)
                    implementation d = Ok (VDict iwc)).
  { unfold aws_instance_worker_config.
    now destruct (py_eq implementation docker_worker). }
  unfold aws_instance_worker_config, capacity_per_instance in Hiwc'.
  cbn [py_get]. 
  match goal with
  | |- exists l, bind ?c _ = _ /\ _ =>
      assert (E : c = Ok (VDict iwc))
        by (destruct (py_eq implementation docker_worker); exact Hiwc')
  end.
  rewrite E. cbn [bind].
  apply is_ok_inv in Hami as (ami & ->). cbn [bind py_update].
  apply is_dict_inv in Haud as (own_aud & ->). cbn [bind py_update].
  destruct (merge_dicts_ok
              [VDict [("ImageId", ami);
                      ("Placement", VDict [("AvailabilityZone", zone)]);
                      ("SubnetId", subnet_id);
                      ("SecurityGroupIds", security_groups);
                      ("InstanceType", name)];
               dict_get_default "launchConfig" (VDict []) d])
    as (inner & ->).
  { cbn [forallb Util.is_dict]. now rewrite Hoverride. }
  cbn [bind].
  destruct (py_truthy spot); cbn [py_setitem bind];
    (eexists; split; [reflexivity|]; right; split; [reflexivity|]);
    do 3 eexists; (split; [reflexivity|]);
    unfold aws_instance_worker_config, capacity_per_instance; exact Hiwc'.
Qed.

(** ** The check against the table of invalid instances *)

Lemma split_once_dotted family size :
  contains_char "." family = false ->
  split_once "." (family ++ String "." size) = Some (family, size).
Proof.
  induction family as [|c f IH]; simpl; intros H; [reflexivity|].
  apply orb_false_iff in H as [Hc Hf]. rewrite Hc. now rewrite IH.
Qed.

Lemma any_invalid_entry_covers zone family entries :
  forallb well_formed_entry entries = true ->
  any_invalid_entry zone (VStr family) entries
  = Ok (existsb (covers zone family) entries).
Proof.
  induction entries as [|entry entries IH]; intros H; [reflexivity|].
  cbn [forallb] in H. apply andb_true_iff in H as [Hentry H].
  cbn [any_invalid_entry existsb]. rewrite (IH H).
  unfold well_formed_entry in Hentry. unfold is_invalid_entry, covers.
  destruct entry as [| | | | |e|]; try discriminate.
  cbn [py_getitem].
  destruct (dict_get "zones" e) as [[| | | |zones| |]|]; try discriminate.
  destruct (dict_get "families" e) as [[| | | |families| |]|];
    try discriminate.
  cbn [bind py_in].
  destruct (existsb (fun z => py_eq z zone) zones); cbn [bind andb];
    [|reflexivity].
  now destruct (existsb (fun f => py_eq f (VStr family)) families).
Qed.

Lemma any_invalid_entry_zone_free zone family entries :
  forallb (zone_free zone) entries = true ->
  any_invalid_entry zone family entries = Ok false.
Proof.
  induction entries as [|entry entries IH]; intros H; [reflexivity|].
  cbn [forallb] in H. apply andb_true_iff in H as [Hentry H].
  cbn [any_invalid_entry]. rewrite (IH H).
  unfold zone_free in Hentry. unfold is_invalid_entry.
  destruct entry as [| | | | |e|]; try discriminate.
  cbn [py_getitem].
  destruct (dict_get "zones" e) as [[| | | |zones| |]|]; try discriminate.
  cbn [bind py_in]. apply negb_true_iff in Hentry. now rewrite Hentry.
Qed.

(** The check on a dotted name: some entry covers the zone and the
    family, which is the text before the first dot. *)
Lemma is_invalid_covers entries zone family size :
  forallb well_formed_entry entries = true ->
  contains_char "." family = false ->
  is_invalid_aws_instance_type (VList entries) zone
    (VStr (family ++ String "." size))
  = Ok (existsb (covers zone family) entries).
Proof.
  intros Hwf Hfamily. unfold is_invalid_aws_instance_type.
  rewrite (split_once_dotted _ _ Hfamily). cbn [py_iter bind].
  now apply any_invalid_entry_covers.
Qed.

(** When no entry lists the zone, the check accepts whatever it does not
    reject as malformed. *)
Lemma is_invalid_zone_free entries zone name :
  forallb (zone_free zone) entries = true ->
  is_ok (is_invalid_aws_instance_type (VList entries) zone name) = true ->
  is_invalid_aws_instance_type (VList entries) zone name = Ok false.
Proof.
  intros Hfree. unfold is_invalid_aws_instance_type.
  destruct name as [| | |s| | |]; try discriminate.
  destruct (split_once "." s) as [[family size]|]; [|discriminate].
  cbn [py_iter bind]. intros _. now apply any_invalid_entry_zone_free.
Qed.

Section SingleZone.
Variable evaluate_keyed_by : value -> string -> dict -> result value.

(** On a well-formed pool the AWS generator returns: the launch
    configurations are, in order, what the innermost loop makes of each
    instance type. *)
Lemma aws_single_zone_runs environment provider_id pool_id c worker_images
    defaults region zone invalid its :
  aws_single_zone_pool evaluate_keyed_by environment provider_id pool_id c
    worker_images defaults region zone invalid its ->
  exists max_capacity lifecycle worker_config chunks,
    get_aws_provider_config evaluate_keyed_by Util.merge environment
      provider_id pool_id (VDict c) worker_images defaults
    = Ok (resolved_pool (dict_get_default "minCapacity" (VInt 0) c)
            max_capacity lifecycle (List.concat chunks)) /\
    Forall2 (aws_outcome invalid zone region worker_config
               (dict_get_default "implementation" docker_worker c))
      its chunks.
Proof.
  intros [Hregions Hits Hmax (image_name & image & Himage_name & Himage & Hami)
            Hlifecycle Hown Hud
            (resolved & wc0 & Hresolved & Hdl & Hwc0)
            (aws & az_rule & sg_rule & subnet_rule & Haws & Haz_rule & Haz
               & Hsg_rule & Hsg & Hsubnet_rule & Hsubnet & Hinvalid)
            Hvalid Hinstances].
  apply dict_mem_get in Hmax as (max_capacity & Hmax).
  apply is_dict_inv in Hud as (ud & Hud).
  apply is_ok_inv in Hsg as (sgs & Hsg).
  apply is_ok_inv in Hsubnet as (subnet & Hsubnet).
  destruct (merge_dicts_ok
              [dict_get_default "lifecycle" (VDict []) resolved;
               dict_get_default "lifecycle" (VDict []) c])
    as (lifecycle & Hmerge_lifecycle).
  { cbn [forallb]. now rewrite Hdl, Hlifecycle. }
  destruct (merge_dicts_ok
              [VDict wc0; dict_get_default "worker-config" (VDict []) c])
    as (wc & Hmerge_wc).
  { cbn [forallb Util.is_dict]. now rewrite Hown. }
  set (body :=
         aws_launch_config Util.merge provider_id image (VDict aws) sgs subnet
           (VDict wc) (dict_get_default "implementation" docker_worker c)
           (dict_get_default "spot" (VBool true) c) (VDict ud) region zone).
  assert (Hbody : forall d, In d its ->
            exists l, body (VDict d) = Ok l /\
                      aws_outcome invalid zone region (VDict wc)
                        (dict_get_default "implementation" docker_worker c) d l).
  { intros d Hd. rewrite Forall_forall in Hinstances.
    destruct (Hinstances d Hd) as (name & Hname & Hcheck & H1 & H2 & H3).
    now apply aws_launch_config_runs with (name := name) (invalid := invalid). }
  assert (Hloop : exists chunks,
            for_each (map VDict its) body = Ok (List.concat chunks) /\
            Forall2 (aws_outcome invalid zone region (VDict wc)
                       (dict_get_default "implementation" docker_worker c))
              its chunks).
  { clear -Hbody. induction its as [|d ds IH].
    - exists []. split; [reflexivity | constructor].
    - destruct (Hbody d (or_introl eq_refl)) as (l & Hl & Ho).
      destruct IH as (chunks & Hrun & HF); [intros; apply Hbody; now right|].
      exists (l :: chunks). split; [|now constructor].
      cbn [map for_each]. rewrite Hl, Hrun. reflexivity. }
  destruct Hloop as (chunks & Hloop & HF).
  exists max_capacity, (VDict lifecycle), (VDict wc), chunks.
  split; [|exact HF].
  rewrite get_aws_provider_config_dict. cbv zeta.
  cbn [py_getitem bind]. rewrite Hregions, Himage_name. cbn [bind].
  rewrite Himage, Hits. cbn [bind]. rewrite Hresolved. cbn [bind].
  rewrite Haws. cbn [bind py_get]. rewrite Hmerge_lifecycle. cbn [bind].
  rewrite Hwc0. cbn [bind]. rewrite Hmerge_wc. cbn [bind].
  rewrite Hvalid. cbn [bind py_iter for_each].
  unfold aws_region_launch_configs. cbn [py_getitem bind].
  rewrite Haz_rule. cbn [bind]. rewrite Haz. cbn [bind].
  rewrite Hsg_rule. cbn [bind]. rewrite Hsg. cbn [bind py_iter for_each].
  unfold aws_zone_launch_configs. cbn [py_getitem bind].
  rewrite Hsubnet_rule. cbn [bind]. rewrite Hsubnet. cbn [bind py_iter].
  rewrite Hud. fold body. rewrite Hloop. cbn [bind].
  rewrite !app_nil_r. rewrite resolved_config_dict, Hmax. reflexivity.
Qed.

End SingleZone.

Lemma capacity_per_instance_default d :
  dict_mem "capacityPerInstance" d = false -> capacity_per_instance d = VInt 1.
Proof.
  intros H. apply dict_mem_false in H.
  unfold capacity_per_instance, dict_get_default. now rewrite H.
Qed.

(** A launch configuration the innermost loop built carries the capacity
    of its instance type. *)
Lemma aws_launch_carries_capacity worker_config implementation d region
    inner instance_worker_config aud :
  aws_instance_worker_config Util.merge worker_config implementation d
    = Ok instance_worker_config ->
  carries_capacity implementation d
    (aws_launch (capacity_per_instance d) region inner instance_worker_config
       aud).
Proof.
  intros Hiwc. unfold carries_capacity, aws_launch. split; [|split].
  - eexists. split; reflexivity.
  - intros Hd. rewrite (capacity_per_instance_default _ Hd).
    eexists. split; reflexivity.
  - intros Himpl Hd. exists instance_worker_config. split.
    + eexists. split; reflexivity.
    + unfold aws_instance_worker_config in Hiwc. rewrite Himpl in Hiwc.
      rewrite (capacity_per_instance_default _ Hd) in Hiwc.
      eapply merge_last_wins; [|exact Hiwc]. reflexivity.
Qed.

Lemma invalid_in_name invalid zone d name :
  dict_get "instanceType" d = Some name ->
  invalid_in invalid zone d = is_invalid_aws_instance_type invalid zone name.
Proof.
  intros H. unfold invalid_in, dict_get_default. now rewrite H.
Qed.

End AwsFacts.

(* ================================================================== *)
(** * The Google generator on a well-formed pool *)
(* ================================================================== *)

Module GoogleFacts.
Import Py WorkerPools Props PyFacts VariantFacts GeneratorFacts MergeFacts
  AwsFacts.
Local Open Scope py_scope.

Lemma dict_get_set_other k k' v d :
  k <> k' -> dict_get k (dict_set k' v d) = dict_get k d.
Proof. apply assoc_get_set_other. Qed.

Lemma dict_get_set_same k v d : dict_get k (dict_set k v d) = Some v.
Proof. apply assoc_get_set_same. Qed.

Lemma py_setdefault_dict d k v :
  py_setdefault (VDict d) k v
  = Ok (VDict (if dict_mem k d then d else dict_set k v d)).
Proof. cbn [py_setdefault]. now destruct (dict_mem k d). Qed.

Lemma dict_get_setdefault_other k k' v d :
  k <> k' ->
  dict_get k (if dict_mem k' d then d else dict_set k' v d) = dict_get k d.
Proof.
  intros H. destruct (dict_mem k' d); [easy|]. now apply dict_get_set_other.
Qed.

(** Lookups of keys the edits of a launch configuration leave alone. *)
Ltac through_edits :=
  repeat first
    [ rewrite dict_get_set_other by discriminate
    | rewrite dict_get_del_other by discriminate
    | rewrite dict_get_update_other by reflexivity
    | rewrite dict_get_setdefault_other by discriminate ].

Lemma substitute_image_runs image_name disk :
  well_formed_disk disk = true ->
  exists disk', substitute_image image_name disk = Ok disk'.
Proof.
  unfold well_formed_disk, substitute_image.
  destruct disk as [| | | | |dd|]; try discriminate.
  cbn [py_getitem].
  destruct (dict_get "initializeParams" dd) as [[| | | | |params|]|];
    try discriminate.
  intros _. cbn [bind py_get].
  destruct (py_eq (dict_get_default "sourceImage" VNone params)
              (VStr "<image>")); cbn [py_setitem bind]; eauto.
Qed.

Lemma substitute_disks_run image_name disks :
  forallb well_formed_disk disks = true ->
  exists disks',
    for_each disks (fun disk =>
      disk <- substitute_image image_name disk ;; Ok [disk]) = Ok disks'.
Proof.
  induction disks as [|disk disks IH]; intros H; [now exists []|].
  cbn [forallb] in H. apply andb_true_iff in H as [Hdisk H].
  destruct (substitute_image_runs image_name disk Hdisk) as (disk' & Hd).
  destruct (IH H) as (disks' & Hds).
  cbn [for_each]. rewrite Hd. cbn [bind]. rewrite Hds. cbn [bind]. eauto.
Qed.

(** The innermost loop of the Google generator builds a launch
    configuration from a well-formed instance type. *)
Lemma google_launch_config_runs image_name wc implementation region zone d :
  well_formed_google_instance d = true ->
  exists lc,
    google_launch_config Util.merge image_name (VDict wc) implementation
      region zone (VDict d) = Ok [lc].
Proof.
  unfold well_formed_google_instance. intros H.
  apply andb_true_iff in H as [H Hown].
  apply andb_true_iff in H as [Hdisks Hmachine].
  destruct (dict_get "disks" d) as [[| | | |disks| |]|] eqn:Edisks;
    try discriminate.
  apply dict_mem_get in Hmachine as (machine_type & Hmachine).
  apply is_dict_inv in Hown as (own & Hown).
  destruct (substitute_disks_run image_name disks Hdisks) as (disks' & Hsub).
  unfold google_launch_config.
  rewrite py_setdefault_dict. cbn [bind py_update].
  unfold substitute_images. cbn [py_getitem bind].
  through_edits. rewrite Edisks. cbn [bind]. rewrite Hsub.
  cbn [bind py_setitem py_pop_default].
  unfold dict_get_default at 1. through_edits.
  unfold dict_get_default in Hown.
  destruct (dict_get "worker-config" d) as [own_v|] eqn:Eown.
  - subst own_v.
    destruct (merge_dicts_ok [VDict wc; VDict own]) as (m & Hm);
      [reflexivity|].
    rewrite Hm. cbn [bind py_setitem].
    destruct (py_eq implementation docker_worker);
      cbn [bind py_getitem py_get].
    + rewrite dict_get_set_same. cbn [bind].
      destruct (merge_dicts_ok
                  [VDict m;
                   VDict [("capacity",
                            dict_get_default "capacityPerInstance" (VInt 1) d)]])
        as (m' & Hm'); [reflexivity|].
      rewrite Hm'. cbn [bind py_setitem py_pop].
      through_edits. rewrite Hmachine. cbn [bind py_setitem]. eauto.
    + cbn [py_pop]. through_edits. rewrite Hmachine.
      cbn [bind py_setitem]. eauto.
  - apply VDict_inj in Hown. subst own.
    destruct (merge_dicts_ok [VDict wc; VDict []]) as (m & Hm);
      [reflexivity|].
    rewrite Hm. cbn [bind py_setitem].
    destruct (py_eq implementation docker_worker);
      cbn [bind py_getitem py_get].
    + rewrite dict_get_set_same. cbn [bind].
      destruct (merge_dicts_ok
                  [VDict m;
                   VDict [("capacity",
                            dict_get_default "capacityPerInstance" (VInt 1) d)]])
        as (m' & Hm'); [reflexivity|].
      rewrite Hm'. cbn [bind py_setitem py_pop].
      through_edits. rewrite Hmachine. cbn [bind py_setitem]. eauto.
    + cbn [py_pop]. through_edits. rewrite Hmachine.
      cbn [bind py_setitem]. eauto.
Qed.

Section SingleZone.
Variable evaluate_keyed_by : value -> string -> dict -> result value.

(** On a well-formed pool the Google generator returns one launch
    configuration per instance type, in order, each with the capacity per
    instance of its instance type. *)
Lemma google_single_zone_runs environment provider_id pool_id c worker_images
    defaults region zone its :
  google_single_zone_pool evaluate_keyed_by environment provider_id pool_id c
    worker_images defaults region zone its ->
  exists max_capacity lifecycle launch_configs,
    get_google_provider_config evaluate_keyed_by Util.merge environment
      provider_id pool_id (VDict c) worker_images defaults
    = Ok (resolved_pool (dict_get_default "minCapacity" (VInt 0) c)
            max_capacity lifecycle launch_configs) /\
    Forall2 (fun d lc =>
               holds "capacityPerInstance" (capacity_per_instance d) lc)
      its launch_configs.
Proof.
  intros [Hregions Hits Hmax (image_name & image & Himage_name & Himage & Himg)
            Hlifecycle Hown
            (resolved & wc0 & Hresolved & Hdl & Hwc0)
            (google & zone_rule & Hgoogle & Hzone_rule & Hzones)
            Hvalid Hinstances].
  apply dict_mem_get in Hmax as (max_capacity & Hmax).
  apply is_ok_inv in Himg as (img & Himg).
  destruct (merge_dicts_ok
              [dict_get_default "lifecycle" (VDict []) resolved;
               dict_get_default "lifecycle" (VDict []) c])
    as (lifecycle & Hmerge_lifecycle).
  { cbn [forallb]. now rewrite Hdl, Hlifecycle. }
  destruct (merge_dicts_ok
              [VDict wc0; dict_get_default "worker-config" (VDict []) c])
    as (wc & Hmerge_wc).
  { cbn [forallb Util.is_dict]. now rewrite Hown. }
  set (body :=
         google_launch_config Util.merge img (VDict wc)
           (dict_get_default "implementation" docker_worker c) region zone).
  assert (Hloop : exists lcs,
            for_each (map VDict its) body = Ok lcs /\
            Forall2 (fun d lc =>
                       holds "capacityPerInstance" (capacity_per_instance d) lc)
              its lcs).
  { clear -Hinstances. induction its as [|d ds IH].
    - exists []. split; [reflexivity | constructor].
    - cbn [forallb] in Hinstances.
      apply andb_true_iff in Hinstances as [Hd Hds].
      destruct (google_launch_config_runs img wc
                  (dict_get_default "implementation" docker_worker c)
                  region zone d Hd) as (lc & Hlc).
      destruct (IH Hds) as (lcs & Hrun & HF).
      exists (lc :: lcs). split.
      + cbn [map for_each]. fold body in Hlc. rewrite Hlc, Hrun. reflexivity.
      + constructor; [|exact HF].
        destruct (@google_launch_config_emits Util.merge img (VDict wc)
                    (dict_get_default "implementation" docker_worker c)
                    region zone (VDict d) [lc] lc Hlc (or_introl eq_refl))
          as (d' & Hd' & Hholds).
        apply VDict_inj in Hd'. now subst d'. }
  destruct Hloop as (lcs & Hloop & HF).
  exists max_capacity, (VDict lifecycle), lcs. split; [|exact HF].
  rewrite get_google_provider_config_dict. cbv zeta.
  cbn [py_getitem bind]. rewrite Hregions, Himage_name. cbn [bind].
  rewrite Himage, Hits. cbn [bind]. rewrite Hresolved. cbn [bind].
  rewrite Hgoogle. cbn [bind py_get]. rewrite Hmerge_lifecycle. cbn [bind].
  rewrite Hwc0. cbn [bind]. rewrite Hmerge_wc. cbn [bind].
  rewrite Himg. cbn [bind]. rewrite Hvalid. cbn [bind py_iter for_each].
  unfold google_region_launch_configs. cbn [py_getitem bind].
  rewrite Hzone_rule. cbn [bind]. rewrite Hzones. cbn [bind py_iter for_each].
  unfold google_zone_launch_configs. cbn [py_iter bind].
  fold body. rewrite Hloop. cbn [bind].
  rewrite !app_nil_r. rewrite resolved_config_dict, Hmax. reflexivity.
Qed.

End SingleZone.

End GoogleFacts.

(* ================================================================== *)
(** * The Azure generator on a well-formed pool *)
(* ================================================================== *)

Module AzureRunFacts.
Import Py WorkerPools Props PyFacts VariantFacts GeneratorFacts MergeFacts
  AwsFacts.
Local Open Scope py_scope.

Section Runs.
Variable evaluate_keyed_by : value -> string -> dict -> result value.

(** One pass of the inner loop returns one launch configuration. *)
Lemma azure_launch_config_runs provider_id image azure image_rgroup purpose
    wc tags location size :
  is_ok (image_id image provider_id (Some (VStr location))) = true ->
  dict_mem "subscription" azure = true ->
  Util.is_dict (dict_get_default "launchConfig" (VDict []) size) = true ->
  exists l,
    azure_launch_config Util.merge provider_id image (VDict azure)
      image_rgroup purpose (VDict wc) (VDict tags) (VStr location)
      (VDict size) = Ok l /\
    List.length l = 1.
Proof.
  intros Himage Hsubscription Hoverride.
  apply is_ok_inv in Himage as (ImageId & Himage).
  apply dict_mem_get in Hsubscription as (subscription & Hsubscription).
  apply is_dict_inv in Hoverride as (override & Hoverride).
  unfold azure_launch_config. cbn [bind]. rewrite Himage. cbn [bind py_getitem].
  rewrite Hsubscription. cbn [bind]. cbv zeta.
  destruct (merge_dicts_ok [VDict tags]) as (tags' & ->); [reflexivity|].
  destruct (merge_dicts_ok [VDict wc]) as (wc' & ->); [reflexivity|].
  cbn [bind py_get]. rewrite Hoverride.
  match goal with
  | |- context [Util.merge [?base; VDict override]] =>
      destruct (merge_dicts_ok [base; VDict override]) as (merged & ->);
        [reflexivity|]
  end.
  cbn [bind]. eexists. split; reflexivity.
Qed.

(** On a well-formed pool the generator returns, with one launch
    configuration per location and size. *)
Lemma azure_pool_runs environment provider_id pool_id c worker_images
    defaults locations sizes :
  azure_pool evaluate_keyed_by environment provider_id pool_id c worker_images
    defaults locations sizes ->
  exists max_capacity lifecycle launch_configs,
    get_azure_provider_config evaluate_keyed_by Util.merge environment
      provider_id pool_id (VDict c) worker_images defaults
    = Ok (resolved_pool (dict_get_default "minCapacity" (VInt 0) c)
            max_capacity lifecycle launch_configs) /\
    List.length launch_configs = List.length locations * List.length sizes.
Proof.
  intros [Hlocations Hrgroup Hsizes Hpurpose Hmax
            (image_name & image & Himage_name & Himage & Hids)
            Hlifecycle Hown Htags
            (resolved & wc0 & Hresolved & Hdl & Hwc0)
            (azure & Hazure & Hsubscription) Hoverrides].
  apply dict_mem_get in Hrgroup as (image_rgroup & Hrgroup).
  apply dict_mem_get in Hpurpose as (purpose & Hpurpose).
  apply dict_mem_get in Hmax as (max_capacity & Hmax).
  apply is_dict_inv in Htags as (tags & Htags).
  destruct (merge_dicts_ok
              [dict_get_default "lifecycle" (VDict []) resolved;
               dict_get_default "lifecycle" (VDict []) c])
    as (lifecycle & Hmerge_lifecycle).
  { cbn [forallb]. now rewrite Hdl, Hlifecycle. }
  destruct (merge_dicts_ok
              [VDict wc0; dict_get_default "worker-config" (VDict []) c])
    as (wc & Hmerge_wc).
  { cbn [forallb Util.is_dict]. now rewrite Hown. }
  set (body :=
         azure_location_launch_configs Util.merge provider_id image
           (VDict azure) image_rgroup purpose (VDict wc) (VDict tags)
           (VList (map VDict sizes))).
  destruct (@for_each_runs _ _ body (map VStr locations) (List.length sizes))
    as (lcs & Hloop & Hlen).
  { intros x Hx. apply in_map_iff in Hx as (location & <- & Hlocation).
    rewrite forallb_forall in Hids. specialize (Hids _ Hlocation).
    unfold body, azure_location_launch_configs. cbn [py_iter bind].
    destruct (@for_each_runs _ _
                (azure_launch_config Util.merge provider_id image
                   (VDict azure) image_rgroup purpose (VDict wc) (VDict tags)
                   (VStr location))
                (map VDict sizes) 1)
      as (l & Hl & Hone).
    { intros y Hy. apply in_map_iff in Hy as (size & <- & Hsize).
      rewrite forallb_forall in Hoverrides.
      now apply azure_launch_config_runs; [| |apply Hoverrides]. }
    exists l. split; [exact Hl|]. rewrite Hone, length_map.
      apply PeanoNat.Nat.mul_1_r. }
  exists max_capacity, (VDict lifecycle), lcs.
  split; [|now rewrite Hlen, length_map].
  rewrite get_azure_provider_config_dict. cbv zeta.
  cbn [py_getitem bind].
  rewrite Hlocations, Hrgroup, Hsizes, Hpurpose, Himage_name. cbn [bind].
  rewrite Himage. cbn [bind]. rewrite Hresolved. cbn [bind].
  rewrite Hazure. cbn [bind py_get]. rewrite Hmerge_lifecycle. cbn [bind].
  rewrite Hwc0. cbn [bind]. rewrite Hmerge_wc. cbn [bind py_iter].
  rewrite Htags. fold body. rewrite Hloop. cbn [bind].
  rewrite resolved_config_dict, Hmax. reflexivity.
Qed.

End Runs.
End AzureRunFacts.

(* ================================================================== *)
(** * The pool assembler *)
(* ================================================================== *)

Module AssemblerFacts.
Import Py WorkerPools Props PyFacts.
Local Open Scope py_scope.

Section Assembler.
Variable evaluate_keyed_by : value -> string -> dict -> result value.
Variable merge : list value -> result value.
Variable tcadmin : Tcadmin.Library.

Local Abbreviation make_worker_pool :=
  (make_worker_pool evaluate_keyed_by merge tcadmin).
Local Abbreviation add_worker_pools :=
  (add_worker_pools evaluate_keyed_by merge tcadmin).
Local Abbreviation update_resources :=
  (update_resources evaluate_keyed_by merge tcadmin).

(** An exception of the generator leaves [make_worker_pool] as it is. *)
Lemma make_worker_pool_raises environment resources wp worker_images
    worker_defaults generator e :
  dispatches evaluate_keyed_by merge environment wp generator ->
  generator environment (provider_id wp) (pool_id wp) (config wp)
    worker_images worker_defaults = Raise e ->
  make_worker_pool environment resources wp worker_images worker_defaults
  = Raise e.
Proof.
  intros (wm & providers & provider & implementation & Hwm & Hproviders
            & Hknown & Hprovider & Himplementation & Hgenerator) Hraise.
  unfold WorkerPools.make_worker_pool.
  rewrite Hwm. cbn [bind]. rewrite Hproviders. cbn [bind].
  rewrite Hknown. cbn [bind]. rewrite Hprovider. cbn [bind].
  rewrite Himplementation. cbn [bind]. rewrite Hgenerator. cbn [bind].
  now rewrite Hraise.
Qed.

(** [make_worker_pool] does not look at the collection. *)
Lemma make_worker_pool_any_resources environment rs rs' wp worker_images
    worker_defaults :
  make_worker_pool environment rs wp worker_images worker_defaults
  = make_worker_pool environment rs' wp worker_images worker_defaults.
Proof. reflexivity. Qed.

(** What a successful [make_worker_pool] did. *)
Lemma make_worker_pool_ok_inv environment rs wp worker_images worker_defaults
    r :
  make_worker_pool environment rs wp worker_images worker_defaults = Ok r ->
  assembled evaluate_keyed_by merge tcadmin environment worker_images
    worker_defaults wp r.
Proof.
  unfold WorkerPools.make_worker_pool. intros H.
  apply bind_ok in H as (wm & Hwm & H).
  apply bind_ok in H as (providers & Hproviders & H).
  apply bind_ok in H as (known & Hknown & H).
  apply bind_ok in H as (cfg & Hcfg & H).
  exists wm, providers, known, cfg.
  split; [exact Hwm|]. split; [exact Hproviders|]. split; [exact Hknown|].
  split; [|exact H].
  destruct known.
  - rewrite Hwm in Hcfg. cbn [bind] in Hcfg. rewrite Hproviders in Hcfg.
    cbn [bind] in Hcfg.
    apply bind_ok in Hcfg as (provider & Hprovider & Hcfg).
    apply bind_ok in Hcfg as (implementation & Himplementation & Hcfg).
    apply bind_ok in Hcfg as (generator & Hgenerator & Hcfg).
    exists generator. split; [|exact Hcfg].
    now exists wm, providers, provider, implementation.
  - now apply Ok_inj in Hcfg.
Qed.

(** One pass of the loop of [update_resources]. *)
Lemma add_worker_pools_cons environment worker_images worker_defaults rs0 wp
    pools rs :
  add_worker_pools environment worker_images worker_defaults (wp :: pools) rs
  = match make_worker_pool environment rs0 wp worker_images worker_defaults
    with
    | Raise e => (rs, Raise e)
    | Ok r =>
        if Tcadmin.truthy tcadmin r then
          match Tcadmin.add tcadmin rs r with
          | (rs1, Ok _) =>
              add_worker_pools environment worker_images worker_defaults
                pools rs1
          | (rs1, Raise e) => (rs1, Raise e)
          end
        else
          add_worker_pools environment worker_images worker_defaults pools rs
    end.
Proof.
  cbn [WorkerPools.add_worker_pools].
  unfold Tcadmin.abind, Tcadmin.lift, Tcadmin.ret.
  rewrite (make_worker_pool_any_resources environment rs rs0).
  destruct (make_worker_pool environment rs0 wp worker_images worker_defaults)
    as [r|e]; [|reflexivity].
  destruct (Tcadmin.truthy tcadmin r); [|reflexivity].
  now destruct (Tcadmin.add tcadmin rs r) as [rs1 [[]|e]].
Qed.

(** The loop of [update_resources] over definitions that are all
    assembled: it makes the calls that add their resources, and goes on
    with the rest unless the collection raised. *)
Lemma add_worker_pools_calls environment worker_images worker_defaults rs0
    before made :
  Forall2 (fun wp r =>
             make_worker_pool environment rs0 wp worker_images
               worker_defaults = Ok r)
    before made ->
  forall rest rs,
    add_worker_pools environment worker_images worker_defaults
      (before ++ rest) rs
    = match run_calls (adds tcadmin made) rs with
      | (rs', Ok _) =>
          add_worker_pools environment worker_images worker_defaults rest rs'
      | (rs', Raise e) => (rs', Raise e)
      end.
Proof.
  intros Hbefore rest.
  induction Hbefore as [|wp r before made Hr _ IH]; intros rs.
  - reflexivity.
  - cbn [app]. rewrite (add_worker_pools_cons _ _ _ rs0), Hr.
    unfold adds. cbn [filter].
    destruct (Tcadmin.truthy tcadmin r).
    + cbn [map run_calls].
      destruct (Tcadmin.add tcadmin rs r) as [rs1 [[]|e]]; [|reflexivity].
      apply IH.
    + apply IH.
Qed.

(** The loop stops at the first definition [make_worker_pool] raises on. *)
Lemma add_worker_pools_raises environment worker_images worker_defaults wp
    after e rs :
  make_worker_pool environment rs wp worker_images worker_defaults = Raise e ->
  add_worker_pools environment worker_images worker_defaults (wp :: after) rs
  = (rs, Raise e).
Proof.
  intros Hwp. now rewrite (add_worker_pools_cons _ _ _ rs), Hwp.
Qed.

(** Whatever the loop does, it has assembled a prefix of the definitions
    and made the calls that add their resources. *)
Lemma add_worker_pools_trace environment worker_images worker_defaults rs0
    pools :
  forall rs,
  exists made,
    Forall2 (fun wp r =>
               make_worker_pool environment rs0 wp worker_images
                 worker_defaults = Ok r)
      (firstn (List.length made) pools) made /\
    fst (add_worker_pools environment worker_images worker_defaults pools rs)
    = fst (run_calls (adds tcadmin made) rs) /\
    (snd (add_worker_pools environment worker_images worker_defaults pools
            rs) = Ok tt ->
     snd (run_calls (adds tcadmin made) rs) = Ok tt /\
     List.length made = List.length pools).
Proof.
  induction pools as [|wp pools IH]; intros rs.
  - exists []. cbn. split; [constructor|]. now split.
  - rewrite (add_worker_pools_cons _ _ _ rs0).
    destruct (make_worker_pool environment rs0 wp worker_images
                worker_defaults) as [r|e] eqn:Hr.
    2:{ exists []. cbn. split; [constructor|].
        split; [reflexivity|discriminate]. }
    destruct (Tcadmin.truthy tcadmin r) eqn:Htruthy.
    + destruct (Tcadmin.add tcadmin rs r) as [rs1 [[]|e]] eqn:Hadd.
      * destruct (IH rs1) as (made & Hmade & Hfst & Hsnd).
        exists (r :: made). cbn [List.length firstn].
        split; [now constructor|].
        unfold adds. cbn [filter]. rewrite Htruthy. cbn [map run_calls].
        rewrite Hadd. fold (adds tcadmin made). split; [exact Hfst|].
        intros Hok. destruct (Hsnd Hok) as [Hrun Hlen].
        split; [exact Hrun|now f_equal].
      * exists [r]. cbn [List.length firstn].
        split; [now repeat constructor|].
        unfold adds. cbn [filter]. rewrite Htruthy. cbn [map run_calls].
        rewrite Hadd. cbn. split; [reflexivity|discriminate].
    + destruct (IH rs) as (made & Hmade & Hfst & Hsnd).
      exists (r :: made). cbn [List.length firstn].
      split; [now constructor|].
      unfold adds. cbn [filter]. rewrite Htruthy. fold (adds tcadmin made).
      split; [exact Hfst|].
      intros Hok. destruct (Hsnd Hok) as [Hrun Hlen].
      split; [exact Hrun|now f_equal].
Qed.

(** [update_resources] step by step, once its fetches have returned. *)
Lemma update_resources_steps worker_pools worker_images ciconfig_file
    environment rs :
  update_resources (Ok worker_pools) (Ok worker_images) (Ok ciconfig_file)
    (Ok environment) rs
  = match Tcadmin.manage tcadmin rs "WorkerPool=.*" with
    | (rs1, Raise e) => (rs1, Raise e)
    | (rs1, Ok _) =>
        match py_get ciconfig_file "worker-defaults" VNone with
        | Raise e => (rs1, Raise e)
        | Ok worker_defaults =>
            let g :=
              generate_pool_variants evaluate_keyed_by worker_pools
                environment in
            and_then
              (add_worker_pools environment worker_images worker_defaults
                 (fst g) rs1)
              (match snd g with Some e => Raise e | None => Ok tt end)
        end
    end.
Proof.
  unfold WorkerPools.update_resources, Tcadmin.abind, Tcadmin.lift,
    Tcadmin.ret.
  cbn [bind].
  destruct (Tcadmin.manage tcadmin rs "WorkerPool=.*") as [rs1 [[]|e]];
    [|reflexivity].
  destruct (py_get ciconfig_file "worker-defaults" VNone)
    as [worker_defaults|e]; [|reflexivity].
  cbv zeta.
  destruct (generate_pool_variants evaluate_keyed_by worker_pools environment)
    as [outs stop].
  cbn [fst snd]. unfold and_then.
  destruct (WorkerPools.add_worker_pools evaluate_keyed_by merge tcadmin
              environment worker_images worker_defaults outs rs1)
    as [rs2 [[]|e]]; [|reflexivity].
  now destruct stop.
Qed.

(** A run whose fetches have returned and whose yielded definitions are
    all assembled: the calls it makes and how it ends. *)
Lemma update_resources_run worker_pools worker_images ciconfig_file
    environment worker_defaults outs stop made rs :
  py_get ciconfig_file "worker-defaults" VNone = Ok worker_defaults ->
  generate_pool_variants evaluate_keyed_by worker_pools environment
  = (outs, stop) ->
  Forall2 (fun wp r =>
             make_worker_pool environment rs wp worker_images
               worker_defaults = Ok r)
    outs made ->
  update_resources (Ok worker_pools) (Ok worker_images) (Ok ciconfig_file)
    (Ok environment) rs
  = and_then (run_calls (Manage "WorkerPool=.*" :: adds tcadmin made) rs)
      (match stop with Some e => Raise e | None => Ok tt end).
Proof.
  intros Hdefaults Hgen Hmade. rewrite update_resources_steps.
  cbn [run_calls].
  destruct (Tcadmin.manage tcadmin rs "WorkerPool=.*") as [rs1 [[]|e]];
    [|reflexivity].
  rewrite Hdefaults, Hgen. cbv zeta. cbn [fst snd].
  rewrite <- (app_nil_r outs).
  rewrite (@add_worker_pools_calls environment worker_images worker_defaults
             rs outs made Hmade).
  destruct (run_calls (adds tcadmin made) rs1) as [rs2 [[]|e]]; reflexivity.
Qed.

End Assembler.
End AssemblerFacts.

(* ================================================================== *)
(** * Properties of the variant expander *)
(* ================================================================== *)

Import Py WorkerPools Props PyFacts VariantFacts GeneratorFacts MergeFacts
  AzureFacts.
Local Open Scope py_scope.
Unset Implicit Arguments.

(** C4.  When the pool-id template formats and the keyed-by fields resolve
    for every (definition, variant) pair, [generate_pool_variants] runs to
    its end and yields exactly one expanded definition per pair, in order:
    its pool id is the template formatted with the variant's attributes;
    its provider is the definition's, resolved against the variant's
    attributes together with the environment; in its configuration each of
    [image], [maxCapacity], [minCapacity] and [security] holds what the
    definition's field resolves to against the same attributes, or is absent
    when that is [None] or the definition has no such field, and every
    other key is the definition's; its variants are the single empty
    placeholder.  The template [pool-{letter}] with the variants
    [letter = a] and [letter = b] yields [pool-a] and [pool-b], with the
    image of each letter, no [security] (it resolves to [None]) and the
    other keys as they were. *)
Theorem generate_pool_variants_one_per_pair
    (evaluate_keyed_by : value -> string -> dict -> result value)
    (worker_pools : list ConfigWorkerPool) (environment : value)
    (Hexpand : forall wp variant,
        In (wp, variant) (pairs worker_pools) ->
        is_ok (expand_variant evaluate_keyed_by environment wp variant) = true) :
  (exists outs,
     generate_pool_variants evaluate_keyed_by worker_pools environment
       = (outs, None) /\
     Forall2 (expanded_by evaluate_keyed_by environment)
       (pairs worker_pools) outs) /\
  map pool_id
    (fst (generate_pool_variants Util.evaluate_keyed_by
            [Examples.letter_pool] Examples.environment))
  = ["pool-a"; "pool-b"] /\
  map config
    (fst (generate_pool_variants Util.evaluate_keyed_by
            [Examples.letter_pool] Examples.environment))
  = [VDict [("image", VStr "image-a"); ("maxCapacity", VInt 2);
            ("note", VStr "kept")];
     VDict [("image", VStr "image-other"); ("maxCapacity", VInt 2);
            ("note", VStr "kept")]] /\
  map variants
    (fst (generate_pool_variants Util.evaluate_keyed_by
            [Examples.letter_pool] Examples.environment))
  = [[VDict []]; [VDict []]].
Proof.
  split; [|split; [reflexivity|split; reflexivity]].
  destruct (generate_pool_variants_ok evaluate_keyed_by worker_pools
              environment Hexpand) as (outs & Hrun & HF).
  exists outs. split; [easy|].
  eapply Forall2_impl; [|exact HF].
  intros [wp variant] wp' H. now apply expand_variant_ok.
Qed.

Lemma generate_pool_variants_one_per_pair_witness :
  exists outs,
    generate_pool_variants Util.evaluate_keyed_by [Examples.letter_pool]
      Examples.environment = (outs, None) /\
    Forall2 (expanded_by Util.evaluate_keyed_by Examples.environment)
      (pairs [Examples.letter_pool]) outs.
Proof.
  refine (proj1 (generate_pool_variants_one_per_pair Util.evaluate_keyed_by
                   [Examples.letter_pool] Examples.environment _)).
  intros wp variant [H|[H|[]]]; inversion H; subst; reflexivity.
Defined.

(** C7.  On a configuration mapping, when every field among [image],
    [maxCapacity], [minCapacity] and [security] that is present resolves,
    [update_config] returns a mapping in which each of these four fields
    holds the resolved value, or is absent when resolution returned [None];
    one of the four that was absent stays absent and every other key keeps
    its value.  The expander applies [update_config] to the configuration
    of the definition, under the formatted pool id and the attribute
    context of the variant. *)
Theorem update_config_resolves_variant_fields
    (evaluate_keyed_by : value -> string -> dict -> result value)
    (c : dict) (name : string) (attributes : dict)
    (Hresolve : forall k field,
        In k ["image"; "maxCapacity"; "minCapacity"; "security"] ->
        dict_get k c = Some field ->
        is_ok (evaluate_keyed_by field name attributes) = true) :
  (exists c',
     update_config evaluate_keyed_by (VDict c) name attributes
       = Ok (VDict c') /\
     (forall k field,
         In k ["image"; "maxCapacity"; "minCapacity"; "security"] ->
         dict_get k c = Some field ->
         exists r, evaluate_keyed_by field name attributes = Ok r /\
                   dict_get k c' = if is_None r then None else Some r) /\
     (forall k,
         In k ["image"; "maxCapacity"; "minCapacity"; "security"] ->
         dict_get k c = None -> dict_get k c' = None) /\
     (forall k,
         ~ In k ["image"; "maxCapacity"; "minCapacity"; "security"] ->
         dict_get k c' = dict_get k c)) /\
  (forall environment wp variant wp',
      expand_variant evaluate_keyed_by environment wp variant = Ok wp' ->
      exists v,
        variant = VDict v /\
        update_config evaluate_keyed_by (config wp) (pool_id wp')
          (dict_update [("environment", environment)] v) = Ok (config wp')).
Proof.
  split.
  - exact (update_keys_spec evaluate_keyed_by name attributes
             variant_keys_NoDup c Hresolve).
  - intros environment wp variant wp' H.
    apply expand_variant_inv in H as (v & Hv & _ & _ & Hcfg & _).
    exists v. split; [exact Hv | exact Hcfg].
Qed.

Lemma update_config_resolves_variant_fields_witness :
  exists c',
    update_config Util.evaluate_keyed_by (VDict Examples.keyed_config) "pool-a"
      [("environment", Examples.environment); ("letter", VStr "a")]
    = Ok (VDict c') /\
    dict_get "image" c' = Some (VStr "image-a") /\
    dict_get "maxCapacity" c' = Some (VInt 10) /\
    dict_get "minCapacity" c' = Some (VInt 2) /\
    dict_get "security" c' = None /\
    dict_get "note" c' = Some (VStr "kept").
Proof.
  destruct (update_config_resolves_variant_fields Util.evaluate_keyed_by
              Examples.keyed_config "pool-a"
              [("environment", Examples.environment); ("letter", VStr "a")])
    as ((c' & Hrun & Hres & _ & Hrest) & _).
  - intros k field Hk Hget.
    destruct Hk as [<-|[<-|[<-|[<-|[]]]]];
      vm_compute in Hget; inversion Hget; reflexivity.
  - exists c'. split; [exact Hrun|].
    split; [|split; [|split; [|split]]].
    + destruct (Hres "image" _ (or_introl eq_refl) eq_refl) as (r & Hr & ->).
      vm_compute in Hr. now inversion Hr.
    + destruct (Hres "maxCapacity" _ (or_intror (or_introl eq_refl)) eq_refl)
        as (r & Hr & ->).
      vm_compute in Hr. now inversion Hr.
    + destruct (Hres "minCapacity" _
                  (or_intror (or_intror (or_introl eq_refl))) eq_refl)
        as (r & Hr & ->).
      vm_compute in Hr. now inversion Hr.
    + destruct (Hres "security" _
                  (or_intror (or_intror (or_intror (or_introl eq_refl))))
                  eq_refl)
        as (r & Hr & ->).
      vm_compute in Hr. now inversion Hr.
    + rewrite Hrest; [reflexivity|].
      simpl. intuition discriminate.
Defined.

(** C9 (as amended).  A definition yields as many expanded definitions as
    it lists variants, provided each expands: none when the list is empty.
    The single default variant is the one-element list holding the empty
    attribute-set. *)
Theorem generate_pool_variants_counts_variants
    (evaluate_keyed_by : value -> string -> dict -> result value)
    (wp : ConfigWorkerPool) (environment : value)
    (Hexpand : forall variant,
        In variant (variants wp) ->
        is_ok (expand_variant evaluate_keyed_by environment wp variant) = true) :
  exists outs,
    generate_pool_variants evaluate_keyed_by [wp] environment = (outs, None) /\
    List.length outs = List.length (variants wp) /\
    (variants wp = [] -> outs = []).
Proof.
  destruct (generate_pool_variants_ok evaluate_keyed_by [wp] environment)
    as (outs & Hrun & HF).
  { unfold pairs. simpl. rewrite app_nil_r. intros wp0 v Hin.
    apply in_map_iff in Hin as (v' & Heq & Hin). inversion Heq; subst.
    now apply Hexpand. }
  exists outs. split; [easy|].
  apply Forall2_length in HF. unfold pairs in HF. simpl in HF.
  rewrite app_nil_r, length_map in HF.
  split; [easy|]. intros Hnil. rewrite Hnil in HF.
  now destruct outs.
Qed.

Lemma generate_pool_variants_counts_variants_witness :
  exists outs,
    generate_pool_variants Util.evaluate_keyed_by [Examples.no_variant_pool]
      Examples.environment = (outs, None) /\
    List.length outs = 0 /\
    (variants Examples.no_variant_pool = [] -> outs = []).
Proof.
  refine (generate_pool_variants_counts_variants Util.evaluate_keyed_by
            Examples.no_variant_pool Examples.environment _).
  intros variant [].
Defined.

(** A definition whose list of variants is empty yields nothing, not one
    default expansion. *)
Lemma empty_variants_yield_no_definition :
  variants Examples.no_variant_pool = [] /\
  generate_pool_variants Util.evaluate_keyed_by [Examples.no_variant_pool]
    Examples.environment = ([], None) /\
  ~ (exists wp',
       fst (generate_pool_variants Util.evaluate_keyed_by
              [Examples.no_variant_pool] Examples.environment) = [wp']).
Proof.
  split; [reflexivity|]. split; [reflexivity|].
  intros [wp' H]. discriminate H.
Qed.

(* ================================================================== *)
(** * Properties of the provider generators *)
(* ================================================================== *)

(** C8.  The dispatch table registers the AWS, the Google and the Azure
    generator, under [aws], [google] and [azure], and no other.  Whatever
    one of the three returns is the mapping with the keys [minCapacity],
    [maxCapacity], [lifecycle] and [launchConfigs], in which [minCapacity]
    is the pool's or 0, [maxCapacity] is the pool's, [lifecycle] is the
    merge of the resolved default lifecycle with the pool's own, and
    [launchConfigs] is a list; a pool configuration without [maxCapacity]
    makes each of them raise.  On a well-formed pool each of the three does
    return such a mapping, with the deep merge of the specification: the
    Google generator with one launch configuration per instance type of a
    pool over one zone, the Azure generator with one per location and
    size. *)
Theorem provider_generators_return_resolved_pool
    (evaluate_keyed_by : value -> string -> dict -> result value)
    (merge : list value -> result value) :
  (PROVIDER_IMPLEMENTATIONS evaluate_keyed_by merge (VStr "aws")
   = Ok (get_aws_provider_config evaluate_keyed_by merge) /\
   PROVIDER_IMPLEMENTATIONS evaluate_keyed_by merge (VStr "google")
   = Ok (get_google_provider_config evaluate_keyed_by merge) /\
   PROVIDER_IMPLEMENTATIONS evaluate_keyed_by merge (VStr "azure")
   = Ok (get_azure_provider_config evaluate_keyed_by merge) /\
   forall name generator,
     PROVIDER_IMPLEMENTATIONS evaluate_keyed_by merge name = Ok generator ->
     In generator
       [get_aws_provider_config evaluate_keyed_by merge;
        get_google_provider_config evaluate_keyed_by merge;
        get_azure_provider_config evaluate_keyed_by merge]) /\
  (forall (generator : provider_generator)
          (environment provider_id : value) (pool_id : string)
          (config : value) (worker_images : WorkerImages) (defaults : value),
      In generator
        [get_aws_provider_config evaluate_keyed_by merge;
         get_google_provider_config evaluate_keyed_by merge;
         get_azure_provider_config evaluate_keyed_by merge] ->
      (forall res,
          generator environment provider_id pool_id config worker_images
            defaults = Ok res ->
          exists c,
            config = VDict c /\
            resolved_from evaluate_keyed_by merge provider_id c defaults res)
      /\
      (forall c,
          config = VDict c -> dict_get "maxCapacity" c = None ->
          raises (generator environment provider_id pool_id config
                    worker_images defaults))) /\
  (forall (environment provider_id : value) (pool_id : string) (c : dict)
          (worker_images : WorkerImages) (defaults : value),
      (forall region zone invalid its,
          aws_single_zone_pool evaluate_keyed_by environment provider_id
            pool_id c worker_images defaults region zone invalid its ->
          exists max_capacity lifecycle launch_configs,
            get_aws_provider_config evaluate_keyed_by Util.merge environment
              provider_id pool_id (VDict c) worker_images defaults
            = Ok (resolved_pool (dict_get_default "minCapacity" (VInt 0) c)
                    max_capacity lifecycle launch_configs) /\
            dict_get "maxCapacity" c = Some max_capacity) /\
      (forall region zone its,
          google_single_zone_pool evaluate_keyed_by environment provider_id
            pool_id c worker_images defaults region zone its ->
          exists max_capacity lifecycle launch_configs,
            get_google_provider_config evaluate_keyed_by Util.merge
              environment provider_id pool_id (VDict c) worker_images defaults
            = Ok (resolved_pool (dict_get_default "minCapacity" (VInt 0) c)
                    max_capacity lifecycle launch_configs) /\
            dict_get "maxCapacity" c = Some max_capacity /\
            List.length launch_configs = List.length its) /\
      (forall locations sizes,
          azure_pool evaluate_keyed_by environment provider_id pool_id c
            worker_images defaults locations sizes ->
          exists max_capacity lifecycle launch_configs,
            get_azure_provider_config evaluate_keyed_by Util.merge
              environment provider_id pool_id (VDict c) worker_images defaults
            = Ok (resolved_pool (dict_get_default "minCapacity" (VInt 0) c)
                    max_capacity lifecycle launch_configs) /\
            dict_get "maxCapacity" c = Some max_capacity /\
            List.length launch_configs
            = List.length locations * List.length sizes)).
Proof.
  split; [|split].
  - repeat (split; [reflexivity|]).
    intros name generator H. apply generator_of in H.
    destruct H as [->|[->| ->]]; cbn [In]; auto.
  - intros generator environment provider_id pool_id config worker_images
      defaults Hgenerator.
    assert (Hcases :
              generator = get_aws_provider_config evaluate_keyed_by merge \/
              generator = get_azure_provider_config evaluate_keyed_by merge \/
              generator = get_google_provider_config evaluate_keyed_by merge)
      by (destruct Hgenerator as [<-|[<-|[<-|[]]]]; auto).
    clear Hgenerator. split.
    + intros res Hres.
      assert (exists c, config = VDict c) as [c ->].
      { eapply generators_need_a_dict with (res := res).
        destruct Hcases as [->|[->| ->]]; eauto. }
      exists c. split; [easy|].
      destruct Hcases as [->|[->| ->]].
      * eapply aws_resolved_from; eassumption.
      * eapply azure_resolved_from; eassumption.
      * eapply google_resolved_from; eassumption.
    + intros c -> Hmax.
      destruct Hcases as [->|[->| ->]].
      * rewrite get_aws_provider_config_dict. raises_through.
        now apply no_max_capacity_raises.
      * rewrite get_azure_provider_config_dict. raises_through.
        now apply no_max_capacity_raises.
      * rewrite get_google_provider_config_dict. raises_through.
        now apply no_max_capacity_raises.
  - intros environment provider_id pool_id c worker_images defaults.
    assert (Hheld : forall run min_capacity max_capacity lifecycle
                           launch_configs,
              run = Ok (resolved_pool min_capacity max_capacity lifecycle
                          launch_configs) ->
              (forall res, run = Ok res ->
                 exists c0, VDict c = VDict c0 /\
                   resolved_from evaluate_keyed_by Util.merge provider_id c0
                     defaults res) ->
              dict_get "maxCapacity" c = Some max_capacity).
    { intros run mn mx lf lcs Hrun Hshape.
      destruct (Hshape _ Hrun)
        as (c0 & Hc0 & mx' & lf' & lcs' & r & dl & Hres & Hmx & _).
      apply VDict_inj in Hc0. subst c0.
      unfold resolved_pool in Hres. injection Hres as _ <- _ _.
      exact Hmx. }
    split; [|split].
    + intros region zone invalid its Hpool.
      destruct (@AwsFacts.aws_single_zone_runs evaluate_keyed_by environment
                  provider_id pool_id c worker_images defaults region zone
                  invalid its Hpool)
        as (max_capacity & lifecycle & wc & chunks & Hrun & _).
      exists max_capacity, lifecycle, (List.concat chunks).
      split; [exact Hrun|].
      eapply Hheld; [exact Hrun|].
      intros res Hres. exists c. split; [reflexivity|].
      eapply aws_resolved_from; eassumption.
    + intros region zone its Hpool.
      destruct (@GoogleFacts.google_single_zone_runs evaluate_keyed_by
                  environment provider_id pool_id c worker_images defaults
                  region zone its Hpool)
        as (max_capacity & lifecycle & launch_configs & Hrun & HF).
      exists max_capacity, lifecycle, launch_configs.
      split; [exact Hrun|]. split.
      * eapply Hheld; [exact Hrun|].
        intros res Hres. exists c. split; [reflexivity|].
        eapply google_resolved_from; eassumption.
      * symmetry. exact (Forall2_length HF).
    + intros locations sizes Hpool.
      destruct (@AzureRunFacts.azure_pool_runs evaluate_keyed_by environment
                  provider_id pool_id c worker_images defaults locations sizes
                  Hpool)
        as (max_capacity & lifecycle & launch_configs & Hrun & Hlen).
      exists max_capacity, lifecycle, launch_configs.
      split; [exact Hrun|]. split; [|exact Hlen].
      eapply Hheld; [exact Hrun|].
      intros res Hres. exists c. split; [reflexivity|].
      eapply azure_resolved_from; eassumption.
Qed.

Lemma provider_generators_return_resolved_pool_witness :
  (exists max_capacity lifecycle launch_configs,
      Examples.run_aws None [Examples.instance "c5.large" []]
      = Ok (resolved_pool (VInt 0) max_capacity lifecycle launch_configs) /\
      Some (VInt 10) = Some max_capacity) /\
  (exists max_capacity lifecycle launch_configs,
      Examples.run_google None [Examples.google_instance []]
      = Ok (resolved_pool (VInt 0) max_capacity lifecycle launch_configs) /\
      Some (VInt 5) = Some max_capacity /\
      List.length launch_configs = 1) /\
  (exists max_capacity lifecycle launch_configs,
      Examples.run_azure
        [VDict [("vmSize", VStr "Standard_F8s_v2")];
         VDict [("vmSize", VStr "Standard_F16s_v2")]] []
      = Ok (resolved_pool (VInt 0) max_capacity lifecycle launch_configs) /\
      Some (VInt 3) = Some max_capacity /\
      List.length launch_configs = 2).
Proof.
  split; [|split].
  - apply (proj1 (proj2 (proj2
             (provider_generators_return_resolved_pool
                Util.evaluate_keyed_by Util.merge))
             Examples.environment (VStr "aws") "pool"
             (Examples.aws_pool_config None [Examples.instance "c5.large" []])
             Examples.worker_images Examples.worker_defaults)
           (VStr "us-east-1") (VStr "us-east-1a") (VList [Examples.no_m5])
           [[("instanceType", VStr "c5.large")]]).
    constructor; try reflexivity.
    + do 2 eexists. repeat split; reflexivity.
    + do 2 eexists. repeat split; reflexivity.
    + do 4 eexists. repeat split; reflexivity.
    + repeat constructor; eexists; repeat split; reflexivity.
  - apply (proj1 (proj2 (proj2 (proj2
             (provider_generators_return_resolved_pool
                Util.evaluate_keyed_by Util.merge))
             Examples.environment (VStr "google") "pool"
             (Examples.google_pool_config None [Examples.google_instance []])
             Examples.worker_images Examples.worker_defaults))
           (VStr "us-central1") (VStr "us-central1-a")
           [[("machine_type", VStr "n2-standard-4");
             ("disks",
               VList [VDict [("initializeParams",
                               VDict [("sourceImage", VStr "<image>")])]])]]).
    constructor; try reflexivity.
    + do 2 eexists. repeat split; reflexivity.
    + do 2 eexists. repeat split; reflexivity.
    + do 2 eexists. repeat split; reflexivity.
  - apply (proj2 (proj2 (proj2 (proj2
             (provider_generators_return_resolved_pool
                Util.evaluate_keyed_by Util.merge))
             Examples.environment (VStr "azure") "pool"
             (Examples.azure_pool_config
                [VDict [("vmSize", VStr "Standard_F8s_v2")];
                 VDict [("vmSize", VStr "Standard_F16s_v2")]] [])
             Examples.worker_images Examples.worker_defaults))
           ["east-us"]
           [[("vmSize", VStr "Standard_F8s_v2")];
            [("vmSize", VStr "Standard_F16s_v2")]]).
    constructor; try reflexivity.
    + do 2 eexists. repeat split; reflexivity.
    + do 2 eexists. repeat split; reflexivity.
    + eexists. split; reflexivity.
Defined.

(** C5.  On a well-formed AWS pool with one region, one availability zone
    that no entry of the table of invalid instances lists, and two instance
    types, the generator returns exactly two launch configurations, one
    per instance type in order; each carries the [capacityPerInstance] of
    its instance type, which is 1 when the instance type sets none, and for
    docker-worker its [workerConfig] then has [capacity] 1. *)
Theorem aws_two_instance_types_give_two_launch_configs
    (evaluate_keyed_by : value -> string -> dict -> result value)
    (environment provider_id : value) (pool_id : string) (c : dict)
    (worker_images : WorkerImages) (defaults region zone : value)
    (entries : list value) (d1 d2 : dict)
    (Hpool : aws_single_zone_pool evaluate_keyed_by environment provider_id
               pool_id c worker_images defaults region zone (VList entries)
               [d1; d2])
    (Hfree : forallb (zone_free zone) entries = true) :
  exists max_capacity lifecycle lc1 lc2,
    get_aws_provider_config evaluate_keyed_by Util.merge environment
      provider_id pool_id (VDict c) worker_images defaults
    = Ok (resolved_pool (dict_get_default "minCapacity" (VInt 0) c)
            max_capacity lifecycle [lc1; lc2]) /\
    carries_capacity (dict_get_default "implementation" docker_worker c) d1 lc1 /\
    carries_capacity (dict_get_default "implementation" docker_worker c) d2 lc2.
Proof.
  destruct (@AwsFacts.aws_single_zone_runs evaluate_keyed_by environment
              provider_id pool_id c worker_images defaults region zone
              (VList entries) [d1; d2] Hpool)
    as (max_capacity & lifecycle & wc & chunks & Hrun & HF).
  pose proof (sz_instances Hpool) as Hinstances.
  assert (Hbuilt : forall d l,
            In d [d1; d2] ->
            aws_outcome (VList entries) zone region wc
              (dict_get_default "implementation" docker_worker c) d l ->
            exists lc,
              l = [lc] /\
              carries_capacity
                (dict_get_default "implementation" docker_worker c) d lc).
  { intros d l Hd Hout. rewrite Forall_forall in Hinstances.
    destruct (Hinstances d Hd) as (name & Hname & Hok & _).
    pose proof (@AwsFacts.is_invalid_zone_free entries zone name Hfree Hok)
      as Hfalse.
    rewrite <- (@AwsFacts.invalid_in_name (VList entries) zone d name Hname)
      in Hfalse.
    destruct Hout as [[Hskip _]|[_ (inner & iwc & aud & -> & Hiwc)]];
      [congruence|].
    eexists. split; [reflexivity|].
    now apply AwsFacts.aws_launch_carries_capacity with (worker_config := wc). }
  inversion HF as [|? l1 ? chunks1 Ho1 HF1]; subst.
  inversion HF1 as [|? l2 ? chunks2 Ho2 HF2]; subst.
  inversion HF2; subst.
  destruct (Hbuilt d1 l1) as (lc1 & -> & Hc1); [simpl; auto | exact Ho1 |].
  destruct (Hbuilt d2 l2) as (lc2 & -> & Hc2); [simpl; auto | exact Ho2 |].
  exists max_capacity, lifecycle, lc1, lc2.
  split; [exact Hrun|]. split; assumption.
Qed.

Lemma aws_two_instance_types_give_two_launch_configs_witness :
  exists max_capacity lifecycle lc1 lc2,
    get_aws_provider_config Util.evaluate_keyed_by Util.merge
      Examples.quiet_environment (VStr "aws") "pool"
      (VDict (Examples.aws_pool_config None
                [Examples.instance "c5.large" [];
                 Examples.instance "c5.xlarge" []]))
      Examples.worker_images Examples.worker_defaults
    = Ok (resolved_pool (VInt 0) max_capacity lifecycle [lc1; lc2]) /\
    carries_capacity docker_worker [("instanceType", VStr "c5.large")] lc1 /\
    carries_capacity docker_worker [("instanceType", VStr "c5.xlarge")] lc2.
Proof.
  apply (aws_two_instance_types_give_two_launch_configs
           Util.evaluate_keyed_by Examples.quiet_environment (VStr "aws")
           "pool"
           (Examples.aws_pool_config None
              [Examples.instance "c5.large" [];
               Examples.instance "c5.xlarge" []])
           Examples.worker_images Examples.worker_defaults
           (VStr "us-east-1") (VStr "us-east-1a") [Examples.elsewhere]
           [("instanceType", VStr "c5.large")]
           [("instanceType", VStr "c5.xlarge")]).
  - constructor; try reflexivity.
    + do 2 eexists. repeat split; reflexivity.
    + do 2 eexists. repeat split; reflexivity.
    + do 4 eexists. repeat split; reflexivity.
    + repeat constructor; eexists; repeat split; reflexivity.
  - reflexivity.
Defined.

(** C6.  In the innermost AWS loop an instance type named
    [family.size] is skipped, without error, exactly when some entry of the
    table of invalid instances has the zone among its zones and the family
    among its families.  On a well-formed pool with one region, one zone
    and two instance types, where the table's one entry covers the zone
    and the family of the first instance type only, the generator returns
    exactly one launch configuration, that of the second. *)
Theorem aws_skips_exactly_the_invalid_instance_types :
  (forall (merge : list value -> result value)
          (provider_id : value) (image : WorkerImage) (aws : dict)
          (security_groups subnet_id worker_config implementation spot
             user_data region zone : value)
          (entries : list value) (d : dict) (family size : string),
      dict_get "invalid-instances" aws = Some (VList entries) ->
      forallb well_formed_entry entries = true ->
      dict_get "instanceType" d = Some (VStr (family ++ "." ++ size)) ->
      contains_char "." family = false ->
      (aws_launch_config merge provider_id image (VDict aws) security_groups
         subnet_id worker_config implementation spot user_data region zone
         (VDict d) = Ok []
       <-> existsb (covers zone family) entries = true))
  /\
  (forall (evaluate_keyed_by : value -> string -> dict -> result value)
          (environment provider_id : value) (pool_id : string) (c : dict)
          (worker_images : WorkerImages) (defaults region zone entry : value)
          (d1 d2 : dict) (family1 size1 family2 size2 : string),
      aws_single_zone_pool evaluate_keyed_by environment provider_id pool_id
        c worker_images defaults region zone (VList [entry]) [d1; d2] ->
      well_formed_entry entry = true ->
      dict_get "instanceType" d1 = Some (VStr (family1 ++ "." ++ size1)) ->
      contains_char "." family1 = false ->
      dict_get "instanceType" d2 = Some (VStr (family2 ++ "." ++ size2)) ->
      contains_char "." family2 = false ->
      covers zone family1 entry = true ->
      covers zone family2 entry = false ->
      exists max_capacity lifecycle lc,
        get_aws_provider_config evaluate_keyed_by Util.merge environment
          provider_id pool_id (VDict c) worker_images defaults
        = Ok (resolved_pool (dict_get_default "minCapacity" (VInt 0) c)
                max_capacity lifecycle [lc]) /\
        carries_capacity (dict_get_default "implementation" docker_worker c)
          d2 lc).
Proof.
  split.
  - intros merge provider_id image aws security_groups subnet_id worker_config
      implementation spot user_data region zone entries d family size
      Htable Hwf Hname Hfamily.
    pose proof (@AwsFacts.is_invalid_covers entries zone family size Hwf
                  Hfamily) as Hcheck.
    split.
    + intros Hskip.
      apply GeneratorFacts.aws_launch_config_ok in Hskip
        as (d' & invalid & name & Hd & Hname' & Hinvalid & Hcases).
      apply VDict_inj in Hd. subst d'.
      cbn [py_getitem] in Hinvalid. rewrite Htable in Hinvalid.
      apply Ok_inj in Hinvalid. subst invalid.
      rewrite Hname in Hname'. injection Hname' as <-.
      destruct Hcases as [[Htrue _]|[_ (? & ? & ? & Habs & _)]];
        [|discriminate Habs].
      change (family ++ "." ++ size) with (family ++ String "." size) in Htrue.
      rewrite Hcheck in Htrue. now apply Ok_inj in Htrue.
    + intros Hcovered. unfold aws_launch_config. cbn [py_getitem bind].
      rewrite Htable, Hname. cbn [bind].
      change (family ++ "." ++ size) with (family ++ String "." size).
      rewrite Hcheck, Hcovered. reflexivity.
  - intros evaluate_keyed_by environment provider_id pool_id c worker_images
      defaults region zone entry d1 d2 family1 size1 family2 size2
      Hpool Hentry Hname1 Hfamily1 Hname2 Hfamily2 Hcovers1 Hcovers2.
    destruct (@AwsFacts.aws_single_zone_runs evaluate_keyed_by environment
                provider_id pool_id c worker_images defaults region zone
                (VList [entry]) [d1; d2] Hpool)
      as (max_capacity & lifecycle & wc & chunks & Hrun & HF).
    assert (Hwf : forallb well_formed_entry [entry] = true)
      by (cbn [forallb]; now rewrite Hentry).
    assert (Hcheck1 : invalid_in (VList [entry]) zone d1 = Ok true).
    { rewrite (@AwsFacts.invalid_in_name _ _ _ _ Hname1).
      change (family1 ++ "." ++ size1) with (family1 ++ String "." size1).
      rewrite (@AwsFacts.is_invalid_covers [entry] zone family1 size1 Hwf
                 Hfamily1).
      cbn [existsb]. now rewrite Hcovers1. }
    assert (Hcheck2 : invalid_in (VList [entry]) zone d2 = Ok false).
    { rewrite (@AwsFacts.invalid_in_name _ _ _ _ Hname2).
      change (family2 ++ "." ++ size2) with (family2 ++ String "." size2).
      rewrite (@AwsFacts.is_invalid_covers [entry] zone family2 size2 Hwf
                 Hfamily2).
      cbn [existsb]. now rewrite Hcovers2. }
    inversion HF as [|? l1 ? chunks1 Ho1 HF1]; subst.
    inversion HF1 as [|? l2 ? chunks2 Ho2 HF2]; subst.
    inversion HF2; subst.
    destruct Ho1 as [[_ ->]|[Habs _]]; [|congruence].
    destruct Ho2 as [[Habs _]|[_ (inner & iwc & aud & -> & Hiwc)]];
      [congruence|].
    exists max_capacity, lifecycle. eexists. split; [exact Hrun|].
    now apply AwsFacts.aws_launch_carries_capacity with (worker_config := wc).
Qed.

Lemma aws_skips_exactly_the_invalid_instance_types_witness :
  exists max_capacity lifecycle lc,
    get_aws_provider_config Util.evaluate_keyed_by Util.merge
      Examples.environment (VStr "aws") "pool"
      (VDict (Examples.aws_pool_config None
                [Examples.instance "m5.large" [];
                 Examples.instance "c5.large" []]))
      Examples.worker_images Examples.worker_defaults
    = Ok (resolved_pool (VInt 0) max_capacity lifecycle [lc]) /\
    carries_capacity docker_worker [("instanceType", VStr "c5.large")] lc.
Proof.
  apply (proj2 aws_skips_exactly_the_invalid_instance_types
           Util.evaluate_keyed_by Examples.environment (VStr "aws") "pool"
           (Examples.aws_pool_config None
              [Examples.instance "m5.large" [];
               Examples.instance "c5.large" []])
           Examples.worker_images Examples.worker_defaults
           (VStr "us-east-1") (VStr "us-east-1a") Examples.no_m5
           [("instanceType", VStr "m5.large")]
           [("instanceType", VStr "c5.large")]
           "m5" "large" "c5" "large");
    try reflexivity.
  constructor; try reflexivity.
  - do 2 eexists. repeat split; reflexivity.
  - do 2 eexists. repeat split; reflexivity.
  - do 4 eexists. repeat split; reflexivity.
  - repeat constructor; eexists; repeat split; reflexivity.
Defined.

(** C10.  The AWS check of an instance type against the table of invalid
    instances splits the name at its first dot.  On a name of the form
    [family.size] and a well-formed table it returns; on a name without a
    dot it raises, whatever the table and the zone, so the pass of the
    innermost loop over that instance type raises instead of skipping or
    accepting it, and so does the AWS generator as soon as a region with a
    zone takes the loop there. *)
Theorem aws_check_needs_a_dotted_instance_type
    (evaluate_keyed_by : value -> string -> dict -> result value)
    (merge : list value -> result value)
    (environment provider_id : value) (pool_id : string) (c : dict)
    (worker_images : WorkerImages) (defaults region zone aws az_rule : value)
    (regions zones its : list value) (d : dict) (s : string)
    (Hregions : dict_get "regions" c = Some (VList (region :: regions)))
    (Hits : dict_get "instance_types" c = Some (VList its))
    (Hin : In (VDict d) its)
    (Hname : dict_get "instanceType" d = Some (VStr s))
    (Hdot : contains_char "." s = false)
    (Haws : py_getattr environment "aws_config" = Ok aws)
    (Haz_rule : py_getitem aws (VStr "availability-zones") = Ok az_rule)
    (Hzones : evaluate_keyed_by az_rule pool_id [("region", region)]
              = Ok (VList (zone :: zones))) :
  (forall entries z family size,
      forallb well_formed_entry entries = true ->
      contains_char "." family = false ->
      is_ok (is_invalid_aws_instance_type (VList entries) z
               (VStr (family ++ "." ++ size))) = true) /\
  (forall invalid z,
      is_invalid_aws_instance_type invalid z (VStr s)
      = Raise (ValueError "not enough values to unpack (expected 2, got 1)")) /\
  (forall image aws_config security_groups subnet_id worker_config
          implementation spot user_data r z,
      raises (aws_launch_config merge provider_id image aws_config
                security_groups subnet_id worker_config implementation spot
                user_data r z (VDict d))) /\
  raises (get_aws_provider_config evaluate_keyed_by merge environment
            provider_id pool_id (VDict c) worker_images defaults).
Proof.
  split; [|split; [|split]].
  - intros entries z family size Hwf Hfamily.
    change (family ++ "." ++ size) with (family ++ String "." size).
    now rewrite (@AwsFacts.is_invalid_covers entries z family size Hwf Hfamily).
  - intros invalid z. now apply is_invalid_without_dot.
  - intros. eapply aws_launch_config_without_dot; eassumption.
  - eapply aws_raises_in_the_loop; try eassumption.
    intros image security_groups subnet_id worker_config.
    eapply aws_launch_config_without_dot; eassumption.
Qed.

Lemma aws_check_needs_a_dotted_instance_type_witness :
  raises (get_aws_provider_config Util.evaluate_keyed_by Util.merge
            Examples.environment (VStr "aws") "pool"
            (VDict (Examples.aws_pool_config None
                      [Examples.instance "c5.large" [];
                       Examples.instance "c5" []]))
            Examples.worker_images Examples.worker_defaults).
Proof.
  refine (proj2 (proj2 (proj2
    (aws_check_needs_a_dotted_instance_type
       Util.evaluate_keyed_by Util.merge Examples.environment (VStr "aws")
       "pool"
       (Examples.aws_pool_config None
          [Examples.instance "c5.large" []; Examples.instance "c5" []])
       Examples.worker_images Examples.worker_defaults
       (VStr "us-east-1") (VStr "us-east-1a")
       (VDict (Examples.aws_config [Examples.no_m5]))
       (VDict [("by-region", VDict [("us-east-1", VList [VStr "us-east-1a"])])])
       [] [] [Examples.instance "c5.large" []; Examples.instance "c5" []]
       [("instanceType", VStr "c5")] "c5"
       _ _ _ _ _ _ _ _)))); try reflexivity.
  simpl. auto.
Defined.

(* ================================================================== *)
(** * Capacity per instance *)
(* ================================================================== *)

(** C2 (as amended).  In the AWS and the Google generator, which are the
    generators that read a list of instance types: an instance type with a
    top-level [capacity] key makes generation raise; a
    [capacityPerInstance] other than 1 makes it raise for every
    implementation but docker-worker; for docker-worker the capacity check
    passes whatever [capacityPerInstance] is.  The check runs before the
    loops that build launch configurations.  Every launch configuration a
    generator returns holds the [capacityPerInstance] of one of the
    instance types, and on a well-formed pool that passes the check both
    generators return, with one launch configuration per instance type
    they do not skip, holding its [capacityPerInstance]; sample pools with
    the value 2 are generated with 2. *)
Theorem capacity_validation_in_aws_and_google
    (evaluate_keyed_by : value -> string -> dict -> result value)
    (merge : list value -> result value)
    (environment provider_id : value) (pool_id : string) (c : dict)
    (worker_images : WorkerImages) (defaults : value)
    (its : list value) (d : dict)
    (Hits : dict_get "instance_types" c = Some (VList its))
    (Hin : In (VDict d) its) :
  let implementation := dict_get_default "implementation" docker_worker c in
  let aws :=
    get_aws_provider_config evaluate_keyed_by merge environment provider_id
      pool_id (VDict c) worker_images defaults in
  let google :=
    get_google_provider_config evaluate_keyed_by merge environment
      provider_id pool_id (VDict c) worker_images defaults in
  (dict_mem "capacity" d = true -> raises aws /\ raises google) /\
  (py_eq (capacity_per_instance d) (VInt 1) = false ->
   py_eq implementation docker_worker = false ->
   raises aws /\ raises google) /\
  (py_eq implementation docker_worker = true ->
   (forall it, In it its ->
      exists d',
        it = VDict d' /\
        dict_mem "capacity" d' = false /\
        py_in (VStr "capacity")
          (dict_get_default "worker-config" (VDict []) d') = Ok false) ->
   _validate_instance_capacity pool_id implementation (VList its) = Ok tt) /\
  (forall res lc,
      aws = Ok res \/ google = Ok res ->
      In lc (launch_configs_of res) ->
      exists d',
        In (VDict d') its /\
        holds "capacityPerInstance" (capacity_per_instance d') lc) /\
  (forall region zone invalid ds,
      aws_single_zone_pool evaluate_keyed_by environment provider_id pool_id
        c worker_images defaults region zone invalid ds ->
      exists max_capacity lifecycle worker_config chunks,
        get_aws_provider_config evaluate_keyed_by Util.merge environment
          provider_id pool_id (VDict c) worker_images defaults
        = Ok (resolved_pool (dict_get_default "minCapacity" (VInt 0) c)
                max_capacity lifecycle (List.concat chunks)) /\
        Forall2 (aws_outcome invalid zone region worker_config implementation)
          ds chunks) /\
  (forall region zone ds,
      google_single_zone_pool evaluate_keyed_by environment provider_id
        pool_id c worker_images defaults region zone ds ->
      exists max_capacity lifecycle launch_configs,
        get_google_provider_config evaluate_keyed_by Util.merge environment
          provider_id pool_id (VDict c) worker_images defaults
        = Ok (resolved_pool (dict_get_default "minCapacity" (VInt 0) c)
                max_capacity lifecycle launch_configs) /\
        Forall2 (fun d' lc =>
                   holds "capacityPerInstance" (capacity_per_instance d') lc)
          ds launch_configs) /\
  (exists res lc,
      Examples.run_aws None
        [Examples.instance "c5.large" [("capacityPerInstance", VInt 2)]]
      = Ok res /\
      launch_configs_of res = [lc] /\
      holds "capacityPerInstance" (VInt 2) lc) /\
  (exists res lc,
      Examples.run_google None
        [Examples.google_instance [("capacityPerInstance", VInt 2)]]
      = Ok res /\
      launch_configs_of res = [lc] /\
      holds "capacityPerInstance" (VInt 2) lc).
Proof.
  intros implementation aws google.
  assert (Hraise :
    raises (validate_instance_type pool_id implementation (VDict d)) ->
    raises aws /\ raises google).
  { intros H.
    pose proof (@validation_raises pool_id implementation its (VDict d) Hin H)
      as Hvalid.
    split.
    - now apply aws_raises_in_validation with (its_v := VList its).
    - now apply google_raises_in_validation with (its_v := VList its). }
  split; [|split; [|split; [|split; [|split; [|split; [|split]]]]]].
  - intros Hkey. apply Hraise.
    now apply validate_instance_type_capacity_key.
  - intros Hcpi Himpl. apply Hraise.
    now apply validate_instance_type_capacity_per_instance.
  - intros Himpl Hwf. unfold _validate_instance_capacity. cbn [py_iter bind].
    apply for_check_ok. intros it Hit.
    destruct (Hwf it Hit) as (d' & -> & Htop & Hnested).
    apply validate_instance_type_passes; auto.
  - intros res lc Hres Hlc.
    assert (Hfrom : forall d', from_instance_types c d' -> In (VDict d') its).
    { intros d' (its_v & its' & Hv & Hiter & Hd').
      rewrite Hits in Hv. injection Hv as <-.
      cbn [py_iter] in Hiter. apply Ok_inj in Hiter. now subst its'. }
    destruct Hres as [Hres|Hres].
    + destruct (@aws_emitted evaluate_keyed_by merge environment provider_id
                  pool_id c worker_images defaults res Hres lc Hlc)
        as (d' & region & inner & wc & iwc & aud & Hd' & _ & -> & _).
      exists d'. split; [now apply Hfrom|].
      eexists. split; reflexivity.
    + destruct (@google_emitted evaluate_keyed_by merge environment
                  provider_id pool_id c worker_images defaults res Hres lc Hlc)
        as (d' & Hd' & _ & Hholds).
      exists d'. split; [now apply Hfrom | exact Hholds].
  - intros region zone invalid ds Hpool.
    now apply AwsFacts.aws_single_zone_runs.
  - intros region zone ds Hpool.
    now apply GoogleFacts.google_single_zone_runs with (region := region)
                                                       (zone := zone).
  - do 2 eexists. split; [reflexivity|]. split; [reflexivity|].
    eexists. split; reflexivity.
  - do 2 eexists. split; [reflexivity|]. split; [reflexivity|].
    eexists. split; reflexivity.
Qed.

Lemma capacity_validation_in_aws_and_google_witness :
  (raises (get_aws_provider_config Util.evaluate_keyed_by Util.merge
             Examples.environment (VStr "aws") "pool"
             (VDict (Examples.aws_pool_config (Some "generic-worker")
                       [Examples.instance "c5.large"
                          [("capacityPerInstance", VInt 2)]]))
             Examples.worker_images Examples.worker_defaults) /\
   raises (get_google_provider_config Util.evaluate_keyed_by Util.merge
             Examples.environment (VStr "aws") "pool"
             (VDict (Examples.aws_pool_config (Some "generic-worker")
                       [Examples.instance "c5.large"
                          [("capacityPerInstance", VInt 2)]]))
             Examples.worker_images Examples.worker_defaults)) /\
  (exists max_capacity lifecycle launch_configs,
      get_google_provider_config Util.evaluate_keyed_by Util.merge
        Examples.environment (VStr "google") "pool"
        (VDict (Examples.google_pool_config None
                  [Examples.google_instance
                     [("capacityPerInstance", VInt 2)]]))
        Examples.worker_images Examples.worker_defaults
      = Ok (resolved_pool (VInt 0) max_capacity lifecycle launch_configs) /\
      Forall2 (fun d lc =>
                 holds "capacityPerInstance" (capacity_per_instance d) lc)
        [[("machine_type", VStr "n2-standard-4");
          ("disks",
            VList [VDict [("initializeParams",
                            VDict [("sourceImage", VStr "<image>")])]]);
          ("capacityPerInstance", VInt 2)]]
        launch_configs).
Proof.
  split.
  - refine (proj1 (proj2
      (capacity_validation_in_aws_and_google
         Util.evaluate_keyed_by Util.merge Examples.environment (VStr "aws")
         "pool"
         (Examples.aws_pool_config (Some "generic-worker")
            [Examples.instance "c5.large" [("capacityPerInstance", VInt 2)]])
         Examples.worker_images Examples.worker_defaults
         [Examples.instance "c5.large" [("capacityPerInstance", VInt 2)]]
         [("instanceType", VStr "c5.large"); ("capacityPerInstance", VInt 2)]
         _ _)) _ _); try reflexivity.
    simpl. auto.
  - refine (proj1 (proj2 (proj2 (proj2 (proj2 (proj2
      (capacity_validation_in_aws_and_google
         Util.evaluate_keyed_by Util.merge Examples.environment
         (VStr "google") "pool"
         (Examples.google_pool_config None
            [Examples.google_instance [("capacityPerInstance", VInt 2)]])
         Examples.worker_images Examples.worker_defaults
         [Examples.google_instance [("capacityPerInstance", VInt 2)]]
         [("machine_type", VStr "n2-standard-4");
          ("disks",
            VList [VDict [("initializeParams",
                            VDict [("sourceImage", VStr "<image>")])]]);
          ("capacityPerInstance", VInt 2)]
         _ _))))))
      (VStr "us-central1") (VStr "us-central1-a") _ _).
    + reflexivity.
    + simpl. auto.
    + constructor; try reflexivity.
      * do 2 eexists. repeat split; reflexivity.
      * do 2 eexists. repeat split; reflexivity.
      * do 2 eexists. repeat split; reflexivity.
Defined.

(** The Azure generator validates nothing: a size with a top-level
    [capacity] key and a [capacityPerInstance] of 2, under an
    implementation that is not docker-worker, is generated. *)
Lemma azure_generates_without_capacity_validation :
  dict_mem "capacity"
    (match Examples.overriding_vm_size with VDict size => size | _ => [] end)
    = true /\
  py_eq (VStr "generic-worker/worker-runner-windows") docker_worker = false /\
  exists res lc,
    Examples.azure_capacity_run = Ok res /\
    launch_configs_of res = [lc] /\
    ~ raises Examples.azure_capacity_run.
Proof.
  split; [reflexivity|]. split; [reflexivity|].
  do 2 eexists. split; [reflexivity|]. split; [reflexivity|].
  intros [e H]. discriminate H.
Qed.




(* ================================================================== *)
(** * Properties of the pool assembler *)
(* ================================================================== *)

(** C1 (as amended).  Neither [make_worker_pool] nor [update_resources]
    catches anything.  When the generator the assembler hands an expanded
    definition to raises, [make_worker_pool] raises the same exception and
    [update_resources] ends there, whatever the resource library: the
    collection has been asked to manage [WorkerPool=.*] and to add the
    resources of the definitions expanded before, in order, and nothing
    else, so nothing is added for the failing definition and nothing for
    those after it.  The run ends with the generator's exception, unless
    the collection raised on one of these calls, which ended the run at
    that call with the collection's exception. *)
Theorem generator_error_ends_the_run
    (evaluate_keyed_by : value -> string -> dict -> result value)
    (merge : list value -> result value)
    (tcadmin : Tcadmin.Library)
    (worker_pools : list ConfigWorkerPool) (worker_images : WorkerImages)
    (ciconfig_file environment worker_defaults : value)
    (before after : list ConfigWorkerPool) (wp : ConfigWorkerPool)
    (stop : option exn) (made : list (Tcadmin.Resource tcadmin))
    (generator : provider_generator) (e : exn)
    (rs : Tcadmin.Resources tcadmin)
    (Hdefaults : py_get ciconfig_file "worker-defaults" VNone
                 = Ok worker_defaults)
    (Hexpanded : generate_pool_variants evaluate_keyed_by worker_pools
                   environment = ((before ++ wp :: after)%list, stop))
    (Hbefore : Forall2
                 (fun wp0 r =>
                    make_worker_pool evaluate_keyed_by merge tcadmin
                      environment rs wp0 worker_images worker_defaults = Ok r)
                 before made)
    (Hdispatch : dispatches evaluate_keyed_by merge environment wp generator)
    (Hraise : generator environment (provider_id wp) (pool_id wp) (config wp)
                worker_images worker_defaults = Raise e) :
  make_worker_pool evaluate_keyed_by merge tcadmin environment rs wp
    worker_images worker_defaults = Raise e /\
  update_resources evaluate_keyed_by merge tcadmin (Ok worker_pools)
    (Ok worker_images) (Ok ciconfig_file) (Ok environment) rs
  = and_then (run_calls (Manage "WorkerPool=.*" :: adds tcadmin made) rs)
      (Raise e).
Proof.
  assert (Hwp : forall rs',
            make_worker_pool evaluate_keyed_by merge tcadmin environment rs'
              wp worker_images worker_defaults = Raise e).
  { intros rs'.
    exact (@AssemblerFacts.make_worker_pool_raises evaluate_keyed_by merge
             tcadmin environment rs' wp worker_images worker_defaults
             generator e Hdispatch Hraise). }
  split; [apply Hwp|].
  rewrite AssemblerFacts.update_resources_steps. cbn [run_calls].
  destruct (Tcadmin.manage tcadmin rs "WorkerPool=.*") as [rs1 [[]|e1]];
    [|reflexivity].
  rewrite Hdefaults, Hexpanded. cbv zeta. cbn [fst snd].
  rewrite (@AssemblerFacts.add_worker_pools_calls evaluate_keyed_by merge
             tcadmin environment worker_images worker_defaults rs before made
             Hbefore).
  destruct (run_calls (adds tcadmin made) rs1) as [rs2 [[]|e2]];
    [|reflexivity].
  now rewrite (@AssemblerFacts.add_worker_pools_raises evaluate_keyed_by
                 merge tcadmin environment worker_images worker_defaults wp
                 after e rs2 (Hwp rs2)).
Qed.

Lemma generator_error_ends_the_run_witness :
  (exists r,
      make_worker_pool Util.evaluate_keyed_by Util.merge Examples.recorder
        Examples.environment [] Examples.bad_pool Examples.worker_images
        Examples.worker_defaults
      = Raise (ValueError
                 "To set capacity per instance for an instance type, set `capacityPerInstance` in worker bad.")
      /\
      update_resources Util.evaluate_keyed_by Util.merge Examples.recorder
        (Ok [Examples.good_pool; Examples.bad_pool; Examples.good_pool])
        (Ok Examples.worker_images) (Ok Examples.worker_pools_yml)
        (Ok Examples.environment) []
      = ([Examples.Managed "WorkerPool=.*"; Examples.Added r],
         Raise (ValueError
                  "To set capacity per instance for an instance type, set `capacityPerInstance` in worker bad."))
      /\
      Examples.workerPoolId r = "good") /\
  update_resources Util.evaluate_keyed_by Util.merge
    Examples.refusing_duplicates
    (Ok [Examples.twin_aws_pool; Examples.bad_pool])
    (Ok Examples.worker_images) (Ok Examples.worker_pools_yml)
    (Ok Examples.environment) []
  = (["twin"], Raise (RuntimeError "duplicate resource twin")).
Proof.
  split.
  - destruct (make_worker_pool Util.evaluate_keyed_by Util.merge
                Examples.recorder Examples.environment [] Examples.good_pool
                Examples.worker_images Examples.worker_defaults)
      as [r|e0] eqn:Hgood; [|discriminate Hgood].
    exists r.
    destruct (generator_error_ends_the_run
                Util.evaluate_keyed_by Util.merge Examples.recorder
                [Examples.good_pool; Examples.bad_pool; Examples.good_pool]
                Examples.worker_images Examples.worker_pools_yml
                Examples.environment Examples.worker_defaults
                [Examples.good_pool] [Examples.good_pool] Examples.bad_pool
                None [r]
                (get_aws_provider_config Util.evaluate_keyed_by Util.merge)
                (ValueError
                   "To set capacity per instance for an instance type, set `capacityPerInstance` in worker bad.")
                [] eq_refl eq_refl
                (Forall2_cons _ _ Hgood (Forall2_nil _)))
      as [Hbad Hrun].
    + do 4 eexists. repeat split; reflexivity.
    + reflexivity.
    + split; [exact Hbad|]. split; [exact Hrun|].
      vm_compute in Hgood. injection Hgood as <-. reflexivity.
  - destruct (make_worker_pool Util.evaluate_keyed_by Util.merge
                Examples.refusing_duplicates Examples.environment []
                {| pool_id := "twin";
                   description := description Examples.twin_aws_pool;
                   owner := owner Examples.twin_aws_pool;
                   provider_id := VStr "aws";
                   config := config Examples.twin_aws_pool;
                   email_on_error := email_on_error Examples.twin_aws_pool;
                   variants := [VDict []] |}
                Examples.worker_images Examples.worker_defaults)
      as [r|e0] eqn:Htwin; [|discriminate Htwin].
    refine (eq_trans
              (proj2 (generator_error_ends_the_run
                        Util.evaluate_keyed_by Util.merge
                        Examples.refusing_duplicates
                        [Examples.twin_aws_pool; Examples.bad_pool]
                        Examples.worker_images Examples.worker_pools_yml
                        Examples.environment Examples.worker_defaults
                        [_; _] [] Examples.bad_pool None [r; r]
                        (get_aws_provider_config Util.evaluate_keyed_by
                           Util.merge)
                        (ValueError
                           "To set capacity per instance for an instance type, set `capacityPerInstance` in worker bad.")
                        [] eq_refl eq_refl
                        (Forall2_cons _ _ Htwin
                           (Forall2_cons _ _ Htwin (Forall2_nil _)))
                        _ eq_refl)) _).
    + do 4 eexists. repeat split; reflexivity.
    + vm_compute in Htwin. injection Htwin as <-. reflexivity.
Defined.

(** One failing pool ends the run: of two unrelated pools the second is in
    order and is added when it is alone, but when the first raises the
    collection is only asked to manage the pattern, and the run ends with
    the exception of the first. *)
Lemma failing_pool_aborts_unrelated_pools :
  is_ok (make_worker_pool Util.evaluate_keyed_by Util.merge Examples.recorder
           Examples.environment [] Examples.good_pool
           Examples.worker_images Examples.worker_defaults) = true /\
  (exists r,
      update_resources Util.evaluate_keyed_by Util.merge Examples.recorder
        (Ok [Examples.good_pool]) (Ok Examples.worker_images)
        (Ok Examples.worker_pools_yml) (Ok Examples.environment) []
      = ([Examples.Managed "WorkerPool=.*"; Examples.Added r], Ok tt) /\
      Examples.workerPoolId r = "good") /\
  update_resources Util.evaluate_keyed_by Util.merge Examples.recorder
    (Ok [Examples.bad_pool; Examples.good_pool]) (Ok Examples.worker_images)
    (Ok Examples.worker_pools_yml) (Ok Examples.environment) []
  = ([Examples.Managed "WorkerPool=.*"],
     Raise (ValueError
              "To set capacity per instance for an instance type, set `capacityPerInstance` in worker bad.")).
Proof.
  split; [reflexivity|]. split; [|reflexivity].
  eexists. split; reflexivity.
Qed.

(* ================================================================== *)
(** * Further properties: the check of invalid instance types *)
(* ================================================================== *)

Import AwsFacts GoogleFacts AssemblerFacts.

Lemma is_invalid_entry_covers zone family entry :
  well_formed_entry entry = true ->
  is_invalid_entry zone (VStr family) entry = Ok (covers zone family entry).
Proof.
  unfold well_formed_entry, is_invalid_entry, covers.
  destruct entry as [| | | | |e|]; try discriminate.
  cbn [py_getitem].
  destruct (dict_get "zones" e) as [[| | | |zones| |]|]; try discriminate.
  destruct (dict_get "families" e) as [[| | | |families| |]|];
    try discriminate.
  intros _. cbn [bind py_in].
  now destruct (existsb (fun z => py_eq z zone) zones).
Qed.

Lemma covers_well_formed zone family entry :
  covers zone family entry = true -> well_formed_entry entry = true.
Proof.
  unfold covers, well_formed_entry.
  destruct entry as [| | | | |e|]; try discriminate.
  destruct (dict_get "zones" e) as [[| | | |zones| |]|]; try discriminate.
  now destruct (dict_get "families" e) as [[| | | |families| |]|].
Qed.

Lemma any_invalid_entry_first_hit zone family pre hit rest :
  forallb well_formed_entry pre = true ->
  covers zone family hit = true ->
  any_invalid_entry zone (VStr family) (pre ++ hit :: rest) = Ok true.
Proof.
  intros Hpre Hhit. induction pre as [|e pre IH]; cbn [app any_invalid_entry].
  - rewrite (is_invalid_entry_covers zone family hit
               (covers_well_formed _ _ _ Hhit)), Hhit. reflexivity.
  - cbn [forallb] in Hpre. apply andb_true_iff in Hpre as [He Hpre].
    rewrite (is_invalid_entry_covers zone family e He). cbn [bind].
    destruct (covers zone family e); [reflexivity|]. now apply IH.
Qed.

Lemma any_invalid_entry_first_error zone family pre bad rest e :
  forallb well_formed_entry pre = true ->
  existsb (covers zone family) pre = false ->
  is_invalid_entry zone (VStr family) bad = Raise e ->
  any_invalid_entry zone (VStr family) (pre ++ bad :: rest) = Raise e.
Proof.
  intros Hpre Hno Hbad. induction pre as [|x pre IH];
    cbn [app any_invalid_entry].
  - now rewrite Hbad.
  - cbn [forallb] in Hpre. apply andb_true_iff in Hpre as [Hx Hpre].
    cbn [existsb] in Hno. apply orb_false_iff in Hno as [Hcx Hno].
    rewrite (is_invalid_entry_covers zone family x Hx), Hcx. cbn [bind].
    now apply IH.
Qed.

(** X1. The check of an instance type against the table of invalid instances
    looks at the instance type only through its family, the text before the
    first dot of its name: two names of the same family get the same answer
    or the same exception, whatever follows the dot, and that answer is the
    search of the table for the zone and the family. *)
Theorem invalid_check_reads_the_family_only
    (invalid_instances zone : value) (family size size' : string)
    (Hfamily : contains_char "." family = false) :
  is_invalid_aws_instance_type invalid_instances zone
    (VStr (family ++ "." ++ size))
  = is_invalid_aws_instance_type invalid_instances zone
      (VStr (family ++ "." ++ size')) /\
  is_invalid_aws_instance_type invalid_instances zone
    (VStr (family ++ "." ++ size))
  = (entries <- py_iter invalid_instances ;;
     any_invalid_entry zone (VStr family) entries).
Proof.
  unfold is_invalid_aws_instance_type.
  change (family ++ "." ++ size) with (family ++ String "." size).
  change (family ++ "." ++ size') with (family ++ String "." size').
  rewrite !(split_once_dotted _ _ Hfamily). split; reflexivity.
Qed.

Lemma invalid_check_reads_the_family_only_witness :
  is_invalid_aws_instance_type (VList [Examples.no_m5]) (VStr "us-east-1a")
    (VStr ("m5" ++ "." ++ "large"))
  = is_invalid_aws_instance_type (VList [Examples.no_m5]) (VStr "us-east-1a")
      (VStr ("m5" ++ "." ++ "24xlarge.metal")).
Proof.
  exact (proj1 (invalid_check_reads_the_family_only
                  (VList [Examples.no_m5]) (VStr "us-east-1a")
                  "m5" "large" "24xlarge.metal" eq_refl)).
Defined.

(** X2. The search of the table of invalid instances stops at the first
    entry that has the zone among its zones and the family among its
    families: the instance type is then invalid whatever the later entries
    are, malformed ones included. A malformed entry is noticed only when no
    entry before it covers the zone and the family; its exception then ends
    the check. *)
Theorem invalid_check_stops_at_the_first_hit
    (zone : value) (family size : string) (pre rest : list value)
    (Hfamily : contains_char "." family = false)
    (Hpre : forallb well_formed_entry pre = true) :
  (forall hit,
      covers zone family hit = true ->
      is_invalid_aws_instance_type (VList (pre ++ hit :: rest)) zone
        (VStr (family ++ "." ++ size)) = Ok true) /\
  (forall bad e,
      existsb (covers zone family) pre = false ->
      is_invalid_entry zone (VStr family) bad = Raise e ->
      is_invalid_aws_instance_type (VList (pre ++ bad :: rest)) zone
        (VStr (family ++ "." ++ size)) = Raise e).
Proof.
  unfold is_invalid_aws_instance_type.
  change (family ++ "." ++ size) with (family ++ String "." size).
  rewrite (split_once_dotted _ _ Hfamily). cbn [py_iter bind]. split.
  - intros hit Hhit. now apply any_invalid_entry_first_hit.
  - intros bad e Hno Hbad. now apply any_invalid_entry_first_error.
Qed.

Lemma invalid_check_stops_at_the_first_hit_witness :
  is_invalid_aws_instance_type
    (VList ([Examples.elsewhere] ++ Examples.no_m5 :: [VNone]))
    (VStr "us-east-1a") (VStr ("m5" ++ "." ++ "large")) = Ok true /\
  is_invalid_aws_instance_type
    (VList ([Examples.elsewhere] ++ VNone :: [Examples.no_m5]))
    (VStr "us-east-1a") (VStr ("m5" ++ "." ++ "large")) = Raise TypeError.
Proof.
  pose proof (invalid_check_stops_at_the_first_hit (VStr "us-east-1a")
                "m5" "large" [Examples.elsewhere] [VNone] eq_refl eq_refl)
    as [Hhit _].
  pose proof (invalid_check_stops_at_the_first_hit (VStr "us-east-1a")
                "m5" "large" [Examples.elsewhere] [Examples.no_m5]
                eq_refl eq_refl)
    as [_ Hbad].
  split.
  - exact (Hhit Examples.no_m5 eq_refl).
  - exact (Hbad VNone TypeError eq_refl eq_refl).
Defined.

(* ================================================================== *)
(** * Further properties: capacity validation *)
(* ================================================================== *)

Lemma accepts_capacity_validates pool_id implementation it :
  validate_instance_type pool_id implementation it = Ok tt
  <-> accepts_capacity implementation it = true.
Proof.
  split.
  - intros H. apply validate_instance_type_ok in H as (d & -> & Hc & Hwc & Hcpi).
    unfold accepts_capacity, capacity_per_instance. rewrite Hc, Hwc. cbn.
    now apply orb_true_iff.
  - unfold accepts_capacity. destruct it as [| | | | |d|]; try discriminate.
    intros H. apply andb_true_iff in H as [H Hcpi].
    apply andb_true_iff in H as [Hc Hwc].
    apply negb_true_iff in Hc.
    apply validate_instance_type_passes; [exact Hc| |now apply orb_true_iff].
    destruct (py_in (VStr "capacity")
                (dict_get_default "worker-config" (VDict []) d)) as [[|]|];
      try discriminate; reflexivity.
Qed.

Lemma for_check_first_raise {A} (body : A -> result unit) good bad rest e :
  (forall x, In x good -> body x = Ok tt) ->
  body bad = Raise e ->
  for_check (good ++ bad :: rest) body = Raise e.
Proof.
  induction good as [|x good IH]; intros Hgood Hbad; cbn [app for_check].
  - now rewrite Hbad.
  - rewrite (Hgood x (or_introl eq_refl)). cbn [bind].
    apply IH; [|exact Hbad]. intros y Hy. apply Hgood. now right.
Qed.

(** X3. [_validate_instance_capacity] returns on a list of instance types
    exactly when every one of them is a mapping with no [capacity] key,
    neither at top level nor in its [worker-config], and with
    [capacityPerInstance] equal to 1 unless the implementation is
    docker-worker. The empty list is accepted. *)
Theorem capacity_validation_accepts pool_id implementation its :
  _validate_instance_capacity pool_id implementation (VList its) = Ok tt
  <-> forallb (accepts_capacity implementation) its = true.
Proof.
  unfold _validate_instance_capacity. cbn [py_iter bind]. split.
  - intros H. apply forallb_forall. intros it Hit.
    apply (accepts_capacity_validates pool_id).
    now apply (for_check_ok_inv _ _ H).
  - intros H. apply for_check_ok. intros it Hit.
    apply accepts_capacity_validates.
    now apply (proj1 (forallb_forall _ _) H).
Qed.

(** X4. Capacity validation goes through the instance types in order and
    stops at the first one it rejects: the exception is the one raised for
    that instance type, and the instance types after it are not examined. *)
Theorem capacity_validation_reports_first_offender pool_id implementation
    good bad rest e
    (Hgood : forallb (accepts_capacity implementation) good = true)
    (Hbad : validate_instance_type pool_id implementation bad = Raise e) :
  _validate_instance_capacity pool_id implementation
    (VList (good ++ bad :: rest)) = Raise e.
Proof.
  unfold _validate_instance_capacity. cbn [py_iter bind].
  apply for_check_first_raise; [|exact Hbad].
  intros it Hit. apply accepts_capacity_validates.
  now apply (proj1 (forallb_forall _ _) Hgood).
Qed.

Lemma capacity_validation_reports_first_offender_witness :
  _validate_instance_capacity "pool" docker_worker
    (VList ([Examples.instance "c5.large" [("capacityPerInstance", VInt 2)]]
            ++ Examples.instance "c5.xlarge" [("capacity", VInt 2)]
            :: [VNone]))
  = Raise (ValueError
             "To set capacity per instance for an instance type, set `capacityPerInstance` in worker pool.").
Proof.
  apply capacity_validation_reports_first_offender; reflexivity.
Defined.

(** X5. An instance type whose [worker-config] has a [capacity] key is
    rejected: validation of the list raises, and so do the AWS and the
    Google generator, for every implementation. When the instance type has
    no top-level [capacity] key the error is the [ValueError] that asks to
    set [capacityPerInstance] on the instance type rather than the worker
    config, and names the pool. *)
Theorem nested_capacity_is_rejected
    (evaluate_keyed_by : value -> string -> dict -> result value)
    (merge : list value -> result value)
    (environment provider_id : value) (pool_id : string) (c : dict)
    (worker_images : WorkerImages) (defaults : value)
    (its : list value) (d wc : dict)
    (Hits : dict_get "instance_types" c = Some (VList its))
    (Hin : In (VDict d) its)
    (Hwc : dict_get "worker-config" d = Some (VDict wc))
    (Hnested : dict_mem "capacity" wc = true) :
  let implementation := dict_get_default "implementation" docker_worker c in
  (dict_mem "capacity" d = false ->
   validate_instance_type pool_id implementation (VDict d)
   = Raise (ValueError
              ("To set capacity per instance for an instance type, "
               ++ "set `capacityPerInstance` on the instance type, "
               ++ "rather than the worker config "
               ++ "in worker " ++ pool_id ++ "."))) /\
  raises (_validate_instance_capacity pool_id implementation (VList its)) /\
  raises (get_aws_provider_config evaluate_keyed_by merge environment
            provider_id pool_id (VDict c) worker_images defaults) /\
  raises (get_google_provider_config evaluate_keyed_by merge environment
            provider_id pool_id (VDict c) worker_images defaults).
Proof.
  intros implementation.
  assert (Hone : raises (validate_instance_type pool_id implementation
                           (VDict d))).
  { unfold validate_instance_type. cbn [py_in bind].
    destruct (dict_mem "capacity" d); [apply raises_Raise|].
    cbn [py_get bind]. unfold dict_get_default. rewrite Hwc.
    cbn [py_in bind]. rewrite Hnested. apply raises_Raise. }
  assert (Hall : raises (_validate_instance_capacity pool_id implementation
                           (VList its))).
  { eapply validation_raises; [exact Hin|exact Hone]. }
  split; [|split; [exact Hall|split]].
  - intros Htop. unfold validate_instance_type. cbn [py_in bind].
    rewrite Htop. cbn [py_get bind]. unfold dict_get_default. rewrite Hwc.
    cbn [py_in bind]. now rewrite Hnested.
  - eapply aws_raises_in_validation; [exact Hits|exact Hall].
  - eapply google_raises_in_validation; [exact Hits|exact Hall].
Qed.

Lemma nested_capacity_is_rejected_witness :
  validate_instance_type "pool" docker_worker
    (Examples.instance "c5.large"
       [("worker-config", VDict [("capacity", VInt 2)])])
  = Raise (ValueError
             "To set capacity per instance for an instance type, set `capacityPerInstance` on the instance type, rather than the worker config in worker pool.") /\
  raises (get_google_provider_config Util.evaluate_keyed_by Util.merge
            Examples.environment (VStr "google") "pool"
            (VDict (Examples.google_pool_config None
                      [Examples.instance "c5.large"
                         [("worker-config", VDict [("capacity", VInt 2)])]]))
            Examples.worker_images Examples.worker_defaults).
Proof.
  pose proof (nested_capacity_is_rejected
                Util.evaluate_keyed_by Util.merge Examples.environment
                (VStr "google") "pool"
                (Examples.google_pool_config None
                   [Examples.instance "c5.large"
                      [("worker-config", VDict [("capacity", VInt 2)])]])
                Examples.worker_images Examples.worker_defaults
                [Examples.instance "c5.large"
                   [("worker-config", VDict [("capacity", VInt 2)])]]
                [("instanceType", VStr "c5.large");
                 ("worker-config", VDict [("capacity", VInt 2)])]
                [("capacity", VInt 2)]
                eq_refl (or_introl eq_refl) eq_refl eq_refl) as H.
  cbv zeta in H. destruct H as (Hmsg & _ & _ & Hgoogle).
  split; [exact (Hmsg eq_refl)|exact Hgoogle].
Defined.

(* ================================================================== *)
(** * Further properties: what the generators read *)
(* ================================================================== *)

Ltac same_reads H :=
  unfold resolved_config; cbn [py_getitem py_get]; unfold dict_get_default;
  repeat match goal with
         | |- context [dict_get ?k ?c] =>
             rewrite (H k) by (cbn; tauto)
         end;
  reflexivity.

(** X6. Each provider generator depends on the pool configuration only
    through the keys it reads: two configurations that agree on those keys
    give the same result or the same exception. The Azure generator takes
    [spot] and [additional-user-data] out of the configuration and never
    uses them; the Google generator never looks at [security], [spot] or
    [additional-user-data]. *)
Theorem generators_read_only_their_keys
    (evaluate_keyed_by : value -> string -> dict -> result value)
    (merge : list value -> result value)
    (environment provider_id : value) (pool_id : string) (c c' : dict)
    (worker_images : WorkerImages) (defaults : value) :
  (agree_on aws_keys c c' ->
   get_aws_provider_config evaluate_keyed_by merge environment provider_id
     pool_id (VDict c) worker_images defaults
   = get_aws_provider_config evaluate_keyed_by merge environment provider_id
       pool_id (VDict c') worker_images defaults) /\
  (agree_on azure_keys c c' ->
   get_azure_provider_config evaluate_keyed_by merge environment provider_id
     pool_id (VDict c) worker_images defaults
   = get_azure_provider_config evaluate_keyed_by merge environment
       provider_id pool_id (VDict c') worker_images defaults) /\
  (agree_on google_keys c c' ->
   get_google_provider_config evaluate_keyed_by merge environment provider_id
     pool_id (VDict c) worker_images defaults
   = get_google_provider_config evaluate_keyed_by merge environment
       provider_id pool_id (VDict c') worker_images defaults).
Proof.
  split; [|split]; intros H.
  - rewrite !get_aws_provider_config_dict. cbv zeta. same_reads H.
  - rewrite !get_azure_provider_config_dict. cbv zeta. same_reads H.
  - rewrite !get_google_provider_config_dict. cbv zeta. same_reads H.
Qed.

Lemma generators_read_only_their_keys_witness :
  get_azure_provider_config Util.evaluate_keyed_by Util.merge
    Examples.environment (VStr "azure") "pool"
    (VDict (Examples.azure_pool_config
              [VDict [("vmSize", VStr "Standard_F8s_v2")]] []))
    Examples.worker_images Examples.worker_defaults
  = get_azure_provider_config Util.evaluate_keyed_by Util.merge
      Examples.environment (VStr "azure") "pool"
      (VDict (Examples.azure_pool_config
                [VDict [("vmSize", VStr "Standard_F8s_v2")]]
                [("spot", VBool false);
                 ("additional-user-data", VDict [("role", VStr "tester")])]))
      Examples.worker_images Examples.worker_defaults.
Proof.
  apply (generators_read_only_their_keys
           Util.evaluate_keyed_by Util.merge Examples.environment
           (VStr "azure") "pool"
           (Examples.azure_pool_config
              [VDict [("vmSize", VStr "Standard_F8s_v2")]] [])
           (Examples.azure_pool_config
              [VDict [("vmSize", VStr "Standard_F8s_v2")]]
              [("spot", VBool false);
               ("additional-user-data", VDict [("role", VStr "tester")])])
           Examples.worker_images Examples.worker_defaults).
  intros k Hk. cbn in Hk.
  repeat (destruct Hk as [<-|Hk]; [reflexivity|]). destruct Hk.
Defined.

Ltac next_key H :=
  cbn [find] in H; rewrite dict_mem_unfold in H;
  cbn [py_getitem];
  match type of H with
  | context [dict_get ?k ?c] =>
      destruct (dict_get k c);
      cbn [negb bind] in H |- *;
      [|injection H as <-; reflexivity]
  end.

(** X7. A configuration that lacks one of the keys a generator reads first
    makes it raise [KeyError] for the first missing one, in the order the
    generator reads them: [regions] then [image] for AWS and Google;
    [locations], [image_resource_group], [vmSizes], [worker-purpose] then
    [image] for Azure. Nothing else is consulted before. *)
Theorem generators_name_the_first_missing_key
    (evaluate_keyed_by : value -> string -> dict -> result value)
    (merge : list value -> result value)
    (environment provider_id : value) (pool_id : string) (c : dict)
    (worker_images : WorkerImages) (defaults : value) (k : string) :
  (first_missing ["regions"; "image"] c = Some k ->
   get_aws_provider_config evaluate_keyed_by merge environment provider_id
     pool_id (VDict c) worker_images defaults = Raise (KeyError k) /\
   get_google_provider_config evaluate_keyed_by merge environment provider_id
     pool_id (VDict c) worker_images defaults = Raise (KeyError k)) /\
  (first_missing
     ["locations"; "image_resource_group"; "vmSizes"; "worker-purpose";
      "image"] c = Some k ->
   get_azure_provider_config evaluate_keyed_by merge environment provider_id
     pool_id (VDict c) worker_images defaults = Raise (KeyError k)).
Proof.
  unfold first_missing. split.
  - intros H. split.
    + rewrite get_aws_provider_config_dict. pose proof H as H'.
      next_key H'. next_key H'. discriminate.
    + rewrite get_google_provider_config_dict. pose proof H as H'.
      next_key H'. next_key H'. discriminate.
  - intros H. rewrite get_azure_provider_config_dict.
    do 5 next_key H. discriminate.
Qed.

Lemma generators_name_the_first_missing_key_witness :
  get_azure_provider_config Util.evaluate_keyed_by Util.merge
    Examples.environment (VStr "azure") "pool"
    (VDict [("locations", VList [VStr "east-us"]); ("image", VStr "ubuntu")])
    Examples.worker_images Examples.worker_defaults
  = Raise (KeyError "image_resource_group").
Proof.
  apply (proj2 (generators_name_the_first_missing_key
                  Util.evaluate_keyed_by Util.merge Examples.environment
                  (VStr "azure") "pool"
                  [("locations", VList [VStr "east-us"]);
                   ("image", VStr "ubuntu")]
                  Examples.worker_images Examples.worker_defaults
                  "image_resource_group")).
  reflexivity.
Defined.

(* ================================================================== *)
(** * Further properties: the AWS generator *)
(* ================================================================== *)

Lemma for_each_chunks {A B} (body : A -> result (list B)) xs ys :
  for_each xs body = Ok ys ->
  exists chunks,
    Forall2 (fun x l => body x = Ok l) xs chunks /\ ys = List.concat chunks.
Proof.
  revert ys. induction xs as [|x xs IH]; intros ys H.
  - cbn in H. apply Ok_inj in H. subst ys. exists []. now split.
  - cbn [for_each] in H.
    apply bind_ok in H as (l & Hl & H).
    apply bind_ok in H as (zs & Hzs & H).
    apply Ok_inj in H. subst ys.
    destruct (IH zs Hzs) as (chunks & Hchunks & ->).
    exists (l :: chunks). split; [now constructor|reflexivity].
Qed.

Lemma for_each_length {A B} (body : A -> result (list B)) xs ys n :
  (forall x l, In x xs -> body x = Ok l -> List.length l = n) ->
  for_each xs body = Ok ys ->
  List.length ys = List.length xs * n.
Proof.
  revert ys. induction xs as [|x xs IH]; intros ys Hn H.
  - cbn in H. apply Ok_inj in H. now subst ys.
  - cbn [for_each] in H.
    apply bind_ok in H as (l & Hl & H).
    apply bind_ok in H as (zs & Hzs & H).
    apply Ok_inj in H. subst ys.
    rewrite length_app, (Hn x l (or_introl eq_refl) Hl).
    rewrite (IH zs); [cbn; lia| |exact Hzs].
    intros x' l' Hx'. apply Hn. now right.
Qed.

Lemma holds_setitem_same k v x y :
  py_setitem x k v = Ok y -> holds k v y.
Proof.
  destruct x as [| | | | |d|]; try discriminate. cbn [py_setitem].
  intros H. apply Ok_inj in H. subst y. exists (dict_set k v d).
  split; [reflexivity|]. apply dict_get_set_same.
Qed.

Lemma lacks_setitem k x k' w y :
  k <> k' -> lacks k x -> py_setitem x k' w = Ok y -> lacks k y.
Proof.
  intros Hk (d & -> & Hd) H. cbn [py_setitem] in H. apply Ok_inj in H.
  subst y. exists (dict_set k' w d). split; [reflexivity|].
  now rewrite dict_get_set_other.
Qed.

Lemma lacks_pop_other k x k' p y :
  k <> k' -> lacks k x -> py_pop x k' = Ok (p, y) -> lacks k y.
Proof.
  intros Hk (d & -> & Hd) H. cbn [py_pop] in H.
  destruct (dict_get k' d); [|discriminate].
  apply Ok_inj in H. injection H as _ <-.
  exists (dict_del k' d). split; [reflexivity|].
  now rewrite dict_get_del_other.
Qed.

Lemma lacks_pop k x p y : py_pop x k = Ok (p, y) -> lacks k y.
Proof.
  destruct x as [| | | | |d|]; try discriminate. cbn [py_pop].
  destruct (dict_get k d); [|discriminate]. intros H.
  apply Ok_inj in H. injection H as _ <-.
  exists (dict_del k d). split; [reflexivity|]. apply assoc_get_del_same.
Qed.

Lemma lacks_pop_default k x dflt p y :
  py_pop_default x k dflt = Ok (p, y) -> lacks k y.
Proof.
  destruct x as [| | | | |d|]; try discriminate. cbn [py_pop_default].
  intros H. apply Ok_inj in H. injection H as _ <-.
  exists (dict_del k d). split; [reflexivity|]. apply assoc_get_del_same.
Qed.

Lemma holds_setdefault_other k v x k' w y :
  k <> k' -> holds k v x -> py_setdefault x k' w = Ok y -> holds k v y.
Proof.
  intros Hk (d & -> & Hd) H. rewrite py_setdefault_dict in H.
  apply Ok_inj in H. subst y. eexists. split; [reflexivity|].
  now rewrite dict_get_setdefault_other.
Qed.

Lemma dict_update_empty k e :
  unique_keys e = true -> dict_get k (dict_update [] e) = dict_get k e.
Proof.
  intros He. rewrite (dict_get_update [] e k He).
  now destruct (dict_get k e).
Qed.

Section AwsShape.
Variable evaluate_keyed_by : value -> string -> dict -> result value.
Variable merge : list value -> result value.

(** What the innermost AWS loop builds for an instance type it does not
    skip. *)
Lemma aws_launch_config_shape provider_id image aws_config security_groups
    subnet_id worker_config implementation spot user_data region zone it l
    lc :
  aws_launch_config merge provider_id image aws_config security_groups
    subnet_id worker_config implementation spot user_data region zone it
  = Ok l ->
  In lc l ->
  exists d name ami iwc aud0 aud merged inner,
    it = VDict d /\
    dict_get "instanceType" d = Some name /\
    (exists invalid,
        py_getitem aws_config (VStr "invalid-instances") = Ok invalid /\
        is_invalid_aws_instance_type invalid zone name = Ok false) /\
    image_id image provider_id (Some region) = Ok ami /\
    py_update (VDict []) user_data = Ok aud0 /\
    py_update aud0 (dict_get_default "additional-user-data" (VDict []) d)
    = Ok aud /\
    merge [aws_base_launch_config ami zone subnet_id security_groups name;
           dict_get_default "launchConfig" (VDict []) d] = Ok merged /\
    (if py_truthy spot
     then py_setitem merged "InstanceMarketOptions" spot_market = Ok inner
     else inner = merged) /\
    lc = aws_launch (capacity_per_instance d) region inner iwc aud.
Proof.
  unfold aws_launch_config. intros H Hin.
  apply bind_ok in H as (invalid & Hinvalid & H).
  apply bind_ok in H as (name & Hname & H).
  apply getitem_str_ok in Hname as (d & -> & Hname).
  apply bind_ok in H as (skip & Hskip & H).
  destruct skip; [apply Ok_inj in H; subst l; destruct Hin|].
  apply bind_ok in H as (iwc & _ & H).
  apply bind_ok in H as (cpi & Hcpi & H).
  apply bind_ok in H as (ami & Hami & H).
  apply bind_ok in H as (name' & Hname' & H).
  cbn [py_getitem] in Hname'. rewrite Hname in Hname'.
  apply Ok_inj in Hname'. subst name'.
  apply bind_ok in H as (aud0 & Haud0 & H).
  apply bind_ok in H as (own_aud & Hown & H).
  apply bind_ok in H as (aud & Haud & H).
  apply bind_ok in H as (override & Hoverride & H).
  apply bind_ok in H as (merged & Hmerged & H).
  apply bind_ok in H as (inner & Hinner & H).
  cbn [py_get] in Hcpi, Hown, Hoverride.
  apply Ok_inj in Hcpi, Hown, Hoverride. subst cpi own_aud override.
  apply Ok_inj in H. subst l. destruct Hin as [<-|[]].
  exists d, name, ami, iwc, aud0, aud, merged, inner.
  split; [reflexivity|]. split; [exact Hname|].
  split; [now exists invalid|].
  repeat (split; [reflexivity || assumption|]).
  split; [|reflexivity].
  destruct (py_truthy spot); [exact Hinner|].
  apply Ok_inj in Hinner. now symmetry.
Qed.

(** Every launch configuration of a successful AWS run was built by the
    innermost loop for a region and an instance type of the pool. *)
Lemma aws_launch_configs_from environment provider_id pool_id c worker_images
    defaults res :
  get_aws_provider_config evaluate_keyed_by merge environment provider_id
    pool_id (VDict c) worker_images defaults = Ok res ->
  exists regions_v regions its_v its,
    dict_get "regions" c = Some regions_v /\
    py_iter regions_v = Ok regions /\
    dict_get "instance_types" c = Some its_v /\
    py_iter its_v = Ok its /\
    forall lc, In lc (launch_configs_of res) ->
      exists image aws_config security_groups subnet_id worker_config region
             zone it l,
        In region regions /\
        In it its /\
        aws_launch_config merge provider_id image aws_config security_groups
          subnet_id worker_config
          (dict_get_default "implementation" docker_worker c)
          (dict_get_default "spot" (VBool true) c)
          (dict_get_default "additional-user-data" (VDict []) c)
          region zone it = Ok l /\
        In lc l.
Proof.
  rewrite get_aws_provider_config_dict. cbv zeta. intros H.
  apply bind_ok in H as (regions_v & Hregions_v & H).
  apply getitem_str_ok in Hregions_v as (c0 & Hc0 & Hregions_v).
  apply VDict_inj in Hc0. subst c0.
  apply bind_ok in H as (image_name & _ & H).
  apply bind_ok in H as (image & _ & H).
  apply bind_ok in H as (its_v & Hits_v & H).
  apply getitem_str_ok in Hits_v as (c0 & Hc0 & Hits_v).
  apply VDict_inj in Hc0. subst c0.
  apply bind_ok in H as (resolved & _ & H).
  apply bind_ok in H as (aws_config & _ & H).
  apply bind_ok in H as (default_lifecycle & _ & H).
  apply bind_ok in H as (lifecycle & _ & H).
  apply bind_ok in H as (dwc & _ & H).
  apply bind_ok in H as (wc0 & _ & H).
  apply bind_ok in H as (wc & _ & H).
  apply bind_ok in H as ([] & Hvalid & H).
  apply bind_ok in H as (regions & Hregions & H).
  apply bind_ok in H as (lcs & Hlcs & H).
  apply resolved_config_ok in H as (m & _ & ->).
  apply validation_ok in Hvalid as (its & Hits & _).
  exists regions_v, regions, its_v, its.
  repeat (split; [assumption|]).
  intros lc Hlc. change (In lc lcs) in Hlc.
  destruct (@for_each_ok_inv _ _ _ _ _ Hlcs _ Hlc)
    as (region & l1 & Hin_region & Hregion & Hl1).
  unfold aws_region_launch_configs in Hregion.
  apply bind_ok in Hregion as (az_rule & _ & Hregion).
  apply bind_ok in Hregion as (azs_v & _ & Hregion).
  apply bind_ok in Hregion as (sg_rule & _ & Hregion).
  apply bind_ok in Hregion as (sgs & _ & Hregion).
  apply bind_ok in Hregion as (azs & _ & Hregion).
  destruct (@for_each_ok_inv _ _ _ _ _ Hregion _ Hl1)
    as (az & l2 & _ & Hzone & Hl2).
  unfold aws_zone_launch_configs in Hzone.
  apply bind_ok in Hzone as (subnet_rule & _ & Hzone).
  apply bind_ok in Hzone as (subnet_id & _ & Hzone).
  apply bind_ok in Hzone as (its' & Hits' & Hzone).
  rewrite Hits in Hits'. apply Ok_inj in Hits'. subst its'.
  destruct (@for_each_ok_inv _ _ _ _ _ Hzone _ Hl2)
    as (it & l3 & Hit & Hbody & Hl3).
  exists image, aws_config, sgs, subnet_id, wc, region, az, it, l3.
  now repeat split.
Qed.

End AwsShape.

(** X8. Every launch configuration the AWS generator returns was built for
    one of the pool's regions, an availability zone the environment
    resolves for that region and one of the pool's instance types: it
    carries the region, and its [launchConfig] is the merge of that instance
    type's [launchConfig] override (empty when it has none) over the image
    of the pool for the region, the zone, the subnet resolved for the zone,
    the security groups resolved for the region at the pool's security level
    ([untrusted] when the pool sets none) and that instance type's name,
    with the spot marker added exactly when the pool's [spot] flag is
    true. *)
Theorem aws_launch_configs_come_from_the_environment
    (evaluate_keyed_by : value -> string -> dict -> result value)
    (merge : list value -> result value)
    (environment provider_id : value) (pool_id : string) (c : dict)
    (worker_images : WorkerImages) (defaults res lc : value)
    (Hrun : get_aws_provider_config evaluate_keyed_by merge environment
              provider_id pool_id (VDict c) worker_images defaults = Ok res)
    (Hlc : In lc (launch_configs_of res)) :
  exists aws_config image_name image regions_v regions region zone d name ami
         security_groups subnet_id merged inner,
    py_getattr environment "aws_config" = Ok aws_config /\
    dict_get "image" c = Some image_name /\
    worker_images image_name = Ok image /\
    image_id image provider_id (Some region) = Ok ami /\
    dict_get "regions" c = Some regions_v /\
    py_iter regions_v = Ok regions /\
    In region regions /\
    from_instance_types c d /\
    dict_get "instanceType" d = Some name /\
    (exists az_rule zones_v zones,
        py_getitem aws_config (VStr "availability-zones") = Ok az_rule /\
        evaluate_keyed_by az_rule pool_id [("region", region)] = Ok zones_v /\
        py_iter zones_v = Ok zones /\
        In zone zones) /\
    (exists sg_rule,
        py_getitem aws_config (VStr "security-groups") = Ok sg_rule /\
        evaluate_keyed_by sg_rule pool_id
          [("region", region);
           ("security", dict_get_default "security" (VStr "untrusted") c)]
        = Ok security_groups) /\
    (exists subnet_rule,
        py_getitem aws_config (VStr "subnet-id") = Ok subnet_rule /\
        evaluate_keyed_by subnet_rule pool_id [("availability-zone", zone)]
        = Ok subnet_id) /\
    merge [aws_base_launch_config ami zone subnet_id security_groups name;
           dict_get_default "launchConfig" (VDict []) d] = Ok merged /\
    holds "region" region lc /\
    holds "launchConfig" inner lc /\
    (if py_truthy (dict_get_default "spot" (VBool true) c)
     then py_setitem merged "InstanceMarketOptions" spot_market = Ok inner
     else inner = merged).
Proof.
  rewrite get_aws_provider_config_dict in Hrun. cbv zeta in Hrun.
  rename Hrun into H.
  apply bind_ok in H as (regions_v & Hregions_v & H).
  apply getitem_str_ok in Hregions_v as (c0 & Hc0 & Hregions_v).
  apply VDict_inj in Hc0. subst c0.
  apply bind_ok in H as (image_name & Himage_name & H).
  apply getitem_str_ok in Himage_name as (c0 & Hc0 & Himage_name).
  apply VDict_inj in Hc0. subst c0.
  apply bind_ok in H as (image & Himage & H).
  apply bind_ok in H as (its_v & Hits_v & H).
  apply getitem_str_ok in Hits_v as (c0 & Hc0 & Hits_v).
  apply VDict_inj in Hc0. subst c0.
  apply bind_ok in H as (resolved & _ & H).
  apply bind_ok in H as (aws_config & Haws & H).
  apply bind_ok in H as (default_lifecycle & _ & H).
  apply bind_ok in H as (lifecycle & _ & H).
  apply bind_ok in H as (dwc & _ & H).
  apply bind_ok in H as (wc0 & _ & H).
  apply bind_ok in H as (wc & _ & H).
  apply bind_ok in H as ([] & Hvalid & H).
  apply bind_ok in H as (regions & Hregions & H).
  apply bind_ok in H as (lcs & Hlcs & H).
  apply resolved_config_ok in H as (m & _ & ->).
  apply validation_ok in Hvalid as (its & Hits & _).
  change (In lc lcs) in Hlc.
  destruct (@for_each_ok_inv _ _ _ _ _ Hlcs _ Hlc)
    as (region & l1 & Hin_region & Hregion & Hl1).
  unfold aws_region_launch_configs in Hregion.
  apply bind_ok in Hregion as (az_rule & Haz_rule & Hregion).
  apply bind_ok in Hregion as (azs_v & Hazs_v & Hregion).
  apply bind_ok in Hregion as (sg_rule & Hsg_rule & Hregion).
  apply bind_ok in Hregion as (sgs & Hsgs & Hregion).
  apply bind_ok in Hregion as (azs & Hazs & Hregion).
  destruct (@for_each_ok_inv _ _ _ _ _ Hregion _ Hl1)
    as (az & l2 & Haz & Hzone & Hl2).
  unfold aws_zone_launch_configs in Hzone.
  apply bind_ok in Hzone as (subnet_rule & Hsubnet_rule & Hzone).
  apply bind_ok in Hzone as (subnet_id & Hsubnet_id & Hzone).
  apply bind_ok in Hzone as (its' & Hits' & Hzone).
  rewrite Hits in Hits'. apply Ok_inj in Hits'. subst its'.
  destruct (@for_each_ok_inv _ _ _ _ _ Hzone _ Hl2)
    as (it & l3 & Hit & Hbody & Hl3).
  destruct (aws_launch_config_shape merge _ _ _ _ _ _ _ _ _ _ _ _ _ _
              Hbody Hl3)
    as (d & name & ami & iwc & aud0 & aud & merged & inner & -> & Hname & _
          & Hami & _ & _ & Hmerged & Hinner & ->).
  exists aws_config, image_name, image, regions_v, regions, region, az, d,
    name, ami, sgs, subnet_id, merged, inner.
  split; [exact Haws|]. split; [exact Himage_name|].
  split; [exact Himage|]. split; [exact Hami|].
  split; [exact Hregions_v|]. split; [exact Hregions|].
  split; [exact Hin_region|].
  split; [now exists its_v, its|].
  split; [exact Hname|].
  split; [now exists az_rule, azs_v, azs|].
  split; [now exists sg_rule|].
  split; [now exists subnet_rule|].
  split; [exact Hmerged|].
  split; [eexists; split; reflexivity|].
  split; [eexists; split; reflexivity|].
  exact Hinner.
Qed.

Lemma aws_launch_configs_come_from_the_environment_witness :
  let c := Examples.aws_pool_config None [Examples.instance "c5.large" []] in
  let lc :=
    first_launch_config
      (Examples.returned
         (Examples.run_aws None [Examples.instance "c5.large" []])) in
  exists aws_config image_name image regions_v regions region zone d name ami
         security_groups subnet_id merged inner,
    py_getattr Examples.environment "aws_config" = Ok aws_config /\
    dict_get "image" c = Some image_name /\
    Examples.worker_images image_name = Ok image /\
    image_id image (VStr "aws") (Some region) = Ok ami /\
    dict_get "regions" c = Some regions_v /\
    py_iter regions_v = Ok regions /\
    In region regions /\
    from_instance_types c d /\
    dict_get "instanceType" d = Some name /\
    (exists az_rule zones_v zones,
        py_getitem aws_config (VStr "availability-zones") = Ok az_rule /\
        Util.evaluate_keyed_by az_rule "pool" [("region", region)]
        = Ok zones_v /\
        py_iter zones_v = Ok zones /\
        In zone zones) /\
    (exists sg_rule,
        py_getitem aws_config (VStr "security-groups") = Ok sg_rule /\
        Util.evaluate_keyed_by sg_rule "pool"
          [("region", region);
           ("security", dict_get_default "security" (VStr "untrusted") c)]
        = Ok security_groups) /\
    (exists subnet_rule,
        py_getitem aws_config (VStr "subnet-id") = Ok subnet_rule /\
        Util.evaluate_keyed_by subnet_rule "pool"
          [("availability-zone", zone)]
        = Ok subnet_id) /\
    Util.merge
      [aws_base_launch_config ami zone subnet_id security_groups name;
       dict_get_default "launchConfig" (VDict []) d] = Ok merged /\
    holds "region" region lc /\
    holds "launchConfig" inner lc /\
    py_setitem merged "InstanceMarketOptions" spot_market = Ok inner.
Proof.
  exact (aws_launch_configs_come_from_the_environment
           Util.evaluate_keyed_by Util.merge Examples.environment
           (VStr "aws") "pool"
           (Examples.aws_pool_config None [Examples.instance "c5.large" []])
           Examples.worker_images Examples.worker_defaults
           (Examples.returned
              (Examples.run_aws None [Examples.instance "c5.large" []]))
           (first_launch_config
              (Examples.returned
                 (Examples.run_aws None [Examples.instance "c5.large" []])))
           eq_refl (or_introl eq_refl)).
Defined.

(** X9. With the deep merge of the specification, every launch configuration
    the AWS generator returns belongs to an instance type of the pool whose
    name has a dot, carries one of the pool's regions under [region], and
    has in its [launchConfig] the instance type's name under [InstanceType],
    unless the instance type's [launchConfig] override sets [InstanceType]
    itself. *)
Theorem aws_launch_configs_name_their_instance_type
    (evaluate_keyed_by : value -> string -> dict -> result value)
    (environment provider_id : value) (pool_id : string) (c : dict)
    (worker_images : WorkerImages) (defaults res lc : value)
    (Hrun : get_aws_provider_config evaluate_keyed_by Util.merge environment
              provider_id pool_id (VDict c) worker_images defaults = Ok res)
    (Hlc : In lc (launch_configs_of res)) :
  exists d family size region override inner regions_v regions,
    from_instance_types c d /\
    dict_get "instanceType" d = Some (VStr (family ++ "." ++ size)) /\
    contains_char "." family = false /\
    dict_get "regions" c = Some regions_v /\
    py_iter regions_v = Ok regions /\
    In region regions /\
    holds "region" region lc /\
    dict_get_default "launchConfig" (VDict []) d = VDict override /\
    holds "launchConfig" inner lc /\
    holds "InstanceType"
      (dict_get_default "InstanceType" (VStr (family ++ "." ++ size)) override)
      inner.
Proof.
  apply aws_launch_configs_from in Hrun
    as (regions_v & regions & its_v & its & Hregions_v & Hregions & Hits_v
          & Hits & Hfrom).
  destruct (Hfrom lc Hlc)
    as (image & aws_config & sgs & subnet_id & wc & region & zone & it & l
          & Hregion & Hit & Hbody & Hl).
  destruct (aws_launch_config_shape Util.merge _ _ _ _ _ _ _ _ _ _ _ _ _ _
              Hbody Hl)
    as (d & name & ami & iwc & aud0 & aud & merged & inner & -> & Hname
          & (invalid & _ & Hcheck) & _ & _ & _ & Hmerged & Hinner & ->).
  unfold is_invalid_aws_instance_type in Hcheck.
  destruct name as [| | |s| | |]; try discriminate.
  destruct (split_once "." s) as [[family size]|] eqn:Hsplit;
    [|discriminate].
  apply split_once_some in Hsplit as [-> Hfamily].
  unfold aws_base_launch_config in Hmerged.
  eapply (@merge_override _ _ "InstanceType"
            (VStr (family ++ String "." size)))
    in Hmerged as (override & Hoverride & Hholds);
    [|reflexivity|reflexivity].
  exists d, family, size, region, override, inner, regions_v, regions.
  split; [now exists its_v, its|].
  split; [exact Hname|]. split; [exact Hfamily|].
  repeat (split; [assumption|]).
  split; [eexists; split; reflexivity|].
  split; [exact Hoverride|].
  split; [eexists; split; reflexivity|].
  destruct (py_truthy (dict_get_default "spot" (VBool true) c)).
  - eapply holds_setitem; [|exact Hholds|exact Hinner]. discriminate.
  - now subst inner.
Qed.

Lemma aws_launch_configs_name_their_instance_type_witness :
  let c :=
    Examples.aws_pool_config None
      [Examples.instance "c5.large"
         [("launchConfig", VDict [("InstanceType", VStr "c5.xlarge")])]] in
  let lc :=
    first_launch_config
      (Examples.returned
         (Examples.run_aws None
            [Examples.instance "c5.large"
               [("launchConfig",
                  VDict [("InstanceType", VStr "c5.xlarge")])]])) in
  exists d family size region override inner regions_v regions,
    from_instance_types c d /\
    dict_get "instanceType" d = Some (VStr (family ++ "." ++ size)) /\
    contains_char "." family = false /\
    dict_get "regions" c = Some regions_v /\
    py_iter regions_v = Ok regions /\
    In region regions /\
    holds "region" region lc /\
    dict_get_default "launchConfig" (VDict []) d = VDict override /\
    holds "launchConfig" inner lc /\
    holds "InstanceType"
      (dict_get_default "InstanceType" (VStr (family ++ "." ++ size)) override)
      inner.
Proof.
  exact (aws_launch_configs_name_their_instance_type
           Util.evaluate_keyed_by Examples.environment (VStr "aws") "pool"
           (Examples.aws_pool_config None
              [Examples.instance "c5.large"
                 [("launchConfig",
                    VDict [("InstanceType", VStr "c5.xlarge")])]])
           Examples.worker_images Examples.worker_defaults
           (Examples.returned
              (Examples.run_aws None
                 [Examples.instance "c5.large"
                    [("launchConfig",
                       VDict [("InstanceType", VStr "c5.xlarge")])]]))
           (first_launch_config
              (Examples.returned
                 (Examples.run_aws None
                    [Examples.instance "c5.large"
                       [("launchConfig",
                          VDict [("InstanceType", VStr "c5.xlarge")])]])))
           eq_refl (or_introl eq_refl)).
Defined.

(** X10. When the pool's [spot] flag is true, and in particular when the
    pool has no [spot] key, the [launchConfig] of every AWS launch
    configuration holds [InstanceMarketOptions] with market type spot,
    whatever the instance type's override says, since the marker is set
    after the merge. When the flag is false the [launchConfig] is the merge
    result as it is. *)
Theorem aws_spot_pools_request_spot_instances
    (evaluate_keyed_by : value -> string -> dict -> result value)
    (merge : list value -> result value)
    (environment provider_id : value) (pool_id : string) (c : dict)
    (worker_images : WorkerImages) (defaults res lc : value)
    (Hrun : get_aws_provider_config evaluate_keyed_by merge environment
              provider_id pool_id (VDict c) worker_images defaults = Ok res)
    (Hlc : In lc (launch_configs_of res)) :
  exists inner,
    holds "launchConfig" inner lc /\
    (py_truthy (dict_get_default "spot" (VBool true) c) = true ->
     holds "InstanceMarketOptions" spot_market inner) /\
    (dict_get "spot" c = None ->
     holds "InstanceMarketOptions" spot_market inner) /\
    (py_truthy (dict_get_default "spot" (VBool true) c) = false ->
     exists ami zone subnet_id security_groups name override,
       merge [aws_base_launch_config ami zone subnet_id security_groups name;
              override] = Ok inner).
Proof.
  apply aws_launch_configs_from in Hrun
    as (regions_v & regions & its_v & its & _ & _ & _ & _ & Hfrom).
  destruct (Hfrom lc Hlc)
    as (image & aws_config & sgs & subnet_id & wc & region & zone & it & l
          & _ & _ & Hbody & Hl).
  destruct (aws_launch_config_shape merge _ _ _ _ _ _ _ _ _ _ _ _ _ _
              Hbody Hl)
    as (d & name & ami & iwc & aud0 & aud & merged & inner & -> & _ & _ & _ & _
          & _ & Hmerged & Hinner & ->).
  exists inner. split; [eexists; split; reflexivity|].
  assert (Hspot : py_truthy (dict_get_default "spot" (VBool true) c) = true ->
                  holds "InstanceMarketOptions" spot_market inner).
  { intros Htrue. rewrite Htrue in Hinner.
    now apply holds_setitem_same in Hinner. }
  split; [exact Hspot|]. split.
  - intros Hnone. apply Hspot. unfold dict_get_default. now rewrite Hnone.
  - intros Hfalse. rewrite Hfalse in Hinner. subst inner.
    now exists ami, zone, subnet_id, sgs, name,
      (dict_get_default "launchConfig" (VDict []) d).
Qed.

Lemma aws_spot_pools_request_spot_instances_witness :
  let lc :=
    first_launch_config
      (Examples.returned
         (Examples.run_aws None [Examples.instance "c5.large" []])) in
  exists inner,
    holds "launchConfig" inner lc /\
    holds "InstanceMarketOptions" spot_market inner.
Proof.
  destruct (aws_spot_pools_request_spot_instances
              Util.evaluate_keyed_by Util.merge Examples.environment
              (VStr "aws") "pool"
              (Examples.aws_pool_config None [Examples.instance "c5.large" []])
              Examples.worker_images Examples.worker_defaults
              (Examples.returned
                 (Examples.run_aws None [Examples.instance "c5.large" []]))
              (first_launch_config
                 (Examples.returned
                    (Examples.run_aws None
                       [Examples.instance "c5.large" []])))
              eq_refl (or_introl eq_refl))
    as (inner & Hinner & _ & Hspot & _).
  exists inner. split; [exact Hinner|exact (Hspot eq_refl)].
Defined.

(** X11. When the pool's [additional-user-data] and that of each of its
    instance types are mappings (an absent one counts as empty), the
    [additionalUserData] of every launch configuration the AWS generator
    returns is the pool's data updated with the data of one of the instance
    types: a key of the instance type's data wins over the pool's, a key of
    the pool's data it does not set is kept, and the update is shallow. *)
Theorem aws_instance_type_user_data_wins
    (evaluate_keyed_by : value -> string -> dict -> result value)
    (merge : list value -> result value)
    (environment provider_id : value) (pool_id : string) (c ud : dict)
    (worker_images : WorkerImages) (defaults res lc its_v : value)
    (its : list value)
    (Hrun : get_aws_provider_config evaluate_keyed_by merge environment
              provider_id pool_id (VDict c) worker_images defaults = Ok res)
    (Hlc : In lc (launch_configs_of res))
    (Hpool : dict_get_default "additional-user-data" (VDict []) c = VDict ud)
    (Hits_v : dict_get "instance_types" c = Some its_v)
    (Hits : py_iter its_v = Ok its)
    (Hown : forallb mapping_user_data its = true) :
  exists d own aud,
    In (VDict d) its /\
    dict_get_default "additional-user-data" (VDict []) d = VDict own /\
    holds "additionalUserData" (VDict aud) lc /\
    (unique_keys ud = true -> unique_keys own = true ->
     forall k, dict_get k aud = updated_lookup ud own k).
Proof.
  apply aws_launch_configs_from in Hrun
    as (regions_v & regions & its_v' & its' & _ & _ & Hits_v' & Hits' & Hfrom).
  rewrite Hits_v in Hits_v'. injection Hits_v' as <-.
  rewrite Hits in Hits'. apply Ok_inj in Hits'. subst its'.
  destruct (Hfrom lc Hlc)
    as (image & aws_config & sgs & subnet_id & wc & region & zone & it & l
          & _ & Hit & Hbody & Hl).
  destruct (aws_launch_config_shape merge _ _ _ _ _ _ _ _ _ _ _ _ _ _
              Hbody Hl)
    as (d & name & ami & iwc & aud0 & aud & merged & inner & -> & _ & _ & _
          & Haud0 & Haud & _ & _ & ->).
  rewrite forallb_forall in Hown. specialize (Hown _ Hit).
  cbn [mapping_user_data] in Hown.
  apply is_dict_inv in Hown as (own & Hown).
  rewrite Hpool in Haud0. cbn [py_update] in Haud0.
  apply Ok_inj in Haud0. subst aud0.
  rewrite Hown in Haud. cbn [py_update] in Haud.
  apply Ok_inj in Haud. subst aud.
  exists d, own, (dict_update (dict_update [] ud) own).
  split; [exact Hit|]. split; [exact Hown|].
  split; [eexists; split; reflexivity|].
  intros Huniq_ud Huniq_own k. unfold updated_lookup.
  rewrite (dict_get_update (dict_update [] ud) own k Huniq_own).
  now rewrite (dict_update_empty k ud Huniq_ud).
Qed.

Lemma aws_instance_type_user_data_wins_witness :
  let lc :=
    first_launch_config
      (Examples.returned
         (get_aws_provider_config Util.evaluate_keyed_by Util.merge
            Examples.environment (VStr "aws") "pool"
            (VDict Examples.user_data_pool_config) Examples.worker_images
            Examples.worker_defaults)) in
  exists aud,
    holds "additionalUserData" (VDict aud) lc /\
    dict_get "role" aud = Some (VStr "builder") /\
    dict_get "team" aud = Some (VStr "ci").
Proof.
  destruct (aws_instance_type_user_data_wins
              Util.evaluate_keyed_by Util.merge Examples.environment
              (VStr "aws") "pool" Examples.user_data_pool_config
              [("role", VStr "tester"); ("team", VStr "ci")]
              Examples.worker_images Examples.worker_defaults
              (Examples.returned
                 (get_aws_provider_config Util.evaluate_keyed_by Util.merge
                    Examples.environment (VStr "aws") "pool"
                    (VDict Examples.user_data_pool_config) Examples.worker_images
                    Examples.worker_defaults))
              (first_launch_config
                 (Examples.returned
                    (get_aws_provider_config Util.evaluate_keyed_by
                       Util.merge Examples.environment (VStr "aws") "pool"
                       (VDict Examples.user_data_pool_config) Examples.worker_images
                       Examples.worker_defaults)))
              (VList [Examples.instance "c5.large"
                        [("additional-user-data",
                           VDict [("role", VStr "builder")])]])
              [Examples.instance "c5.large"
                 [("additional-user-data", VDict [("role", VStr "builder")])]]
              eq_refl (or_introl eq_refl) eq_refl eq_refl eq_refl eq_refl)
    as (d & own & aud & Hd & Hown & Hholds & Hlookup).
  destruct Hd as [Hd|[]]. apply VDict_inj in Hd. subst d.
  cbn in Hown. apply VDict_inj in Hown. subst own.
  exists aud. split; [exact Hholds|].
  split; [exact (Hlookup eq_refl eq_refl "role")
         |exact (Hlookup eq_refl eq_refl "team")].
Defined.

(** X12. On a well-formed AWS pool with one region and one availability zone
    the generator returns, with the deep merge of the specification, as many
    launch configurations as there are instance types the check does not
    find invalid in the zone, for any number of instance types; never more
    than there are instance types. *)
Theorem aws_one_launch_config_per_valid_instance_type
    (evaluate_keyed_by : value -> string -> dict -> result value)
    (environment provider_id : value) (pool_id : string) (c : dict)
    (worker_images : WorkerImages) (defaults region zone invalid : value)
    (its : list dict)
    (Hpool : aws_single_zone_pool evaluate_keyed_by environment provider_id
               pool_id c worker_images defaults region zone invalid its) :
  exists res,
    get_aws_provider_config evaluate_keyed_by Util.merge environment
      provider_id pool_id (VDict c) worker_images defaults = Ok res /\
    List.length (launch_configs_of res)
    = List.length (filter (fun d => negb (skipped invalid zone d)) its) /\
    List.length (launch_configs_of res) <= List.length its.
Proof.
  destruct (aws_single_zone_runs Hpool)
    as (max_capacity & lifecycle & wc & chunks & Hrun & Hchunks).
  eexists. split; [exact Hrun|].
  change (launch_configs_of
            (resolved_pool (dict_get_default "minCapacity" (VInt 0) c)
               max_capacity lifecycle (List.concat chunks)))
    with (List.concat chunks).
  assert (Hlen : List.length (List.concat chunks)
                 = List.length
                     (filter (fun d => negb (skipped invalid zone d)) its)).
  { clear -Hchunks. induction Hchunks as [|d l its chunks Hd _ IH];
      [reflexivity|].
    cbn [List.concat filter]. rewrite length_app, IH. unfold skipped at 2.
    destruct Hd as [[-> ->]|[-> (inner & iwc & aud & -> & _)]];
      reflexivity. }
  split; [exact Hlen|]. rewrite Hlen. apply filter_length_le.
Qed.

Lemma aws_one_launch_config_per_valid_instance_type_witness :
  exists res,
    get_aws_provider_config Util.evaluate_keyed_by Util.merge
      Examples.environment (VStr "aws") "pool"
      (VDict (Examples.aws_pool_config None
                [Examples.instance "m5.large" [];
                 Examples.instance "c5.large" [];
                 Examples.instance "m5.xlarge" []]))
      Examples.worker_images Examples.worker_defaults = Ok res /\
    List.length (launch_configs_of res)
    = List.length
        (filter
           (fun d => negb (skipped (VList [Examples.no_m5])
                             (VStr "us-east-1a") d))
           [[("instanceType", VStr "m5.large")];
            [("instanceType", VStr "c5.large")];
            [("instanceType", VStr "m5.xlarge")]]) /\
    List.length (launch_configs_of res)
    <= List.length
         [[("instanceType", VStr "m5.large")];
          [("instanceType", VStr "c5.large")];
          [("instanceType", VStr "m5.xlarge")]].
Proof.
  apply (aws_one_launch_config_per_valid_instance_type
           Util.evaluate_keyed_by Examples.environment (VStr "aws") "pool"
           (Examples.aws_pool_config None
              [Examples.instance "m5.large" [];
               Examples.instance "c5.large" [];
               Examples.instance "m5.xlarge" []])
           Examples.worker_images Examples.worker_defaults
           (VStr "us-east-1") (VStr "us-east-1a") (VList [Examples.no_m5])
           [[("instanceType", VStr "m5.large")];
            [("instanceType", VStr "c5.large")];
            [("instanceType", VStr "m5.xlarge")]]).
  constructor; try reflexivity.
  - do 2 eexists. repeat split; reflexivity.
  - do 2 eexists. repeat split; reflexivity.
  - do 4 eexists. repeat split; reflexivity.
  - repeat constructor; eexists; repeat split; reflexivity.
Defined.

Lemma for_each_length_le {A B} (body : A -> result (list B)) xs ys n :
  (forall x l, In x xs -> body x = Ok l -> List.length l <= n) ->
  for_each xs body = Ok ys ->
  List.length ys <= List.length xs * n.
Proof.
  revert ys. induction xs as [|x xs IH]; intros ys Hn H.
  - cbn in H. apply Ok_inj in H. subst ys. cbn. lia.
  - cbn [for_each] in H.
    apply bind_ok in H as (l & Hl & H).
    apply bind_ok in H as (zs & Hzs & H).
    apply Ok_inj in H. subst ys.
    rewrite length_app.
    pose proof (Hn x l (or_introl eq_refl) Hl) as Hle.
    assert (Hrest : List.length zs <= List.length xs * n).
    { apply IH; [|exact Hzs]. intros x' l' Hx'. apply Hn. now right. }
    cbn [List.length]. lia.
Qed.

Section AwsBound.
Variable evaluate_keyed_by : value -> string -> dict -> result value.
Variable merge : list value -> result value.

Lemma aws_launch_config_at_most_one provider_id image aws_config
    security_groups subnet_id worker_config implementation spot user_data
    region zone it l :
  aws_launch_config merge provider_id image aws_config security_groups
    subnet_id worker_config implementation spot user_data region zone it
  = Ok l ->
  List.length l <= 1.
Proof.
  intros H.
  apply (aws_launch_config_ok merge) in H
    as (d & invalid & name & _ & _ & _ & [[_ ->]|[_ (inner & iwc & aud & -> & _)]]);
    cbn; lia.
Qed.

(** The loop of a successful AWS run. *)
Lemma aws_launch_configs_loop environment provider_id pool_id c worker_images
    defaults res :
  get_aws_provider_config evaluate_keyed_by merge environment provider_id
    pool_id (VDict c) worker_images defaults = Ok res ->
  exists regions_v regions its_v image aws_config worker_config,
    dict_get "regions" c = Some regions_v /\
    py_iter regions_v = Ok regions /\
    dict_get "instance_types" c = Some its_v /\
    py_getattr environment "aws_config" = Ok aws_config /\
    for_each regions
      (aws_region_launch_configs evaluate_keyed_by merge pool_id provider_id
         image aws_config
         (dict_get_default "security" (VStr "untrusted") c) worker_config
         (dict_get_default "implementation" docker_worker c)
         (dict_get_default "spot" (VBool true) c)
         (dict_get_default "additional-user-data" (VDict []) c) its_v)
    = Ok (launch_configs_of res).
Proof.
  rewrite get_aws_provider_config_dict. cbv zeta. intros H.
  apply bind_ok in H as (regions_v & Hregions_v & H).
  apply getitem_str_ok in Hregions_v as (c0 & Hc0 & Hregions_v).
  apply VDict_inj in Hc0. subst c0.
  apply bind_ok in H as (image_name & _ & H).
  apply bind_ok in H as (image & _ & H).
  apply bind_ok in H as (its_v & Hits_v & H).
  apply getitem_str_ok in Hits_v as (c0 & Hc0 & Hits_v).
  apply VDict_inj in Hc0. subst c0.
  apply bind_ok in H as (resolved & _ & H).
  apply bind_ok in H as (aws_config & Haws & H).
  apply bind_ok in H as (default_lifecycle & _ & H).
  apply bind_ok in H as (lifecycle & _ & H).
  apply bind_ok in H as (dwc & _ & H).
  apply bind_ok in H as (wc0 & _ & H).
  apply bind_ok in H as (wc & _ & H).
  apply bind_ok in H as ([] & _ & H).
  apply bind_ok in H as (regions & Hregions & H).
  apply bind_ok in H as (lcs & Hlcs & H).
  apply resolved_config_ok in H as (m & _ & ->).
  exists regions_v, regions, its_v, image, aws_config, wc.
  now repeat split.
Qed.

End AwsBound.

(** X13. Given lists of regions and instance types, a run of the AWS
    generator that returns has at most one launch configuration per instance
    type for every availability zone the environment resolves for each
    region: the check of invalid instances can only remove launch
    configurations. *)
Theorem aws_at_most_one_launch_config_per_zone_and_instance_type
    (evaluate_keyed_by : value -> string -> dict -> result value)
    (merge : list value -> result value)
    (environment provider_id : value) (pool_id : string) (c : dict)
    (worker_images : WorkerImages) (defaults res : value)
    (regions its : list value)
    (Hrun : get_aws_provider_config evaluate_keyed_by merge environment
              provider_id pool_id (VDict c) worker_images defaults = Ok res)
    (Hregions : dict_get "regions" c = Some (VList regions))
    (Hits : dict_get "instance_types" c = Some (VList its)) :
  exists aws_config zones,
    py_getattr environment "aws_config" = Ok aws_config /\
    Forall2
      (fun region zs =>
         exists az_rule zones_v,
           py_getitem aws_config (VStr "availability-zones") = Ok az_rule /\
           evaluate_keyed_by az_rule pool_id [("region", region)]
           = Ok zones_v /\
           py_iter zones_v = Ok zs)
      regions zones /\
    List.length (launch_configs_of res)
    <= List.length (List.concat zones) * List.length its.
Proof.
  apply aws_launch_configs_loop in Hrun
    as (regions_v & regions' & its_v & image & aws_config & wc & Hregions_v
          & Hregions' & Hits_v & Haws & Hloop).
  rewrite Hregions in Hregions_v. injection Hregions_v as <-.
  rewrite Hits in Hits_v. injection Hits_v as <-.
  cbn [py_iter] in Hregions'. apply Ok_inj in Hregions'. subst regions'.
  exists aws_config.
  apply for_each_chunks in Hloop as (chunks & Hchunks & ->).
  assert (Hzones :
            exists zones,
              Forall2
                (fun region zs =>
                   exists az_rule zones_v,
                     py_getitem aws_config (VStr "availability-zones")
                     = Ok az_rule /\
                     evaluate_keyed_by az_rule pool_id [("region", region)]
                     = Ok zones_v /\
                     py_iter zones_v = Ok zs)
                regions zones /\
              List.length (List.concat chunks)
              <= List.length (List.concat zones) * List.length its).
  { clear -Hchunks. induction Hchunks as [|region l regions chunks Hl _ IH].
    - exists []. split; [constructor|cbn; lia].
    - destruct IH as (zones & Hzones & Hlen).
      unfold aws_region_launch_configs in Hl.
      apply bind_ok in Hl as (az_rule & Hrule & Hl).
      apply bind_ok in Hl as (zones_v & Hzones_v & Hl).
      apply bind_ok in Hl as (sg_rule & _ & Hl).
      apply bind_ok in Hl as (sgs & _ & Hl).
      apply bind_ok in Hl as (zs & Hzs & Hl).
      apply (for_each_length_le _ _ _ (List.length its)) in Hl.
      + exists (zs :: zones). split.
        * constructor; [|exact Hzones]. now exists az_rule, zones_v.
        * cbn [List.concat]. rewrite !length_app. lia.
      + intros zone l' _ Hzone. unfold aws_zone_launch_configs in Hzone.
        apply bind_ok in Hzone as (subnet_rule & _ & Hzone).
        apply bind_ok in Hzone as (subnet_id & _ & Hzone).
        cbn [py_iter bind] in Hzone.
        apply (for_each_length_le _ _ _ 1) in Hzone; [lia|].
        intros it l'' _ Hone.
        now apply (aws_launch_config_at_most_one merge) in Hone. }
  destruct Hzones as (zones & Hzones & Hlen).
  exists zones. now repeat split.
Qed.

Lemma aws_at_most_one_launch_config_per_zone_and_instance_type_witness :
  exists aws_config zones,
    py_getattr Examples.environment "aws_config" = Ok aws_config /\
    Forall2
      (fun region zs =>
         exists az_rule zones_v,
           py_getitem aws_config (VStr "availability-zones") = Ok az_rule /\
           Util.evaluate_keyed_by az_rule "pool" [("region", region)]
           = Ok zones_v /\
           py_iter zones_v = Ok zs)
      [VStr "us-east-1"] zones /\
    List.length
      (launch_configs_of
         (Examples.returned
            (Examples.run_aws None
               [Examples.instance "m5.large" [];
                Examples.instance "c5.large" []])))
    <= List.length (List.concat zones)
       * List.length
           [Examples.instance "m5.large" []; Examples.instance "c5.large" []].
Proof.
  exact (aws_at_most_one_launch_config_per_zone_and_instance_type
           Util.evaluate_keyed_by Util.merge Examples.environment
           (VStr "aws") "pool"
           (Examples.aws_pool_config None
              [Examples.instance "m5.large" [];
               Examples.instance "c5.large" []])
           Examples.worker_images Examples.worker_defaults
           (Examples.returned
              (Examples.run_aws None
                 [Examples.instance "m5.large" [];
                  Examples.instance "c5.large" []]))
           [VStr "us-east-1"]
           [Examples.instance "m5.large" []; Examples.instance "c5.large" []]
           eq_refl eq_refl eq_refl).
Defined.

(* ================================================================== *)
(** * Further properties: the Azure generator *)
(* ================================================================== *)

Section AzureShape.
Variable evaluate_keyed_by : value -> string -> dict -> result value.
Variable merge : list value -> result value.

Lemma azure_launch_config_one provider_id image azure_config image_rgroup
    purpose worker_config tags location vmSize l :
  azure_launch_config merge provider_id image azure_config image_rgroup
    purpose worker_config tags location vmSize = Ok l ->
  List.length l = 1.
Proof.
  unfold azure_launch_config. intros H.
  apply bind_ok in H as (loc & _ & H).
  apply bind_ok in H as (ImageId & _ & H).
  apply bind_ok in H as (subscription & _ & H).
  cbv zeta in H.
  apply bind_ok in H as (tags' & _ & H).
  apply bind_ok in H as (workerConfig & _ & H).
  apply bind_ok in H as (override & _ & H).
  apply bind_ok in H as (merged & _ & H).
  apply Ok_inj in H. now subst l.
Qed.

(** The launch configurations of a successful Azure run, and where they
    come from. *)
Lemma azure_launch_configs_from environment provider_id pool_id c
    worker_images defaults res :
  get_azure_provider_config evaluate_keyed_by merge environment provider_id
    pool_id (VDict c) worker_images defaults = Ok res ->
  exists locations_v locations vmSizes image_rgroup purpose image
         azure_config worker_config,
    dict_get "locations" c = Some locations_v /\
    py_iter locations_v = Ok locations /\
    dict_get "vmSizes" c = Some vmSizes /\
    dict_get "worker-purpose" c = Some purpose /\
    py_getattr environment "azure_config" = Ok azure_config /\
    for_each locations
      (azure_location_launch_configs merge provider_id image azure_config
         image_rgroup purpose worker_config
         (dict_get_default "tags" (VDict []) c) vmSizes)
    = Ok (launch_configs_of res).
Proof.
  rewrite get_azure_provider_config_dict. cbv zeta. intros H.
  apply bind_ok in H as (locations_v & Hlocations_v & H).
  apply getitem_str_ok in Hlocations_v as (c0 & Hc0 & Hlocations_v).
  apply VDict_inj in Hc0. subst c0.
  apply bind_ok in H as (image_rgroup & _ & H).
  apply bind_ok in H as (vmSizes & HvmSizes & H).
  apply getitem_str_ok in HvmSizes as (c0 & Hc0 & HvmSizes).
  apply VDict_inj in Hc0. subst c0.
  apply bind_ok in H as (purpose & Hpurpose & H).
  apply getitem_str_ok in Hpurpose as (c0 & Hc0 & Hpurpose).
  apply VDict_inj in Hc0. subst c0.
  apply bind_ok in H as (image_name & _ & H).
  apply bind_ok in H as (image & _ & H).
  apply bind_ok in H as (resolved & _ & H).
  apply bind_ok in H as (azure_config & Hazure & H).
  apply bind_ok in H as (default_lifecycle & _ & H).
  apply bind_ok in H as (lifecycle & _ & H).
  apply bind_ok in H as (dwc & _ & H).
  apply bind_ok in H as (wc0 & _ & H).
  apply bind_ok in H as (wc & _ & H).
  apply bind_ok in H as (locations & Hlocations & H).
  apply bind_ok in H as (lcs & Hlcs & H).
  apply (resolved_config_ok) in H as (m & _ & ->).
  exists locations_v, locations, vmSizes, image_rgroup, purpose, image,
    azure_config, wc.
  now repeat split.
Qed.

End AzureShape.

(** X14. The Azure generator skips nothing: given lists of locations and
    sizes, a run that returns has exactly one launch configuration per
    location and size. *)
Theorem azure_one_launch_config_per_location_and_size
    (evaluate_keyed_by : value -> string -> dict -> result value)
    (merge : list value -> result value)
    (environment provider_id : value) (pool_id : string) (c : dict)
    (worker_images : WorkerImages) (defaults res : value)
    (locations sizes : list value)
    (Hrun : get_azure_provider_config evaluate_keyed_by merge environment
              provider_id pool_id (VDict c) worker_images defaults = Ok res)
    (Hlocations : dict_get "locations" c = Some (VList locations))
    (Hsizes : dict_get "vmSizes" c = Some (VList sizes)) :
  List.length (launch_configs_of res)
  = List.length locations * List.length sizes.
Proof.
  apply azure_launch_configs_from in Hrun
    as (locations_v & locations' & vmSizes & image_rgroup & purpose & image
          & azure_config & wc & Hl & Hiter & Hs & _ & _ & Hloop).
  rewrite Hlocations in Hl. injection Hl as <-.
  rewrite Hsizes in Hs. injection Hs as <-.
  cbn [py_iter] in Hiter. apply Ok_inj in Hiter. subst locations'.
  apply (for_each_length _ _ _ (List.length sizes)) in Hloop; [exact Hloop|].
  intros location l _ Hbody. unfold azure_location_launch_configs in Hbody.
  cbn [py_iter bind] in Hbody.
  apply (for_each_length _ _ _ 1) in Hbody; [lia|].
  intros size l' _ Hone. now apply azure_launch_config_one in Hone.
Qed.

Lemma azure_one_launch_config_per_location_and_size_witness :
  List.length
    (launch_configs_of
       (Examples.returned
          (Examples.run_azure
             [VDict [("vmSize", VStr "Standard_F8s_v2")];
              VDict [("vmSize", VStr "Standard_F16s_v2")]] [])))
  = List.length [VStr "east-us"]
    * List.length [VDict [("vmSize", VStr "Standard_F8s_v2")];
                   VDict [("vmSize", VStr "Standard_F16s_v2")]].
Proof.
  apply (azure_one_launch_config_per_location_and_size
           Util.evaluate_keyed_by Util.merge Examples.environment
           (VStr "azure") "pool"
           (Examples.azure_pool_config
              [VDict [("vmSize", VStr "Standard_F8s_v2")];
               VDict [("vmSize", VStr "Standard_F16s_v2")]] [])
           Examples.worker_images Examples.worker_defaults);
    reflexivity.
Defined.

Section AzureDefaults.
Variable evaluate_keyed_by : value -> string -> dict -> result value.

Lemma azure_launch_config_defaults provider_id image azure_config image_rgroup
    purpose worker_config tags location vmSize l lc :
  azure_launch_config Util.merge provider_id image azure_config image_rgroup
    purpose worker_config tags location vmSize = Ok l ->
  In lc l ->
  exists name size override subscription,
    location = VStr name /\
    vmSize = VDict size /\
    dict_get_default "launchConfig" (VDict []) size = VDict override /\
    py_getitem azure_config (VStr "subscription") = Ok subscription /\
    holds "location"
      (dict_get_default "location" (VStr (remove_char "-" name)) override) lc /\
    holds "subnetId"
      (dict_get_default "subnetId"
         (VStr (azure_subnet_id subscription location purpose)) override) lc /\
    holds "priority" (dict_get_default "priority" (VStr "spot") override) lc /\
    holds "evictionPolicy"
      (dict_get_default "evictionPolicy" (VStr "Delete") override) lc.
Proof.
  unfold azure_launch_config. intros H Hin.
  apply bind_ok in H as (loc & Hloc & H).
  destruct location as [| | |name| | |]; try discriminate.
  apply Ok_inj in Hloc. subst loc.
  apply bind_ok in H as (ImageId & _ & H).
  apply bind_ok in H as (subscription & Hsubscription & H).
  cbv zeta in H.
  apply bind_ok in H as (tags' & _ & H).
  apply bind_ok in H as (workerConfig & _ & H).
  apply bind_ok in H as (override & Hoverride & H).
  apply py_get_ok in Hoverride as (size & -> & ->).
  apply bind_ok in H as (merged & Hmerged & H).
  apply Ok_inj in H. subst l. destruct Hin as [<-|[]].
  pose proof Hmerged as Hm1. pose proof Hmerged as Hm2.
  pose proof Hmerged as Hm3.
  eapply (@merge_override _ _ "location" (VStr (remove_char "-" name)))
    in Hmerged as (o & Ho & Hlocation); [|reflexivity|reflexivity].
  eapply (@merge_override _ _ "priority" (VStr "spot"))
    in Hm1 as (o1 & Ho1 & Hpriority); [|reflexivity|reflexivity].
  eapply (@merge_override _ _ "evictionPolicy" (VStr "Delete"))
    in Hm2 as (o2 & Ho2 & Heviction); [|reflexivity|reflexivity].
  eapply (@merge_override _ _ "subnetId"
            (VStr (azure_subnet_id subscription (VStr name) purpose)))
    in Hm3 as (o3 & Ho3 & Hsubnet); [|reflexivity|reflexivity].
  rewrite Ho in Ho1, Ho2, Ho3. apply VDict_inj in Ho1, Ho2, Ho3.
  subst o1 o2 o3.
  exists name, size, o, subscription. now repeat split.
Qed.

End AzureDefaults.

(** X15. With the deep merge of the specification, every Azure launch
    configuration belongs to a location and a size of the pool and holds,
    unless the size's [launchConfig] override sets the key itself: under
    [location] the location without its dashes; under [subnetId] the subnet
    named after the location as the pool spells it and the worker purpose;
    priority [spot] and eviction policy [Delete]. The pool's [spot] flag
    plays no part. *)
Theorem azure_launch_config_defaults_can_be_overridden
    (evaluate_keyed_by : value -> string -> dict -> result value)
    (environment provider_id : value) (pool_id : string) (c : dict)
    (worker_images : WorkerImages) (defaults res lc : value)
    (Hrun : get_azure_provider_config evaluate_keyed_by Util.merge
              environment provider_id pool_id (VDict c) worker_images
              defaults = Ok res)
    (Hlc : In lc (launch_configs_of res)) :
  exists name size override locations_v locations sizes_v sizes purpose
         azure_config subscription,
    dict_get "locations" c = Some locations_v /\
    py_iter locations_v = Ok locations /\
    In (VStr name) locations /\
    dict_get "vmSizes" c = Some sizes_v /\
    py_iter sizes_v = Ok sizes /\
    In (VDict size) sizes /\
    dict_get_default "launchConfig" (VDict []) size = VDict override /\
    dict_get "worker-purpose" c = Some purpose /\
    py_getattr environment "azure_config" = Ok azure_config /\
    py_getitem azure_config (VStr "subscription") = Ok subscription /\
    holds "location"
      (dict_get_default "location" (VStr (remove_char "-" name)) override) lc /\
    holds "subnetId"
      (dict_get_default "subnetId"
         (VStr (azure_subnet_id subscription (VStr name) purpose)) override)
      lc /\
    holds "priority" (dict_get_default "priority" (VStr "spot") override) lc /\
    holds "evictionPolicy"
      (dict_get_default "evictionPolicy" (VStr "Delete") override) lc.
Proof.
  apply azure_launch_configs_from in Hrun
    as (locations_v & locations & sizes_v & image_rgroup & purpose & image
          & azure_config & wc & Hl & Hiter & Hs & Hpurpose & Hazure & Hloop).
  destruct (@for_each_ok_inv _ _ _ _ _ Hloop _ Hlc)
    as (location & l1 & Hlocation & Hbody & Hl1).
  unfold azure_location_launch_configs in Hbody.
  apply bind_ok in Hbody as (sizes & Hsizes & Hbody).
  destruct (@for_each_ok_inv _ _ _ _ _ Hbody _ Hl1)
    as (vmSize & l2 & HvmSize & Hone & Hl2).
  destruct (azure_launch_config_defaults _ _ _ _ _ _ _ _ _ _ _ Hone Hl2)
    as (name & size & override & subscription & -> & -> & Ho & Hsub & H1
          & H2 & H3 & H4).
  exists name, size, override, locations_v, locations, sizes_v, sizes,
    purpose, azure_config, subscription.
  now repeat split.
Qed.

Lemma azure_launch_config_defaults_can_be_overridden_witness :
  let lc :=
    first_launch_config
      (Examples.returned
         (Examples.run_azure [VDict [("vmSize", VStr "Standard_F8s_v2")]]
            [("spot", VBool false)])) in
  holds "location" (VStr "eastus") lc /\
  holds "subnetId"
    (VStr "/subscriptions/sub-0/resourceGroups/rg-east-us-gecko-t/providers/Microsoft.Network/virtualNetworks/vn-east-us-gecko-t/subnets/sn-east-us-gecko-t")
    lc /\
  holds "priority" (VStr "spot") lc.
Proof.
  destruct (azure_launch_config_defaults_can_be_overridden
              Util.evaluate_keyed_by Examples.environment (VStr "azure")
              "pool"
              (Examples.azure_pool_config
                 [VDict [("vmSize", VStr "Standard_F8s_v2")]]
                 [("spot", VBool false)])
              Examples.worker_images Examples.worker_defaults
              (Examples.returned
                 (Examples.run_azure
                    [VDict [("vmSize", VStr "Standard_F8s_v2")]]
                    [("spot", VBool false)]))
              (first_launch_config
                 (Examples.returned
                    (Examples.run_azure
                       [VDict [("vmSize", VStr "Standard_F8s_v2")]]
                       [("spot", VBool false)])))
              eq_refl (or_introl eq_refl))
    as (name & size & override & lv & ls & sv & ss & purpose & azure_config
          & subscription & Hlv & Hls & Hname & Hsv & Hss & Hsize & Ho
          & Hpurpose & Hazure & Hsub & Hlocation & Hsubnet & Hpriority & _).
  cbn in Hlv. injection Hlv as <-.
  cbn in Hls. apply Ok_inj in Hls. subst ls.
  destruct Hname as [Hname|[]]. injection Hname as <-.
  cbn in Hsv. injection Hsv as <-.
  cbn in Hss. apply Ok_inj in Hss. subst ss.
  destruct Hsize as [Hsize|[]]. injection Hsize as <-.
  cbn in Ho. apply VDict_inj in Ho. subst override.
  cbn in Hpurpose. injection Hpurpose as <-.
  cbn in Hazure. apply Ok_inj in Hazure. subst azure_config.
  cbn in Hsub. apply Ok_inj in Hsub. subst subscription.
  split; [exact Hlocation|]. split; [exact Hsubnet|exact Hpriority].
Defined.

(* ================================================================== *)
(** * Further properties: the Google generator *)
(* ================================================================== *)

Lemma substitute_image_result image_name disk disk' :
  substitute_image image_name disk = Ok disk' ->
  (names_placeholder disk = false -> disk' = disk) /\
  (names_placeholder disk = true ->
   exists dd params,
     disk = VDict dd /\
     dict_get "initializeParams" dd = Some (VDict params) /\
     disk' = VDict (dict_set "initializeParams"
                      (VDict (dict_set "sourceImage" image_name params)) dd)) /\
  (py_eq image_name (VStr "<image>") = false ->
   names_placeholder disk' = false).
Proof.
  unfold substitute_image. intros H.
  apply bind_ok in H as (params_v & Hparams & H).
  apply getitem_str_ok in Hparams as (dd & -> & Hparams).
  apply bind_ok in H as (source & Hsource & H).
  apply py_get_ok in Hsource as (params & -> & ->).
  unfold names_placeholder at 1 2. rewrite Hparams.
  destruct (py_eq (dict_get_default "sourceImage" VNone params)
              (VStr "<image>")) eqn:Hmarker.
  - cbn [py_setitem bind] in H. apply Ok_inj in H. subst disk'.
    split; [discriminate|]. split.
    + intros _. now exists dd, params.
    + intros Himage. unfold names_placeholder.
      rewrite dict_get_set_same. unfold dict_get_default.
      now rewrite dict_get_set_same.
  - apply Ok_inj in H. subst disk'.
    split; [reflexivity|]. split; [discriminate|].
    intros _. unfold names_placeholder. now rewrite Hparams.
Qed.

Lemma substitute_disks_result image_name ds ds' :
  for_each ds (fun disk =>
    disk <- substitute_image image_name disk ;; Ok [disk]) = Ok ds' ->
  Forall2 (fun disk disk' => substitute_image image_name disk = Ok disk')
    ds ds'.
Proof.
  revert ds'. induction ds as [|disk ds IH]; intros ds' H.
  - cbn in H. apply Ok_inj in H. subst ds'. constructor.
  - cbn [for_each] in H.
    apply bind_ok in H as (l & Hl & H).
    apply bind_ok in Hl as (disk' & Hdisk & Hl).
    apply Ok_inj in Hl. subst l.
    apply bind_ok in H as (rest & Hrest & H).
    apply Ok_inj in H. subst ds'. cbn [app].
    constructor; [exact Hdisk|now apply IH].
Qed.

(** [substitute_images] touches the key [disks] only, and a list of disks
    disk by disk. *)
Lemma substitute_images_dict image_name d y :
  substitute_images image_name (VDict d) = Ok y ->
  exists d',
    y = VDict d' /\
    (forall k, k <> "disks" -> dict_get k d' = dict_get k d) /\
    (forall ds,
        dict_get "disks" d = Some (VList ds) ->
        exists ds',
          dict_get "disks" d' = Some (VList ds') /\
          Forall2 (fun disk disk' =>
                     substitute_image image_name disk = Ok disk') ds ds').
Proof.
  unfold substitute_images. intros H.
  apply bind_ok in H as (disks & Hdisks & H).
  apply getitem_str_ok in Hdisks as (d0 & Hd0 & Hdisks).
  apply VDict_inj in Hd0. subst d0.
  destruct disks as [| | | |ds| |].
  5:{ apply bind_ok in H as (ds' & Hds' & H).
      cbn [py_setitem] in H. apply Ok_inj in H. subst y.
      exists (dict_set "disks" (VList ds') d). split; [reflexivity|]. split.
      - intros k Hk. now apply dict_get_set_other.
      - intros ds0 Hds0. rewrite Hdisks in Hds0. injection Hds0 as <-.
        exists ds'. split; [apply dict_get_set_same|].
        now apply substitute_disks_result. }
  all: apply bind_ok in H as (elements & _ & H);
    apply bind_ok in H as (u & _ & H); apply Ok_inj in H; subst y;
    exists d; (split; [reflexivity|]); (split; [reflexivity|]);
    intros ds0 Hds0; rewrite Hdisks in Hds0; discriminate.
Qed.

Section GoogleShape.
Variable merge : list value -> result value.

(** The launch configuration of an instance type, key by key. *)
Lemma google_launch_config_lookups image_name worker_config implementation
    region zone it l lc :
  google_launch_config merge image_name worker_config implementation region
    zone it = Ok l ->
  In lc l ->
  exists d m machine_type,
    it = VDict d /\
    lc = VDict m /\
    dict_get "machine_type" d = Some machine_type /\
    dict_get "region" m = Some region /\
    dict_get "zone" m = Some zone /\
    dict_get "machineType" m
    = Some (VStr ("zones/" ++ py_str zone ++ "/machineTypes/"
                  ++ py_str machine_type)) /\
    dict_get "scheduling" m = Some preemptible_scheduling /\
    dict_get "machine_type" m = None /\
    dict_get "worker-config" m = None /\
    (forall k, ~ In k google_edited_keys -> dict_get k m = dict_get k d) /\
    (forall ds,
        dict_get "disks" d = Some (VList ds) ->
        exists ds',
          dict_get "disks" m = Some (VList ds') /\
          Forall2 (fun disk disk' =>
                     substitute_image image_name disk = Ok disk') ds ds').
Proof.
  unfold google_launch_config. intros H Hin.
  apply bind_ok in H as (lc1 & H1 & H).
  destruct it as [| | | | |d|]; try discriminate.
  rewrite py_setdefault_dict in H1. apply Ok_inj in H1. subst lc1.
  set (d1 := if dict_mem "capacityPerInstance" d then d
             else dict_set "capacityPerInstance" (VInt 1) d) in *.
  assert (E1 : forall k, k <> "capacityPerInstance" ->
                         dict_get k d1 = dict_get k d)
    by (intros k Hk; now apply dict_get_setdefault_other).
  apply bind_ok in H as (lc2 & H2 & H).
  cbn [py_update] in H2. apply Ok_inj in H2. subst lc2.
  change (dict_update d1 [("region", region); ("zone", zone)])
    with (dict_set "zone" zone (dict_set "region" region d1)) in H.
  set (d2 := dict_set "zone" zone (dict_set "region" region d1)) in *.
  apply bind_ok in H as (lc3 & H3 & H).
  apply substitute_images_dict in H3 as (d3 & -> & E3 & Hdisks).
  apply bind_ok in H as ([own lc4] & H4 & H).
  cbn [py_pop_default] in H4. apply Ok_inj in H4. injection H4 as _ <-.
  apply bind_ok in H as (workerConfig & _ & H).
  apply bind_ok in H as (lc5 & H5 & H).
  cbn [py_setitem] in H5. apply Ok_inj in H5. subst lc5.
  set (d5 := dict_set "workerConfig" workerConfig
               (dict_del "worker-config" d3)) in *.
  apply bind_ok in H as (lc6 & H6 & H).
  assert (E6 : exists d6,
             lc6 = VDict d6 /\
             forall k, k <> "workerConfig" -> dict_get k d6 = dict_get k d5).
  { destruct (py_eq implementation docker_worker).
    - apply bind_ok in H6 as (current & _ & H6).
      apply bind_ok in H6 as (cpi & _ & H6).
      apply bind_ok in H6 as (wc' & _ & H6).
      cbn [py_setitem] in H6. apply Ok_inj in H6. subst lc6.
      eexists. split; [reflexivity|].
      intros k Hk. now apply dict_get_set_other.
    - apply Ok_inj in H6. subst lc6. now exists d5. }
  destruct E6 as (d6 & -> & E6).
  apply bind_ok in H as ([machine_type lc7] & H7 & H).
  cbn [py_pop] in H7.
  destruct (dict_get "machine_type" d6) as [mt|] eqn:Hmt; [|discriminate].
  apply Ok_inj in H7. injection H7 as <- <-.
  cbn [py_setitem bind] in H. apply Ok_inj in H. subst l.
  destruct Hin as [<-|[]].
  rewrite E6 in Hmt by discriminate. unfold d5 in Hmt.
  rewrite dict_get_set_other, dict_get_del_other, E3 in Hmt by discriminate.
  unfold d2 in Hmt. rewrite !dict_get_set_other, E1 in Hmt by discriminate.
  exists d. eexists. exists mt.
  split; [reflexivity|]. split; [reflexivity|].
  split; [exact Hmt|].
  fold preemptible_scheduling.
  repeat split.
  - rewrite !dict_get_set_other, dict_get_del_other, E6 by discriminate.
    unfold d5. rewrite dict_get_set_other, dict_get_del_other, E3
      by discriminate.
    unfold d2. now rewrite dict_get_set_other, dict_get_set_same by discriminate.
  - rewrite !dict_get_set_other, dict_get_del_other, E6 by discriminate.
    unfold d5. rewrite dict_get_set_other, dict_get_del_other, E3
      by discriminate.
    unfold d2. now rewrite dict_get_set_same.
  - now rewrite dict_get_set_other, dict_get_set_same by discriminate.
  - now rewrite dict_get_set_same.
  - rewrite !dict_get_set_other by discriminate. apply assoc_get_del_same.
  - rewrite !dict_get_set_other, dict_get_del_other, E6 by discriminate.
    unfold d5. rewrite dict_get_set_other by discriminate.
    apply assoc_get_del_same.
  - intros k Hk.
    assert (Hne : forall k', In k' google_edited_keys -> k <> k')
      by (intros k' Hk' ->; now apply Hk).
    rewrite !dict_get_set_other, dict_get_del_other, E6
      by (apply Hne; cbn; tauto).
    unfold d5. rewrite dict_get_set_other, dict_get_del_other, E3
      by (apply Hne; cbn; tauto).
    unfold d2. rewrite !dict_get_set_other, E1 by (apply Hne; cbn; tauto).
    reflexivity.
  - intros ds Hds.
    destruct (Hdisks ds) as (ds' & Hds' & Hsubst).
    { unfold d2. now rewrite !dict_get_set_other, E1 by discriminate. }
    exists ds'. split; [|exact Hsubst].
    rewrite !dict_get_set_other, dict_get_del_other, E6 by discriminate.
    unfold d5. now rewrite dict_get_set_other, dict_get_del_other
      by discriminate.
Qed.

End GoogleShape.

Section GoogleRuns.
Variable evaluate_keyed_by : value -> string -> dict -> result value.
Variable merge : list value -> result value.

(** The loop of a successful Google run. *)
Lemma google_launch_configs_loop environment provider_id pool_id c
    worker_images defaults res :
  get_google_provider_config evaluate_keyed_by merge environment provider_id
    pool_id (VDict c) worker_images defaults = Ok res ->
  exists regions_v regions its_v its image_name image img google_config
         worker_config,
    dict_get "regions" c = Some regions_v /\
    py_iter regions_v = Ok regions /\
    dict_get "instance_types" c = Some its_v /\
    py_iter its_v = Ok its /\
    dict_get "image" c = Some image_name /\
    worker_images image_name = Ok image /\
    image_id image provider_id None = Ok img /\
    py_getattr environment "google_config" = Ok google_config /\
    for_each regions
      (google_region_launch_configs evaluate_keyed_by merge pool_id
         google_config img worker_config
         (dict_get_default "implementation" docker_worker c) its_v)
    = Ok (launch_configs_of res).
Proof.
  rewrite get_google_provider_config_dict. cbv zeta. intros H.
  apply bind_ok in H as (regions_v & Hregions_v & H).
  apply getitem_str_ok in Hregions_v as (c0 & Hc0 & Hregions_v).
  apply VDict_inj in Hc0. subst c0.
  apply bind_ok in H as (image_name & Himage_name & H).
  apply getitem_str_ok in Himage_name as (c0 & Hc0 & Himage_name).
  apply VDict_inj in Hc0. subst c0.
  apply bind_ok in H as (image & Himage & H).
  apply bind_ok in H as (its_v & Hits_v & H).
  apply getitem_str_ok in Hits_v as (c0 & Hc0 & Hits_v).
  apply VDict_inj in Hc0. subst c0.
  apply bind_ok in H as (resolved & _ & H).
  apply bind_ok in H as (google_config & Hgoogle & H).
  apply bind_ok in H as (default_lifecycle & _ & H).
  apply bind_ok in H as (lifecycle & _ & H).
  apply bind_ok in H as (dwc & _ & H).
  apply bind_ok in H as (wc0 & _ & H).
  apply bind_ok in H as (wc & _ & H).
  apply bind_ok in H as (img & Himg & H).
  apply bind_ok in H as ([] & Hvalid & H).
  apply bind_ok in H as (regions & Hregions & H).
  apply bind_ok in H as (lcs & Hlcs & H).
  apply resolved_config_ok in H as (m & _ & ->).
  apply validation_ok in Hvalid as (its & Hits & _).
  exists regions_v, regions, its_v, its, image_name, image, img,
    google_config, wc.
  now repeat split.
Qed.

(** Every launch configuration of a successful Google run was built for a
    region and an instance type of the pool, with the pool's image. *)
Lemma google_launch_configs_from environment provider_id pool_id c
    worker_images defaults res :
  get_google_provider_config evaluate_keyed_by merge environment provider_id
    pool_id (VDict c) worker_images defaults = Ok res ->
  exists regions_v regions its_v its image_name image img,
    dict_get "regions" c = Some regions_v /\
    py_iter regions_v = Ok regions /\
    dict_get "instance_types" c = Some its_v /\
    py_iter its_v = Ok its /\
    dict_get "image" c = Some image_name /\
    worker_images image_name = Ok image /\
    image_id image provider_id None = Ok img /\
    forall lc, In lc (launch_configs_of res) ->
      exists worker_config region zone it l,
        In region regions /\
        In it its /\
        google_launch_config merge img worker_config
          (dict_get_default "implementation" docker_worker c) region zone it
        = Ok l /\
        In lc l.
Proof.
  intros H. apply google_launch_configs_loop in H
    as (regions_v & regions & its_v & its & image_name & image & img
          & google_config & wc & Hregions_v & Hregions & Hits_v & Hits
          & Himage_name & Himage & Himg & _ & Hloop).
  exists regions_v, regions, its_v, its, image_name, image, img.
  repeat (split; [assumption|]).
  intros lc Hlc.
  destruct (@for_each_ok_inv _ _ _ _ _ Hloop _ Hlc)
    as (region & l1 & Hin_region & Hregion & Hl1).
  unfold google_region_launch_configs in Hregion.
  apply bind_ok in Hregion as (zone_rule & _ & Hregion).
  apply bind_ok in Hregion as (zones_v & _ & Hregion).
  apply bind_ok in Hregion as (zones & _ & Hregion).
  destruct (@for_each_ok_inv _ _ _ _ _ Hregion _ Hl1)
    as (zone & l2 & _ & Hzone & Hl2).
  unfold google_zone_launch_configs in Hzone.
  apply bind_ok in Hzone as (its' & Hits' & Hzone).
  rewrite Hits in Hits'. apply Ok_inj in Hits'. subst its'.
  destruct (@for_each_ok_inv _ _ _ _ _ Hzone _ Hl2)
    as (it & l3 & Hit & Hbody & Hl3).
  exists wc, region, zone, it, l3. now repeat split.
Qed.

Lemma google_launch_config_one image_name worker_config implementation region
    zone it l :
  google_launch_config merge image_name worker_config implementation region
    zone it = Ok l ->
  List.length l = 1.
Proof.
  unfold google_launch_config. intros H.
  apply bind_ok in H as (lc1 & _ & H).
  apply bind_ok in H as (lc2 & _ & H).
  apply bind_ok in H as (lc3 & _ & H).
  apply bind_ok in H as ([own lc4] & _ & H).
  apply bind_ok in H as (workerConfig & _ & H).
  apply bind_ok in H as (lc5 & _ & H).
  apply bind_ok in H as (lc6 & _ & H).
  apply bind_ok in H as ([machine_type lc7] & _ & H).
  apply bind_ok in H as (lc8 & _ & H).
  apply bind_ok in H as (lc9 & _ & H).
  apply Ok_inj in H. now subst l.
Qed.

End GoogleRuns.

(** X16. Every launch configuration the Google generator returns is an
    instance type of the pool, edited for one of the pool's regions and a
    zone the environment resolves for that region: it holds that region and
    that zone, [machineType] as [zones/<zone>/machineTypes/<machine_type>],
    and the fixed preemptible scheduling; the keys [machine_type] and
    [worker-config] of the instance type are gone; every key the generator
    does not edit is carried over unchanged. *)
Theorem google_launch_configs_are_edited_instance_types
    (evaluate_keyed_by : value -> string -> dict -> result value)
    (merge : list value -> result value)
    (environment provider_id : value) (pool_id : string) (c : dict)
    (worker_images : WorkerImages) (defaults res lc : value)
    (Hrun : get_google_provider_config evaluate_keyed_by merge environment
              provider_id pool_id (VDict c) worker_images defaults = Ok res)
    (Hlc : In lc (launch_configs_of res)) :
  exists d machine_type regions_v regions region google_config zone_rule
         zones_v zones zone,
    from_instance_types c d /\
    dict_get "machine_type" d = Some machine_type /\
    dict_get "regions" c = Some regions_v /\
    py_iter regions_v = Ok regions /\
    In region regions /\
    py_getattr environment "google_config" = Ok google_config /\
    py_getitem google_config (VStr "zones") = Ok zone_rule /\
    evaluate_keyed_by zone_rule pool_id [("region", region)] = Ok zones_v /\
    py_iter zones_v = Ok zones /\
    In zone zones /\
    holds "region" region lc /\
    holds "zone" zone lc /\
    holds "machineType"
      (VStr ("zones/" ++ py_str zone ++ "/machineTypes/"
             ++ py_str machine_type)) lc /\
    holds "scheduling" preemptible_scheduling lc /\
    lacks "machine_type" lc /\
    lacks "worker-config" lc /\
    (forall k v,
        ~ In k google_edited_keys -> dict_get k d = Some v -> holds k v lc).
Proof.
  apply google_launch_configs_loop in Hrun
    as (regions_v & regions & its_v & its & image_name & image & img
          & google_config & wc & Hregions_v & Hregions & Hits_v & Hits
          & _ & _ & _ & Hgoogle & Hloop).
  destruct (@for_each_ok_inv _ _ _ _ _ Hloop _ Hlc)
    as (region & l1 & Hin_region & Hregion & Hl1).
  unfold google_region_launch_configs in Hregion.
  apply bind_ok in Hregion as (zone_rule & Hzone_rule & Hregion).
  apply bind_ok in Hregion as (zones_v & Hzones_v & Hregion).
  apply bind_ok in Hregion as (zones & Hzones & Hregion).
  destruct (@for_each_ok_inv _ _ _ _ _ Hregion _ Hl1)
    as (zone & l2 & Hin_zone & Hzone & Hl2).
  unfold google_zone_launch_configs in Hzone.
  apply bind_ok in Hzone as (its' & Hits' & Hzone).
  rewrite Hits in Hits'. apply Ok_inj in Hits'. subst its'.
  destruct (@for_each_ok_inv _ _ _ _ _ Hzone _ Hl2)
    as (it & l3 & Hit & Hbody & Hl3).
  destruct (google_launch_config_lookups merge _ _ _ _ _ _ _ _ Hbody Hl3)
    as (d & m & mt & -> & -> & Hmt & Hheld_region & Hheld_zone & HmachineType
          & Hscheduling & Hno_mt & Hno_wc & Hframe & _).
  exists d, mt, regions_v, regions, region, google_config, zone_rule, zones_v,
    zones, zone.
  split; [now exists its_v, its|]. split; [exact Hmt|].
  repeat (split; [assumption|]).
  repeat split; try (eexists; split; [reflexivity|assumption]).
  intros k v Hk Hv. exists m. split; [reflexivity|].
  now rewrite Hframe.
Qed.

Lemma google_launch_configs_are_edited_instance_types_witness :
  let c :=
    Examples.google_pool_config None
      [Examples.google_instance [("labels", VDict [("team", VStr "ci")])]] in
  let lc :=
    first_launch_config
      (Examples.returned
         (Examples.run_google None
            [Examples.google_instance
               [("labels", VDict [("team", VStr "ci")])]])) in
  exists d machine_type regions_v regions region google_config zone_rule
         zones_v zones zone,
    from_instance_types c d /\
    dict_get "machine_type" d = Some machine_type /\
    dict_get "regions" c = Some regions_v /\
    py_iter regions_v = Ok regions /\
    In region regions /\
    py_getattr Examples.environment "google_config" = Ok google_config /\
    py_getitem google_config (VStr "zones") = Ok zone_rule /\
    Util.evaluate_keyed_by zone_rule "pool" [("region", region)] = Ok zones_v /\
    py_iter zones_v = Ok zones /\
    In zone zones /\
    holds "region" region lc /\
    holds "zone" zone lc /\
    holds "machineType"
      (VStr ("zones/" ++ py_str zone ++ "/machineTypes/"
             ++ py_str machine_type)) lc /\
    holds "scheduling" preemptible_scheduling lc /\
    lacks "machine_type" lc /\
    lacks "worker-config" lc /\
    (forall k v,
        ~ In k google_edited_keys -> dict_get k d = Some v -> holds k v lc).
Proof.
  exact (google_launch_configs_are_edited_instance_types
           Util.evaluate_keyed_by Util.merge Examples.environment
           (VStr "google") "pool"
           (Examples.google_pool_config None
              [Examples.google_instance
                 [("labels", VDict [("team", VStr "ci")])]])
           Examples.worker_images Examples.worker_defaults
           (Examples.returned
              (Examples.run_google None
                 [Examples.google_instance
                    [("labels", VDict [("team", VStr "ci")])]]))
           (first_launch_config
              (Examples.returned
                 (Examples.run_google None
                    [Examples.google_instance
                       [("labels", VDict [("team", VStr "ci")])]])))
           eq_refl (or_introl eq_refl)).
Defined.

(** X17. In a Google launch configuration the disks of the instance type are
    kept in order; a disk whose [initializeParams] name the placeholder
    [<image>] as [sourceImage] gets the image id of the pool's image there,
    and every other disk is unchanged. Unless the image id is the
    placeholder itself, no disk of a launch configuration names the
    placeholder. *)
Theorem google_disks_get_the_pool_image
    (evaluate_keyed_by : value -> string -> dict -> result value)
    (merge : list value -> result value)
    (environment provider_id : value) (pool_id : string) (c : dict)
    (worker_images : WorkerImages) (defaults res lc : value)
    (Hrun : get_google_provider_config evaluate_keyed_by merge environment
              provider_id pool_id (VDict c) worker_images defaults = Ok res)
    (Hlc : In lc (launch_configs_of res)) :
  exists d image_name image img,
    from_instance_types c d /\
    dict_get "image" c = Some image_name /\
    worker_images image_name = Ok image /\
    image_id image provider_id None = Ok img /\
    forall ds,
      dict_get "disks" d = Some (VList ds) ->
      exists ds',
        holds "disks" (VList ds') lc /\
        Forall2
          (fun disk disk' =>
             (names_placeholder disk = false -> disk' = disk) /\
             (names_placeholder disk = true ->
              exists dd params,
                disk = VDict dd /\
                dict_get "initializeParams" dd = Some (VDict params) /\
                disk' = VDict (dict_set "initializeParams"
                                 (VDict (dict_set "sourceImage" img params))
                                 dd)))
          ds ds' /\
        (py_eq img (VStr "<image>") = false ->
         forallb (fun disk' => negb (names_placeholder disk')) ds' = true).
Proof.
  apply google_launch_configs_from in Hrun
    as (regions_v & regions & its_v & its & image_name & image & img
          & _ & _ & Hits_v & Hits & Himage_name & Himage & Himg & Hfrom).
  destruct (Hfrom lc Hlc) as (wc & region & zone & it & l & _ & Hit & Hbody
                                & Hl).
  destruct (google_launch_config_lookups merge _ _ _ _ _ _ _ _ Hbody Hl)
    as (d & m & mt & -> & -> & _ & _ & _ & _ & _ & _ & _ & _ & Hdisks).
  exists d, image_name, image, img.
  split; [now exists its_v, its|].
  repeat (split; [assumption|]).
  intros ds Hds. destruct (Hdisks ds Hds) as (ds' & Hds' & Hsubst).
  exists ds'. split; [now exists m|].
  split.
  - clear -Hsubst. induction Hsubst as [|disk disk' ds ds' H _ IH];
      constructor; [|exact IH].
    apply substitute_image_result in H as (Hsame & Hset & _).
    now split.
  - intros Himage_id. clear -Hsubst Himage_id.
    induction Hsubst as [|disk disk' ds ds' H _ IH]; [reflexivity|].
    cbn [forallb]. rewrite IH.
    apply substitute_image_result in H as (_ & _ & Hfree).
    now rewrite (Hfree Himage_id).
Qed.

Lemma google_disks_get_the_pool_image_witness :
  let lc :=
    first_launch_config
      (Examples.returned
         (Examples.run_google None [Examples.google_instance []])) in
  exists ds',
    holds "disks" (VList ds') lc /\
    forallb (fun disk' => negb (names_placeholder disk')) ds' = true.
Proof.
  destruct (google_disks_get_the_pool_image
              Util.evaluate_keyed_by Util.merge Examples.environment
              (VStr "google") "pool"
              (Examples.google_pool_config None [Examples.google_instance []])
              Examples.worker_images Examples.worker_defaults
              (Examples.returned
                 (Examples.run_google None [Examples.google_instance []]))
              (first_launch_config
                 (Examples.returned
                    (Examples.run_google None
                       [Examples.google_instance []])))
              eq_refl (or_introl eq_refl))
    as (d & image_name & image & img
          & (its_v & its & Hits_v & Hits & Hd) & Himage_name & Himage & Himg
          & Hdisks).
  cbn in Hits_v. injection Hits_v as <-.
  cbn in Hits. apply Ok_inj in Hits. subst its.
  destruct Hd as [Hd|[]]. apply VDict_inj in Hd. subst d.
  cbn in Himage_name. injection Himage_name as <-.
  cbn in Himage. apply Ok_inj in Himage. subst image.
  cbn in Himg. apply Ok_inj in Himg. subst img.
  destruct (Hdisks _ eq_refl) as (ds' & Hholds & _ & Hfree).
  exists ds'. split; [exact Hholds|exact (Hfree eq_refl)].
Defined.

(** X18. The Google generator skips nothing: given lists of regions and
    instance types, a run that returns has one launch configuration per
    instance type for every zone the environment resolves for each region. *)
Theorem google_one_launch_config_per_zone_and_instance_type
    (evaluate_keyed_by : value -> string -> dict -> result value)
    (merge : list value -> result value)
    (environment provider_id : value) (pool_id : string) (c : dict)
    (worker_images : WorkerImages) (defaults res : value)
    (regions its : list value)
    (Hrun : get_google_provider_config evaluate_keyed_by merge environment
              provider_id pool_id (VDict c) worker_images defaults = Ok res)
    (Hregions : dict_get "regions" c = Some (VList regions))
    (Hits : dict_get "instance_types" c = Some (VList its)) :
  exists google_config zones,
    py_getattr environment "google_config" = Ok google_config /\
    Forall2
      (fun region zs =>
         exists zone_rule zones_v,
           py_getitem google_config (VStr "zones") = Ok zone_rule /\
           evaluate_keyed_by zone_rule pool_id [("region", region)]
           = Ok zones_v /\
           py_iter zones_v = Ok zs)
      regions zones /\
    List.length (launch_configs_of res)
    = List.length (List.concat zones) * List.length its.
Proof.
  apply google_launch_configs_loop in Hrun
    as (regions_v & regions' & its_v & its' & image_name & image & img
          & google_config & wc & Hregions_v & Hregions' & Hits_v & Hits'
          & _ & _ & _ & Hgoogle & Hloop).
  rewrite Hregions in Hregions_v. injection Hregions_v as <-.
  rewrite Hits in Hits_v. injection Hits_v as <-.
  cbn [py_iter] in Hregions'. apply Ok_inj in Hregions'. subst regions'.
  exists google_config.
  apply for_each_chunks in Hloop as (chunks & Hchunks & ->).
  assert (Hzones :
            exists zones,
              Forall2
                (fun region zs =>
                   exists zone_rule zones_v,
                     py_getitem google_config (VStr "zones") = Ok zone_rule /\
                     evaluate_keyed_by zone_rule pool_id [("region", region)]
                     = Ok zones_v /\
                     py_iter zones_v = Ok zs)
                regions zones /\
              List.length (List.concat chunks)
              = List.length (List.concat zones) * List.length its).
  { clear -Hchunks. induction Hchunks as [|region l regions chunks Hl _ IH].
    - exists []. split; [constructor|reflexivity].
    - destruct IH as (zones & Hzones & Hlen).
      unfold google_region_launch_configs in Hl.
      apply bind_ok in Hl as (zone_rule & Hrule & Hl).
      apply bind_ok in Hl as (zones_v & Hzones_v & Hl).
      apply bind_ok in Hl as (zs & Hzs & Hl).
      apply (for_each_length _ _ _ (List.length its)) in Hl.
      + exists (zs :: zones). split.
        * constructor; [|exact Hzones]. now exists zone_rule, zones_v.
        * cbn [List.concat]. rewrite !length_app, Hl, Hlen. lia.
      + intros zone l' _ Hzone. unfold google_zone_launch_configs in Hzone.
        cbn [py_iter bind] in Hzone.
        apply (for_each_length _ _ _ 1) in Hzone; [lia|].
        intros it l'' _ Hone.
        now apply (google_launch_config_one merge) in Hone. }
  destruct Hzones as (zones & Hzones & Hlen).
  exists zones. now repeat split.
Qed.

Lemma google_one_launch_config_per_zone_and_instance_type_witness :
  exists google_config zones,
    py_getattr Examples.environment "google_config" = Ok google_config /\
    Forall2
      (fun region zs =>
         exists zone_rule zones_v,
           py_getitem google_config (VStr "zones") = Ok zone_rule /\
           Util.evaluate_keyed_by zone_rule "pool" [("region", region)]
           = Ok zones_v /\
           py_iter zones_v = Ok zs)
      [VStr "us-central1"] zones /\
    List.length
      (launch_configs_of
         (Examples.returned
            (Examples.run_google None
               [Examples.google_instance [];
                Examples.google_instance [("capacityPerInstance", VInt 2)]])))
    = List.length (List.concat zones)
      * List.length
          [Examples.google_instance [];
           Examples.google_instance [("capacityPerInstance", VInt 2)]].
Proof.
  exact (google_one_launch_config_per_zone_and_instance_type
           Util.evaluate_keyed_by Util.merge Examples.environment
           (VStr "google") "pool"
           (Examples.google_pool_config None
              [Examples.google_instance [];
               Examples.google_instance [("capacityPerInstance", VInt 2)]])
           Examples.worker_images Examples.worker_defaults
           (Examples.returned
              (Examples.run_google None
                 [Examples.google_instance [];
                  Examples.google_instance
                    [("capacityPerInstance", VInt 2)]]))
           [VStr "us-central1"]
           [Examples.google_instance [];
            Examples.google_instance [("capacityPerInstance", VInt 2)]]
           eq_refl eq_refl eq_refl).
Defined.

(* ================================================================== *)
(** * Further properties: pools without regions or instance types *)
(* ================================================================== *)

(** X19. A pool whose list of regions or of instance types is empty (for
    Azure, of locations or of sizes) gets an empty list of launch
    configurations when its generator returns. *)
Theorem empty_pools_have_no_launch_configs
    (evaluate_keyed_by : value -> string -> dict -> result value)
    (merge : list value -> result value)
    (environment provider_id : value) (pool_id : string) (c : dict)
    (worker_images : WorkerImages) (defaults res : value) :
  (get_aws_provider_config evaluate_keyed_by merge environment provider_id
     pool_id (VDict c) worker_images defaults = Ok res \/
   get_google_provider_config evaluate_keyed_by merge environment provider_id
     pool_id (VDict c) worker_images defaults = Ok res ->
   dict_get "regions" c = Some (VList []) \/
   dict_get "instance_types" c = Some (VList []) ->
   launch_configs_of res = []) /\
  (get_azure_provider_config evaluate_keyed_by merge environment provider_id
     pool_id (VDict c) worker_images defaults = Ok res ->
   dict_get "locations" c = Some (VList []) \/
   dict_get "vmSizes" c = Some (VList []) ->
   launch_configs_of res = []).
Proof.
  split.
  - intros Hrun Hempty.
    assert (Hfrom : exists regions_v regions its_v its,
               dict_get "regions" c = Some regions_v /\
               py_iter regions_v = Ok regions /\
               dict_get "instance_types" c = Some its_v /\
               py_iter its_v = Ok its /\
               forall lc, In lc (launch_configs_of res) ->
                 exists region it : value, In region regions /\ In it its).
    { destruct Hrun as [Hrun|Hrun].
      - apply aws_launch_configs_from in Hrun
          as (regions_v & regions & its_v & its & H1 & H2 & H3 & H4 & Hfrom).
        exists regions_v, regions, its_v, its.
        repeat (split; [assumption|]). intros lc Hlc.
        destruct (Hfrom lc Hlc)
          as (image & aws_config & sgs & subnet_id & wc & region & zone
                & it & l & Hr & Hi & _).
        now exists region, it.
      - apply google_launch_configs_from in Hrun
          as (regions_v & regions & its_v & its & image_name & image & img
                & H1 & H2 & H3 & H4 & _ & _ & _ & Hfrom).
        exists regions_v, regions, its_v, its.
        repeat (split; [assumption|]). intros lc Hlc.
        destruct (Hfrom lc Hlc) as (wc & region & zone & it & l & Hr & Hi & _).
        now exists region, it. }
    destruct Hfrom as (regions_v & regions & its_v & its & H1 & H2 & H3 & H4
                         & Hfrom).
    destruct (launch_configs_of res) as [|lc rest]; [reflexivity|exfalso].
    destruct (Hfrom lc (or_introl eq_refl)) as (region & it & Hr & Hi).
    destruct Hempty as [Hempty|Hempty].
    + rewrite Hempty in H1. injection H1 as <-.
      cbn in H2. apply Ok_inj in H2. now subst regions.
    + rewrite Hempty in H3. injection H3 as <-.
      cbn in H4. apply Ok_inj in H4. now subst its.
  - intros Hrun Hempty.
    apply (azure_launch_configs_from evaluate_keyed_by merge) in Hrun
      as (locations_v & locations & sizes_v & image_rgroup & purpose & image
            & azure_config & wc & Hl & Hiter & Hs & _ & _ & Hloop).
    destruct (launch_configs_of res) as [|lc rest]; [reflexivity|exfalso].
    destruct (@for_each_ok_inv _ _ _ _ _ Hloop lc (or_introl eq_refl))
      as (location & l1 & Hlocation & Hbody & Hl1).
    destruct Hempty as [Hempty|Hempty].
    + rewrite Hempty in Hl. injection Hl as <-.
      cbn in Hiter. apply Ok_inj in Hiter. now subst locations.
    + rewrite Hempty in Hs. injection Hs as <-.
      unfold azure_location_launch_configs in Hbody. cbn in Hbody.
      apply Ok_inj in Hbody. now subst l1.
Qed.

Lemma empty_pools_have_no_launch_configs_witness :
  launch_configs_of (Examples.returned (Examples.run_aws None [])) = [].
Proof.
  apply (proj1 (empty_pools_have_no_launch_configs
                  Util.evaluate_keyed_by Util.merge Examples.environment
                  (VStr "aws") "pool" (Examples.aws_pool_config None [])
                  Examples.worker_images Examples.worker_defaults
                  (Examples.returned (Examples.run_aws None [])))).
  - left. reflexivity.
  - right. reflexivity.
Defined.

(* ================================================================== *)
(** * Further properties: assembling a pool *)
(* ================================================================== *)

Lemma gen_then_assoc {A} (g h k : generated A) :
  gen_then (gen_then g h) k = gen_then g (gen_then h k).
Proof.
  destruct g as [xs [e|]]; [reflexivity|].
  destruct h as [ys [e|]]; [reflexivity|].
  destruct k as [zs stop]. cbn. now rewrite app_assoc.
Qed.

Lemma yield_each_app {A B} (body : A -> result B) xs ys :
  yield_each (xs ++ ys) body
  = gen_then (yield_each xs body) (yield_each ys body).
Proof.
  induction xs as [|x xs IH]; cbn [app yield_each].
  - now destruct (yield_each ys body).
  - destruct (body x) as [y|e]; [|reflexivity].
    now rewrite IH, gen_then_assoc.
Qed.

Lemma yield_each_map {A B C} (f : A -> B) (body : B -> result C) xs :
  yield_each (map f xs) body = yield_each xs (fun x => body (f x)).
Proof.
  induction xs as [|x xs IH]; cbn [map yield_each]; [reflexivity|].
  now rewrite IH.
Qed.

Lemma yield_each_prefix {A B} (body : A -> result B) xs :
  Forall2 (fun x y => body x = Ok y)
    (firstn (List.length (fst (yield_each xs body))) xs)
    (fst (yield_each xs body)) /\
  match snd (yield_each xs body) with
  | None => List.length (fst (yield_each xs body)) = List.length xs
  | Some e =>
      exists x,
        nth_error xs (List.length (fst (yield_each xs body))) = Some x /\
        body x = Raise e
  end.
Proof.
  induction xs as [|x xs [IH1 IH2]]; cbn [yield_each].
  - cbn. split; [constructor|reflexivity].
  - destruct (body x) as [y|e] eqn:Hx.
    + destruct (yield_each xs body) as [ys stop]. cbn in *.
      split; [now constructor|].
      destruct stop as [e|]; [exact IH2|now f_equal].
    + cbn. split; [constructor|]. now exists x.
Qed.

Lemma yield_each_stops {A B} (body : A -> result B) before x after outs e :
  Forall2 (fun x y => body x = Ok y) before outs ->
  body x = Raise e ->
  yield_each (before ++ x :: after) body = (outs, Some e).
Proof.
  intros Hbefore Hx.
  induction Hbefore as [|x0 y before outs Hy _ IH]; cbn [app yield_each].
  - now rewrite Hx.
  - now rewrite Hy, IH.
Qed.

Lemma yield_each_all {A B} (body : A -> result B) xs ys :
  Forall2 (fun x y => body x = Ok y) xs ys ->
  yield_each xs body = (ys, None).
Proof.
  intros H. induction H as [|x y xs ys Hy _ IH]; cbn [yield_each];
    [reflexivity|].
  now rewrite Hy, IH.
Qed.

Section Run.
Variable evaluate_keyed_by : value -> string -> dict -> result value.
Variable merge : list value -> result value.

Local Abbreviation expand_variant := (expand_variant evaluate_keyed_by).
Local Abbreviation generate_pool_variants :=
  (generate_pool_variants evaluate_keyed_by).
(** The generator visits the (definition, variant) pairs in order. *)
Lemma generate_pool_variants_pairs worker_pools environment :
  generate_pool_variants worker_pools environment
  = yield_each (pairs worker_pools)
      (fun p => expand_variant environment (fst p) (snd p)).
Proof.
  unfold WorkerPools.generate_pool_variants, pairs.
  induction worker_pools as [|wp wps IH]; cbn [yield_from_each flat_map];
    [reflexivity|].
  now rewrite yield_each_app, yield_each_map, IH.
Qed.

End Run.

(** X22. A provider of the worker manager whose implementation is none of
    [aws], [google] and [azure] makes [make_worker_pool] raise [KeyError]
    for that implementation name. *)
Theorem make_worker_pool_needs_a_known_implementation
    (evaluate_keyed_by : value -> string -> dict -> result value)
    (merge : list value -> result value)
    (tcadmin : Tcadmin.Library)
    (environment : value) (resources : Tcadmin.Resources tcadmin)
    (wp : ConfigWorkerPool) (worker_images : WorkerImages)
    (worker_defaults worker_manager providers provider : value)
    (name : string)
    (Hmanager : py_getattr environment "worker_manager" = Ok worker_manager)
    (Hproviders : py_getitem worker_manager (VStr "providers") = Ok providers)
    (Hknown : py_in (provider_id wp) providers = Ok true)
    (Hprovider : py_getitem providers (provider_id wp) = Ok provider)
    (Himplementation :
       py_getitem provider (VStr "implementation") = Ok (VStr name))
    (Hname : In name ["aws"; "google"; "azure"] -> False) :
  make_worker_pool evaluate_keyed_by merge tcadmin environment resources wp
    worker_images worker_defaults = Raise (KeyError name).
Proof.
  unfold make_worker_pool. rewrite Hmanager. cbn [bind].
  rewrite Hproviders. cbn [bind]. rewrite Hknown. cbn [bind].
  rewrite Hprovider. cbn [bind]. rewrite Himplementation. cbn [bind].
  assert (Hnone : PROVIDER_IMPLEMENTATIONS evaluate_keyed_by merge
                    (VStr name) = Raise (KeyError name)).
  { unfold PROVIDER_IMPLEMENTATIONS.
    destruct (String.eqb_spec name "aws") as [->|Haws];
      [exfalso; apply Hname; cbn; tauto|].
    destruct (String.eqb_spec name "google") as [->|Hgoogle];
      [exfalso; apply Hname; cbn; tauto|].
    destruct (String.eqb_spec name "azure") as [->|Hazure];
      [exfalso; apply Hname; cbn; tauto|].
    clear Hname Himplementation.
    repeat (let c := fresh "c" in
            destruct name as [|c name];
            [try reflexivity
            |destruct c as [[|] [|] [|] [|] [|] [|] [|] [|]];
             try reflexivity]);
    congruence. }
  now rewrite Hnone.
Qed.

Lemma make_worker_pool_needs_a_known_implementation_witness :
  make_worker_pool Util.evaluate_keyed_by Util.merge Examples.recorder
    Examples.static_environment [] Examples.letter_pool Examples.worker_images
    Examples.worker_defaults = Raise (KeyError "static").
Proof.
  eapply (make_worker_pool_needs_a_known_implementation
            Util.evaluate_keyed_by Util.merge Examples.recorder
            Examples.static_environment [] Examples.letter_pool
            Examples.worker_images Examples.worker_defaults);
    try reflexivity.
  cbn. intros [H|[H|[H|[]]]]; discriminate H.
Defined.

(* ================================================================== *)
(** * Further properties: expanding variants *)
(* ================================================================== *)

(** X23. Whatever the definitions, [generate_pool_variants] yields the
    expansions of the (definition, variant) pairs in order up to the first
    pair whose expansion raises, and ends with that exception; when none
    raises it yields one expansion per pair. Everything it yields has the
    single empty variant. *)
Theorem generate_pool_variants_yields_a_prefix
    (evaluate_keyed_by : value -> string -> dict -> result value)
    (worker_pools : list ConfigWorkerPool) (environment : value) :
  let yielded :=
    fst (generate_pool_variants evaluate_keyed_by worker_pools environment) in
  let stop :=
    snd (generate_pool_variants evaluate_keyed_by worker_pools environment) in
  Forall2 (fun p wp' =>
             expand_variant evaluate_keyed_by environment (fst p) (snd p)
             = Ok wp')
    (firstn (List.length yielded) (pairs worker_pools)) yielded /\
  Forall (fun wp' => variants wp' = [VDict []]) yielded /\
  match stop with
  | None => List.length yielded = List.length (pairs worker_pools)
  | Some e =>
      exists p,
        nth_error (pairs worker_pools) (List.length yielded) = Some p /\
        expand_variant evaluate_keyed_by environment (fst p) (snd p) = Raise e
  end.
Proof.
  cbv zeta. rewrite generate_pool_variants_pairs.
  destruct (yield_each_prefix
              (fun p => expand_variant evaluate_keyed_by environment
                          (fst p) (snd p))
              (pairs worker_pools)) as [Hprefix Hstop].
  split; [exact Hprefix|]. split; [|exact Hstop].
  revert Hprefix.
  generalize (firstn
                (List.length
                   (fst (yield_each (pairs worker_pools)
                           (fun p => expand_variant evaluate_keyed_by
                                       environment (fst p) (snd p)))))
                (pairs worker_pools)).
  generalize (fst (yield_each (pairs worker_pools)
                     (fun p => expand_variant evaluate_keyed_by environment
                                 (fst p) (snd p)))).
  intros outs ps H. induction H as [|p wp' ps outs Hp _ IH]; constructor.
  - apply (expand_variant_ok evaluate_keyed_by) in Hp.
    destruct Hp as (v & a & _ & _ & _ & _ & _ & _ & Hv & _). exact Hv.
  - exact IH.
Qed.

Lemma string_append_empty_r (s : string) : s ++ "" = s.
Proof. induction s as [|c s IH]; cbn; [reflexivity|now rewrite IH]. Qed.

Lemma string_append_assoc (s t u : string) : (s ++ t) ++ u = s ++ t ++ u.
Proof. induction s as [|c s IH]; cbn; [reflexivity|now rewrite IH]. Qed.

Lemma format_from_text c rest kwargs :
  c <> "{"%char -> c <> "}"%char ->
  format_from (String c rest) None kwargs
  = (out <- format_from rest None kwargs ;; Ok (String c out)).
Proof.
  intros Hopen Hclose.
  destruct c as [[|] [|] [|] [|] [|] [|] [|] [|]];
    try reflexivity; congruence.
Qed.

Lemma format_from_field_char c rest name kwargs :
  c <> "}"%char ->
  format_from (String c rest) (Some name) kwargs
  = format_from rest (Some (name ++ String c "")) kwargs.
Proof.
  intros Hclose.
  destruct c as [[|] [|] [|] [|] [|] [|] [|] [|]];
    try reflexivity; congruence.
Qed.

Lemma no_char_cons c c' s :
  contains_char c (String c' s) = false ->
  c' <> c /\ contains_char c s = false.
Proof.
  cbn [contains_char]. intros H. apply orb_false_iff in H as [Hc Hs].
  split; [now apply Ascii.eqb_neq|exact Hs].
Qed.

(** Text without braces is copied. *)
Lemma format_from_plain text rest kwargs :
  contains_char "{" text = false ->
  contains_char "}" text = false ->
  format_from (text ++ rest) None kwargs
  = (out <- format_from rest None kwargs ;; Ok (text ++ out)).
Proof.
  induction text as [|c text IH]; intros Hopen Hclose.
  - cbn [append]. now destruct (format_from rest None kwargs).
  - apply no_char_cons in Hopen as [Hc1 Hopen].
    apply no_char_cons in Hclose as [Hc2 Hclose].
    cbn [append]. rewrite (format_from_text _ _ _ Hc1 Hc2), (IH Hopen Hclose).
    now destruct (format_from rest None kwargs).
Qed.

(** A replacement field is read up to its closing brace. *)
Lemma format_from_field name rest read kwargs :
  contains_char "}" name = false ->
  format_from (name ++ String "}" rest) (Some read) kwargs
  = (text <- format_field (read ++ name) kwargs ;;
     out <- format_from rest None kwargs ;;
     Ok (text ++ out)).
Proof.
  revert read. induction name as [|c name IH]; intros read Hclose.
  - cbn [append]. rewrite string_append_empty_r. reflexivity.
  - apply no_char_cons in Hclose as [Hc Hclose].
    cbn [append]. rewrite (format_from_field_char _ _ _ _ Hc), (IH _ Hclose).
    now rewrite string_append_assoc.
Qed.

Lemma format_from_end kwargs : format_from "" None kwargs = Ok "".
Proof. reflexivity. Qed.

(** A template with one replacement field. *)
Lemma py_format_one_field before name after kwargs :
  contains_char "{" before = false ->
  contains_char "}" before = false ->
  contains_char "}" name = false ->
  plain_field name = true ->
  all_digits name = false ->
  contains_char "{" after = false ->
  contains_char "}" after = false ->
  py_format (before ++ "{" ++ name ++ "}" ++ after) (VDict kwargs)
  = match dict_get name kwargs with
    | Some x => Ok (before ++ py_str x ++ after)
    | None => Raise (KeyError name)
    end.
Proof.
  intros Hb1 Hb2 Hn Hplain Hdigits Ha1 Ha2. unfold py_format.
  rewrite (format_from_plain _ _ _ Hb1 Hb2).
  change ("{" ++ name ++ "}" ++ after)
    with (String "{" (name ++ String "}" after)).
  assert (Hfield : format_from (String "{" (name ++ String "}" after)) None
                     kwargs
                   = format_from (name ++ String "}" after) (Some "") kwargs).
  { destruct name as [|c name]; [reflexivity|].
    apply no_char_cons in Hn as [_ _].
    unfold plain_field in Hplain. apply negb_true_iff in Hplain.
    repeat (apply orb_false_iff in Hplain as [Hplain ?]).
    match goal with
    | H : contains_char "{" (String c name) = false |- _ =>
        apply no_char_cons in H as [Hc _]
    end.
    cbn [append].
    destruct c as [[|] [|] [|] [|] [|] [|] [|] [|]];
      try reflexivity; congruence. }
  rewrite Hfield, (format_from_field _ _ _ _ Hn). cbn [append].
  unfold format_field. rewrite Hplain, Hdigits. cbn [negb].
  destruct (dict_get name kwargs) as [x|]; [|reflexivity].
  cbn [bind].
  rewrite <- (string_append_empty_r after) at 1.
  rewrite (format_from_plain _ _ _ Ha1 Ha2), format_from_end. cbn [bind].
  now rewrite string_append_empty_r.
Qed.

Lemma py_format_no_field template kwargs :
  contains_char "{" template = false ->
  contains_char "}" template = false ->
  py_format template (VDict kwargs) = Ok template.
Proof.
  intros H1 H2. unfold py_format.
  rewrite <- (string_append_empty_r template) at 1.
  rewrite (format_from_plain _ _ _ H1 H2), format_from_end. cbn [bind].
  now rewrite string_append_empty_r.
Qed.

(** X24. For a pool-id template with one replacement field [{name}] between
    two texts without braces: a variant that lacks the attribute [name]
    makes the expansion raise [KeyError] for it, and a variant that has it
    gives the expanded definition the pool id made of the text before, the
    attribute's value as a string, and the text after. *)
Theorem pool_id_template_names_a_variant_attribute
    (evaluate_keyed_by : value -> string -> dict -> result value)
    (environment : value) (wp : ConfigWorkerPool) (variant : dict)
    (before name after : string)
    (Htemplate : pool_id wp = before ++ "{" ++ name ++ "}" ++ after)
    (Hbefore_open : contains_char "{" before = false)
    (Hbefore_close : contains_char "}" before = false)
    (Hname_close : contains_char "}" name = false)
    (Hname_plain : plain_field name = true)
    (Hname_digits : all_digits name = false)
    (Hafter_open : contains_char "{" after = false)
    (Hafter_close : contains_char "}" after = false) :
  (dict_get name variant = None ->
   expand_variant evaluate_keyed_by environment wp (VDict variant)
   = Raise (KeyError name)) /\
  (forall x wp',
      dict_get name variant = Some x ->
      expand_variant evaluate_keyed_by environment wp (VDict variant) = Ok wp' ->
      pool_id wp' = before ++ py_str x ++ after).
Proof.
  pose proof (py_format_one_field before name after variant Hbefore_open
                Hbefore_close Hname_close Hname_plain Hname_digits
                Hafter_open Hafter_close) as Hformat.
  rewrite <- Htemplate in Hformat. split.
  - intros Hnone. unfold expand_variant. rewrite Hformat, Hnone. reflexivity.
  - intros x wp' Hsome H. unfold expand_variant in H.
    rewrite Hformat, Hsome in H. cbn [bind] in H.
    apply bind_ok in H as (attributes & _ & H).
    apply bind_ok in H as (provider & _ & H).
    apply bind_ok in H as (config' & _ & H).
    apply Ok_inj in H. now subst wp'.
Qed.

Lemma pool_id_template_names_a_variant_attribute_witness :
  expand_variant Util.evaluate_keyed_by Examples.environment
    Examples.letter_pool (VDict [("size", VStr "large")])
  = Raise (KeyError "letter") /\
  (forall x wp',
      dict_get "letter" [("size", VStr "large")] = Some x ->
      expand_variant Util.evaluate_keyed_by Examples.environment
        Examples.letter_pool (VDict [("size", VStr "large")]) = Ok wp' ->
      pool_id wp' = "pool-" ++ py_str x ++ "").
Proof.
  destruct (pool_id_template_names_a_variant_attribute
              Util.evaluate_keyed_by Examples.environment
              Examples.letter_pool [("size", VStr "large")]
              "pool-" "letter" ""
              eq_refl eq_refl eq_refl eq_refl eq_refl eq_refl eq_refl eq_refl)
    as [Hnone Hsome].
  split; [exact (Hnone eq_refl)|exact Hsome].
Defined.

Lemma in_firstn {A} (x : A) n l : In x (firstn n l) -> In x l.
Proof.
  revert l. induction n as [|n IH]; intros [|y l]; cbn; try tauto.
  intros [->|H]; [now left|right; now apply IH].
Qed.

(** X25. A definition whose pool id has no braces keeps its pool id in every
    expansion: all the definitions it yields, one per variant, have the same
    pool id. *)
Theorem pool_ids_without_fields_are_shared
    (evaluate_keyed_by : value -> string -> dict -> result value)
    (wp : ConfigWorkerPool) (environment : value)
    (Hopen : contains_char "{" (pool_id wp) = false)
    (Hclose : contains_char "}" (pool_id wp) = false) :
  (forall variant wp',
      expand_variant evaluate_keyed_by environment wp variant = Ok wp' ->
      pool_id wp' = pool_id wp) /\
  Forall (fun wp' => pool_id wp' = pool_id wp)
    (fst (generate_pool_variants evaluate_keyed_by [wp] environment)).
Proof.
  assert (Hone : forall variant wp',
             expand_variant evaluate_keyed_by environment wp variant = Ok wp' ->
             pool_id wp' = pool_id wp).
  { intros variant wp' H. unfold expand_variant in H.
    apply bind_ok in H as (name & Hname & H).
    apply bind_ok in H as (attributes & Hattributes & H).
    apply bind_ok in H as (provider & _ & H).
    apply bind_ok in H as (config' & _ & H).
    apply Ok_inj in H. subst wp'. cbn [pool_id].
    destruct variant as [| | | | |v|]; try discriminate.
    rewrite (py_format_no_field _ _ Hopen Hclose) in Hname.
    now apply Ok_inj in Hname. }
  split; [exact Hone|].
  rewrite generate_pool_variants_pairs.
  destruct (yield_each_prefix
              (fun p => expand_variant evaluate_keyed_by environment
                          (fst p) (snd p))
              (pairs [wp])) as [Hprefix _].
  revert Hprefix.
  generalize (fst (yield_each (pairs [wp])
                     (fun p => expand_variant evaluate_keyed_by environment
                                 (fst p) (snd p)))).
  intros outs Hprefix.
  assert (Hsource : Forall (fun p => fst p = wp)
                      (firstn (List.length outs) (pairs [wp]))).
  { apply Forall_forall. intros p Hp. apply in_firstn in Hp.
    unfold pairs in Hp. cbn [flat_map] in Hp. rewrite app_nil_r in Hp.
    apply in_map_iff in Hp as (v & <- & _). reflexivity. }
  revert Hsource.
  induction Hprefix as [|p wp' ps outs Hp _ IH]; intros Hsource;
    constructor.
  - apply Forall_inv in Hsource. rewrite Hsource in Hp. now apply Hone in Hp.
  - apply IH. now apply Forall_inv_tail in Hsource.
Qed.

Lemma pool_ids_without_fields_are_shared_witness :
  Forall (fun wp' => pool_id wp' = "pool")
    (fst (generate_pool_variants Util.evaluate_keyed_by [Examples.twin_pool]
            Examples.environment)) /\
  List.length
    (fst (generate_pool_variants Util.evaluate_keyed_by [Examples.twin_pool]
            Examples.environment)) = 2.
Proof.
  split; [|reflexivity].
  exact (proj2 (pool_ids_without_fields_are_shared Util.evaluate_keyed_by
                  Examples.twin_pool Examples.environment eq_refl eq_refl)).
Defined.

Lemma dict_set_same k v (d : dict) :
  dict_get k d = Some v -> dict_set k v d = d.
Proof.
  induction d as [|[k' v'] d IH]; cbn; [discriminate|].
  destruct (String.eqb_spec k k') as [->|Hk].
  - now intros [= ->].
  - intros H. f_equal. now apply IH.
Qed.

Section Fields.
Variable evaluate_keyed_by : value -> string -> dict -> result value.

(** Fields that resolve to themselves leave the configuration as it is. *)
Lemma update_keys_literal name attributes keys c :
  (forall k field,
      In k keys -> dict_get k c = Some field ->
      evaluate_keyed_by field name attributes = Ok field /\
      is_None field = false) ->
  update_keys evaluate_keyed_by keys name attributes (VDict c) = Ok (VDict c).
Proof.
  induction keys as [|k keys IH]; intros H; [reflexivity|].
  cbn [update_keys]. rewrite update_key_dict.
  destruct (dict_get k c) as [field|] eqn:Hk; cbn [bind].
  - destruct (H k field (or_introl eq_refl) Hk) as [Hfield Hnone].
    rewrite Hfield. cbn [bind]. rewrite Hnone, (dict_set_same _ _ _ Hk).
    apply IH. intros k' f Hk'. apply H. now right.
  - apply IH. intros k' f Hk'. apply H. now right.
Qed.

(** The first field that fails to resolve ends the loop. *)
Lemma update_keys_first_failure name attributes before k after field e :
  NoDup (before ++ k :: after) ->
  forall c,
    (forall k' f,
        In k' before -> dict_get k' c = Some f ->
        is_ok (evaluate_keyed_by f name attributes) = true) ->
    dict_get k c = Some field ->
    evaluate_keyed_by field name attributes = Raise e ->
    update_keys evaluate_keyed_by (before ++ k :: after) name attributes
      (VDict c) = Raise e.
Proof.
  induction before as [|k0 before IH]; intros Hnodup c Hbefore Hk Hraise.
  - cbn [app update_keys]. rewrite update_key_dict, Hk. cbn [bind].
    now rewrite Hraise.
  - cbn [app] in Hnodup. apply NoDup_cons_iff in Hnodup as [Hk0 Hnodup].
    cbn [app update_keys]. rewrite update_key_dict.
    assert (Hne : k <> k0).
    { intros ->. apply Hk0. apply in_or_app. right. now left. }
    assert (Hne' : forall k', In k' before -> k' <> k0).
    { intros k' Hk' ->. apply Hk0. apply in_or_app. now left. }
    destruct (dict_get k0 c) as [f0|] eqn:Hf0; cbn [bind].
    + pose proof (Hbefore k0 f0 (or_introl eq_refl) Hf0) as Hok.
      destruct (evaluate_keyed_by f0 name attributes) as [r|e0];
        [|discriminate].
      cbn [bind]. apply IH; [exact Hnodup| | |exact Hraise].
      * intros k' f Hk' Hf. apply (Hbefore k' f); [now right|].
        destruct (is_None r).
        -- now rewrite dict_get_del_other in Hf by (now apply Hne').
        -- now rewrite GoogleFacts.dict_get_set_other in Hf
             by (now apply Hne').
      * destruct (is_None r).
        -- now rewrite dict_get_del_other.
        -- now rewrite GoogleFacts.dict_get_set_other.
    + apply IH; [exact Hnodup| |exact Hk|exact Hraise].
      intros k' f Hk'. apply Hbefore. now right.
Qed.

End Fields.

(** X26. An expansion whose pool id formats ends with the exception of the
    first resolution that fails: that of the provider if it fails, and
    otherwise that of the first of [image], [maxCapacity], [minCapacity] and
    [security], in this order, that the configuration has and that does not
    resolve. *)
Theorem unresolved_field_ends_the_expansion
    (evaluate_keyed_by : value -> string -> dict -> result value)
    (environment : value) (wp : ConfigWorkerPool) (variant c : dict)
    (name : string)
    (Hname : py_format (pool_id wp) (VDict variant) = Ok name)
    (Hconfig : config wp = VDict c) :
  let attributes := dict_update [("environment", environment)] variant in
  (forall e,
      evaluate_keyed_by (provider_id wp) name attributes = Raise e ->
      expand_variant evaluate_keyed_by environment wp (VDict variant)
      = Raise e) /\
  (forall before k after field e,
      is_ok (evaluate_keyed_by (provider_id wp) name attributes) = true ->
      variant_keys = (before ++ k :: after)%list ->
      (forall k' f,
          In k' before -> dict_get k' c = Some f ->
          is_ok (evaluate_keyed_by f name attributes) = true) ->
      dict_get k c = Some field ->
      evaluate_keyed_by field name attributes = Raise e ->
      expand_variant evaluate_keyed_by environment wp (VDict variant)
      = Raise e).
Proof.
  intros attributes. unfold expand_variant. rewrite Hname. cbn [bind].
  cbn [variant_attributes bind]. fold attributes. split.
  - intros e He. now rewrite He.
  - intros before k after field e Hprovider Hkeys Hbefore Hfield Hraise.
    destruct (evaluate_keyed_by (provider_id wp) name attributes)
      as [provider|e0]; [|discriminate].
    cbn [bind]. rewrite Hconfig. unfold update_config. rewrite Hkeys.
    rewrite (update_keys_first_failure evaluate_keyed_by name attributes
               before k after field e); [reflexivity| |exact Hbefore
                                        |exact Hfield|exact Hraise].
    rewrite <- Hkeys. exact variant_keys_NoDup.
Qed.

Lemma unresolved_field_ends_the_expansion_witness :
  expand_variant Util.evaluate_keyed_by Examples.environment Examples.strict_pool
    (VDict [("letter", VStr "b")])
  = Raise (ResolutionError "pool-b").
Proof.
  refine (proj2 (unresolved_field_ends_the_expansion
                   Util.evaluate_keyed_by Examples.environment Examples.strict_pool
                   [("letter", VStr "b")]
                   [("maxCapacity", VInt 2);
                    ("image",
                      VDict [("by-letter", VDict [("a", VStr "image-a")])])]
                   "pool-b" eq_refl eq_refl)
            [] "image" ["maxCapacity"; "minCapacity"; "security"]
            (VDict [("by-letter", VDict [("a", VStr "image-a")])])
            (ResolutionError "pool-b") eq_refl eq_refl _ eq_refl eq_refl).
  intros k' f [].
Defined.

(** X27. Expanding an expanded definition changes nothing: a definition with
    the single empty variant, a pool id without braces, a provider that
    resolves to itself and variant fields that resolve to themselves is
    yielded by [generate_pool_variants] as it is. *)
Theorem literal_definitions_expand_to_themselves
    (evaluate_keyed_by : value -> string -> dict -> result value)
    (environment : value) (wp : ConfigWorkerPool) (c : dict)
    (Hopen : contains_char "{" (pool_id wp) = false)
    (Hclose : contains_char "}" (pool_id wp) = false)
    (Hconfig : config wp = VDict c)
    (Hvariants : variants wp = [VDict []])
    (Hprovider : evaluate_keyed_by (provider_id wp) (pool_id wp)
                   [("environment", environment)] = Ok (provider_id wp))
    (Hfields : forall k field,
        In k variant_keys -> dict_get k c = Some field ->
        evaluate_keyed_by field (pool_id wp) [("environment", environment)]
        = Ok field /\
        is_None field = false) :
  generate_pool_variants evaluate_keyed_by [wp] environment = ([wp], None).
Proof.
  unfold generate_pool_variants. cbn [yield_from_each].
  rewrite Hvariants. cbn [yield_each].
  assert (Hself : expand_variant evaluate_keyed_by environment wp (VDict [])
                  = Ok wp).
  { unfold expand_variant.
    rewrite (py_format_no_field _ _ Hopen Hclose). cbn [bind].
    cbn [variant_attributes bind].
    change (dict_update [("environment", environment)] [])
      with [("environment", environment)].
    rewrite Hprovider. cbn [bind]. rewrite Hconfig. unfold update_config.
    rewrite (update_keys_literal evaluate_keyed_by _ _ _ _ Hfields).
    cbn [bind]. rewrite <- Hconfig, <- Hvariants. now destruct wp. }
  rewrite Hself. reflexivity.
Qed.

Lemma literal_definitions_expand_to_themselves_witness :
  generate_pool_variants Util.evaluate_keyed_by [Examples.expanded_pool]
    Examples.environment = ([Examples.expanded_pool], None).
Proof.
  apply (literal_definitions_expand_to_themselves
           Util.evaluate_keyed_by Examples.environment Examples.expanded_pool
           [("image", VStr "image-a"); ("maxCapacity", VInt 2);
            ("note", VStr "kept")]);
    try reflexivity.
  intros k field Hk. cbn in Hk.
  repeat (destruct Hk as [<-|Hk];
          [cbn; intros H; try discriminate H; injection H as <-;
           split; reflexivity|]).
  destruct Hk.
Defined.

(* ================================================================== *)
(** * Further properties: the run *)
(* ================================================================== *)

(** X28. When the four fetches return, [worker-pools.yml] is a mapping, every
    (definition, variant) pair expands and every expanded definition is
    assembled, [update_resources] asks the collection to manage
    [WorkerPool=.*] and then to add the resources, one per pair and in the
    order of the pairs, and does nothing else to it, whatever the resource
    library: it returns when the collection accepts every call and
    otherwise ends at the first call the collection raises on, with that
    exception.  Each resource is what the library's constructor made of the
    pool id, description, owner, provider and e-mail flag of the expanded
    definition and a configuration: what the generator of the provider's
    implementation returned for the definition's configuration, or the
    definition's configuration itself for a provider the worker manager
    does not have. *)
Theorem update_resources_adds_every_expanded_pool
    (evaluate_keyed_by : value -> string -> dict -> result value)
    (merge : list value -> result value)
    (tcadmin : Tcadmin.Library)
    (worker_pools : list ConfigWorkerPool) (worker_images : WorkerImages)
    (ciconfig_file environment worker_defaults : value)
    (outs : list ConfigWorkerPool) (made : list (Tcadmin.Resource tcadmin))
    (rs : Tcadmin.Resources tcadmin)
    (Hdefaults : py_get ciconfig_file "worker-defaults" VNone
                 = Ok worker_defaults)
    (Hexpand : Forall2
                 (fun p wp' =>
                    expand_variant evaluate_keyed_by environment (fst p)
                      (snd p) = Ok wp')
                 (pairs worker_pools) outs)
    (Hmade : Forall2
               (fun wp' r =>
                  make_worker_pool evaluate_keyed_by merge tcadmin environment
                    rs wp' worker_images worker_defaults = Ok r)
               outs made) :
  update_resources evaluate_keyed_by merge tcadmin (Ok worker_pools)
    (Ok worker_images) (Ok ciconfig_file) (Ok environment) rs
  = run_calls (Manage "WorkerPool=.*" :: adds tcadmin made) rs /\
  Forall2
    (assembled evaluate_keyed_by merge tcadmin environment worker_images
       worker_defaults)
    outs made /\
  List.length made = List.length (pairs worker_pools).
Proof.
  assert (Hgen : generate_pool_variants evaluate_keyed_by worker_pools
                   environment = (outs, None)).
  { rewrite generate_pool_variants_pairs.
    now apply (yield_each_all
                 (fun p => expand_variant evaluate_keyed_by environment
                             (fst p) (snd p))). }
  split.
  - rewrite (@update_resources_run evaluate_keyed_by merge tcadmin
               worker_pools worker_images ciconfig_file environment
               worker_defaults outs None made rs Hdefaults Hgen Hmade).
    unfold and_then.
    now destruct (run_calls (Manage "WorkerPool=.*" :: adds tcadmin made) rs)
      as [rs' [[]|e]].
  - split.
    + eapply Forall2_impl; [|exact Hmade].
      intros wp' r Hr. cbv beta in Hr.
      now apply make_worker_pool_ok_inv in Hr.
    + rewrite <- (Forall2_length Hmade). symmetry.
      exact (Forall2_length Hexpand).
Qed.

Lemma update_resources_adds_every_expanded_pool_witness :
  (exists r1 r2,
      update_resources Util.evaluate_keyed_by Util.merge Examples.recorder
        (Ok [Examples.letter_pool]) (Ok Examples.worker_images)
        (Ok Examples.worker_pools_yml) (Ok Examples.environment) []
      = ([Examples.Managed "WorkerPool=.*"; Examples.Added r1;
          Examples.Added r2], Ok tt) /\
      Examples.workerPoolId r1 = "pool-a" /\
      Examples.workerPoolId r2 = "pool-b") /\
  update_resources Util.evaluate_keyed_by Util.merge
    Examples.refusing_duplicates
    (Ok [Examples.twin_pool]) (Ok Examples.worker_images)
    (Ok Examples.worker_pools_yml) (Ok Examples.environment) []
  = (["pool"], Raise (RuntimeError "duplicate resource pool")).
Proof.
  assert (H : forall tcadmin (rs : Tcadmin.Resources tcadmin) pool outs made,
            Forall2
              (fun p wp' =>
                 expand_variant Util.evaluate_keyed_by Examples.environment
                   (fst p) (snd p) = Ok wp')
              (pairs [pool]) outs ->
            Forall2
              (fun wp' r =>
                 make_worker_pool Util.evaluate_keyed_by Util.merge tcadmin
                   Examples.environment rs wp' Examples.worker_images
                   Examples.worker_defaults = Ok r)
              outs made ->
            update_resources Util.evaluate_keyed_by Util.merge tcadmin
              (Ok [pool]) (Ok Examples.worker_images)
              (Ok Examples.worker_pools_yml) (Ok Examples.environment) rs
            = run_calls (Manage "WorkerPool=.*" :: adds tcadmin made) rs).
  { intros tcadmin rs pool outs made Hexpand Hmade.
    exact (proj1 (update_resources_adds_every_expanded_pool
                    Util.evaluate_keyed_by Util.merge tcadmin [pool]
                    Examples.worker_images Examples.worker_pools_yml
                    Examples.environment Examples.worker_defaults outs made
                    rs eq_refl Hexpand Hmade)). }
  split.
  - do 2 eexists. split; [|split].
    + eapply eq_trans;
        [eapply (H Examples.recorder [] Examples.letter_pool);
         [constructor; [reflexivity|constructor; [reflexivity|constructor]]
         |constructor; [reflexivity|constructor; [reflexivity|constructor]]]
        |reflexivity].
    + reflexivity.
    + reflexivity.
  - eapply eq_trans;
      [eapply (H Examples.refusing_duplicates [] Examples.twin_pool);
       [constructor; [reflexivity|constructor; [reflexivity|constructor]]
       |constructor; [reflexivity|constructor; [reflexivity|constructor]]]
      |reflexivity].
Defined.

(** X29. When the four fetches return, the expansion of a (definition,
    variant) pair raises and the pairs before it expand and are assembled,
    the generator ends with that exception after yielding them, and
    [update_resources] has asked the collection to manage [WorkerPool=.*]
    and to add their resources before it ends: the generator is consumed
    lazily.  The run ends with the exception of the expansion, unless the
    collection raised on one of these calls, which ended the run at that
    call. *)
Theorem expansion_error_ends_the_run
    (evaluate_keyed_by : value -> string -> dict -> result value)
    (merge : list value -> result value)
    (tcadmin : Tcadmin.Library)
    (worker_pools : list ConfigWorkerPool) (worker_images : WorkerImages)
    (ciconfig_file environment worker_defaults : value)
    (before after : list (ConfigWorkerPool * value))
    (p : ConfigWorkerPool * value)
    (outs : list ConfigWorkerPool) (made : list (Tcadmin.Resource tcadmin))
    (e : exn) (rs : Tcadmin.Resources tcadmin)
    (Hdefaults : py_get ciconfig_file "worker-defaults" VNone
                 = Ok worker_defaults)
    (Hpairs : pairs worker_pools = (before ++ p :: after)%list)
    (Hbefore : Forall2
                 (fun q wp' =>
                    expand_variant evaluate_keyed_by environment (fst q)
                      (snd q) = Ok wp')
                 before outs)
    (Hraise : expand_variant evaluate_keyed_by environment (fst p) (snd p)
              = Raise e)
    (Hmade : Forall2
               (fun wp' r =>
                  make_worker_pool evaluate_keyed_by merge tcadmin environment
                    rs wp' worker_images worker_defaults = Ok r)
               outs made) :
  generate_pool_variants evaluate_keyed_by worker_pools environment
  = (outs, Some e) /\
  update_resources evaluate_keyed_by merge tcadmin (Ok worker_pools)
    (Ok worker_images) (Ok ciconfig_file) (Ok environment) rs
  = and_then (run_calls (Manage "WorkerPool=.*" :: adds tcadmin made) rs)
      (Raise e).
Proof.
  assert (Hgen : generate_pool_variants evaluate_keyed_by worker_pools
                   environment = (outs, Some e)).
  { rewrite generate_pool_variants_pairs, Hpairs.
    now apply (yield_each_stops
                 (fun q => expand_variant evaluate_keyed_by environment
                             (fst q) (snd q))). }
  split; [exact Hgen|].
  exact (@update_resources_run evaluate_keyed_by merge tcadmin worker_pools
           worker_images ciconfig_file environment worker_defaults outs
           (Some e) made rs Hdefaults Hgen Hmade).
Qed.

Lemma expansion_error_ends_the_run_witness :
  exists outs r,
    generate_pool_variants Util.evaluate_keyed_by [Examples.half_named_pool]
      Examples.environment = (outs, Some (KeyError "letter")) /\
    update_resources Util.evaluate_keyed_by Util.merge Examples.recorder
      (Ok [Examples.half_named_pool]) (Ok Examples.worker_images)
      (Ok Examples.worker_pools_yml) (Ok Examples.environment) []
    = ([Examples.Managed "WorkerPool=.*"; Examples.Added r],
       Raise (KeyError "letter")) /\
    Examples.workerPoolId r = "pool-a".
Proof.
  do 2 eexists.
  assert (H : forall outs made,
            Forall2
              (fun q wp' =>
                 expand_variant Util.evaluate_keyed_by Examples.environment
                   (fst q) (snd q) = Ok wp')
              [(Examples.half_named_pool, VDict [("letter", VStr "a")])]
              outs ->
            Forall2
              (fun wp' r =>
                 make_worker_pool Util.evaluate_keyed_by Util.merge
                   Examples.recorder Examples.environment [] wp'
                   Examples.worker_images Examples.worker_defaults = Ok r)
              outs made ->
            generate_pool_variants Util.evaluate_keyed_by
              [Examples.half_named_pool] Examples.environment
            = (outs, Some (KeyError "letter")) /\
            update_resources Util.evaluate_keyed_by Util.merge
              Examples.recorder
              (Ok [Examples.half_named_pool]) (Ok Examples.worker_images)
              (Ok Examples.worker_pools_yml) (Ok Examples.environment) []
            = and_then
                (run_calls
                   (Manage "WorkerPool=.*" :: adds Examples.recorder made) [])
                (Raise (KeyError "letter"))).
  { intros outs made Hbefore Hmade.
    exact (expansion_error_ends_the_run
             Util.evaluate_keyed_by Util.merge Examples.recorder
             [Examples.half_named_pool]
             Examples.worker_images Examples.worker_pools_yml
             Examples.environment Examples.worker_defaults
             [(Examples.half_named_pool, VDict [("letter", VStr "a")])] []
             (Examples.half_named_pool, VDict []) outs made
             (KeyError "letter") [] eq_refl eq_refl Hbefore eq_refl Hmade). }
  edestruct H as [Hgen Hrun];
    [constructor; [reflexivity|constructor]
    |constructor; [reflexivity|constructor]|].
  split; [exact Hgen|]. split; [exact Hrun|reflexivity].
Defined.

Lemma generate_pool_variants_length
    (evaluate_keyed_by : value -> string -> dict -> result value)
    (worker_pools : list ConfigWorkerPool) (environment : value) outs stop :
  generate_pool_variants evaluate_keyed_by worker_pools environment
  = (outs, stop) ->
  List.length outs <= List.length (pairs worker_pools) /\
  (stop = None -> List.length outs = List.length (pairs worker_pools)).
Proof.
  rewrite generate_pool_variants_pairs. intros Hgen.
  destruct (yield_each_prefix
              (fun p => expand_variant evaluate_keyed_by environment
                          (fst p) (snd p))
              (pairs worker_pools)) as [Hprefix Hstop].
  rewrite Hgen in Hprefix, Hstop. cbn [fst snd] in Hprefix, Hstop. split.
  - apply Forall2_length in Hprefix. rewrite length_firstn in Hprefix. lia.
  - intros ->. exact Hstop.
Qed.

(** X30. Whatever the four fetches give and whatever the resource library,
    all [update_resources] does to the collection is a sequence of calls,
    ended by the first that raises: none at all when the fetch of the pool
    definitions or of the images raised; otherwise [manage] for
    [WorkerPool=.*] first, followed by [add] for resources the constructor
    returned, at most one per (definition, variant) pair.  When it returns,
    every call returned and a resource was constructed for every pair. *)
Theorem update_resources_only_manages_and_adds
    (evaluate_keyed_by : value -> string -> dict -> result value)
    (merge : list value -> result value)
    (tcadmin : Tcadmin.Library)
    (fetched_pools : result (list ConfigWorkerPool))
    (fetched_images : result WorkerImages)
    (fetched_file fetched_environment : result value)
    (rs : Tcadmin.Resources tcadmin) :
  let run :=
    update_resources evaluate_keyed_by merge tcadmin fetched_pools
      fetched_images fetched_file fetched_environment rs in
  exists calls,
    fst run = fst (run_calls calls rs) /\
    (snd run = Ok tt -> snd (run_calls calls rs) = Ok tt) /\
    match fetched_pools, fetched_images with
    | Ok worker_pools, Ok _ =>
        exists made,
          calls = Manage "WorkerPool=.*" :: adds tcadmin made /\
          List.length made <= List.length (pairs worker_pools) /\
          (snd run = Ok tt ->
           List.length made = List.length (pairs worker_pools))
    | _, _ => calls = [] /\ exists e, snd run = Raise e
    end.
Proof.
  cbv zeta.
  destruct fetched_pools as [worker_pools|e0].
  2:{ exists []. cbn. split; [reflexivity|]. split; [discriminate|].
      split; [reflexivity|now exists e0]. }
  destruct fetched_images as [worker_images|e0].
  2:{ exists []. cbn. split; [reflexivity|]. split; [discriminate|].
      split; [reflexivity|now exists e0]. }
  assert (Hearly : forall rs1 e1,
            Tcadmin.manage tcadmin rs "WorkerPool=.*" = (rs1, Ok tt) ->
            let run := (rs1, @Raise unit e1) in
            exists calls,
              fst run = fst (run_calls calls rs) /\
              (snd run = Ok tt -> snd (run_calls calls rs) = Ok tt) /\
              exists made,
                calls = Manage "WorkerPool=.*" :: adds tcadmin made /\
                List.length made <= List.length (pairs worker_pools) /\
                (snd run = Ok tt ->
                 List.length made = List.length (pairs worker_pools))).
  { intros rs1 e1 Hmanage. cbv zeta.
    exists [Manage "WorkerPool=.*"]. cbn [run_calls]. rewrite Hmanage.
    split; [reflexivity|]. split; [discriminate|].
    exists []. split; [reflexivity|]. split; [cbn; lia|discriminate]. }
  destruct fetched_file as [ciconfig_file|e0];
    [destruct fetched_environment as [environment|e0]|].
  - rewrite update_resources_steps.
    destruct (Tcadmin.manage tcadmin rs "WorkerPool=.*") as [rs1 [[]|e1]]
      eqn:Hmanage.
    2:{ exists [Manage "WorkerPool=.*"]. cbn [run_calls]. rewrite Hmanage.
        split; [reflexivity|]. split; [discriminate|].
        exists []. split; [reflexivity|]. split; [cbn; lia|discriminate]. }
    destruct (py_get ciconfig_file "worker-defaults" VNone)
      as [worker_defaults|e1]; [|now apply Hearly].
    cbv zeta.
    destruct (generate_pool_variants evaluate_keyed_by worker_pools
                environment) as [outs stop] eqn:Hgen.
    apply generate_pool_variants_length in Hgen as [Hle Hall].
    cbn [fst snd].
    destruct (@add_worker_pools_trace evaluate_keyed_by merge tcadmin
                environment worker_images worker_defaults rs outs rs1)
      as (made & Hmade & Hfst & Hsnd).
    exists (Manage "WorkerPool=.*" :: adds tcadmin made).
    cbn [run_calls]. rewrite Hmanage.
    apply Forall2_length in Hmade. rewrite length_firstn in Hmade.
    destruct (add_worker_pools evaluate_keyed_by merge tcadmin environment
                worker_images worker_defaults outs rs1) as [rs2 [[]|e1]].
    + destruct (Hsnd eq_refl) as [Hrun Hlen]. cbn [and_then fst snd] in *.
      split; [exact Hfst|]. split; [intros _; exact Hrun|].
      exists made. split; [reflexivity|]. split; [lia|].
      destruct stop; [discriminate|]. intros _.
      rewrite Hlen. now apply Hall.
    + cbn [and_then fst snd] in *.
      split; [exact Hfst|]. split; [discriminate|].
      exists made. split; [reflexivity|]. split; [lia|discriminate].
  - unfold update_resources, Tcadmin.abind, Tcadmin.lift. cbn [bind].
    destruct (Tcadmin.manage tcadmin rs "WorkerPool=.*") as [rs1 [[]|e1]]
      eqn:Hmanage.
    2:{ exists [Manage "WorkerPool=.*"]. cbn [run_calls]. rewrite Hmanage.
        split; [reflexivity|]. split; [discriminate|].
        exists []. split; [reflexivity|]. split; [cbn; lia|discriminate]. }
    destruct (py_get ciconfig_file "worker-defaults" VNone)
      as [worker_defaults|e1]; now apply Hearly.
  - unfold update_resources, Tcadmin.abind, Tcadmin.lift. cbn [bind].
    destruct (Tcadmin.manage tcadmin rs "WorkerPool=.*") as [rs1 [[]|e1]]
      eqn:Hmanage.
    2:{ exists [Manage "WorkerPool=.*"]. cbn [run_calls]. rewrite Hmanage.
        split; [reflexivity|]. split; [discriminate|].
        exists []. split; [reflexivity|]. split; [cbn; lia|discriminate]. }
    now apply Hearly.
Qed.
